(** * Task-list engine of the Telegram todo bot

    Shallow embedding of the two production variants of the bot,
    [bot_github_production_v3.py] (classes [TodoItem], [TodoManager],
    [CleanTodoBot]; module [ProdV3] below) and [bot_github_production.py]
    (class [TodoBot]; module [Prod] below), and the properties of their
    task stores and command interpreters.

    Python values are modelled as follows.
    - [int] is [Z]; [bool] is [bool]; [None] results are [option].
    - [str] is a list of Unicode code points ([list N]); literals are written
      as UTF-8 text and decoded once by [utf8].
    - Task objects ([TodoItem] instances, task dicts) live in an object store
      and are referred to by location, so that two lists holding the same
      object see each other's updates, as after [list.copy()] in Python.
    - Per-user dictionaries are finite maps keyed by the chat id.
    - Exceptions are the [Raise] results of the [res] type.
    Writing the JSON file ([_save_data], [save_data]) does not change the
    in-memory state and its failures are caught and logged by the source, so
    it is left out; so are message deletion, the sleep calls and logging. *)

From Stdlib Require Import ZArith NArith Ascii String List Lia Bool.
From stdpp Require Import base tactics option list gmap.

Open Scope Z_scope.

(* stdpp's solvers clear hypotheses that may be gone already. *)
Set Warnings "-clear-no-such-hyp".

(* ================================================================== *)
(** * Python strings and the builtins the bot uses                     *)
(* ================================================================== *)

Module Py.

(** A code point, and a [str] as the sequence of its code points. *)
Definition codepoint := N.
Definition str := list N.

(** UTF-8 decoding of a literal written in this file: [need] continuation
    bytes are still expected for the code point accumulated in [acc]. *)
Fixpoint utf8_go (bs : list N) (need : nat) (acc : N) : str :=
  match bs with
  | [] => []
  | b :: rest =>
      match need with
      | O =>
          if (b <? 128)%N then b :: utf8_go rest 0 0%N
          else if (b <? 224)%N then utf8_go rest 1 (b - 192)%N
          else if (b <? 240)%N then utf8_go rest 2 (b - 224)%N
          else utf8_go rest 3 (b - 240)%N
      | S k =>
          let acc' := (acc * 64 + (b - 128))%N in
          match k with
          | O => acc' :: utf8_go rest 0 0%N
          | S _ => utf8_go rest k acc'
          end
      end
  end.

Definition utf8 (s : string) : str :=
  utf8_go (map N_of_ascii (list_ascii_of_string s)) 0 0%N.

(** Membership of a code point in a table of inclusive ranges. *)
Definition in_ranges (tbl : list (N * N)) (c : N) : bool :=
  existsb (fun r => (fst r <=? c)%N && (c <=? snd r)%N) tbl.

(** Code points with general category Nd (Unicode 14): every range is a
    whole number of runs [0..9], which is how [int] reads their value. *)
Definition decimal_ranges : list (N * N) :=
  [(48, 57); (1632, 1641); (1776, 1785); (1984, 1993); (2406, 2415);
   (2534, 2543); (2662, 2671); (2790, 2799); (2918, 2927); (3046, 3055);
   (3174, 3183); (3302, 3311); (3430, 3439); (3558, 3567); (3664, 3673);
   (3792, 3801); (3872, 3881); (4160, 4169); (4240, 4249); (6112, 6121);
   (6160, 6169); (6470, 6479); (6608, 6617); (6784, 6793); (6800, 6809);
   (6992, 7001); (7088, 7097); (7232, 7241); (7248, 7257); (42528, 42537);
   (43216, 43225); (43264, 43273); (43472, 43481); (43504, 43513);
   (43600, 43609); (44016, 44025); (65296, 65305); (66720, 66729);
   (68912, 68921); (69734, 69743); (69872, 69881); (69942, 69951);
   (70096, 70105); (70384, 70393); (70736, 70745); (70864, 70873);
   (71248, 71257); (71360, 71369); (71472, 71481); (71904, 71913);
   (72016, 72025); (72784, 72793); (73040, 73049); (73120, 73129);
   (92768, 92777); (92864, 92873); (93008, 93017); (120782, 120831);
   (123200, 123209); (123632, 123641); (125264, 125273);
   (130032, 130041)]%N.

(** Code points with Numeric_Type=Digit that are not decimal (superscripts,
    circled digits, ...): [str.isdigit] accepts them, [int] does not. *)
Definition other_digit_ranges : list (N * N) :=
  [(178, 179); (185, 185); (4969, 4977); (6618, 6618); (8304, 8304);
   (8308, 8313); (8320, 8329); (9312, 9320); (9332, 9340); (9352, 9360);
   (9450, 9450); (9461, 9469); (9471, 9471); (10102, 10110);
   (10112, 10120); (10122, 10130); (68160, 68163); (69216, 69224);
   (69714, 69722); (127232, 127242)]%N.

(** Code points for which [str.isspace] holds; [str.strip()] removes them. *)
Definition space_ranges : list (N * N) :=
  [(9, 13); (28, 32); (133, 133); (160, 160); (5760, 5760); (8192, 8202);
   (8232, 8233); (8239, 8239); (8287, 8287); (12288, 12288)]%N.

(** Whether no range of one table meets a range of the other. *)
Definition ranges_disjoint (t1 t2 : list (N * N)) : bool :=
  forallb (fun r1 =>
    forallb (fun r2 => (snd r1 <? fst r2)%N || (snd r2 <? fst r1)%N) t2) t1.

Definition cp_isdecimal (c : N) : bool := in_ranges decimal_ranges c.
Definition cp_isdigit (c : N) : bool :=
  cp_isdecimal c || in_ranges other_digit_ranges c.
Definition cp_isspace (c : N) : bool := in_ranges space_ranges c.

(** [s.isdigit()]: at least one character and all of them digits. *)
Definition isdigit (s : str) : bool :=
  match s with
  | [] => false
  | _ => forallb cp_isdigit s
  end.

(** Value of a decimal digit: its offset in its run of ten. *)
Definition decimal_value (c : N) : option Z :=
  match List.find (fun r => (fst r <=? c)%N && (c <=? snd r)%N) decimal_ranges with
  | Some r => Some (Z.of_N ((c - fst r) mod 10))
  | None => None
  end.

(** Exceptions the modelled code can raise. *)
Inductive exn := ValueError | KeyError.

Inductive res (A : Type) : Type :=
  | Ret (a : A)
  | Raise (e : exn).
Arguments Ret {A} a.
Arguments Raise {A} e.

Global Instance res_bind : MBind res := fun A B f x =>
  match x with
  | Ret a => f a
  | Raise e => Raise e
  end.

(** The most digits the interpreter converts between [str] and [int]:
    [sys.get_int_max_str_digits()], which the bots leave at its default. *)
Definition MAX_STR_DIGITS : Z := 4300.

(** [int(s)] for a string of digits: [ValueError] on a digit that is not
    decimal, and on more digits than [MAX_STR_DIGITS]. *)
Fixpoint int_go (acc : Z) (s : str) : res Z :=
  match s with
  | [] => Ret acc
  | c :: rest =>
      match decimal_value c with
      | Some d => int_go (10 * acc + d) rest
      | None => Raise ValueError
      end
  end.

Definition int (s : str) : res Z :=
  match s with
  | [] => Raise ValueError
  | _ =>
      if MAX_STR_DIGITS <? Z.of_nat (length s) then Raise ValueError
      else int_go 0 s
  end.

(** [str(n)] for an integer.  The interpreter raises [ValueError] for a
    number of more digits than [MAX_STR_DIGITS]; the numbers the bots
    print are display numbers and counts of the tasks of a list, which no
    list is long enough to bring there, so that [str] is modelled without
    this error. *)
Fixpoint digits_go (fuel : nat) (n : N) (acc : str) : str :=
  match fuel with
  | O => acc
  | S fuel' =>
      let acc' := (48 + n mod 10)%N :: acc in
      if (n / 10 =? 0)%N then acc' else digits_go fuel' (n / 10)%N acc'
  end.

Definition str_of_int (n : Z) : str :=
  let digits := digits_go (S (N.size_nat (Z.abs_N n))) (Z.abs_N n) [] in
  if n <? 0 then 45%N :: digits else digits.

(** [s.startswith(p)]. *)
Fixpoint startswith (p s : str) : bool :=
  match p, s with
  | [], _ => true
  | _ :: _, [] => false
  | a :: p', b :: s' => (a =? b)%N && startswith p' s'
  end.

(** [s.endswith(p)]. *)
Definition endswith (p s : str) : bool := startswith (rev p) (rev s).

(** [s.strip()]. *)
Fixpoint lstrip (s : str) : str :=
  match s with
  | [] => []
  | c :: rest => if cp_isspace c then lstrip rest else s
  end.

Definition strip (s : str) : str := rev (lstrip (rev (lstrip s))).

(** [s.split(sep)] for a separator of one character: the pieces between
    the occurrences of [sep], of which there is always at least one. *)
Fixpoint split (sep : N) (s : str) : list str :=
  match s with
  | [] => [[]]
  | c :: rest =>
      if (c =? sep)%N then [] :: split sep rest
      else match split sep rest with
           | [] => [[c]]
           | p :: ps => (c :: p) :: ps
           end
  end.

(** [sep in s] for a single character. *)
Definition contains (sep : N) (s : str) : bool := existsb (N.eqb sep) s.

(** ['\n'.join(parts)]. *)
Fixpoint join (sep : str) (parts : list str) : str :=
  match parts with
  | [] => []
  | [p] => p
  | p :: ps => p ++ sep ++ join sep ps
  end.

(** [s[:-1]] and [s[-1]]. *)
Definition but_last (s : str) : str := removelast s.
Definition last_char (s : str) : option N := List.last (map Some s) None.

Definition str_eqb (a b : str) : bool := bool_decide (a = b).

End Py.

Import Py.

(** [list.remove(x)]: drops the first element equal to [x] under the
    elements' [==], [ValueError] when there is none. *)
Fixpoint list_remove {A} (eqb : A -> A -> bool) (x : A) (l : list A) : res (list A) :=
  match l with
  | [] => Raise ValueError
  | y :: rest =>
      if eqb y x then Ret rest
      else rest' ← list_remove eqb x rest; Ret (y :: rest')
  end.

(** Locations of task objects in the object store. *)
Abbreviation loc := nat (only parsing).

(** The reply keyboards of both bots. *)
Inductive keyboard := main_keyboard | commands_keyboard.

(** One outbound message: its text and the keyboard sent with it. *)
Definition reply : Type := str * keyboard.

(** U+0336, the combining stroke put after every character of a completed
    task's text. *)
Definition STROKE : N := 822%N.

Definition crossed_text (text : str) : str :=
  flat_map (fun char => [char; STROKE]) text.

Definition NL : N := 10%N.
Definition PLUS : N := 43%N.

(* ================================================================== *)
(** * bot_github_production_v3.py                                      *)
(* ================================================================== *)

Module ProdV3.

(** Section keys, as the strings stored in [TodoItem.section]. *)
Definition PURCHASE : str := Eval vm_compute in utf8 "закупівля".
Definition GARAGE : str := Eval vm_compute in utf8 "гараж".
Definition VOLYNKA : str := Eval vm_compute in utf8 "волинка".
Definition DONE : str := Eval vm_compute in utf8 "виконано".

(** class TodoItem; [__init__] sets [crossed_out = False]. *)
Record TodoItem := mkTodoItem {
  text : str;
  item_id : Z;
  crossed_out : bool;
  section : str
}.

Definition new_TodoItem (text : str) (item_id : Z) (section : str) : TodoItem :=
  mkTodoItem text item_id false section.

(** class TodoManager: the three dictionaries keyed by user id, and the
    store [objects] holding the [TodoItem] instances they refer to. *)
Record TodoManager := mkTodoManager {
  objects : list TodoItem;
  user_todos : gmap Z (list loc);
  next_ids : gmap Z Z;
  backups : gmap Z (list loc)
}.

(** The manager before any data is there. *)
Definition empty_manager : TodoManager := mkTodoManager [] ∅ ∅ ∅.

Definition set_objects (m : TodoManager) (o : list TodoItem) : TodoManager :=
  mkTodoManager o (user_todos m) (next_ids m) (backups m).
Definition set_user_todos (m : TodoManager) (user_id : Z) (todos : list loc) : TodoManager :=
  mkTodoManager (objects m) (<[user_id := todos]> (user_todos m)) (next_ids m) (backups m).
Definition set_next_id (m : TodoManager) (user_id : Z) (n : Z) : TodoManager :=
  mkTodoManager (objects m) (user_todos m) (<[user_id := n]> (next_ids m)) (backups m).
Definition set_backup (m : TodoManager) (user_id : Z) (b : list loc) : TodoManager :=
  mkTodoManager (objects m) (user_todos m) (next_ids m) (<[user_id := b]> (backups m)).

(** A condition on the object at a location (false where there is none). *)
Definition holds (m : TodoManager) (p : TodoItem -> bool) (t : loc) : bool :=
  match objects m !! t with
  | Some o => p o
  | None => false
  end.

(** [t.section == section and not t.crossed_out] *)
Definition active_in (section_key : str) (t : TodoItem) : bool :=
  str_eqb (section t) section_key && negb (crossed_out t).

(** [t.crossed_out or t.section == "виконано"] *)
Definition completed (t : TodoItem) : bool :=
  crossed_out t || str_eqb (section t) DONE.

(** [not t.crossed_out and t.section != "виконано"] *)
Definition pending (t : TodoItem) : bool :=
  negb (crossed_out t) && negb (str_eqb (section t) DONE).

Definition select (m : TodoManager) (p : TodoItem -> bool) (todos : list loc) : list loc :=
  filter (λ t, holds m p t) todos.

(** The section and the text a new task gets from the prefix of the text. *)
Definition section_and_text (text : str) : str * str :=
  if startswith (utf8 "!!") text then (VOLYNKA, strip (drop 2 text))
  else if startswith (utf8 "!") text then (GARAGE, strip (drop 1 text))
  else (PURCHASE, text).

(** add_todo *)
Definition add_todo (m : TodoManager) (user_id : Z) (text : str)
    : res (TodoManager * loc) :=
  let m :=
    match user_todos m !! user_id with
    | None => set_next_id (set_user_todos m user_id []) user_id 1
    | Some _ => m
    end in
  let '(section, text) := section_and_text text in
  match next_ids m !! user_id, user_todos m !! user_id with
  | Some next_id, Some todos =>
      let todo := length (objects m) in
      let m := set_objects m (objects m ++ [new_TodoItem text next_id section]) in
      let m := set_user_todos m user_id (todos ++ [todo]) in
      let m := set_next_id m user_id (next_id + 1) in
      Ret (m, todo)
  | _, _ => Raise KeyError
  end.

(** The display order: the three active sections, then the completed. *)
Definition ordered (m : TodoManager) (todos : list loc) : list loc :=
  select m (active_in PURCHASE) todos ++ select m (active_in GARAGE) todos
  ++ select m (active_in VOLYNKA) todos ++ select m completed todos.

(** get_todo_by_display_number *)
Definition get_todo_by_display_number (m : TodoManager) (user_id display_num : Z)
    : option loc :=
  match user_todos m !! user_id with
  | None => None
  | Some todos =>
      let ordered := ordered m todos in
      if (1 <=? display_num) && (display_num <=? Z.of_nat (length ordered))
      then ordered !! Z.to_nat (display_num - 1)
      else None
  end.

(** Lines of the formatted list before they are joined: a section header,
    or a numbered task. *)
Inductive line :=
  | Header (title : str)
  | Entry (display_num : Z) (todo : loc) (struck : bool).

(** The inner loop: one line per task, [display_num += 1] after each. *)
Fixpoint number_from (display_num : Z) (struck : bool) (todos : list loc) : list line :=
  match todos with
  | [] => []
  | todo :: rest =>
      Entry display_num todo struck :: number_from (display_num + 1) struck rest
  end.

(** One section of the list: nothing when it has no task. *)
Definition format_section (title : str) (struck : bool) (section_todos : list loc)
    (display_num : Z) : list line * Z :=
  match section_todos with
  | [] => ([], display_num)
  | _ => (Header title :: number_from display_num struck section_todos,
          display_num + Z.of_nat (length section_todos))
  end.

Definition TITLE_PURCHASE : str := Eval vm_compute in utf8 "🛒 Закупівля".
Definition TITLE_GARAGE : str := Eval vm_compute in utf8 "🔧 Гараж".
Definition TITLE_VOLYNKA : str := Eval vm_compute in utf8 "🎯 Волинка".
Definition TITLE_DONE : str := Eval vm_compute in utf8 "✅ Виконано".
Definition EMPTY_LIST : str := Eval vm_compute in utf8 "📝 Список завдань порожній".

Definition format_lines (m : TodoManager) (todos : list loc) : list line :=
  let display_num := 1 in
  let '(r1, display_num) :=
    format_section TITLE_PURCHASE false (select m (active_in PURCHASE) todos) display_num in
  let '(r2, display_num) :=
    format_section TITLE_GARAGE false (select m (active_in GARAGE) todos) display_num in
  let '(r3, display_num) :=
    format_section TITLE_VOLYNKA false (select m (active_in VOLYNKA) todos) display_num in
  let '(r4, _) :=
    format_section TITLE_DONE true (select m completed todos) display_num in
  r1 ++ r2 ++ r3 ++ r4.

(** The numbered tasks among the lines, as (display number, task). *)
Definition entries (lines : list line) : list (Z * loc) :=
  omap (λ l, match l with
             | Entry display_num todo _ => Some (display_num, todo)
             | Header _ => None
             end) lines.

Definition text_at (m : TodoManager) (t : loc) : str :=
  match objects m !! t with
  | Some o => text o
  | None => []
  end.

Definition line_text (m : TodoManager) (l : line) : str :=
  match l with
  | Header title => NL :: title
  | Entry display_num todo struck =>
      str_of_int display_num ++ utf8 ". "
      ++ (if struck then crossed_text (text_at m todo) else text_at m todo)
  end.

(** get_formatted_list *)
Definition get_formatted_list (m : TodoManager) (user_id : Z) : str :=
  match user_todos m !! user_id with
  | None | Some [] => EMPTY_LIST
  | Some todos => join [NL] (map (line_text m) (format_lines m todos))
  end.

(** remove_todo *)
Definition remove_todo (m : TodoManager) (user_id display_num : Z)
    : res (TodoManager * bool) :=
  match get_todo_by_display_number m user_id display_num, user_todos m !! user_id with
  | Some todo, Some todos =>
      todos' ← list_remove Nat.eqb todo todos;
      Ret (set_user_todos m user_id todos', true)
  | _, _ => Ret (m, false)
  end.

(** [todo.crossed_out = not todo.crossed_out], then the section that goes
    with the new flag. *)
Definition toggled (o : TodoItem) : TodoItem :=
  let crossed_out := negb (crossed_out o) in
  mkTodoItem (text o) (item_id o) crossed_out (if crossed_out then DONE else PURCHASE).

(** toggle_todo *)
Definition toggle_todo (m : TodoManager) (user_id display_num : Z)
    : TodoManager * bool :=
  match get_todo_by_display_number m user_id display_num with
  | Some todo => (set_objects m (alter toggled todo (objects m)), true)
  | None => (m, false)
  end.

(** [todo.section = target_section], then the flag that goes with it. *)
Definition moved_to (target_section : str) (o : TodoItem) : TodoItem :=
  mkTodoItem (text o) (item_id o)
    (if str_eqb target_section DONE then true else false) target_section.

(** move_todo_to_section *)
Definition move_todo_to_section (m : TodoManager) (user_id display_num : Z)
    (target_section : str) : TodoManager * bool :=
  match get_todo_by_display_number m user_id display_num with
  | Some todo => (set_objects m (alter (moved_to target_section) todo (objects m)), true)
  | None => (m, false)
  end.

(** [first_todo.text = f"{first_todo.text} {second_todo.text}"] *)
Definition merged_with (second_text : str) (o : TodoItem) : TodoItem :=
  mkTodoItem (text o ++ utf8 " " ++ second_text) (item_id o) (crossed_out o) (section o).

(** merge_todos: both lookups are made before anything is changed;
    [first_todo != second_todo] compares object identity, [TodoItem] having
    no [__eq__]. *)
Definition merge_todos (m : TodoManager) (user_id first_num second_num : Z)
    : res (TodoManager * bool) :=
  match get_todo_by_display_number m user_id first_num,
        get_todo_by_display_number m user_id second_num with
  | Some first_todo, Some second_todo =>
      if negb (Nat.eqb first_todo second_todo) then
        let second_text := text_at m second_todo in
        let m := set_objects m (alter (merged_with second_text) first_todo (objects m)) in
        match user_todos m !! user_id with
        | Some todos =>
            todos' ← list_remove Nat.eqb second_todo todos;
            Ret (set_user_todos m user_id todos', true)
        | None => Raise KeyError
        end
      else Ret (m, false)
  | _, _ => Ret (m, false)
  end.

(** clear_todos *)
Definition clear_todos (m : TodoManager) (user_id : Z) : TodoManager * Z :=
  match user_todos m !! user_id with
  | Some todos =>
      let count := Z.of_nat (length todos) in
      let m := if 0 <? count then set_backup m user_id todos else m in
      (set_user_todos m user_id [], count)
  | None => (m, 0)
  end.

(** restore_backup *)
Definition restore_backup (m : TodoManager) (user_id : Z) : TodoManager * Z :=
  match backups m !! user_id with
  | Some ((_ :: _) as backup) =>
      let m := set_user_todos m user_id backup in
      let count := Z.of_nat (length backup) in
      (set_backup m user_id [], count)
  | _ => (m, 0)
  end.

(** continue_list *)
Definition continue_list (m : TodoManager) (user_id : Z) : TodoManager * Z :=
  match user_todos m !! user_id with
  | None => (m, 0)
  | Some todos =>
      match select m completed todos with
      | [] => (m, 0)
      | (_ :: _) as completed =>
          let m := set_backup m user_id completed in
          let m := set_user_todos m user_id (select m pending todos) in
          (m, Z.of_nat (length completed))
      end
  end.

(** class CleanTodoBot.  A handler returns the manager it leaves behind and
    the message it sent, if it sent one ([_send_isolated_message] is called
    at most once on every path). *)

(** The non-empty stripped lines of a text. *)
Definition nonblank_lines (text : str) : list str :=
  filter (λ line, line ≠ []) (map strip (split NL text)).

(** [for line in lines: if line: self.manager.add_todo(chat_id, line)] *)
Fixpoint add_lines (m : TodoManager) (chat_id : Z) (lines : list str) : res TodoManager :=
  match lines with
  | [] => Ret m
  | line :: rest =>
      match line with
      | [] => add_lines m chat_id rest
      | _ => '(m', _) ← add_todo m chat_id line; add_lines m' chat_id rest
      end
  end.

(** The reply most branches end with: the formatted list and the main
    keyboard. *)
Definition list_reply (m : TodoManager) (chat_id : Z) : option reply :=
  Some (get_formatted_list m chat_id, main_keyboard).

(** The last part of _handle_number_commands: the text as new tasks. *)
Definition add_from_text (m : TodoManager) (chat_id : Z) (text : str)
    : res (TodoManager * option reply) :=
  let lines := nonblank_lines text in
  m' ← (if 1 <? Z.of_nat (length lines) then add_lines m chat_id lines
        else '(m', _) ← add_todo m chat_id text; Ret m');
  Ret (m', list_reply m' chat_id).

(** _handle_number_commands *)
Definition _handle_number_commands (m : TodoManager) (chat_id : Z) (text : str)
    : res (TodoManager * option reply) :=
  if startswith (utf8 "-") text && isdigit (drop 1 text) then
    num ← int (drop 1 text);
    '(m', removed) ← remove_todo m chat_id num;
    Ret (m', if removed : bool then list_reply m' chat_id else None)
  else if isdigit text then
    num ← int text;
    let '(m', toggled) := toggle_todo m chat_id num in
    Ret (m', if toggled : bool then list_reply m' chat_id else None)
  else if (1 <? Z.of_nat (length text)) && isdigit (but_last text) then
    num ← int (but_last text);
    let suffix := last_char text in
    let target_section :=
      if bool_decide (suffix = Some 1075%N) then Some GARAGE
      else if bool_decide (suffix = Some 1074%N) then Some VOLYNKA
      else if bool_decide (suffix = Some 1079%N) then Some PURCHASE
      else None in
    match target_section with
    | Some target =>
        let '(m', moved) := move_todo_to_section m chat_id num target in
        Ret (m', if moved : bool then list_reply m' chat_id else None)
    | None => Ret (m, None)
    end
  else
    let merge :=
      if contains PLUS text then
        match split PLUS text with
        | [part0; part1] =>
            if isdigit part0 && isdigit part1 then Some (part0, part1) else None
        | _ => None
        end
      else None in
    match merge with
    | Some (part0, part1) =>
        first_num ← int part0;
        second_num ← int part1;
        '(m', merged) ← merge_todos m chat_id first_num second_num;
        Ret (m', if merged : bool then list_reply m' chat_id else None)
    | None => add_from_text m chat_id text
    end.

Definition MENU : str := Eval vm_compute in utf8 "📋 Меню".
Definition BACK : str := Eval vm_compute in utf8 "🔙 Назад".
Definition LIST_LABELS : list str :=
  Eval vm_compute in [utf8 "📝 Список"; utf8 "Список"].
Definition NEW_LABELS : list str :=
  Eval vm_compute in [utf8 "🆕 Новий"; utf8 "новий список"].
Definition RESTORE_LABELS : list str :=
  Eval vm_compute in [utf8 "↩️ Відновити"; utf8 "відновити"].
Definition CONTINUE_LABELS : list str :=
  Eval vm_compute in [utf8 "🔄 Продовжити"; utf8 "продовжити"].

(** [text in labels] *)
Definition is_in (text : str) (labels : list str) : bool :=
  existsb (str_eqb text) labels.

(** handle_message, from the text of the update on. *)
Definition handle_message (m : TodoManager) (chat_id : Z) (message_text : str)
    : res (TodoManager * option reply) :=
  match message_text with
  | [] => Ret (m, None)
  | _ =>
    let text := strip message_text in
    if str_eqb text MENU then
      Ret (m, Some (utf8 "Виберіть дію:", commands_keyboard))
    else if str_eqb text BACK then
      Ret (m, Some (utf8 "Головне меню:", main_keyboard))
    else if is_in text LIST_LABELS then
      Ret (m, list_reply m chat_id)
    else if is_in text NEW_LABELS then
      let '(m', count) := clear_todos m chat_id in
      let response :=
        if 0 <? count
        then utf8 "Список очищено (" ++ str_of_int count
             ++ utf8 " завдань збережено в резерв)"
        else utf8 "Створено новий список" in
      Ret (m', Some (response, main_keyboard))
    else if is_in text RESTORE_LABELS then
      let '(m', count) := restore_backup m chat_id in
      let response :=
        if 0 <? count
        then utf8 "Відновлено " ++ str_of_int count ++ utf8 " завдань"
        else utf8 "Немає даних для відновлення" in
      Ret (m', Some (response, main_keyboard))
    else if is_in text CONTINUE_LABELS then
      let '(m', count) := continue_list m chat_id in
      let response :=
        if 0 <? count
        then utf8 "Видалено " ++ str_of_int count ++ utf8 " виконаних завдань"
             ++ [NL; NL] ++ get_formatted_list m' chat_id
        else utf8 "Немає виконаних завдань для видалення" in
      Ret (m', Some (response, main_keyboard))
    else _handle_number_commands m chat_id text
  end.

(** ** States the manager can be in *)

(** The public operations of [TodoManager]. *)
Inductive op :=
  | DoAdd (user_id : Z) (text : str)
  | DoRemove (user_id display_num : Z)
  | DoToggle (user_id display_num : Z)
  | DoMove (user_id display_num : Z) (target_section : str)
  | DoMerge (user_id first_num second_num : Z)
  | DoClear (user_id : Z)
  | DoRestore (user_id : Z)
  | DoContinue (user_id : Z).

Definition SECTION_KEYS : list str := [PURCHASE; GARAGE; VOLYNKA; DONE].

(** A move names one of the four sections. *)
Definition admissible (o : op) : Prop :=
  match o with
  | DoMove _ _ target_section => target_section ∈ SECTION_KEYS
  | _ => True
  end.

Definition apply (m : TodoManager) (o : op) : res TodoManager :=
  match o with
  | DoAdd user_id text => '(m', _) ← add_todo m user_id text; Ret m'
  | DoRemove user_id n => '(m', _) ← remove_todo m user_id n; Ret m'
  | DoToggle user_id n => Ret (toggle_todo m user_id n).1
  | DoMove user_id n target => Ret (move_todo_to_section m user_id n target).1
  | DoMerge user_id n1 n2 => '(m', _) ← merge_todos m user_id n1 n2; Ret m'
  | DoClear user_id => Ret (clear_todos m user_id).1
  | DoRestore user_id => Ret (restore_backup m user_id).1
  | DoContinue user_id => Ret (continue_list m user_id).1
  end.

(** The ids an operation hands out: the id of the task [add_todo] returns,
    with the user it was made for. *)
Definition assigned (m : TodoManager) (o : op) : list (Z * Z) :=
  match o with
  | DoAdd user_id text =>
      match add_todo m user_id text with
      | Ret (m', todo) =>
          match objects m' !! todo with
          | Some t => [(user_id, item_id t)]
          | None => []
          end
      | Raise _ => []
      end
  | _ => []
  end.

(** [history log m]: [m] is reached from the empty manager by public
    operations, and [log] lists the ids assigned on the way, latest first. *)
Inductive history : list (Z * Z) -> TodoManager -> Prop :=
  | history_empty : history [] empty_manager
  | history_step log m o m' :
      history log m -> admissible o -> apply m o = Ret m' ->
      history (assigned m o ++ log) m'.

Definition reachable (m : TodoManager) : Prop := exists log, history log m.

(** A sequence of operations, one after the other, and the ids it assigns. *)
Fixpoint run (m : TodoManager) (ops : list op) : res TodoManager :=
  match ops with
  | [] => Ret m
  | o :: rest => m' ← apply m o; run m' rest
  end.

Fixpoint run_log (m : TodoManager) (ops : list op) : list (Z * Z) :=
  match ops with
  | [] => []
  | o :: rest =>
      match apply m o with
      | Ret m' => run_log m' rest ++ assigned m o
      | Raise _ => []
      end
  end.

(** The manager after a sequence of operations on the empty one. *)
Definition after (ops : list op) : TodoManager :=
  match run empty_manager ops with
  | Ret m => m
  | Raise _ => empty_manager
  end.

(** The tasks of a user's list and of the user's backup slot. *)
Definition live_tasks (m : TodoManager) (user_id : Z) : list loc :=
  default [] (user_todos m !! user_id).
Definition backup_tasks (m : TodoManager) (user_id : Z) : list loc :=
  default [] (backups m !! user_id).

(** [completed == true] exactly when the section is the one of the done. *)
Definition flag_matches_section (t : TodoItem) : Prop :=
  crossed_out t = true <-> section t = DONE.

(** Every task of every user, in the list or in the backup, has it so. *)
Definition consistent (m : TodoManager) : Prop :=
  forall user_id todo t,
    todo ∈ live_tasks m user_id ∨ todo ∈ backup_tasks m user_id ->
    objects m !! todo = Some t -> flag_matches_section t.

(** What the states reached by public operations have in common: the lists
    hold locations of the store, no task twice, every task is in one of the
    four sections, and a user with a list or a backup has a next id. *)
Record well_formed (m : TodoManager) : Prop := {
  wf_live : forall u, Forall (λ t, (t < length (objects m))%nat) (live_tasks m u);
  wf_backup : forall u, Forall (λ t, (t < length (objects m))%nat) (backup_tasks m u);
  wf_nodup : forall u, NoDup (live_tasks m u);
  wf_nodup_backup : forall u, NoDup (backup_tasks m u);
  wf_sections : Forall (λ t, section t ∈ SECTION_KEYS) (objects m);
  wf_next_ids : forall u, is_Some (user_todos m !! u) -> is_Some (next_ids m !! u);
  wf_backup_ids : forall u, is_Some (backups m !! u) -> is_Some (next_ids m !! u)
}.

(** What the log of assigned ids records about the state reached. *)
Record ids_recorded (log : list (Z * Z)) (m : TodoManager) : Prop := {
  rec_nodup : NoDup log;
  rec_below : forall u i, (u, i) ∈ log ->
    is_Some (user_todos m !! u) /\ exists next_id, next_ids m !! u = Some next_id /\ i < next_id;
  rec_tasks : forall u t o, t ∈ live_tasks m u ∨ t ∈ backup_tasks m u ->
    objects m !! t = Some o -> (u, item_id o) ∈ log
}.

(** ** The keyboards *)

(** get_main_keyboard: the rows of button labels. *)
Definition get_main_keyboard : list (list str) :=
  Eval vm_compute in [ [utf8 "📋 Меню"] ].

(** The two buttons of the commands keyboard that [handle_message] has no
    branch for. *)
Definition SETTINGS_BUTTON : str := Eval vm_compute in utf8 "⚙️ Налаштування".
Definition HELP_BUTTON : str := Eval vm_compute in utf8 "❓ Допомога".

(** get_commands_keyboard *)
Definition get_commands_keyboard : list (list str) :=
  Eval vm_compute in
  [ [utf8 "📝 Список"; utf8 "🆕 Новий"];
    [utf8 "↩️ Відновити"; utf8 "🔄 Продовжити"];
    [utf8 "⚙️ Налаштування"; utf8 "❓ Допомога"];
    [utf8 "🔙 Назад"] ].

(** The menu texts [handle_message] has a branch for. *)
Definition is_menu_label (text : str) : bool :=
  str_eqb text MENU || str_eqb text BACK || is_in text LIST_LABELS
  || is_in text NEW_LABELS || is_in text RESTORE_LABELS || is_in text CONTINUE_LABELS.

(** ** The embedded data *)

(** One record of the embedded data: its keys "id", "text", "section" and
    "crossed_out". *)
Record todo_data := mkTodoData {
  d_id : Z;
  d_text : str;
  d_section : str;
  d_crossed_out : bool
}.

(** The two chats of the embedded data. *)
Definition FIRST_CHAT : Z := -1002138020601.
Definition SECOND_CHAT : Z := -1002581954453.

Definition embedded_data : list (Z * list todo_data) :=
  [ (FIRST_CHAT,
      [ mkTodoData 1 (utf8 "Кокосове згущене молоко 0.200 Кокосове згущене молоко 0.320")
          (utf8 "закупівля") false;
        mkTodoData 3 (utf8 "Средство для мытья посуды, остаток: 4шт. Болотова 13шт у базі")
          (utf8 "закупівля") false;
        mkTodoData 8 (utf8 "Жмых конопля")
          (utf8 "закупівля") false;
        mkTodoData 13 (utf8 "Чернобривці")
          (utf8 "закупівля") false;
        mkTodoData 25 (utf8 "Семечка подсолнух")
          (utf8 "волинка") false;
        mkTodoData 33 (utf8 "Салатна суміш")
          (utf8 "закупівля") false;
        mkTodoData 37 (utf8 "чиа,")
          (utf8 "закупівля") false;
        mkTodoData 38 (utf8 "мак,")
          (utf8 "закупівля") false;
        mkTodoData 41 (utf8 "подсолнечное ост7 бутылок на ветрине,")
          (utf8 "закупівля") false;
        mkTodoData 49 (utf8 "Полынь")
          (utf8 "закупівля") false;
        mkTodoData 52 (utf8 "Наклейки :сорный кмин(есть 2).,лиано для капсул.,лиано порошок.,сода1000(есть 8)")
          (utf8 "закупівля") false;
        mkTodoData 54 (utf8 "Дай пак-18/28.,13/20")
          (utf8 "закупівля") false;
        mkTodoData 55 (utf8 "Наклейки. Сода 0.150")
          (utf8 "закупівля") false;
        mkTodoData 56 (utf8 "Зубная паста")
          (utf8 "закупівля") false;
        mkTodoData 58 (utf8 "Касторова олія")
          (utf8 "закупівля") false;
        mkTodoData 62 (utf8 "Нут")
          (utf8 "волинка") false;
        mkTodoData 69 (utf8 "Сода")
          (utf8 "закупівля") false;
        mkTodoData 71 (utf8 "Горіх волоський")
          (utf8 "волинка") false ]);
    (SECOND_CHAT,
      [ mkTodoData 39 (utf8 "металевий блін для Павлика")
          (utf8 "закупівля") false ]) ].

(** The body of the inner loop of _load_embedded_data: a [TodoItem] made of
    the record, its flag set from the record, appended to the list of the
    user, which the outer loop has just made. *)
Definition load_todo (user_id : Z) (m : TodoManager) (d : todo_data) : TodoManager :=
  let todo := length (objects m) in
  let m :=
    set_objects m
      (objects m ++ [mkTodoItem (d_text d) (d_id d) (d_crossed_out d) (d_section d)]) in
  set_user_todos m user_id (default [] (user_todos m !! user_id) ++ [todo]).

(** [max(item['id'] for item in todos_data) + 1], or 1 without records. *)
Definition next_id_after (todos_data : list todo_data) : Z :=
  match todos_data with
  | [] => 1
  | d :: rest => fold_left Z.max (map d_id rest) (d_id d) + 1
  end.

(** The body of the outer loop, for one user of the embedded data. *)
Definition load_user (m : TodoManager) (entry : Z * list todo_data) : TodoManager :=
  let '(user_id, todos_data) := entry in
  let m := set_user_todos m user_id [] in
  let m := fold_left (load_todo user_id) todos_data m in
  set_next_id m user_id (next_id_after todos_data).

(** _load_embedded_data, up to the file it writes at its end. *)
Definition _load_embedded_data (m : TodoManager) : TodoManager :=
  fold_left load_user embedded_data m.

(** The manager as [TodoManager.__init__] has it once the embedded data are
    loaded, before it looks at the file. *)
Definition embedded_manager : TodoManager := _load_embedded_data empty_manager.

(** ** What a running bot keeps *)

(** The user an operation is made for. *)
Definition op_user (o : op) : Z :=
  match o with
  | DoAdd user_id _ | DoRemove user_id _ | DoToggle user_id _ | DoMove user_id _ _
  | DoMerge user_id _ _ | DoClear user_id | DoRestore user_id | DoContinue user_id => user_id
  end.

(** An admissible operation of the user [u]. *)
Definition by_user (u : Z) (o : op) : Prop := admissible o ∧ op_user o = u.

(** The task at [t] is in the list or in the backup of the user [u]. *)
Definition owned (m : TodoManager) (u : Z) (t : loc) : Prop :=
  t ∈ live_tasks m u ∨ t ∈ backup_tasks m u.

(** No task belongs to two users. *)
Definition separated (m : TodoManager) : Prop :=
  ∀ u v t, owned m u t → owned m v t → u = v.

(** What is the same for the user [v] in [m] and in [m']: the list, the
    backup, the next id, and the objects of the user's tasks. *)
Definition same_for (v : Z) (m m' : TodoManager) : Prop :=
  user_todos m' !! v = user_todos m !! v
  ∧ backups m' !! v = backups m !! v
  ∧ next_ids m' !! v = next_ids m !! v
  ∧ ∀ t, owned m v t → objects m' !! t = objects m !! t.

(** The next ids are positive; a user with a backup has a list; the ids of
    a user's tasks, in the list or in the backup, are positive and below
    the user's next id, and no two tasks of the user share one. *)
Record ids_in_order (m : TodoManager) : Prop := {
  ids_next_positive : ∀ u next_id, next_ids m !! u = Some next_id → 0 < next_id;
  ids_backup_user : ∀ u, is_Some (backups m !! u) → is_Some (user_todos m !! u);
  ids_below : ∀ u t o, owned m u t → objects m !! t = Some o →
    ∃ next_id, next_ids m !! u = Some next_id ∧ 0 < item_id o < next_id;
  ids_unique : ∀ u t1 t2 o1 o2, owned m u t1 → owned m u t2 →
    objects m !! t1 = Some o1 → objects m !! t2 = Some o2 →
    item_id o1 = item_id o2 → t1 = t2
}.

(** What the handlers keep of a manager. *)
Record sound (m : TodoManager) : Prop := {
  sound_well_formed : well_formed m;
  sound_consistent : consistent m;
  sound_separated : separated m;
  sound_ids : ids_in_order m
}.

(** The id the next task of a user gets. *)
Definition upcoming_id (m : TodoManager) (user_id : Z) : Z :=
  match user_todos m !! user_id with
  | Some _ => default 1 (next_ids m !! user_id)
  | None => 1
  end.

(** The task [add_todo] makes of a text, with the id it gets. *)
Definition task_of_line (next_id : Z) (line : str) : TodoItem :=
  new_TodoItem (section_and_text line).2 next_id (section_and_text line).1.

(** [served m0 m]: the manager [m0] has become [m] by handling messages,
    each of which [handle_message] has returned from. *)
Inductive served (m0 : TodoManager) : TodoManager -> Prop :=
  | served_start : served m0 m0
  | served_message m chat_id message_text m' r :
      served m0 m -> handle_message m chat_id message_text = Ret (m', r) ->
      served m0 m'.

(** ** The text of the formatted list *)

(** Whether a line of the formatted list is the line of a task: it starts
    with the digits of the task's number, where the line of a section
    title starts with the newline put before the title. *)
Definition is_task_line (l : str) : bool :=
  match l with
  | c :: _ => (48 <=? c)%N && (c <=? 57)%N
  | [] => false
  end.

(** The lines of tasks among the lines of a text, in their order. *)
Definition numbered_lines (lines : list str) : list str :=
  filter (λ l, is_task_line l) lines.

End ProdV3.

(* ================================================================== *)
(** * bot_github_production.py                                         *)
(* ================================================================== *)

Module Prod.

(** A task dictionary with its keys ['id'], ['text'], ['section'] (an index
    0..3) and ['crossed_out']; [add_todo_from_text], the only place where
    one is made, sets all four. *)
Record todo := mkTodo {
  id : Z;
  text : str;
  section : Z;
  crossed_out : bool
}.

Global Instance todo_eq_dec : EqDecision todo.
Proof. solve_decision. Defined.

(** The dictionary of one user: the keys ['todos'], ['next_id'] and, once
    a list has been closed, ['backup_todos'], together with the store
    [dicts] of the task dictionaries the two lists refer to.  The key
    ['sections'] always holds the four names of [SECTIONS]. *)
Record user_data := mkUserData {
  dicts : list todo;
  todos : list loc;
  next_id : Z;
  backup_todos : option (list loc)
}.

Definition SECTIONS : list str :=
  Eval vm_compute in [utf8 "Закупівля"; utf8 "Гараж"; utf8 "Волинка"; utf8 "Виконано"].

(** What get_user_data makes for a user it has not seen. *)
Definition new_user_data : user_data := mkUserData [] [] 1 None.

Definition set_dicts (u : user_data) (d : list todo) : user_data :=
  mkUserData d (todos u) (next_id u) (backup_todos u).
Definition set_todos (u : user_data) (l : list loc) : user_data :=
  mkUserData (dicts u) l (next_id u) (backup_todos u).
Definition set_next_id (u : user_data) (n : Z) : user_data :=
  mkUserData (dicts u) (todos u) n (backup_todos u).
Definition set_backup_todos (u : user_data) (b : list loc) : user_data :=
  mkUserData (dicts u) (todos u) (next_id u) (Some b).

Definition holds (u : user_data) (p : todo -> bool) (t : loc) : bool :=
  match dicts u !! t with
  | Some d => p d
  | None => false
  end.

(** Equality of two task dictionaries, which is by contents. *)
Definition dict_eqb (u : user_data) (a b : loc) : bool :=
  bool_decide (dicts u !! a = dicts u !! b).

(** [todos_by_section[i]]: the tasks whose section index is [i]. *)
Definition in_section (i : Z) (d : todo) : bool := section d =? i.

Definition bucket (u : user_data) (i : Z) : list loc :=
  filter (λ t, holds u (in_section i) t) (todos u).

Definition todos_by_section (u : user_data) : list (list loc) :=
  map (bucket u) [0; 1; 2; 3].

(** The two nested loops of get_todo_by_display_number, over the tasks of
    the four buckets in turn. *)
Fixpoint scan (current_number display_number : Z) (ts : list loc) : option loc :=
  match ts with
  | [] => None
  | t :: rest =>
      if current_number =? display_number then Some t
      else scan (current_number + 1) display_number rest
  end.

(** get_todo_by_display_number *)
Definition get_todo_by_display_number (u : user_data) (display_number : Z)
    : option loc :=
  scan 1 display_number (concat (todos_by_section u)).

(** The section index and the text a line gets from its prefix. *)
Definition section_and_text (line : str) : Z * str :=
  if startswith (utf8 "!!") line then (2, strip (drop 2 line))
  else if startswith (utf8 "!") line then (1, strip (drop 1 line))
  else (0, line).

(** add_todo_from_text: the body of the loop, for one stripped line. *)
Definition add_line (u : user_data) (line : str) : user_data :=
  let '(section_idx, line) := section_and_text line in
  match line with
  | [] => u
  | _ =>
      let t := length (dicts u) in
      let u := set_dicts u (dicts u ++ [mkTodo (next_id u) line section_idx false]) in
      let u := set_todos u (todos u ++ [t]) in
      set_next_id u (next_id u + 1)
  end.

Definition nonblank_lines (text : str) : list str :=
  filter (λ line, line ≠ []) (map strip (split NL text)).

(** add_todo_from_text *)
Definition add_todo_from_text (u : user_data) (text : str) : user_data :=
  fold_left add_line (nonblank_lines text) u.

(** remove_todo_by_number *)
Definition remove_todo_by_number (u : user_data) (display_number : Z)
    : res (user_data * bool) :=
  match get_todo_by_display_number u display_number with
  | Some t =>
      todos' ← list_remove (dict_eqb u) t (todos u);
      Ret (set_todos u todos', true)
  | None => Ret (u, false)
  end.

(** [todo['crossed_out'] = not todo.get('crossed_out', False)], then the
    move to or from the section of the done. *)
Definition toggled (d : todo) : todo :=
  let crossed_out := negb (crossed_out d) in
  let section :=
    if crossed_out && negb (section d =? 3) then 3
    else if negb crossed_out && (section d =? 3) then 0
    else section d in
  mkTodo (id d) (text d) section crossed_out.

(** toggle_todo_by_number *)
Definition toggle_todo_by_number (u : user_data) (display_number : Z)
    : user_data * bool :=
  match get_todo_by_display_number u display_number with
  | Some t => (set_dicts u (alter toggled t (dicts u)), true)
  | None => (u, false)
  end.

Definition text_at (u : user_data) (t : loc) : str :=
  match dicts u !! t with
  | Some d => text d
  | None => []
  end.

(** [todo1['text'] = f"{todo1['text']} {todo2['text']}"] *)
Definition merged_with (text2 : str) (d : todo) : todo :=
  mkTodo (id d) (text d ++ utf8 " " ++ text2) (section d) (crossed_out d).

(** merge_todos: [todo1 != todo2] compares the two dictionaries' contents,
    and so does the [remove] that follows the change of [todo1]. *)
Definition merge_todos (u : user_data) (num1 num2 : Z) : res (user_data * bool) :=
  match get_todo_by_display_number u num1, get_todo_by_display_number u num2 with
  | Some todo1, Some todo2 =>
      if negb (dict_eqb u todo1 todo2) then
        let text2 := text_at u todo2 in
        let u := set_dicts u (alter (merged_with text2) todo1 (dicts u)) in
        todos' ← list_remove (dict_eqb u) todo2 (todos u);
        Ret (set_todos u todos', true)
      else Ret (u, false)
  | _, _ => Ret (u, false)
  end.

(** [todo['section'] = section_idx], then the flag that goes with it. *)
Definition moved_to (section_idx : Z) (d : todo) : todo :=
  mkTodo (id d) (text d) section_idx (if section_idx =? 3 then true else false).

(** move_todo_to_section *)
Definition move_todo_to_section (u : user_data) (display_number section_idx : Z)
    : user_data * bool :=
  match get_todo_by_display_number u display_number with
  | Some t => (set_dicts u (alter (moved_to section_idx) t (dicts u)), true)
  | None => (u, false)
  end.

(** create_new_list *)
Definition create_new_list (u : user_data) : user_data :=
  let u := set_backup_todos u (todos u) in
  let u := set_todos u [] in
  set_next_id u 1.

(** The ['id'] values of the dictionaries in a list. *)
Definition ids_of (u : user_data) (l : list loc) : list Z :=
  omap (λ t, id <$> dicts u !! t) l.

(** [max(...)] of a non-empty sequence. *)
Definition max_of (l : list Z) : Z :=
  match l with
  | [] => 0
  | x :: rest => fold_left Z.max rest x
  end.

(** restore_last_list *)
Definition restore_last_list (u : user_data) : user_data :=
  match backup_todos u with
  | Some backup =>
      let u := set_todos u backup in
      match todos u with
      | [] => u
      | _ => set_next_id u (max_of (ids_of u (todos u)) + 1)
      end
  | None => u
  end.

(** continue_list *)
Definition continue_list (u : user_data) : user_data :=
  set_todos u (filter (λ t, holds u (λ d, negb (section d =? 3)) t) (todos u)).

(** Lines of the formatted list before they are joined. *)
Inductive line :=
  | Header (title : str)
  | Entry (display_number : Z) (t : loc) (in_done : bool)
  | Blank
  | Stats (total active completed : Z).

Fixpoint number_from (display_number : Z) (in_done : bool) (ts : list loc) : list line :=
  match ts with
  | [] => []
  | t :: rest =>
      Entry display_number t in_done :: number_from (display_number + 1) in_done rest
  end.

Definition section_name (i : nat) : str := nth i SECTIONS [].

(** One of the three active sections, with its icon. *)
Definition format_active (icon : str) (i : nat) (section_todos : list loc)
    (display_number : Z) : list line * Z :=
  match section_todos with
  | [] => ([], display_number)
  | _ =>
      (Header (icon ++ utf8 " " ++ section_name i ++ utf8 ":")
         :: number_from display_number false section_todos ++ [Blank],
       display_number + Z.of_nat (length section_todos))
  end.

(** The section of the completed tasks. *)
Definition format_done (completed_todos : list loc) (display_number : Z) : list line :=
  match completed_todos with
  | [] => []
  | _ =>
      Header (utf8 "▼▼▼ Виконано ▼▼▼")
        :: number_from display_number true completed_todos ++ [Blank]
  end.

Definition format_lines (u : user_data) : list line :=
  let display_number := 1 in
  let '(r0, display_number) := format_active (utf8 "🛒") 0 (bucket u 0) display_number in
  let '(r1, display_number) := format_active (utf8 "🔧") 1 (bucket u 1) display_number in
  let '(r2, display_number) := format_active (utf8 "🎵") 2 (bucket u 2) display_number in
  let completed_todos := bucket u 3 in
  let r3 := format_done completed_todos display_number in
  let total := Z.of_nat (length (todos u)) in
  let completed := Z.of_nat (length completed_todos) in
  let active := total - completed in
  r0 ++ r1 ++ r2 ++ r3 ++ [Stats total active completed].

Definition line_text (u : user_data) (l : line) : str :=
  match l with
  | Header title => title
  | Entry display_number t false =>
      str_of_int display_number ++ utf8 ". "
      ++ (if holds u crossed_out t then crossed_text (text_at u t) else text_at u t)
  | Entry display_number t true =>
      utf8 "❌ " ++ str_of_int display_number ++ utf8 ". " ++ text_at u t
  | Blank => []
  | Stats total active completed =>
      utf8 "Всього: " ++ str_of_int total ++ utf8 " | Активних: " ++ str_of_int active
      ++ utf8 " | Виконано: " ++ str_of_int completed
  end.

Definition EMPTY_LIST : str :=
  Eval vm_compute in
    utf8 "📝 Список порожній" ++ [NL; NL]
    ++ utf8 "Додайте завдання надіславши текст або натисніть кнопку.".

(** format_todo_list *)
Definition format_todo_list (u : user_data) : str :=
  match todos u with
  | [] => EMPTY_LIST
  | _ => join [NL] (map (line_text u) (format_lines u))
  end.

(** handle_todo_command: the dictionary it leaves and the flag it returns. *)
Definition handle_todo_command (u : user_data) (text : str) : res (user_data * bool) :=
  if startswith (utf8 "-") text && isdigit (drop 1 text) then
    todo_num ← int (drop 1 text);
    remove_todo_by_number u todo_num
  else if isdigit text then
    todo_num ← int text;
    Ret (toggle_todo_by_number u todo_num)
  else
    let merge :=
      if contains PLUS text then
        match split PLUS text with
        | [part0; part1] =>
            if isdigit part0 && isdigit part1 then Some (part0, part1) else None
        | _ => None
        end
      else None in
    match merge with
    | Some (part0, part1) =>
        num1 ← int part0;
        num2 ← int part1;
        merge_todos u num1 num2
    | None =>
        let section_idx :=
          if endswith (utf8 "з") text then Some 0
          else if endswith (utf8 "г") text then Some 1
          else if endswith (utf8 "в") text then Some 2
          else None in
        match section_idx with
        | Some section_idx =>
            let base_text := but_last text in
            if isdigit base_text then
              todo_num ← int base_text;
              Ret (move_todo_to_section u todo_num section_idx)
            else Ret (u, false)
        | None => Ret (u, false)
        end
    end.

Definition HELP_TEXT : str :=
  Eval vm_compute in join [NL]
    [ utf8 "📚 **Довідка Todo Bot v3.0**"; [];
      utf8 "**Базові команди:**";
      utf8 "• Текст - додати завдання";
      utf8 "• Номер - перекреслити/розкреслити";
      utf8 "• -номер - видалити завдання";
      utf8 "• номер1+номер2 - об'єднати завдання"; [];
      utf8 "**Переміщення між секціями:**";
      utf8 "• номерз - в Закупівлю";
      utf8 "• номерг - в Гараж";
      utf8 "• номерв - в Волинку"; [];
      utf8 "**Префікси при додаванні:**";
      utf8 "• ! текст - одразу в Гараж";
      utf8 "• !! текст - одразу в Волинку"; [];
      utf8 "**Кнопки меню:**";
      utf8 "📄 Список - показати всі завдання";
      utf8 "🆕 Новий - очистити список";
      utf8 "↩️ Відновити - повернути останній список";
      utf8 "🔄 Продовжити - видалити виконані";
      utf8 "⚙️ Налаштування - налаштувати секції"; [];
      utf8 "🤖 GitHub Actions Production v1.0" ].

(** get_settings_text *)
Definition get_settings_text : str :=
  Eval vm_compute in
    utf8 "⚙️ **Налаштування секцій**" ++ [NL; NL]
    ++ utf8 "🛒 Секція 1: " ++ section_name 0 ++ [NL]
    ++ utf8 "🔧 Секція 2: " ++ section_name 1 ++ [NL]
    ++ utf8 "🎵 Секція 3: " ++ section_name 2 ++ [NL]
    ++ utf8 "❌ Секція 4: " ++ section_name 3 ++ [NL; NL]
    ++ utf8 "Для зміни назв секцій - напишіть мені в Telegram".

Definition list_reply (u : user_data) : reply := (format_todo_list u, main_keyboard).

Definition MENU : str := Eval vm_compute in utf8 "📋 Меню".
Definition BACK : str := Eval vm_compute in utf8 "🔙 Назад".
Definition LIST : str := Eval vm_compute in utf8 "📄 Список".
Definition NEW : str := Eval vm_compute in utf8 "🆕 Новий".
Definition RESTORE : str := Eval vm_compute in utf8 "↩️ Відновити".
Definition CONTINUE : str := Eval vm_compute in utf8 "🔄 Продовжити".
Definition HELP : str := Eval vm_compute in utf8 "❓ Допомога".
Definition SETTINGS : str := Eval vm_compute in utf8 "⚙️ Налаштування".

(** handle_message, from the stripped text on, on the user's dictionary. *)
Definition handle_text (u : user_data) (text : str) : res (user_data * reply) :=
  if str_eqb text MENU then
    Ret (u, (utf8 "Оберіть дію:", commands_keyboard))
  else if str_eqb text BACK then
    Ret (u, (utf8 "Головне меню:", main_keyboard))
  else if str_eqb text LIST then
    Ret (u, list_reply u)
  else if str_eqb text NEW then
    Ret (create_new_list u, (utf8 "✅ Створено новий список", main_keyboard))
  else if str_eqb text RESTORE then
    let u := restore_last_list u in Ret (u, list_reply u)
  else if str_eqb text CONTINUE then
    let u := continue_list u in Ret (u, list_reply u)
  else if str_eqb text HELP then
    Ret (u, (HELP_TEXT, main_keyboard))
  else if str_eqb text SETTINGS then
    Ret (u, (get_settings_text, main_keyboard))
  else
    '(u, handled) ← handle_todo_command u text;
    if handled : bool then Ret (u, list_reply u)
    else let u := add_todo_from_text u text in Ret (u, list_reply u).

(** class TodoBot: [users_data], keyed by the user id. *)
Definition TodoBot : Type := gmap Z user_data.

(** get_user_data *)
Definition get_user_data (b : TodoBot) (user_id : Z) : TodoBot * user_data :=
  match b !! user_id with
  | Some u => (b, u)
  | None => (<[user_id := new_user_data]> b, new_user_data)
  end.

(** handle_message *)
Definition handle_message (b : TodoBot) (user_id : Z) (message_text : str)
    : res (TodoBot * option reply) :=
  match message_text with
  | [] => Ret (b, None)
  | _ =>
      let text := strip message_text in
      let '(b, u) := get_user_data b user_id in
      '(u', r) ← handle_text u text;
      Ret (<[user_id := u']> b, Some r)
  end.

(** The numbered tasks among the lines, as (display number, task). *)
Definition entries (lines : list line) : list (Z * loc) :=
  omap (λ l, match l with
             | Entry display_number t _ => Some (display_number, t)
             | _ => None
             end) lines.

(** ** States a user's dictionary can be in *)

(** The operations on the dictionary of one user. *)
Inductive op :=
  | DoAdd (text : str)
  | DoRemove (display_number : Z)
  | DoToggle (display_number : Z)
  | DoMove (display_number section_idx : Z)
  | DoMerge (num1 num2 : Z)
  | DoClear
  | DoRestore
  | DoContinue.

(** A move names one of the four sections. *)
Definition admissible (o : op) : Prop :=
  match o with
  | DoMove _ section_idx => 0 <= section_idx < 4
  | _ => True
  end.

Definition apply (u : user_data) (o : op) : res user_data :=
  match o with
  | DoAdd text => Ret (add_todo_from_text u text)
  | DoRemove n => '(u', _) ← remove_todo_by_number u n; Ret u'
  | DoToggle n => Ret (toggle_todo_by_number u n).1
  | DoMove n section_idx => Ret (move_todo_to_section u n section_idx).1
  | DoMerge num1 num2 => '(u', _) ← merge_todos u num1 num2; Ret u'
  | DoClear => Ret (create_new_list u)
  | DoRestore => Ret (restore_last_list u)
  | DoContinue => Ret (continue_list u)
  end.

Inductive reachable : user_data -> Prop :=
  | reachable_new : reachable new_user_data
  | reachable_step u o u' :
      reachable u -> admissible o -> apply u o = Ret u' -> reachable u'.

Fixpoint run (u : user_data) (ops : list op) : res user_data :=
  match ops with
  | [] => Ret u
  | o :: rest => u' ← apply u o; run u' rest
  end.

(** The dictionary after a sequence of operations on a new one. *)
Definition after (ops : list op) : user_data :=
  match run new_user_data ops with
  | Ret u => u
  | Raise _ => new_user_data
  end.

(** The display order: the tasks of the four buckets in turn. *)
Definition display_order (u : user_data) : list loc := concat (todos_by_section u).

(** The tasks of the backup, none when there is no backup. *)
Definition backup_tasks (u : user_data) : list loc := default [] (backup_todos u).

(** ['crossed_out'] exactly when the section is the one of the done. *)
Definition flag_matches_section (d : todo) : Prop :=
  crossed_out d = true <-> section d = 3.

(** A property of every task of the list and of the backup. *)
Definition every_task (P : todo -> Prop) (u : user_data) : Prop :=
  forall t d, t ∈ todos u ∨ t ∈ backup_tasks u -> dicts u !! t = Some d -> P d.

Definition consistent (u : user_data) : Prop := every_task flag_matches_section u.

(** No task has an empty text. *)
Definition texts_nonempty (u : user_data) : Prop := every_task (λ d, text d ≠ []) u.

(** The properties in question: kept by a toggle, a move and a merge, and
    true of a task as [add_todo_from_text] makes it. *)
Record kept_property (P : todo -> Prop) : Prop := {
  kept_toggled : forall d, P d -> P (toggled d);
  kept_moved : forall idx d, P d -> P (moved_to idx d);
  kept_merged : forall text2 d, P d -> P (merged_with text2 d);
  kept_new : forall next_id line, (section_and_text line).2 ≠ [] ->
    P (mkTodo next_id (section_and_text line).2 (section_and_text line).1 false)
}.

(** What the dictionaries reached by these operations have in common: the
    lists hold locations of the store, no task and no id twice, the ids of
    the list are below the next id, and every task is in one of the four
    sections. *)
Record well_formed (u : user_data) : Prop := {
  wf_live : Forall (λ t, (t < length (dicts u))%nat) (todos u);
  wf_backup : Forall (λ t, (t < length (dicts u))%nat) (backup_tasks u);
  wf_nodup : NoDup (todos u);
  wf_nodup_backup : NoDup (backup_tasks u);
  wf_ids : NoDup (ids_of u (todos u));
  wf_ids_backup : NoDup (ids_of u (backup_tasks u));
  wf_next : Forall (λ i, i < next_id u) (ids_of u (todos u));
  wf_sections : Forall (λ d, 0 <= section d < 4) (dicts u)
}.

(** ** The keyboards *)

(** get_main_keyboard and get_commands_keyboard: the rows of button labels. *)
Definition get_main_keyboard : list (list str) :=
  Eval vm_compute in [ [utf8 "📋 Меню"] ].

Definition get_commands_keyboard : list (list str) :=
  Eval vm_compute in
  [ [utf8 "📄 Список"; utf8 "🆕 Новий"];
    [utf8 "↩️ Відновити"; utf8 "🔄 Продовжити"];
    [utf8 "⚙️ Налаштування"; utf8 "❓ Допомога"];
    [utf8 "🔙 Назад"] ].

(** The texts [handle_message] has a branch for. *)
Definition is_menu_label (text : str) : bool :=
  str_eqb text MENU || str_eqb text BACK || str_eqb text LIST || str_eqb text NEW
  || str_eqb text RESTORE || str_eqb text CONTINUE || str_eqb text HELP
  || str_eqb text SETTINGS.

(** ** What the handler keeps *)

(** The lines of a text that [add_todo_from_text] makes tasks of: those
    that are not blank and have text left after their prefix. *)
Definition task_lines (text : str) : list str :=
  filter (λ line, (section_and_text line).2 ≠ []) (nonblank_lines text).

(** The task made of a line, with the id it gets. *)
Definition task_of_line (next_id : Z) (line : str) : todo :=
  mkTodo next_id (section_and_text line).2 (section_and_text line).1 false.

(** The dictionary with one more task of the first section, whose text is
    [text]. *)
Definition plain_task_added (u : user_data) (text : str) : user_data :=
  mkUserData (dicts u ++ [mkTodo (next_id u) text 0 false])
    (todos u ++ [length (dicts u)]) (next_id u + 1) (backup_todos u).

(** What the handler keeps of a user's dictionary. *)
Record sound (u : user_data) : Prop := {
  sound_well_formed : well_formed u;
  sound_consistent : consistent u;
  sound_texts : texts_nonempty u
}.

(** Every user's dictionary is sound. *)
Definition bot_sound (b : TodoBot) : Prop :=
  ∀ user_id u, b !! user_id = Some u → sound u.

(** ** The text of the formatted list *)

(** The mark put before the number of a task of the section of the done. *)
Definition DONE_MARK : str := Eval vm_compute in utf8 "❌ ".

(** Whether a line of the formatted list is the line of a task: it starts
    with the digits of the task's number or with the mark of a done task;
    the titles, the blank lines and the line of the counts do not. *)
Definition is_task_line (l : str) : bool :=
  startswith DONE_MARK l
  || match l with
     | c :: _ => (48 <=? c)%N && (c <=? 57)%N
     | [] => false
     end.

(** The lines of tasks among the lines of a text, in their order. *)
Definition numbered_lines (lines : list str) : list str :=
  filter (λ l, is_task_line l) lines.

End Prod.

(* ================================================================== *)
(** * The numeric commands                                             *)
(* ================================================================== *)

(** The three suffixes of a move: "г", "в" and "з". *)
Definition MARKERS : list N := [1075; 1074; 1079]%N.

(** The commands that address tasks by display number. *)
Inductive command :=
  | Delete (n : Z)
  | ToggleAt (n : Z)
  | MergeOf (n1 n2 : Z)
  | MoveTo (n : Z) (marker : N).

(** [spells text c]: [text] is the command [c] as a user writes it: "-n",
    "n", "n1+n2" or "n" followed by a marker, every number in decimal
    digits. *)
Inductive spells : str -> command -> Prop :=
  | spells_delete ds n :
      isdigit ds = true -> int ds = Ret n -> spells (45%N :: ds) (Delete n)
  | spells_toggle ds n :
      isdigit ds = true -> int ds = Ret n -> spells ds (ToggleAt n)
  | spells_merge d1 d2 n1 n2 :
      isdigit d1 = true -> isdigit d2 = true ->
      int d1 = Ret n1 -> int d2 = Ret n2 ->
      spells (d1 ++ PLUS :: d2) (MergeOf n1 n2)
  | spells_move ds n c :
      isdigit ds = true -> int ds = Ret n -> c ∈ MARKERS ->
      spells (ds ++ [c]) (MoveTo n c).

(** A number of the command resolves to no task under [lookup]. *)
Definition unresolved (lookup : Z -> option loc) (c : command) : Prop :=
  match c with
  | Delete n | ToggleAt n | MoveTo n _ => lookup n = None
  | MergeOf n1 n2 => lookup n1 = None ∨ lookup n2 = None
  end.

(** Every number of the command resolves to a task under [lookup], and the
    two numbers of a merge to two different tasks. *)
Definition resolves (lookup : Z -> option loc) (c : command) : Prop :=
  match c with
  | Delete n | ToggleAt n | MoveTo n _ => is_Some (lookup n)
  | MergeOf n1 n2 => is_Some (lookup n1) ∧ is_Some (lookup n2) ∧ lookup n1 ≠ lookup n2
  end.

(** The section of the v3 bot a marker stands for: "г", "в", "з". *)
Definition marker_section (marker : N) : str :=
  if bool_decide (marker = 1075%N) then ProdV3.GARAGE
  else if bool_decide (marker = 1074%N) then ProdV3.VOLYNKA
  else ProdV3.PURCHASE.

(** The operation of the v3 manager a command stands for. *)
Definition command_op (user_id : Z) (c : command) : ProdV3.op :=
  match c with
  | Delete n => ProdV3.DoRemove user_id n
  | ToggleAt n => ProdV3.DoToggle user_id n
  | MergeOf n1 n2 => ProdV3.DoMerge user_id n1 n2
  | MoveTo n marker => ProdV3.DoMove user_id n (marker_section marker)
  end.

(** Every digit of the text is a decimal digit. *)
Definition plain_digits (s : str) : Prop :=
  ∀ c, c ∈ s → cp_isdigit c = true → cp_isdecimal c = true.

(** A number written with a digit that is not decimal, as "²" is. *)
Definition odd_number (ds : str) : Prop :=
  isdigit ds = true ∧ Exists (λ c, cp_isdecimal c = false) ds.

(** The section index of the v1 bot a marker stands for: "з", "г", "в". *)
Definition marker_index (marker : N) : Z :=
  if bool_decide (marker = 1079%N) then 0
  else if bool_decide (marker = 1075%N) then 1
  else 2.

(** The operation on a v1 dictionary a command stands for. *)
Definition command_op_v1 (c : command) : Prod.op :=
  match c with
  | Delete n => Prod.DoRemove n
  | ToggleAt n => Prod.DoToggle n
  | MergeOf n1 n2 => Prod.DoMerge n1 n2
  | MoveTo n marker => Prod.DoMove n (marker_index marker)
  end.

(* ================================================================== *)
(** * Sample runs                                                      *)
(* ================================================================== *)

(** A user of the v3 bot adds "a" and "b". *)
Definition v3_two_tasks : list ProdV3.op :=
  [ProdV3.DoAdd 7 (utf8 "a"); ProdV3.DoAdd 7 (utf8 "b")].

(** ... then deletes the second task and starts a new list. *)
Definition v3_cleared : list ProdV3.op :=
  v3_two_tasks ++ [ProdV3.DoRemove 7 2; ProdV3.DoClear 7].

(** A user of the v1 bot adds "a" and "b". *)
Definition v1_two_tasks : list Prod.op :=
  [Prod.DoAdd (utf8 "a"); Prod.DoAdd (utf8 "b")].

(** A user of the v1 bot adds "a" and starts a new list. *)
Definition v1_cleared : list Prod.op :=
  [Prod.DoAdd (utf8 "a"); Prod.DoClear].

(** A user of the v1 bot adds "a" and completes it. *)
Definition v1_one_done : list Prod.op :=
  [Prod.DoAdd (utf8 "a"); Prod.DoToggle 1].

(** A user of the v3 bot adds "a" and "b" and completes the first. *)
Definition v3_one_done : list ProdV3.op :=
  v3_two_tasks ++ [ProdV3.DoToggle 7 1].

(* ================================================================== *)
(** * The builtins on sample inputs                                    *)
(* ================================================================== *)

Example utf8_ascii : utf8 "1+2" = [49; 43; 50]%N.
Proof. reflexivity. Qed.

Example utf8_cyrillic : utf8 "5г" = [53; 1075]%N.
Proof. reflexivity. Qed.

Example utf8_emoji : utf8 "📋 Меню" = [128203; 32; 1052; 1077; 1085; 1102]%N.
Proof. reflexivity. Qed.

Example int_12 : int (utf8 "012") = Ret 12.
Proof. reflexivity. Qed.

Example int_superscript : isdigit [178%N] = true /\ int [178%N] = Raise ValueError.
Proof. split; reflexivity. Qed.

Example str_of_int_ex : str_of_int 120 = utf8 "120" /\ str_of_int 0 = utf8 "0".
Proof. split; reflexivity. Qed.

Example split_ex : split 43 (utf8 "1+2") = [utf8 "1"; utf8 "2"]
  /\ split 43 (utf8 "1+") = [utf8 "1"; []].
Proof. split; reflexivity. Qed.

Example strip_ex : strip (utf8 "  a b ") = utf8 "a b".
Proof. reflexivity. Qed.

(* ================================================================== *)
(** * Lists: removal of an element, numbering                          *)
(* ================================================================== *)

Section list_remove_facts.
Context {A : Type} (eqb : A -> A -> bool).

(** [list_remove] drops the first element equal to [x] and nothing else. *)
Lemma list_remove_Ret x l l' :
  list_remove eqb x l = Ret l' <->
  exists l1 y l2, l = l1 ++ y :: l2 /\ eqb y x = true
    /\ Forall (λ z, eqb z x = false) l1 /\ l' = l1 ++ l2.
Proof.
  revert l'. induction l as [|a l IH]; intros l'; simpl.
  - split; [discriminate|]. intros (l1 & y & l2 & E & _). by destruct l1.
  - destruct (eqb a x) eqn:Ea.
    + split.
      * intros [= <-]. exists [], a, l. by repeat split.
      * intros (l1 & y & l2 & E & Hy & Hl1 & ->).
        destruct l1 as [|b l1]; simplify_eq/=; [done|].
        apply Forall_cons in Hl1 as [Hb _]. congruence.
    + destruct (list_remove eqb x l) as [r|e] eqn:Er; simpl.
      * split.
        -- intros [= <-]. destruct (proj1 (IH r) eq_refl) as (l1 & y & l2 & -> & Hy & Hl1 & ->).
           exists (a :: l1), y, l2. repeat split; auto.
        -- intros (l1 & y & l2 & E & Hy & Hl1 & ->).
           destruct l1 as [|b l1]; simplify_eq/=; [congruence|].
           apply Forall_cons in Hl1 as [_ Hl1]. f_equal. f_equal.
           assert (Ret r = Ret (l1 ++ l2)) as [= ->]; [|done].
           apply IH. by exists l1, y, l2.
      * split; [discriminate|].
        intros (l1 & y & l2 & E & Hy & Hl1 & ->).
        destruct l1 as [|b l1]; simplify_eq/=; [congruence|].
        apply Forall_cons in Hl1 as [_ Hl1].
        assert (Raise e = Ret (l1 ++ l2)); [|done].
        apply IH. by exists l1, y, l2.
Qed.

(** It raises only when no element is equal to [x]. *)
Lemma list_remove_total x l :
  (exists y, y ∈ l /\ eqb y x = true) -> exists l', list_remove eqb x l = Ret l'.
Proof.
  induction l as [|a l IH]; simpl; intros (y & Hy & E).
  - by apply elem_of_nil in Hy.
  - destruct (eqb a x) eqn:Ea; [by eexists|].
    apply elem_of_cons in Hy as [->|Hy]; [congruence|].
    destruct IH as [l' ->]; [by exists y|]. by eexists.
Qed.
End list_remove_facts.

(** With locations compared by identity, and no location twice in the
    list, removal leaves exactly the other elements, in their order. *)
Lemma list_remove_loc (x : loc) (l : list loc) :
  x ∈ l -> NoDup l ->
  exists l', list_remove Nat.eqb x l = Ret l'
    /\ l' = filter (λ y, y ≠ x) l /\ (x ∉ l') /\ S (length l') = length l.
Proof.
  intros Hx Hnd.
  destruct (list_remove_total Nat.eqb x l) as [l' E].
  { exists x. split; [done|]. apply Nat.eqb_refl. }
  exists l'. split; [done|].
  apply list_remove_Ret in E as (l1 & y & l2 & -> & Hy & Hl1 & ->).
  apply Nat.eqb_eq in Hy as ->.
  apply NoDup_app in Hnd as (Hnd1 & Hdisj & Hnd2).
  apply NoDup_cons in Hnd2 as [Hx2 Hnd2].
  assert (Hx1 : x ∉ l1) by (intros ?; eapply Hdisj; [done|left]).
  assert (F : forall k : list loc, x ∉ k -> filter (λ y, y ≠ x) k = k).
  { induction k as [|b k IHk]; [done|]. intros Hk.
    apply not_elem_of_cons in Hk as [? ?].
    rewrite filter_cons_True by done. f_equal. auto. }
  repeat split.
  - rewrite filter_app, filter_cons_False by (intros ?; done).
    by rewrite !F.
  - rewrite elem_of_app. tauto.
  - rewrite !length_app. simpl. lia.
Qed.

(** What holds of every element holds of every element of a part. *)
Lemma Forall_of_sublist {A} (P : A → Prop) (l1 l2 : list A) :
  l1 `sublist_of` l2 → Forall P l2 → Forall P l1.
Proof.
  intros Hs H. apply Forall_forall. intros x Hx.
  eapply Forall_forall in H; [done|]. by eapply elem_of_sublist.
Qed.

(** The last element of a list is in its last part, when that is not empty. *)
Lemma last_in_tail {A} (l1 l2 : list A) (d : A) :
  l2 ≠ [] → In (List.last (l1 ++ l2) d) l2.
Proof.
  intros H. destruct (exists_last H) as (k & z & ->).
  rewrite app_assoc, last_last. apply in_or_app. right. by left.
Qed.

Lemma last_in_tail_cons {A} (l1 l2 : list A) (x d : A) :
  l2 ≠ [] → In (List.last (l1 ++ x :: l2) d) l2.
Proof.
  intros H. replace (l1 ++ x :: l2) with ((l1 ++ [x]) ++ l2).
  - by apply last_in_tail.
  - by rewrite <- app_assoc.
Qed.

(* ================================================================== *)
(** * Tactics for the operations that only move lists                  *)
(* ================================================================== *)

(** The side conditions of [v3_relist_well_formed] for an operation that
    only moves lists between the dictionaries. *)
Ltac v3_relist E Hwf :=
  intros ?v; unfold ProdV3.live_tasks, ProdV3.backup_tasks, ProdV3.select; simpl;
  rewrite ?lookup_insert; repeat case_decide; subst; simpl; rewrite ?E; simpl;
  first
    [ by left | by right
    | left; apply sublist_nil_l
    | left; apply sublist_filter | right; apply sublist_filter
    | done
    | apply (ProdV3.wf_next_ids _ Hwf) | apply (ProdV3.wf_backup_ids _ Hwf) ].

(** Membership in the lists after such an operation. *)
Ltac v3_members E :=
  intros ?v ?t; unfold ProdV3.live_tasks, ProdV3.backup_tasks, ProdV3.select; simpl;
  rewrite ?lookup_insert; repeat case_decide; subst; simpl; rewrite ?E; simpl;
  rewrite ?elem_of_nil, ?list_elem_of_filter; tauto.

(* ================================================================== *)
(** * TodoManager (v3): lookups and the backup slot                    *)
(* ================================================================== *)

Section v3_store.
Import ProdV3.
Implicit Types (m : TodoManager) (u n : Z) (t : loc) (todos : list loc).

Lemma v3_elem_of_select m p t todos :
  t ∈ select m p todos ↔ t ∈ todos ∧ holds m p t = true.
Proof.
  unfold select. rewrite list_elem_of_filter, Is_true_true. tauto.
Qed.

Lemma v3_holds_object m p t :
  holds m p t = true → ∃ o, objects m !! t = Some o ∧ p o = true.
Proof. unfold holds. destruct (objects m !! t); [eauto|done]. Qed.

Lemma v3_elem_of_ordered m t todos :
  t ∈ ordered m todos →
  t ∈ todos ∧ ∃ o, objects m !! t = Some o.
Proof.
  unfold ordered. rewrite !elem_of_app, !v3_elem_of_select.
  intros [[? H]|[[? H]|[[? H]|[? H]]]];
    (split; [done|]); apply v3_holds_object in H as (o & ? & _); eauto.
Qed.

(** The lookup is the [n]-th element of the display order, counted from 1. *)
Lemma v3_get_Some m u n t :
  get_todo_by_display_number m u n = Some t ↔
  1 ≤ n ∧ ordered m (live_tasks m u) !! Z.to_nat (n - 1) = Some t
  ∧ is_Some (user_todos m !! u).
Proof.
  unfold get_todo_by_display_number, live_tasks.
  destruct (user_todos m !! u) as [todos|]; simpl.
  - destruct (1 <=? n) eqn:E1; simpl.
    + apply Z.leb_le in E1.
      destruct (n <=? Z.of_nat (length (ordered m todos))) eqn:E2.
      * split; [intros H; by eauto|]. by intros (_ & H & _).
      * apply Z.leb_gt in E2. split; [done|]. intros (_ & H & _).
        apply lookup_lt_Some in H. lia.
    + apply Z.leb_gt in E1. split; [done|]. lia.
  - split; [done|]. intros (_ & _ & []). done.
Qed.

Lemma v3_get_None m u n :
  get_todo_by_display_number m u n = None ↔
  n < 1 ∨ Z.of_nat (length (ordered m (live_tasks m u))) < n.
Proof.
  unfold get_todo_by_display_number, live_tasks.
  destruct (user_todos m !! u) as [todos|]; simpl.
  - destruct (1 <=? n) eqn:E1; simpl.
    + apply Z.leb_le in E1.
      destruct (n <=? Z.of_nat (length (ordered m todos))) eqn:E2.
      * apply Z.leb_le in E2. rewrite lookup_ge_None. lia.
      * apply Z.leb_gt in E2. split; [lia|done].
    + apply Z.leb_gt in E1. split; [lia|done].
  - split; [|done]. intros _. unfold ordered, select. simpl. lia.
Qed.

Lemma v3_get_live m u n t :
  get_todo_by_display_number m u n = Some t →
  t ∈ live_tasks m u ∧ ∃ o, objects m !! t = Some o.
Proof.
  intros (_ & H & _)%v3_get_Some.
  apply list_elem_of_lookup_2 in H. by apply v3_elem_of_ordered.
Qed.

(** ** clear_todos *)

Lemma v3_clear_todos_spec m u :
  let m' := (clear_todos m u).1 in
  let count := (clear_todos m u).2 in
  count = Z.of_nat (length (live_tasks m u))
  ∧ live_tasks m' u = []
  ∧ objects m' = objects m
  ∧ next_ids m' = next_ids m
  ∧ (∀ v, v ≠ u → user_todos m' !! v = user_todos m !! v)
  ∧ (∀ v, v ≠ u → backups m' !! v = backups m !! v)
  ∧ (live_tasks m u ≠ [] → backups m' !! u = Some (live_tasks m u))
  ∧ (live_tasks m u = [] → count = 0 ∧ backups m' = backups m).
Proof.
  unfold clear_todos, live_tasks.
  destruct (user_todos m !! u) as [todos|] eqn:E; simpl.
  - destruct todos as [|t todos]; simpl.
    + rewrite lookup_insert_eq. simpl. repeat split; try done.
      intros v Hv. by rewrite lookup_insert_ne.
    + rewrite lookup_insert_eq. simpl. repeat split; try done.
      * intros v Hv. by rewrite lookup_insert_ne.
      * intros v Hv. by rewrite lookup_insert_ne.
      * intros _. by rewrite lookup_insert_eq.
  - rewrite E. simpl. repeat split; done.
Qed.

(** ** restore_backup *)

Lemma v3_restore_backup_spec m u :
  let m' := (restore_backup m u).1 in
  let count := (restore_backup m u).2 in
  (backup_tasks m u ≠ [] →
     user_todos m' !! u = Some (backup_tasks m u)
     ∧ backups m' !! u = Some []
     ∧ count = Z.of_nat (length (backup_tasks m u))
     ∧ next_ids m' = next_ids m
     ∧ objects m' = objects m
     ∧ (∀ v, v ≠ u → user_todos m' !! v = user_todos m !! v)
     ∧ (∀ v, v ≠ u → backups m' !! v = backups m !! v))
  ∧ (backup_tasks m u = [] → m' = m ∧ count = 0).
Proof.
  unfold restore_backup, backup_tasks.
  destruct (backups m !! u) as [[|t b]|] eqn:E; simpl; split; try done.
  intros _. rewrite !lookup_insert_eq. repeat split; try done.
  - intros v Hv. by rewrite lookup_insert_ne.
  - intros v Hv. by rewrite lookup_insert_ne.
Qed.

(** ** continue_list *)

Lemma v3_pending_not_completed (o : TodoItem) : pending o = negb (completed o).
Proof. unfold pending, completed. by rewrite negb_orb. Qed.

Lemma v3_continue_list_spec m u :
  let m' := (continue_list m u).1 in
  let count := (continue_list m u).2 in
  let done := select m completed (live_tasks m u) in
  count = Z.of_nat (length done)
  ∧ (done ≠ [] →
       live_tasks m' u = select m pending (live_tasks m u)
       ∧ backups m' !! u = Some done
       ∧ objects m' = objects m
       ∧ next_ids m' = next_ids m
       ∧ (∀ v, v ≠ u → user_todos m' !! v = user_todos m !! v)
       ∧ (∀ v, v ≠ u → backups m' !! v = backups m !! v))
  ∧ (done = [] → m' = m).
Proof.
  unfold continue_list, live_tasks.
  destruct (user_todos m !! u) as [todos|] eqn:E; simpl.
  - destruct (select m completed todos) as [|t c] eqn:Ec; simpl.
    + by rewrite E.
    + rewrite lookup_insert_eq. simpl. repeat split; try done.
      * by rewrite lookup_insert_eq.
      * intros v Hv. by rewrite lookup_insert_ne.
      * intros v Hv. by rewrite lookup_insert_ne.
  - rewrite E. simpl. repeat split; done.
Qed.

(** Where every task of the list has its object, the pending tasks are
    the tasks that are not completed. *)
Lemma v3_select_pending m todos :
  Forall (λ t, (t < length (objects m))%nat) todos →
  select m pending todos = filter (λ t, ¬ holds m completed t) todos.
Proof.
  intros Hv. unfold select. induction Hv as [|a todos Ha _ IH]; [done|].
  rewrite !filter_cons, IH.
  apply lookup_lt_is_Some in Ha as [o Ho].
  assert (E : holds m pending a = negb (holds m completed a)).
  { unfold holds. rewrite Ho. apply v3_pending_not_completed. }
  rewrite E. destruct (holds m completed a); simpl; repeat case_decide; naive_solver.
Qed.

End v3_store.

(* ================================================================== *)
(** * The builtins: digits, spaces, stripping and splitting            *)
(* ================================================================== *)

Section py_facts.
Implicit Types (s p : str) (c : N).

Lemma in_ranges_disjoint t1 t2 c :
  ranges_disjoint t1 t2 = true → in_ranges t1 c = true → in_ranges t2 c = false.
Proof.
  unfold ranges_disjoint, in_ranges. intros Hd H1.
  apply existsb_exists in H1 as (r1 & Hr1 & H1).
  rewrite forallb_forall in Hd. specialize (Hd r1 Hr1).
  rewrite forallb_forall in Hd.
  apply not_true_is_false. intros H2.
  apply existsb_exists in H2 as (r2 & Hr2 & H2).
  specialize (Hd r2 Hr2).
  apply andb_true_iff in H1 as [A1 B1]. apply andb_true_iff in H2 as [A2 B2].
  apply N.leb_le in A1, B1, A2, B2.
  apply orb_true_iff in Hd as [Hd|Hd]; apply N.ltb_lt in Hd; lia.
Qed.

(** No digit is a space. *)
Lemma digit_not_space c : cp_isdigit c = true → cp_isspace c = false.
Proof.
  unfold cp_isdigit, cp_isdecimal, cp_isspace.
  intros [H|H]%orb_true_iff; (eapply in_ranges_disjoint; [|exact H]); by vm_compute.
Qed.

Lemma isdigit_cons c s : isdigit (c :: s) = cp_isdigit c && forallb cp_isdigit s.
Proof. done. Qed.

Lemma isdigit_inv s :
  isdigit s = true → ∃ c s', s = c :: s' ∧ cp_isdigit c = true
    ∧ forallb cp_isdigit s' = true.
Proof.
  destruct s as [|c s']; [done|]. rewrite isdigit_cons.
  intros [? ?]%andb_true_iff. eauto.
Qed.

Lemma isdigit_forall s c : isdigit s = true → In c s → cp_isdigit c = true.
Proof.
  intros (a & s' & -> & Ha & Hs)%isdigit_inv [<-|Hc]; [done|].
  rewrite forallb_forall in Hs. by apply Hs.
Qed.

(** A string of digits followed by a character that is no digit is not a
    string of digits. *)
Lemma isdigit_snoc_false s c : cp_isdigit c = false → isdigit (s ++ [c]) = false.
Proof.
  intros Hc. destruct s as [|a s]; simpl; [by rewrite Hc|].
  apply andb_false_iff. right. rewrite forallb_app. simpl. rewrite Hc.
  by rewrite andb_false_r.
Qed.

Lemma isdigit_middle_false s1 s2 c :
  cp_isdigit c = false → isdigit (s1 ++ c :: s2) = false.
Proof.
  intros Hc. destruct s1 as [|a s1]; simpl; [by rewrite Hc|].
  apply andb_false_iff. right. rewrite forallb_app. simpl. rewrite Hc.
  by rewrite andb_false_r.
Qed.

(** ** strip *)

Lemma lstrip_id c s : cp_isspace c = false → lstrip (c :: s) = c :: s.
Proof. intros H. simpl. by rewrite H. Qed.

(** A text that neither starts nor ends with a space is left as it is. *)
Lemma strip_id c s c' :
  cp_isspace c = false → cp_isspace c' = false →
  List.last (c :: s) c = c' → strip (c :: s) = c :: s.
Proof.
  intros Hc Hc' Hl. unfold strip. rewrite lstrip_id by done.
  destruct (exists_last (l := c :: s)) as (s0 & z & E); [done|].
  rewrite E in *. rewrite last_last in Hl. subst z.
  rewrite rev_app_distr. simpl. rewrite Hc'.
  change (c' :: rev s0) with (rev [c'] ++ rev s0).
  by rewrite <- rev_app_distr, rev_involutive.
Qed.

(** ** but_last and last_char *)

Lemma but_last_snoc s c : but_last (s ++ [c]) = s.
Proof. unfold but_last. apply removelast_last. Qed.

Lemma last_char_snoc s c : last_char (s ++ [c]) = Some c.
Proof. unfold last_char. rewrite List.map_app. simpl. apply last_last. Qed.

(** ** split and contains *)

Lemma contains_false sep s : ¬ In sep s → contains sep s = false.
Proof.
  unfold contains. intros H. apply not_true_is_false. intros E.
  apply existsb_exists in E as (x & Hx & ->%N.eqb_eq). done.
Qed.

Lemma contains_middle sep s1 s2 : contains sep (s1 ++ sep :: s2) = true.
Proof.
  unfold contains. apply existsb_exists. exists sep. split; [|apply N.eqb_refl].
  apply in_or_app. right. by left.
Qed.

Lemma split_no_sep sep s : ¬ In sep s → split sep s = [s].
Proof.
  induction s as [|c s IH]; [done|]. intros H. simpl.
  destruct (N.eqb_spec c sep) as [->|Hne]; [destruct H; by left|].
  rewrite IH; [done|]. intros ?. apply H. by right.
Qed.

Lemma split_middle sep s1 s2 :
  ¬ In sep s1 → ¬ In sep s2 → split sep (s1 ++ sep :: s2) = [s1; s2].
Proof.
  intros H1 H2. induction s1 as [|c s1 IH]; simpl.
  - rewrite N.eqb_refl. by rewrite split_no_sep.
  - destruct (N.eqb_spec c sep) as [->|Hne]; [destruct H1; by left|].
    rewrite IH; [done|]. intros ?. apply H1. by right.
Qed.

Lemma startswith_cons_false a c s : a ≠ c → startswith [a] (c :: s) = false.
Proof. intros H. simpl. destruct (N.eqb_spec a c); [done|done]. Qed.

Lemma endswith_single a s c : endswith [a] (s ++ [c]) = (a =? c)%N.
Proof.
  unfold endswith. rewrite rev_app_distr. simpl. apply andb_true_r.
Qed.

End py_facts.

(* ================================================================== *)
(** * TodoManager (v3): what each operation does to the store          *)
(* ================================================================== *)

Section v3_ops.
Import ProdV3.
Implicit Types (m : TodoManager) (u v n : Z) (t : loc) (todos : list loc).

Lemma v3_live_set_user_todos m u v todos :
  live_tasks (set_user_todos m u todos) v
  = if decide (u = v) then todos else live_tasks m v.
Proof.
  unfold live_tasks, set_user_todos. simpl. rewrite lookup_insert.
  by case_decide.
Qed.

Lemma v3_backup_set_backup m u v todos :
  backup_tasks (set_backup m u todos) v
  = if decide (u = v) then todos else backup_tasks m v.
Proof.
  unfold backup_tasks, set_backup. simpl. rewrite lookup_insert.
  by case_decide.
Qed.

Lemma v3_live_Some m u todos :
  user_todos m !! u = Some todos → live_tasks m u = todos.
Proof. unfold live_tasks. by intros ->. Qed.

Lemma v3_section_and_text_active text :
  (section_and_text text).1 ∈ [PURCHASE; GARAGE; VOLYNKA].
Proof.
  unfold section_and_text.
  destruct (startswith _ text); [set_solver|].
  destruct (startswith _ text); set_solver.
Qed.

(** add_todo appends one new object, under the user's next id. *)
Lemma v3_add_todo_Ret m u text m' t :
  add_todo m u text = Ret (m', t) →
  ∃ next_id,
    match user_todos m !! u with
    | Some _ => next_ids m !! u = Some next_id
    | None => next_id = 1
    end
    ∧ t = length (objects m)
    ∧ objects m' = objects m
        ++ [new_TodoItem (section_and_text text).2 next_id (section_and_text text).1]
    ∧ user_todos m' = <[u := live_tasks m u ++ [t]]> (user_todos m)
    ∧ next_ids m' = <[u := next_id + 1]> (next_ids m)
    ∧ backups m' = backups m.
Proof.
  unfold add_todo.
  destruct (section_and_text text) as [sec txt]. unfold live_tasks.
  destruct (user_todos m !! u) as [todos|] eqn:E; simpl.
  - rewrite E. destruct (next_ids m !! u) as [next_id|]; [|done].
    intros [= <- <-]. by exists next_id.
  - rewrite !lookup_insert_eq. intros [= <- <-]. exists 1. simpl.
    repeat split; try done; by rewrite insert_insert_eq.
Qed.

(** It raises only for a user with a list and no next id. *)
Lemma v3_add_todo_total m u text :
  (is_Some (user_todos m !! u) → is_Some (next_ids m !! u)) →
  ∃ m' t, add_todo m u text = Ret (m', t).
Proof.
  intros H. unfold add_todo.
  destruct (section_and_text text) as [sec txt].
  destruct (user_todos m !! u) as [todos|] eqn:E; simpl.
  - rewrite E. destruct H as [next_id ->]; [done|]. eauto.
  - rewrite !lookup_insert_eq. eauto.
Qed.

(** remove_todo takes the found task out of the user's list. *)
Lemma v3_remove_todo_Ret m u n m' (b : bool) :
  remove_todo m u n = Ret (m', b) →
  (b = false ∧ m' = m ∧ get_todo_by_display_number m u n = None)
  ∨ (∃ t todos', b = true ∧ get_todo_by_display_number m u n = Some t
       ∧ list_remove Nat.eqb t (live_tasks m u) = Ret todos'
       ∧ m' = set_user_todos m u todos').
Proof.
  unfold remove_todo.
  destruct (get_todo_by_display_number m u n) as [t|] eqn:G.
  - pose proof G as (_ & _ & [todos E])%v3_get_Some.
    rewrite E, (v3_live_Some _ _ _ E).
    destruct (list_remove Nat.eqb t todos) as [todos'|] eqn:R; simpl; [|done].
    intros [= <- <-]. right. by exists t, todos'.
  - intros [= <- <-]. by left.
Qed.

Lemma v3_remove_todo_total m u n :
  ∃ m' b, remove_todo m u n = Ret (m', b).
Proof.
  unfold remove_todo.
  destruct (get_todo_by_display_number m u n) as [t|] eqn:G; [|eauto].
  pose proof G as (_ & _ & [todos E])%v3_get_Some.
  pose proof G as [Ht _]%v3_get_live.
  rewrite E. rewrite (v3_live_Some _ _ _ E) in Ht.
  destruct (list_remove_total Nat.eqb t todos) as [todos' ->]; [|simpl; eauto].
  exists t. split; [done|]. apply Nat.eqb_refl.
Qed.

Lemma v3_merge_todos_Ret m u n1 n2 m' (b : bool) :
  merge_todos m u n1 n2 = Ret (m', b) →
  (b = false ∧ m' = m
     ∧ (get_todo_by_display_number m u n1 = None
        ∨ get_todo_by_display_number m u n2 = None
        ∨ get_todo_by_display_number m u n1 = get_todo_by_display_number m u n2))
  ∨ (∃ t1 t2 todos', b = true ∧ t1 ≠ t2
       ∧ get_todo_by_display_number m u n1 = Some t1
       ∧ get_todo_by_display_number m u n2 = Some t2
       ∧ list_remove Nat.eqb t2 (live_tasks m u) = Ret todos'
       ∧ m' = set_user_todos
                (set_objects m (alter (merged_with (text_at m t2)) t1 (objects m)))
                u todos').
Proof.
  unfold merge_todos.
  destruct (get_todo_by_display_number m u n1) as [t1|] eqn:G1;
    [|intros [= <- <-]; left; auto].
  destruct (get_todo_by_display_number m u n2) as [t2|] eqn:G2;
    [|intros [= <- <-]; left; auto].
  destruct (Nat.eqb t1 t2) eqn:Et; simpl.
  - apply Nat.eqb_eq in Et as ->. intros [= <- <-]. left; auto.
  - apply Nat.eqb_neq in Et.
    pose proof G1 as (_ & _ & [todos E])%v3_get_Some.
    rewrite E, (v3_live_Some _ _ _ E).
    destruct (list_remove Nat.eqb t2 todos) as [todos'|] eqn:R; simpl; [|done].
    intros [= <- <-]. right. by exists t1, t2, todos'.
Qed.

Lemma v3_merge_todos_total m u n1 n2 :
  ∃ m' b, merge_todos m u n1 n2 = Ret (m', b).
Proof.
  unfold merge_todos.
  destruct (get_todo_by_display_number m u n1) as [t1|] eqn:G1; [|eauto].
  destruct (get_todo_by_display_number m u n2) as [t2|] eqn:G2; [|eauto].
  destruct (Nat.eqb t1 t2); simpl; [eauto|].
  pose proof G2 as (_ & _ & [todos E])%v3_get_Some.
  pose proof G2 as [Ht _]%v3_get_live.
  rewrite E. rewrite (v3_live_Some _ _ _ E) in Ht.
  destruct (list_remove_total Nat.eqb t2 todos) as [todos' ->]; [|simpl; eauto].
  exists t2. split; [done|]. apply Nat.eqb_refl.
Qed.

End v3_ops.

(* ================================================================== *)
(** * TodoManager (v3): invariants of the reachable states             *)
(* ================================================================== *)

Section v3_invariants.
Import ProdV3.
Implicit Types (m : TodoManager) (u v n : Z) (t : loc) (todos : list loc).

Lemma v3_well_formed_empty : well_formed empty_manager.
Proof.
  split; intros; unfold live_tasks, backup_tasks; simpl;
    rewrite ?lookup_empty; simpl; try constructor.
  - destruct H as [x Hx]. simpl in Hx. by rewrite lookup_empty in Hx.
  - destruct H as [x Hx]. simpl in Hx. by rewrite lookup_empty in Hx.
Qed.

(** Changing objects in place keeps the lists as they are. *)
Lemma v3_alter_well_formed m f t :
  (∀ o, section o ∈ SECTION_KEYS → section (f o) ∈ SECTION_KEYS) →
  well_formed m → well_formed (set_objects m (alter f t (objects m))).
Proof.
  intros Hf [H1 H2 H3 H4 H5 H6 H7].
  split; unfold live_tasks, backup_tasks in *; simpl;
    rewrite ?length_alter; try done.
  apply Forall_forall. intros o Ho.
  apply list_elem_of_lookup in Ho as [i Hi].
  destruct (decide (i = t)) as [->|Hne].
  - rewrite list_lookup_alter_eq in Hi.
    destruct (objects m !! t) as [o'|] eqn:Eo; simplify_eq/=. apply Hf.
    eapply Forall_forall in H5; [done|]. by eapply list_elem_of_lookup_2.
  - rewrite list_lookup_alter_ne in Hi by done.
    eapply Forall_forall in H5; [done|]. by eapply list_elem_of_lookup_2.
Qed.

(** Rearranging the lists: every new list is part of an old list of the
    same user, in the old order. *)
Lemma v3_relist_well_formed m m' :
  objects m' = objects m →
  (∀ v, live_tasks m' v `sublist_of` live_tasks m v
        ∨ live_tasks m' v `sublist_of` backup_tasks m v) →
  (∀ v, backup_tasks m' v `sublist_of` live_tasks m v
        ∨ backup_tasks m' v `sublist_of` backup_tasks m v) →
  (∀ v, is_Some (user_todos m' !! v) → is_Some (next_ids m' !! v)) →
  (∀ v, is_Some (backups m' !! v) → is_Some (next_ids m' !! v)) →
  well_formed m → well_formed m'.
Proof.
  intros Ho Hl Hb Hn Hn' [H1 H2 H3 H4 H5 H6 H7].
  split; rewrite ?Ho; try done.
  - intros v. destruct (Hl v) as [H|H];
      apply (Forall_of_sublist _ _ _ H); [apply H1|apply H2].
  - intros v. destruct (Hb v) as [H|H];
      apply (Forall_of_sublist _ _ _ H); [apply H1|apply H2].
  - intros v. destruct (Hl v) as [H|H];
      (eapply sublist_NoDup; [|exact H]); [apply H3|apply H4].
  - intros v. destruct (Hb v) as [H|H];
      (eapply sublist_NoDup; [|exact H]); [apply H3|apply H4].
Qed.

Lemma v3_add_todo_well_formed m u text m' t :
  add_todo m u text = Ret (m', t) → well_formed m → well_formed m'.
Proof.
  intros (next_id & Hn & -> & Ho & Hu & Hi & Hb)%v3_add_todo_Ret
    [H1 H2 H3 H4 H5 H6 H7].
  assert (Hlen : length (objects m') = S (length (objects m))).
  { rewrite Ho, length_app. simpl. lia. }
  split; unfold live_tasks, backup_tasks in *.
  - intros v. rewrite Hu, Hlen, lookup_insert. case_decide; simpl.
    + subst v. apply Forall_app. split.
      * eapply Forall_impl; [apply H1|]. simpl. lia.
      * repeat constructor.
    + eapply Forall_impl; [apply H1|]. simpl. lia.
  - intros v. rewrite Hb, Hlen. eapply Forall_impl; [apply H2|]. simpl. lia.
  - intros v. rewrite Hu, lookup_insert. case_decide; simpl; [|apply H3].
    subst v. apply NoDup_app. repeat split; [apply H3| |apply NoDup_singleton].
    intros x Hx ->%list_elem_of_singleton.
    specialize (H1 u). eapply Forall_forall in H1; [|done]. lia.
  - intros v. rewrite Hb. apply H4.
  - rewrite Ho. apply Forall_app. split; [done|].
    apply Forall_cons. split; [|constructor]. simpl.
    pose proof (v3_section_and_text_active text) as Hs.
    unfold SECTION_KEYS. revert Hs. rewrite !elem_of_cons. tauto.
  - intros v. rewrite Hu, Hi, !lookup_insert. case_decide; [done|apply H6].
  - intros v. rewrite Hb, Hi, !lookup_insert. case_decide; [done|apply H7].
Qed.

Lemma v3_list_remove_sub t todos todos' :
  list_remove Nat.eqb t todos = Ret todos' → todos' `sublist_of` todos.
Proof.
  intros (l1 & y & l2 & -> & _ & _ & ->)%list_remove_Ret.
  apply sublist_app; [done|]. by apply sublist_cons.
Qed.

(** Taking a found task out of the user's list. *)
Lemma v3_remove_well_formed m u t todos' :
  is_Some (user_todos m !! u) →
  list_remove Nat.eqb t (live_tasks m u) = Ret todos' →
  well_formed m → well_formed (set_user_todos m u todos').
Proof.
  intros Hu Hr%v3_list_remove_sub Hwf.
  apply (v3_relist_well_formed m); try done.
  - intros v. left. rewrite v3_live_set_user_todos. by case_decide; subst.
  - intros v. by right.
  - intros v. simpl. rewrite lookup_insert. case_decide; [subst|]; intros ?.
    + by apply (wf_next_ids _ Hwf).
    + by apply (wf_next_ids _ Hwf).
  - apply (wf_backup_ids _ Hwf).
Qed.

Lemma v3_toggled_section o : section (toggled o) ∈ SECTION_KEYS.
Proof. unfold toggled, SECTION_KEYS. simpl. destruct (negb _); set_solver. Qed.

Lemma v3_apply_well_formed m o m' :
  well_formed m → admissible o → apply m o = Ret m' → well_formed m'.
Proof.
  intros Hwf Ha. destruct o as [u text|u n|u n|u n target|u n1 n2|u|u|u]; simpl.
  - destruct (add_todo m u text) as [[m1 t]|] eqn:E; simpl; [|done].
    intros [= <-]. by eapply v3_add_todo_well_formed.
  - destruct (remove_todo m u n) as [[m1 b]|] eqn:E; simpl; [|done].
    intros [= <-].
    apply v3_remove_todo_Ret in E as [(_ & -> & _)|(t & l' & _ & G & R & ->)];
      [done|].
    apply v3_get_Some in G as (_ & _ & G). by eapply v3_remove_well_formed.
  - intros [= <-]. unfold toggle_todo.
    destruct (get_todo_by_display_number m u n); simpl; [|done].
    apply v3_alter_well_formed; [intros; apply v3_toggled_section|done].
  - intros [= <-]. unfold move_todo_to_section.
    destruct (get_todo_by_display_number m u n); simpl; [|done].
    apply v3_alter_well_formed; [|done]. intros o _. exact Ha.
  - destruct (merge_todos m u n1 n2) as [[m1 b]|] eqn:E; simpl; [|done].
    intros [= <-].
    apply v3_merge_todos_Ret in E
      as [(_ & -> & _)|(t1 & t2 & l' & _ & _ & G1 & G2 & R & ->)]; [done|].
    apply v3_get_Some in G1 as (_ & _ & G1).
    eapply (v3_remove_well_formed _ u t2); [done|done|].
    by apply v3_alter_well_formed.
  - intros [= <-]. unfold clear_todos.
    destruct (user_todos m !! u) as [todos|] eqn:E; simpl; [|done].
    assert (Hn : is_Some (next_ids m !! u)) by (apply (wf_next_ids _ Hwf); eauto).
    destruct (0 <? _); (apply (v3_relist_well_formed m); [done|..|done]);
      v3_relist E Hwf.
  - intros [= <-]. unfold restore_backup.
    destruct (backups m !! u) as [[|t b]|] eqn:E; simpl; try done.
    assert (Hn : is_Some (next_ids m !! u)) by (apply (wf_backup_ids _ Hwf); eauto).
    apply (v3_relist_well_formed m); [done|..|done]; v3_relist E Hwf.
  - intros [= <-]. unfold continue_list.
    destruct (user_todos m !! u) as [todos|] eqn:E; simpl; [|done].
    assert (Hn : is_Some (next_ids m !! u)) by (apply (wf_next_ids _ Hwf); eauto).
    destruct (select m completed todos) as [|t c] eqn:Ec; simpl; [done|].
    apply (v3_relist_well_formed m); [done|..|done]; try rewrite <- Ec;
      v3_relist E Hwf.
Qed.

(** Every state reached by public operations is well formed. *)
Lemma v3_reachable_well_formed m : reachable m → well_formed m.
Proof.
  intros [log H]. induction H as [|log m o m' _ IH Ha E].
  - apply v3_well_formed_empty.
  - by eapply v3_apply_well_formed.
Qed.

End v3_invariants.

(* ================================================================== *)
(** * TodoManager (v3): the completed flag and the section             *)
(* ================================================================== *)

Section v3_flags.
Import ProdV3.
Implicit Types (m : TodoManager) (u v n : Z) (t : loc) (todos : list loc).

Lemma v3_toggled_flag o : flag_matches_section (toggled o).
Proof.
  unfold flag_matches_section, toggled. simpl.
  destruct (negb (crossed_out o)); split; done.
Qed.

Lemma v3_moved_to_flag target o : flag_matches_section (moved_to target o).
Proof.
  unfold flag_matches_section, moved_to, str_eqb. simpl.
  case_bool_decide; split; done.
Qed.

Lemma v3_merged_with_flag second_text o :
  flag_matches_section o → flag_matches_section (merged_with second_text o).
Proof. done. Qed.

Lemma v3_new_TodoItem_flag text next_id sec :
  sec ∈ [PURCHASE; GARAGE; VOLYNKA] → flag_matches_section (new_TodoItem text next_id sec).
Proof.
  unfold flag_matches_section. simpl. rewrite !elem_of_cons, elem_of_nil.
  intros [->|[->|[->|[]]]]; split; done.
Qed.

Lemma v3_consistent_empty : consistent empty_manager.
Proof.
  intros u t o. unfold live_tasks, backup_tasks. simpl.
  rewrite !lookup_empty. simpl. rewrite elem_of_nil. tauto.
Qed.

(** Changing the object of a task in place by a function that keeps
    flag and section in step. *)
Lemma v3_alter_consistent m f t :
  (∀ o, flag_matches_section o → flag_matches_section (f o)) →
  consistent m → consistent (set_objects m (alter f t (objects m))).
Proof.
  intros Hf Hc u t' o Hin Ho. simpl in Ho.
  destruct (decide (t = t')) as [->|Hne].
  - rewrite list_lookup_alter_eq in Ho.
    destruct (objects m !! t') as [o'|] eqn:Eo; simplify_eq/=.
    apply Hf. by eapply Hc.
  - rewrite list_lookup_alter_ne in Ho by done. by eapply Hc.
Qed.

(** Rearranging the lists without a new task in them. *)
Lemma v3_relist_consistent m m' :
  objects m' = objects m →
  (∀ v t, t ∈ live_tasks m' v ∨ t ∈ backup_tasks m' v →
          t ∈ live_tasks m v ∨ t ∈ backup_tasks m v) →
  consistent m → consistent m'.
Proof.
  intros Ho Hl Hc u t o Hin Hobj. rewrite Ho in Hobj.
  eapply Hc; [|done]. by apply Hl.
Qed.

Lemma v3_remove_consistent m u t todos' :
  list_remove Nat.eqb t (live_tasks m u) = Ret todos' →
  consistent m → consistent (set_user_todos m u todos').
Proof.
  intros Hr%v3_list_remove_sub. apply v3_relist_consistent; [done|].
  intros v t'. rewrite v3_live_set_user_todos. case_decide; [subst v|done].
  intros [H|H]; [left|by right]. by eapply elem_of_sublist.
Qed.

Lemma v3_add_todo_consistent m u text m' t :
  add_todo m u text = Ret (m', t) → consistent m → consistent m'.
Proof.
  intros (next_id & Hn & -> & Ho & Hu & Hi & Hb)%v3_add_todo_Ret Hc v t' o Hin Hobj.
  rewrite Ho in Hobj. apply lookup_app_Some in Hobj as [Hobj|[Hge Hobj]].
  - (* an object that was there before *)
    eapply (Hc v t'); [|done].
    revert Hin. unfold live_tasks, backup_tasks. rewrite Hu, Hb, lookup_insert.
    case_decide; [subst v|done]. simpl. rewrite elem_of_app, list_elem_of_singleton.
    intros [[H| ->]|H]; [by left| |by right].
    apply lookup_lt_Some in Hobj. lia.
  - (* the new object *)
    destruct (t' - length (objects m))%nat; simplify_eq/=.
    apply v3_new_TodoItem_flag, v3_section_and_text_active.
Qed.

(** Every public operation keeps the flag and the section in step. *)
Lemma v3_apply_consistent m o m' :
  consistent m → apply m o = Ret m' → consistent m'.
Proof.
  intros Hc. destruct o as [u text|u n|u n|u n target|u n1 n2|u|u|u]; simpl.
  - destruct (add_todo m u text) as [[m1 t]|] eqn:E; simpl; [|done].
    intros [= <-]. by eapply v3_add_todo_consistent.
  - destruct (remove_todo m u n) as [[m1 b]|] eqn:E; simpl; [|done].
    intros [= <-].
    apply v3_remove_todo_Ret in E as [(_ & -> & _)|(t & l' & _ & G & R & ->)];
      [done|]. by eapply v3_remove_consistent.
  - intros [= <-]. unfold toggle_todo.
    destruct (get_todo_by_display_number m u n); simpl; [|done].
    apply v3_alter_consistent; [intros; apply v3_toggled_flag|done].
  - intros [= <-]. unfold move_todo_to_section.
    destruct (get_todo_by_display_number m u n); simpl; [|done].
    apply v3_alter_consistent; [intros; apply v3_moved_to_flag|done].
  - destruct (merge_todos m u n1 n2) as [[m1 b]|] eqn:E; simpl; [|done].
    intros [= <-].
    apply v3_merge_todos_Ret in E
      as [(_ & -> & _)|(t1 & t2 & l' & _ & _ & G1 & G2 & R & ->)]; [done|].
    apply (v3_remove_consistent _ u t2); [done|].
    by apply v3_alter_consistent.
  - intros [= <-]. unfold clear_todos.
    destruct (user_todos m !! u) as [todos|] eqn:E; simpl; [|done].
    destruct (0 <? _); (eapply v3_relist_consistent; [| |exact Hc]; [done|]);
      v3_members E.
  - intros [= <-]. unfold restore_backup.
    destruct (backups m !! u) as [[|t b]|] eqn:E; simpl; try done.
    eapply v3_relist_consistent; [| |exact Hc]; [done|]. v3_members E.
  - intros [= <-]. unfold continue_list.
    destruct (user_todos m !! u) as [todos|] eqn:E; simpl; [|done].
    destruct (select m completed todos) as [|t c] eqn:Ec; simpl; [done|].
    eapply v3_relist_consistent; [| |exact Hc]; [done|].
    rewrite <- Ec. v3_members E.
Qed.

Lemma v3_reachable_consistent m : reachable m → consistent m.
Proof.
  intros [log H]. induction H as [|log m o m' _ IH Ha E].
  - apply v3_consistent_empty.
  - by eapply v3_apply_consistent.
Qed.

(** Toggling a task flips its flag, and toggling the same task again, under
    the number it has by then, gives the flag it had. *)
Lemma v3_toggle_twice m u n n' t o :
  get_todo_by_display_number m u n = Some t →
  objects m !! t = Some o →
  let m1 := (toggle_todo m u n).1 in
  get_todo_by_display_number m1 u n' = Some t →
  let m2 := (toggle_todo m1 u n').1 in
  ∃ o1 o2,
    objects m1 !! t = Some o1 ∧ crossed_out o1 = negb (crossed_out o)
    ∧ objects m2 !! t = Some o2 ∧ crossed_out o2 = crossed_out o.
Proof.
  intros G Ho m1 G1 m2. subst m2. unfold toggle_todo at 1. rewrite G1. simpl.
  subst m1. unfold toggle_todo. rewrite G. simpl.
  exists (toggled o), (toggled (toggled o)).
  rewrite !list_lookup_alter_eq, Ho. simpl.
  by rewrite negb_involutive.
Qed.

End v3_flags.

(* ================================================================== *)
(** * TodoManager (v3): display numbers                                *)
(* ================================================================== *)

Section v3_numbering.
Import ProdV3.
Implicit Types (m : TodoManager) (u v n : Z) (t : loc) (todos : list loc).

(** Two different section keys cannot both be the section of a task. *)
Ltac v3_two_keys :=
  match goal with
  | H1 : section ?o = _, H2 : section ?o = _ |- _ =>
      rewrite H1 in H2; apply (bool_decide_pack _) in H2; by vm_compute in H2
  end.

(** A task is listed in one part of the display order at most, and in one
    when its section is one of the four. *)
Lemma v3_parts_disjoint (o : TodoItem) :
  (active_in PURCHASE o = true → active_in GARAGE o = false
     ∧ active_in VOLYNKA o = false ∧ completed o = false)
  ∧ (active_in GARAGE o = true → active_in VOLYNKA o = false ∧ completed o = false)
  ∧ (active_in VOLYNKA o = true → completed o = false).
Proof.
  unfold active_in, completed, str_eqb.
  destruct (crossed_out o); simpl; rewrite ?andb_false_r; [done|].
  repeat case_bool_decide; simpl; try done; v3_two_keys.
Qed.

Lemma v3_parts_cover (o : TodoItem) :
  section o ∈ SECTION_KEYS →
  active_in PURCHASE o || active_in GARAGE o || active_in VOLYNKA o || completed o = true.
Proof.
  unfold SECTION_KEYS, active_in, completed, str_eqb.
  rewrite !elem_of_cons, elem_of_nil.
  destruct (crossed_out o); simpl; rewrite ?andb_false_r; [done|].
  intros [E|[E|[E|[E|[]]]]]; rewrite E; done.
Qed.

Lemma v3_ordered_NoDup m todos : NoDup todos → NoDup (ordered m todos).
Proof.
  intros Hnd. unfold ordered.
  assert (D : ∀ p q, (∀ o, p o = true → q o = false) →
            ∀ x, x ∈ select m p todos → x ∈ select m q todos → False).
  { intros p q Hpq x [_ Hp]%v3_elem_of_select [_ Hq]%v3_elem_of_select.
    apply v3_holds_object in Hp as (o & Ho & Hp).
    unfold holds in Hq. rewrite Ho in Hq. rewrite (Hpq o Hp) in Hq. done. }
  pose proof v3_parts_disjoint as P.
  repeat (apply NoDup_app; split; [by apply NoDup_filter|split]);
    try (by apply NoDup_filter);
    intros x Hx; rewrite ?elem_of_app; intros Hy; destruct_or?;
    (eapply D; [|exact Hx|exact Hy]); intros o Hp; destruct (P o) as (P1 & P2 & P3); tauto.
Qed.

Lemma v3_elem_of_ordered_iff m todos t :
  Forall (λ t, (t < length (objects m))%nat) todos →
  Forall (λ o, section o ∈ SECTION_KEYS) (objects m) →
  t ∈ ordered m todos ↔ t ∈ todos.
Proof.
  intros Hv Hs. split; [by intros []%v3_elem_of_ordered|].
  intros Ht. eapply Forall_forall in Hv; [|done].
  apply lookup_lt_is_Some in Hv as [o Ho].
  assert (Hk : section o ∈ SECTION_KEYS).
  { eapply Forall_forall in Hs; [done|]. by eapply list_elem_of_lookup_2. }
  apply v3_parts_cover in Hk.
  assert (Hh : ∀ p, p o = true → holds m p t = true).
  { intros p Hp. unfold holds. by rewrite Ho. }
  unfold ordered. rewrite !elem_of_app, !v3_elem_of_select.
  apply orb_true_iff in Hk as [Hk|Hk];
    [apply orb_true_iff in Hk as [Hk|Hk];
      [apply orb_true_iff in Hk as [Hk|Hk]|]|];
    apply Hh in Hk; tauto.
Qed.

(** In a well-formed manager the display order is a rearrangement of the
    user's list. *)
Lemma v3_ordered_Permutation m u :
  well_formed m → ordered m (live_tasks m u) ≡ₚ live_tasks m u.
Proof.
  intros Hwf. apply NoDup_Permutation.
  - apply v3_ordered_NoDup, (wf_nodup _ Hwf).
  - apply (wf_nodup _ Hwf).
  - intros t. apply v3_elem_of_ordered_iff; [apply (wf_live _ Hwf)|apply (wf_sections _ Hwf)].
Qed.

Lemma v3_ordered_length m u :
  well_formed m → length (ordered m (live_tasks m u)) = length (live_tasks m u).
Proof. intros Hwf. by rewrite v3_ordered_Permutation. Qed.

(** A number resolves exactly when it is between 1 and the number of tasks. *)
Lemma v3_get_is_Some m u n :
  well_formed m →
  is_Some (get_todo_by_display_number m u n)
  ↔ 1 ≤ n ≤ Z.of_nat (length (live_tasks m u)).
Proof.
  intros Hwf. rewrite <- (v3_ordered_length m u Hwf).
  rewrite <- not_eq_None_Some, v3_get_None. lia.
Qed.

(** Two numbers for one task are the same number. *)
Lemma v3_get_inj m u n1 n2 t :
  well_formed m →
  get_todo_by_display_number m u n1 = Some t →
  get_todo_by_display_number m u n2 = Some t → n1 = n2.
Proof.
  intros Hwf (H1 & L1 & _)%v3_get_Some (H2 & L2 & _)%v3_get_Some.
  assert (Z.to_nat (n1 - 1) = Z.to_nat (n2 - 1)); [|lia].
  eapply NoDup_lookup; [|exact L1|exact L2].
  apply v3_ordered_NoDup, (wf_nodup _ Hwf).
Qed.

(** Every task of the list has a number. *)
Lemma v3_get_surj m u t :
  well_formed m → t ∈ live_tasks m u →
  ∃ n, get_todo_by_display_number m u n = Some t.
Proof.
  intros Hwf Ht. pose proof Ht as Ht'.
  apply (v3_elem_of_ordered_iff m) in Ht;
    [|apply (wf_live _ Hwf)|apply (wf_sections _ Hwf)].
  apply list_elem_of_lookup in Ht as [i Hi].
  exists (Z.of_nat i + 1). apply v3_get_Some. repeat split; [lia| |].
  - by replace (Z.to_nat (Z.of_nat i + 1 - 1)) with i by lia.
  - unfold live_tasks in Ht'. destruct (user_todos m !! u); [done|].
    by apply elem_of_nil in Ht'.
Qed.

(** ** The numbers the formatted list prints *)

Lemma v3_entries_app l1 l2 : entries (l1 ++ l2) = entries l1 ++ entries l2.
Proof. unfold entries. apply omap_app. Qed.

Lemma v3_entries_number_from k struck todos :
  entries (number_from k struck todos) = imap (λ i t, (k + Z.of_nat i, t)) todos.
Proof.
  revert k. induction todos as [|t todos IH]; intros k; [done|].
  simpl. unfold entries in *. simpl. f_equal; [f_equal; lia|].
  rewrite IH. apply imap_ext. intros i x _. simpl. f_equal. lia.
Qed.

Lemma v3_format_section_entries title struck todos k :
  entries (format_section title struck todos k).1
    = imap (λ i t, (k + Z.of_nat i, t)) todos
  ∧ (format_section title struck todos k).2 = k + Z.of_nat (length todos).
Proof.
  destruct todos as [|t todos]; simpl; [split; [done|lia]|].
  split; [|done]. change (Header title :: ?l) with ([Header title] ++ l).
  unfold entries. simpl. f_equal; [f_equal; lia|].
  fold (entries (number_from (k + 1) struck todos)).
  rewrite v3_entries_number_from. apply imap_ext. intros i x _. simpl. f_equal. lia.
Qed.

(** The lines number the tasks of the display order from 1 on. *)
Lemma v3_format_lines_entries m todos :
  entries (format_lines m todos)
  = imap (λ i t, (1 + Z.of_nat i, t)) (ordered m todos).
Proof.
  unfold format_lines, ordered.
  set (s1 := select m (active_in PURCHASE) todos).
  set (s2 := select m (active_in GARAGE) todos).
  set (s3 := select m (active_in VOLYNKA) todos).
  set (s4 := select m completed todos).
  destruct (format_section TITLE_PURCHASE false s1 1) as [r1 k1] eqn:E1.
  destruct (format_section TITLE_GARAGE false s2 k1) as [r2 k2] eqn:E2.
  destruct (format_section TITLE_VOLYNKA false s3 k2) as [r3 k3] eqn:E3.
  destruct (format_section TITLE_DONE true s4 k3) as [r4 k4] eqn:E4.
  pose proof (v3_format_section_entries TITLE_PURCHASE false s1 1) as [A1 B1].
  pose proof (v3_format_section_entries TITLE_GARAGE false s2 k1) as [A2 B2].
  pose proof (v3_format_section_entries TITLE_VOLYNKA false s3 k2) as [A3 B3].
  pose proof (v3_format_section_entries TITLE_DONE true s4 k3) as [A4 B4].
  rewrite E1 in A1, B1. rewrite E2 in A2, B2. rewrite E3 in A3, B3.
  rewrite E4 in A4. simpl in *.
  rewrite !v3_entries_app, A1, A2, A3, A4, !imap_app. subst k1 k2 k3.
  repeat apply (f_equal2 app); apply imap_ext; intros i x _; simpl; f_equal;
    rewrite ?length_app; lia.
Qed.

(** The number printed next to a task is the number that resolves to it. *)
Lemma v3_printed_number m u n t :
  is_Some (user_todos m !! u) →
  (n, t) ∈ entries (format_lines m (live_tasks m u))
  ↔ get_todo_by_display_number m u n = Some t.
Proof.
  intros Hu. rewrite v3_format_lines_entries, v3_get_Some, elem_of_lookup_imap.
  split.
  - intros (i & t' & [= -> ->] & Hi). repeat split; [lia| |done].
    by replace (Z.to_nat (1 + Z.of_nat i - 1)) with i by lia.
  - intros (Hn & Hl & _). exists (Z.to_nat (n - 1)), t. split; [|done].
    f_equal. lia.
Qed.

End v3_numbering.

(* ================================================================== *)
(** * TodoManager (v3): merging, and the ids handed out                *)
(* ================================================================== *)

Section v3_merge_ids.
Import ProdV3.
Implicit Types (m : TodoManager) (u v n : Z) (t : loc) (todos : list loc).

(** merge_todos on two different tasks. *)
Lemma v3_merge_todos_distinct m u n1 n2 t1 t2 :
  well_formed m →
  get_todo_by_display_number m u n1 = Some t1 →
  get_todo_by_display_number m u n2 = Some t2 →
  t1 ≠ t2 →
  ∃ m' o1,
    merge_todos m u n1 n2 = Ret (m', true)
    ∧ objects m !! t1 = Some o1
    ∧ objects m' !! t1
        = Some (mkTodoItem (text o1 ++ utf8 " " ++ text_at m t2) (item_id o1)
                  (crossed_out o1) (section o1))
    ∧ (∀ t, t ≠ t1 → objects m' !! t = objects m !! t)
    ∧ live_tasks m' u = filter (λ t, t ≠ t2) (live_tasks m u)
    ∧ S (length (live_tasks m' u)) = length (live_tasks m u)
    ∧ (∀ v, v ≠ u → user_todos m' !! v = user_todos m !! v)
    ∧ next_ids m' = next_ids m ∧ backups m' = backups m.
Proof.
  intros Hwf G1 G2 Hne.
  destruct (v3_merge_todos_total m u n1 n2) as (m' & b & E).
  pose proof E as [(_ & _ & [H|[H|H]])|(t1' & t2' & l' & -> & _ & G1' & G2' & R & ->)]%v3_merge_todos_Ret;
    [congruence|congruence|congruence|].
  simplify_eq. pose proof G1 as [_ [o1 Ho1]]%v3_get_live.
  pose proof G2 as [Ht2 _]%v3_get_live.
  destruct (list_remove_loc t2 (live_tasks m u) Ht2 (wf_nodup _ Hwf u))
    as (l & Hl & -> & _ & Hlen).
  rewrite Hl in R. injection R as <-.
  exists (set_user_todos
            (set_objects m (alter (merged_with (text_at m t2)) t1 (objects m)))
            u (filter (λ y, y ≠ t2) (live_tasks m u))), o1.
  repeat split; try done.
  - simpl. by rewrite list_lookup_alter_eq, Ho1.
  - intros t Ht. simpl. by rewrite list_lookup_alter_ne.
  - rewrite v3_live_set_user_todos. by case_decide.
  - rewrite v3_live_set_user_todos. by case_decide.
  - intros v Hv. simpl. by rewrite lookup_insert_ne.
Qed.

(** merge_todos when a number does not resolve, or both resolve to one task. *)
Lemma v3_merge_todos_noop m u n1 n2 :
  get_todo_by_display_number m u n1 = None
  ∨ get_todo_by_display_number m u n2 = None
  ∨ get_todo_by_display_number m u n1 = get_todo_by_display_number m u n2 →
  merge_todos m u n1 n2 = Ret (m, false).
Proof.
  unfold merge_todos. intros [->|[H|H]]; [done| |].
  - rewrite H. by destruct (get_todo_by_display_number m u n1).
  - rewrite H. destruct (get_todo_by_display_number m u n2); [|done].
    by rewrite Nat.eqb_refl.
Qed.

(** ** Operations other than add_todo assign no id *)

Lemma v3_alter_item_id m f t t' :
  (∀ o, item_id (f o) = item_id o) →
  item_id <$> alter f t (objects m) !! t' = item_id <$> objects m !! t'.
Proof.
  intros Hf. destruct (decide (t = t')) as [->|Hne].
  - rewrite list_lookup_alter_eq. destruct (objects m !! t'); simpl; [|done].
    by rewrite Hf.
  - by rewrite list_lookup_alter_ne.
Qed.

(** What an operation other than add_todo leaves as it is: the next ids,
    the users with a list, the id of every object, and the tasks in the
    lists, of which there is no new one. *)
Lemma v3_apply_frame m o m' :
  (∀ u text, o ≠ DoAdd u text) → apply m o = Ret m' →
  next_ids m' = next_ids m
  ∧ (∀ v, is_Some (user_todos m !! v) → is_Some (user_todos m' !! v))
  ∧ (∀ t, item_id <$> objects m' !! t = item_id <$> objects m !! t)
  ∧ (∀ v t, t ∈ live_tasks m' v ∨ t ∈ backup_tasks m' v →
            t ∈ live_tasks m v ∨ t ∈ backup_tasks m v).
Proof.
  intros Hna. destruct o as [u text|u n|u n|u n target|u n1 n2|u|u|u]; simpl.
  - by destruct (Hna u text).
  - destruct (remove_todo m u n) as [[m1 b]|] eqn:E; simpl; [|done].
    intros [= <-].
    apply v3_remove_todo_Ret in E as [(_ & -> & _)|(t & l' & _ & G & R & ->)];
      [done|].
    apply v3_list_remove_sub in R. repeat split; try done.
    + intros v. simpl. rewrite lookup_insert. case_decide; eauto.
    + intros v t'. rewrite v3_live_set_user_todos. case_decide; [subst v|done].
      intros [H|H]; [left|by right]. by eapply elem_of_sublist.
  - intros [= <-]. unfold toggle_todo.
    destruct (get_todo_by_display_number m u n); simpl; [|done].
    repeat split; try done. intros t'. by apply v3_alter_item_id.
  - intros [= <-]. unfold move_todo_to_section.
    destruct (get_todo_by_display_number m u n); simpl; [|done].
    repeat split; try done. intros t'. by apply v3_alter_item_id.
  - destruct (merge_todos m u n1 n2) as [[m1 b]|] eqn:E; simpl; [|done].
    intros [= <-].
    apply v3_merge_todos_Ret in E
      as [(_ & -> & _)|(t1 & t2 & l' & _ & _ & G1 & G2 & R & ->)]; [done|].
    apply v3_list_remove_sub in R. repeat split; try done.
    + intros v. simpl. rewrite lookup_insert. case_decide; eauto.
    + intros t'. simpl. by apply v3_alter_item_id.
    + intros v t'. unfold live_tasks at 1, backup_tasks at 1. simpl.
      rewrite lookup_insert. case_decide; [subst v|done]. simpl.
      intros [H|H]; [left|by right]. by eapply elem_of_sublist.
  - intros [= <-]. unfold clear_todos.
    destruct (user_todos m !! u) as [todos|] eqn:E; simpl; [|done].
    destruct (0 <? _); (repeat split; simpl; try done);
      try (intros v; rewrite lookup_insert; case_decide; by eauto);
      v3_members E.
  - intros [= <-]. unfold restore_backup.
    destruct (backups m !! u) as [[|t b]|] eqn:E; simpl; try done.
    repeat split; simpl; try done;
      try (intros v; rewrite lookup_insert; case_decide; by eauto);
      v3_members E.
  - intros [= <-]. unfold continue_list.
    destruct (user_todos m !! u) as [todos|] eqn:E; simpl; [|done].
    destruct (select m completed todos) as [|t c] eqn:Ec; simpl; [done|].
    repeat split; simpl; try done;
      try (intros v; rewrite lookup_insert; case_decide; by eauto);
      rewrite <- Ec; v3_members E.
Qed.

End v3_merge_ids.

(* ================================================================== *)
(** * TodoManager (v3): the next id exceeds every id handed out        *)
(* ================================================================== *)

Section v3_history.
Import ProdV3.
Implicit Types (m : TodoManager) (u v n : Z) (t : loc) (log : list (Z * Z)).

Lemma v3_history_reachable log m : history log m → reachable m.
Proof. intros H. by exists log. Qed.

Lemma v3_assigned_not_add m o :
  (∀ u text, o ≠ DoAdd u text) → assigned m o = [].
Proof. intros H. destruct o as [u text| | | | | | |]; try done. by destruct (H u text). Qed.

Lemma v3_ids_recorded_add log m u text m' t :
  well_formed m → ids_recorded log m →
  add_todo m u text = Ret (m', t) →
  ids_recorded (assigned m (DoAdd u text) ++ log) m'.
Proof.
  intros Hwf [R1 R2 R3] E. simpl. rewrite E.
  apply v3_add_todo_Ret in E as (next_id & Hn & -> & Ho & Hu & Hi & Hb).
  rewrite Ho, lookup_app_r, Nat.sub_diag by done. simpl.
  assert (Hfresh : ∀ i, (u, i) ∈ log → i < next_id).
  { intros i [[x Hx] (k & Hk & Hlt)]%R2. rewrite Hx in Hn. congruence. }
  split.
  - apply NoDup_cons. split; [|done]. intros H%Hfresh. lia.
  - intros v i. rewrite Hu, Hi, !lookup_insert, elem_of_cons.
    destruct (decide (u = v)) as [<-|Hd].
    + intros Hin. split; [done|]. exists (next_id + 1). split; [done|].
      destruct Hin as [[= ->]|Hin%Hfresh]; lia.
    + intros [[= -> ->]|Hin]; [done|]. by apply R2.
  - intros v t o Hin Hobj. rewrite Ho in Hobj.
    assert (Hold : t ∈ live_tasks m v ∨ t ∈ backup_tasks m v → (t < length (objects m))%nat).
    { intros [H|H]; [pose proof (wf_live _ Hwf v) as F|pose proof (wf_backup _ Hwf v) as F];
        eapply Forall_forall in F; done. }
    revert Hin. unfold live_tasks at 1, backup_tasks at 1.
    rewrite Hu, Hb, lookup_insert. fold (backup_tasks m v).
    destruct (decide (u = v)) as [<-|Hd]; [simpl|fold (live_tasks m v)].
    + rewrite elem_of_app, list_elem_of_singleton. intros [[H| ->]|H].
      * rewrite lookup_app_l in Hobj by (apply Hold; by left).
        right. eapply R3; [|done]. by left.
      * rewrite lookup_app_r, Nat.sub_diag in Hobj by done.
        simplify_eq/=. by left.
      * rewrite lookup_app_l in Hobj by (apply Hold; by right).
        right. eapply R3; [|done]. by right.
    + intros Hin. rewrite lookup_app_l in Hobj by (by apply Hold).
      right. by eapply R3.
Qed.

Lemma v3_ids_recorded_frame log m o m' :
  ids_recorded log m → (∀ u text, o ≠ DoAdd u text) →
  apply m o = Ret m' → ids_recorded (assigned m o ++ log) m'.
Proof.
  intros [R1 R2 R3] Hna E. rewrite (v3_assigned_not_add _ _ Hna). simpl.
  apply v3_apply_frame in E as (Hn & Hu & Hid & Hl); [|done].
  split; [done| |].
  - intros u i [H1 H2]%R2. rewrite Hn. split; [by apply Hu|done].
  - intros u t o' Hin Hobj. apply Hl in Hin.
    specialize (Hid t). rewrite Hobj in Hid. simpl in Hid.
    destruct (objects m !! t) as [o0|] eqn:E0; simplify_eq/=.
    rewrite Hid. by eapply R3.
Qed.

Lemma v3_history_ids_recorded log m : history log m → ids_recorded log m.
Proof.
  intros H. induction H as [|log m o m' H IH Ha E].
  - split; [constructor| |].
    + intros u i Hin. by apply elem_of_nil in Hin.
    + intros u t o. unfold live_tasks, backup_tasks. simpl.
      rewrite !lookup_empty. simpl. rewrite elem_of_nil. tauto.
  - assert ((∃ u text, o = DoAdd u text) ∨ (∀ u text, o ≠ DoAdd u text))
      as [(u & text & ->)|Hna] by (destruct o; eauto; by right).
    + simpl in E. destruct (add_todo m u text) as [[m1 t]|] eqn:Ea; simplify_eq/=.
      eapply v3_ids_recorded_add; [|done|done].
      by eapply v3_reachable_well_formed, v3_history_reachable.
    + by apply v3_ids_recorded_frame.
Qed.

End v3_history.

(* ================================================================== *)
(** * CleanTodoBot (v3): commands whose numbers do not resolve         *)
(* ================================================================== *)

Section v3_handler.
Import ProdV3.
Implicit Types (m : TodoManager) (u n : Z) (s ds text : str) (c : N).

(** A text that starts with a digit or with "-" is none of the menu labels. *)
Lemma v3_numeric_not_menu c s :
  cp_isdigit c = true ∨ c = 45%N →
  str_eqb (c :: s) MENU = false ∧ str_eqb (c :: s) BACK = false
  ∧ is_in (c :: s) LIST_LABELS = false ∧ is_in (c :: s) NEW_LABELS = false
  ∧ is_in (c :: s) RESTORE_LABELS = false ∧ is_in (c :: s) CONTINUE_LABELS = false.
Proof.
  intros Hc.
  assert (H : ∀ a l, cp_isdigit a = false → a ≠ 45%N → str_eqb (c :: s) (a :: l) = false).
  { intros a l Ha Hne. unfold str_eqb. apply bool_decide_eq_false.
    intros [= -> ->]. destruct Hc; congruence. }
  unfold is_in, MENU, BACK, LIST_LABELS, NEW_LABELS, RESTORE_LABELS, CONTINUE_LABELS.
  simpl. rewrite !H by (by vm_compute). done.
Qed.

Lemma v3_handle_message_numeric m u c s :
  cp_isdigit c = true ∨ c = 45%N → strip (c :: s) = c :: s →
  handle_message m u (c :: s) = _handle_number_commands m u (c :: s).
Proof.
  intros Hc Hs. unfold handle_message. rewrite Hs.
  destruct (v3_numeric_not_menu c s Hc) as (-> & -> & -> & -> & -> & ->). done.
Qed.

Lemma v3_startswith_minus c s :
  cp_isdigit c = true → startswith (utf8 "-") (c :: s) = false.
Proof.
  intros Hc. apply startswith_cons_false. intros <-. by vm_compute in Hc.
Qed.

Lemma v3_delete_unresolved m u ds n :
  isdigit ds = true → int ds = Ret n →
  get_todo_by_display_number m u n = None →
  _handle_number_commands m u (45%N :: ds) = Ret (m, None).
Proof.
  intros Hd Hi Hg. unfold _handle_number_commands.
  change (startswith (utf8 "-") (45%N :: ds)) with true.
  change (drop 1 (45%N :: ds)) with ds. rewrite Hd, Hi. simpl.
  unfold remove_todo. by rewrite Hg.
Qed.

Lemma v3_toggle_unresolved m u ds n :
  isdigit ds = true → int ds = Ret n →
  get_todo_by_display_number m u n = None →
  _handle_number_commands m u ds = Ret (m, None).
Proof.
  intros Hd Hi Hg. unfold _handle_number_commands.
  pose proof Hd as (c & s & -> & Hc & _)%isdigit_inv.
  rewrite v3_startswith_minus by done. rewrite andb_false_l. cbv iota.
  rewrite Hd, Hi. simpl. unfold toggle_todo. by rewrite Hg.
Qed.

Lemma v3_marker_not_digit c : c ∈ MARKERS → cp_isdigit c = false.
Proof.
  unfold MARKERS. rewrite !elem_of_cons, elem_of_nil.
  intros [->|[->|[->|[]]]]; by vm_compute.
Qed.

(** A string of digits and one more character: the branch of the moves. *)
Lemma v3_digits_and_suffix m u ds c :
  isdigit ds = true → cp_isdigit c = false →
  _handle_number_commands m u (ds ++ [c])
  = num ← int ds;
    match
      (if bool_decide (Some c = Some 1075%N) then Some GARAGE
       else if bool_decide (Some c = Some 1074%N) then Some VOLYNKA
       else if bool_decide (Some c = Some 1079%N) then Some PURCHASE
       else None)
    with
    | Some target =>
        let '(m', moved) := move_todo_to_section m u num target in
        Ret (m', if moved : bool then list_reply m' u else None)
    | None => Ret (m, None)
    end.
Proof.
  intros Hd Hc. unfold _handle_number_commands.
  pose proof Hd as (a & s & -> & Ha & _)%isdigit_inv.
  change ((a :: s) ++ [c]) with (a :: (s ++ [c])).
  rewrite v3_startswith_minus by done. rewrite andb_false_l. cbv iota.
  change (a :: (s ++ [c])) with ((a :: s) ++ [c]).
  rewrite isdigit_snoc_false by done.
  rewrite but_last_snoc, last_char_snoc, Hd.
  replace (1 <? Z.of_nat (length ((a :: s) ++ [c]))) with true; [done|].
  symmetry. apply Z.ltb_lt. rewrite length_app. simpl. lia.
Qed.

Lemma v3_move_unresolved m u ds n c :
  isdigit ds = true → int ds = Ret n → c ∈ MARKERS →
  get_todo_by_display_number m u n = None →
  _handle_number_commands m u (ds ++ [c]) = Ret (m, None).
Proof.
  intros Hd Hi Hc Hg.
  rewrite v3_digits_and_suffix by (done || by apply v3_marker_not_digit).
  rewrite Hi. simpl. unfold move_todo_to_section. rewrite Hg.
  repeat case_bool_decide; done.
Qed.

Lemma v3_plus_not_in_digits ds : isdigit ds = true → ¬ In PLUS ds.
Proof. intros Hd Hin. by pose proof (isdigit_forall _ _ Hd Hin). Qed.

Lemma v3_merge_unresolved m u d1 d2 n1 n2 :
  isdigit d1 = true → isdigit d2 = true → int d1 = Ret n1 → int d2 = Ret n2 →
  get_todo_by_display_number m u n1 = None
  ∨ get_todo_by_display_number m u n2 = None
  ∨ get_todo_by_display_number m u n1 = get_todo_by_display_number m u n2 →
  _handle_number_commands m u (d1 ++ PLUS :: d2) = Ret (m, None).
Proof.
  intros H1 H2 I1 I2 Hg. unfold _handle_number_commands.
  pose proof H1 as (a & s & -> & Ha & _)%isdigit_inv.
  change ((a :: s) ++ PLUS :: d2) with (a :: (s ++ PLUS :: d2)).
  rewrite v3_startswith_minus by done. rewrite andb_false_l. cbv iota.
  change (a :: (s ++ PLUS :: d2)) with ((a :: s) ++ PLUS :: d2).
  rewrite isdigit_middle_false by done.
  assert (Hb : isdigit (but_last ((a :: s) ++ PLUS :: d2)) = false).
  { unfold but_last.
    destruct (exists_last (l := PLUS :: d2)) as (k & z & E); [done|].
    rewrite E, app_assoc, removelast_last.
    destruct k as [|b k].
    - injection E as _ ->. done.
    - injection E as <- _. by apply (isdigit_middle_false (a :: s) k PLUS). }
  rewrite Hb, andb_false_r, contains_middle.
  rewrite split_middle by (by apply v3_plus_not_in_digits).
  rewrite H1, H2, andb_true_l. cbv iota beta. rewrite I1, I2.
  unfold mbind, res_bind. by rewrite v3_merge_todos_noop.
Qed.

(** No command that resolves to no task changes the manager, and none is
    answered. *)
Lemma v3_unresolved_command m u text cmd :
  spells text cmd → unresolved (get_todo_by_display_number m u) cmd →
  handle_message m u text = Ret (m, None).
Proof.
  intros Hs Hu. destruct Hs as [ds n Hd Hi|ds n Hd Hi|d1 d2 n1 n2 H1 H2 I1 I2|ds n c Hd Hi Hc];
    simpl in Hu.
  - rewrite v3_handle_message_numeric; [by eapply v3_delete_unresolved|by right|].
    eapply (strip_id _ _ (List.last (45%N :: ds) 45%N)); [done| |done].
    apply digit_not_space. eapply isdigit_forall; [exact Hd|].
    apply (last_in_tail [45%N] ds). by intros ->.
  - pose proof Hd as (a & s & -> & Ha & Hrest)%isdigit_inv.
    rewrite v3_handle_message_numeric; [by eapply v3_toggle_unresolved|by left|].
    eapply (strip_id _ _ (List.last (a :: s) a)); [by apply digit_not_space| |done].
    apply digit_not_space. eapply isdigit_forall; [exact Hd|].
    by apply (last_in_tail [] (a :: s)).
  - pose proof H1 as (a & s & -> & Ha & Hrest)%isdigit_inv.
    change ((a :: s) ++ PLUS :: d2) with (a :: (s ++ PLUS :: d2)).
    rewrite v3_handle_message_numeric; [|by left|].
    + change (a :: (s ++ PLUS :: d2)) with ((a :: s) ++ PLUS :: d2).
      eapply v3_merge_unresolved; try done. tauto.
    + eapply (strip_id _ _ (List.last (a :: s ++ PLUS :: d2) a));
        [by apply digit_not_space| |done].
      apply digit_not_space. eapply isdigit_forall; [exact H2|].
      apply (last_in_tail_cons (a :: s) d2). by intros ->.
  - pose proof Hd as (a & s & -> & Ha & Hrest)%isdigit_inv.
    change ((a :: s) ++ [c]) with (a :: (s ++ [c])).
    rewrite v3_handle_message_numeric; [|by left|].
    + change (a :: (s ++ [c])) with ((a :: s) ++ [c]).
      by eapply v3_move_unresolved.
    + eapply (strip_id _ _ c); [by apply digit_not_space| |].
      * revert Hc. unfold MARKERS. rewrite !elem_of_cons, elem_of_nil.
        intros [->|[->|[->|[]]]]; by vm_compute.
      * change (a :: s ++ [c]) with ((a :: s) ++ [c]). apply last_last.
Qed.

End v3_handler.

(* ================================================================== *)
(** * Digits followed by a character that is no marker                 *)
(* ================================================================== *)

Section v3_fallthrough.
Import ProdV3.
Implicit Types (m : TodoManager) (u n : Z) (s ds text : str) (c : N).

(** The v3 bot takes such a text for a move, finds no section for its
    suffix and returns: nothing is added and nothing is sent. *)
Lemma v3_digits_other_suffix m u ds n c :
  isdigit ds = true → int ds = Ret n → cp_isdigit c = false → c ∉ MARKERS →
  _handle_number_commands m u (ds ++ [c]) = Ret (m, None).
Proof.
  intros Hd Hi Hc Hm. rewrite v3_digits_and_suffix, Hi by done.
  unfold mbind, res_bind.
  revert Hm. unfold MARKERS. rewrite !not_elem_of_cons. intros (H1 & H2 & H3 & _).
  repeat case_bool_decide; congruence.
Qed.

Lemma v3_digits_other_suffix_message m u ds n c :
  isdigit ds = true → int ds = Ret n →
  cp_isdigit c = false → cp_isspace c = false → c ∉ MARKERS →
  handle_message m u (ds ++ [c]) = Ret (m, None).
Proof.
  intros Hd Hi Hc Hs Hm.
  pose proof Hd as (a & s & -> & Ha & Hrest)%isdigit_inv.
  change ((a :: s) ++ [c]) with (a :: (s ++ [c])).
  rewrite v3_handle_message_numeric; [|by left|].
  - change (a :: (s ++ [c])) with ((a :: s) ++ [c]).
    by eapply v3_digits_other_suffix.
  - eapply (strip_id _ _ c); [by apply digit_not_space|done|].
    change (a :: s ++ [c]) with ((a :: s) ++ [c]). apply last_last.
Qed.

End v3_fallthrough.

Section v1_fallthrough.
Import Prod.
Implicit Types (u : user_data) (n : Z) (s ds text : str) (c : N).

Lemma v1_numeric_not_menu c s :
  cp_isdigit c = true ∨ c = 45%N →
  str_eqb (c :: s) MENU = false ∧ str_eqb (c :: s) BACK = false
  ∧ str_eqb (c :: s) LIST = false ∧ str_eqb (c :: s) NEW = false
  ∧ str_eqb (c :: s) RESTORE = false ∧ str_eqb (c :: s) CONTINUE = false
  ∧ str_eqb (c :: s) HELP = false ∧ str_eqb (c :: s) SETTINGS = false.
Proof.
  intros Hc.
  assert (H : ∀ a l, cp_isdigit a = false → a ≠ 45%N → str_eqb (c :: s) (a :: l) = false).
  { intros a l Ha Hne. unfold str_eqb. apply bool_decide_eq_false.
    intros [= -> ->]. destruct Hc; congruence. }
  unfold MENU, BACK, LIST, NEW, RESTORE, CONTINUE, HELP, SETTINGS.
  rewrite !H by (by vm_compute). done.
Qed.

(** handle_todo_command returns [False] for such a text. *)
Lemma v1_digits_other_suffix_command u ds c :
  isdigit ds = true → cp_isdigit c = false → c ∉ MARKERS → c ≠ PLUS →
  handle_todo_command u (ds ++ [c]) = Ret (u, false).
Proof.
  intros Hd Hc Hm Hp. unfold handle_todo_command.
  pose proof Hd as (a & s & -> & Ha & _)%isdigit_inv.
  change ((a :: s) ++ [c]) with (a :: (s ++ [c])).
  rewrite v3_startswith_minus by done. rewrite andb_false_l. cbv iota.
  change (a :: (s ++ [c])) with ((a :: s) ++ [c]).
  rewrite isdigit_snoc_false by done.
  rewrite contains_false.
  2:{ intros [Hin| [->|[]]]%in_app_or; [|done].
      by pose proof (isdigit_forall _ _ Hd Hin). }
  revert Hm. unfold MARKERS. rewrite !not_elem_of_cons. intros (H1 & H2 & H3 & _).
  change (utf8 "з") with [1079%N]. change (utf8 "г") with [1075%N].
  change (utf8 "в") with [1074%N]. rewrite !endswith_single.
  destruct (N.eqb_spec 1079 c); [congruence|].
  destruct (N.eqb_spec 1075 c); [congruence|].
  destruct (N.eqb_spec 1074 c); [congruence|]. done.
Qed.

(** So the v1 bot adds the text as a task of the first section. *)
Lemma v1_digits_other_suffix u ds c :
  isdigit ds = true → cp_isdigit c = false → cp_isspace c = false →
  c ∉ MARKERS → c ≠ PLUS →
  let u' :=
    mkUserData (dicts u ++ [mkTodo (next_id u) (ds ++ [c]) 0 false])
      (todos u ++ [length (dicts u)]) (next_id u + 1) (backup_todos u) in
  handle_text u (ds ++ [c]) = Ret (u', list_reply u').
Proof.
  intros Hd Hc Hs Hm Hp.
  pose proof Hd as (a & s & -> & Ha & _)%isdigit_inv. intros u'.
  unfold handle_text.
  destruct (v1_numeric_not_menu a (s ++ [c]) (or_introl Ha))
    as (M1 & M2 & M3 & M4 & M5 & M6 & M7 & M8).
  change (a :: (s ++ [c])) with ((a :: s) ++ [c]) in *.
  rewrite M1, M2, M3, M4, M5, M6, M7, M8.
  rewrite v1_digits_other_suffix_command by done.
  unfold mbind, res_bind. cbv iota beta.
  assert (Hadd : add_todo_from_text u ((a :: s) ++ [c]) = u'); [|by rewrite Hadd].
  unfold add_todo_from_text, nonblank_lines.
  assert (Hstrip : strip ((a :: s) ++ [c]) = (a :: s) ++ [c]).
  { change ((a :: s) ++ [c]) with (a :: (s ++ [c])).
    eapply (strip_id _ _ c); [by apply digit_not_space|done|].
    change (a :: s ++ [c]) with ((a :: s) ++ [c]). apply last_last. }
  rewrite split_no_sep.
  2:{ intros [Hin| [->|[]]]%in_app_or; [|done].
      by pose proof (isdigit_forall _ _ Hd Hin). }
  change (map strip [(a :: s) ++ [c]]) with [strip ((a :: s) ++ [c])].
  rewrite Hstrip, filter_cons_True by done. rewrite filter_nil.
  change (fold_left add_line [(a :: s) ++ [c]] u) with (add_line u ((a :: s) ++ [c])).
  unfold add_line, section_and_text.
  assert (Hbang : ∀ p, startswith (33%N :: p) ((a :: s) ++ [c]) = false).
  { intros p.
    change (startswith (33%N :: p) ((a :: s) ++ [c]))
      with ((33 =? a)%N && startswith p (s ++ [c])).
    destruct (N.eqb_spec 33 a) as [<-|]; [|done]. by vm_compute in Ha. }
  change (utf8 "!!") with [33%N; 33%N]. change (utf8 "!") with [33%N].
  rewrite !Hbang. done.
Qed.

End v1_fallthrough.

(* ================================================================== *)
(** * TodoBot (v1): lookups and the backup                             *)
(* ================================================================== *)

Section v1_store.
Import Prod.
Implicit Types (u : user_data) (n k : Z) (t : loc) (l : list loc).

Lemma v1_scan_Some k n l t :
  scan k n l = Some t ↔ k ≤ n ∧ l !! Z.to_nat (n - k) = Some t.
Proof.
  revert k. induction l as [|a l IH]; intros k; simpl.
  - split; [done|]. by intros [_ ?].
  - destruct (k =? n) eqn:E.
    + apply Z.eqb_eq in E as ->. rewrite Z.sub_diag. simpl.
      split; [intros [= ->]; split; [lia|done]|by intros [_ [= ->]]].
    + apply Z.eqb_neq in E. rewrite IH. split.
      * intros [H1 H2]. split; [lia|].
        replace (Z.to_nat (n - k)) with (S (Z.to_nat (n - (k + 1)))) by lia. done.
      * intros [H1 H2]. split; [lia|].
        replace (Z.to_nat (n - k)) with (S (Z.to_nat (n - (k + 1)))) in H2 by lia.
        done.
Qed.

Lemma v1_display_order u :
  display_order u = bucket u 0 ++ bucket u 1 ++ bucket u 2 ++ bucket u 3.
Proof. unfold display_order, todos_by_section. simpl. by rewrite app_nil_r. Qed.

Lemma v1_elem_of_bucket u i t :
  t ∈ bucket u i ↔ t ∈ todos u ∧ holds u (in_section i) t = true.
Proof. unfold bucket. rewrite list_elem_of_filter, Is_true_true. tauto. Qed.

Lemma v1_holds_dict u p t :
  holds u p t = true → ∃ d, dicts u !! t = Some d ∧ p d = true.
Proof. unfold holds. destruct (dicts u !! t); [eauto|done]. Qed.

Lemma v1_elem_of_display_order u t :
  t ∈ display_order u → t ∈ todos u ∧ ∃ d, dicts u !! t = Some d.
Proof.
  rewrite v1_display_order, !elem_of_app, !v1_elem_of_bucket.
  intros [[? H]|[[? H]|[[? H]|[? H]]]];
    (split; [done|]); apply v1_holds_dict in H as (d & ? & _); eauto.
Qed.

(** The lookup is the [n]-th element of the display order, counted from 1. *)
Lemma v1_get_Some u n t :
  get_todo_by_display_number u n = Some t ↔
  1 ≤ n ∧ display_order u !! Z.to_nat (n - 1) = Some t.
Proof. unfold get_todo_by_display_number. apply v1_scan_Some. Qed.

Lemma v1_get_None u n :
  get_todo_by_display_number u n = None ↔
  n < 1 ∨ Z.of_nat (length (display_order u)) < n.
Proof.
  rewrite eq_None_not_Some. unfold is_Some.
  split.
  - intros H. destruct (decide (1 ≤ n)); [|lia]. right.
    destruct (display_order u !! Z.to_nat (n - 1)) as [t|] eqn:E.
    + destruct H. exists t. by apply v1_get_Some.
    + apply lookup_ge_None in E. lia.
  - intros H [t (H1 & H2%lookup_lt_Some)%v1_get_Some]. lia.
Qed.

Lemma v1_get_live u n t :
  get_todo_by_display_number u n = Some t →
  t ∈ todos u ∧ ∃ d, dicts u !! t = Some d.
Proof.
  intros (_ & H)%v1_get_Some.
  apply list_elem_of_lookup_2 in H. by apply v1_elem_of_display_order.
Qed.

(** ** create_new_list *)

Lemma v1_create_new_list_spec u :
  let u' := create_new_list u in
  todos u' = [] ∧ backup_todos u' = Some (todos u) ∧ next_id u' = 1
  ∧ dicts u' = dicts u.
Proof. done. Qed.

(** ** restore_last_list *)

Lemma v1_restore_last_list_spec u :
  let u' := restore_last_list u in
  dicts u' = dicts u ∧ backup_todos u' = backup_todos u
  ∧ match backup_todos u with
    | Some backup =>
        todos u' = backup
        ∧ next_id u' = match backup with
                       | [] => next_id u
                       | _ => max_of (ids_of u backup) + 1
                       end
    | None => u' = u
    end.
Proof.
  unfold restore_last_list.
  destruct (backup_todos u) as [[|t b]|] eqn:E; simpl; rewrite ?E; done.
Qed.

(** ** continue_list *)

Lemma v1_continue_list_spec u :
  let u' := continue_list u in
  todos u' = filter (λ t, holds u (λ d, negb (section d =? 3)) t) (todos u)
  ∧ dicts u' = dicts u ∧ next_id u' = next_id u
  ∧ backup_todos u' = backup_todos u.
Proof. done. Qed.

(** Where every task of the list has its dictionary, the tasks that stay are
    those that are not in the section of the done. *)
Lemma v1_continue_list_filter u :
  Forall (λ t, (t < length (dicts u))%nat) (todos u) →
  todos (continue_list u) = filter (λ t, ¬ holds u (in_section 3) t) (todos u).
Proof.
  intros Hv. simpl. induction Hv as [|a l Ha _ IH]; [done|].
  rewrite !filter_cons, IH.
  apply lookup_lt_is_Some in Ha as [d Hd].
  assert (E : holds u (λ d, negb (section d =? 3)) a = negb (holds u (in_section 3) a)).
  { unfold holds. by rewrite Hd. }
  rewrite E. destruct (holds u (in_section 3) a); simpl; repeat case_decide; naive_solver.
Qed.

End v1_store.

(* ================================================================== *)
(** * TodoBot (v1): ids, and what each operation does                  *)
(* ================================================================== *)

Section v1_ops.
Import Prod.
Implicit Types (u : user_data) (n k : Z) (t : loc) (l : list loc) (d : todo).

Lemma list_remove_ext {A} (eqb1 eqb2 : A → A → bool) x (l : list A) :
  (∀ y, y ∈ l → eqb1 y x = eqb2 y x) →
  list_remove eqb1 x l = list_remove eqb2 x l.
Proof.
  induction l as [|a l IH]; intros H; simpl; [done|].
  rewrite (H a) by left. rewrite IH; [done|]. intros y Hy. apply H. by right.
Qed.

(** ** The ids of the tasks of a list *)

Lemma v1_ids_of_app u l1 l2 : ids_of u (l1 ++ l2) = ids_of u l1 ++ ids_of u l2.
Proof. apply omap_app. Qed.

Lemma v1_ids_of_ext u u' l :
  (∀ t, t ∈ l → id <$> dicts u' !! t = id <$> dicts u !! t) →
  ids_of u' l = ids_of u l.
Proof.
  unfold ids_of. induction l as [|a l IH]; intros H; [done|]. csimpl.
  rewrite (H a) by left. rewrite IH; [done|]. intros t Ht. apply H. by right.
Qed.

Lemma v1_elem_of_ids_of u l i :
  i ∈ ids_of u l ↔ ∃ t d, t ∈ l ∧ dicts u !! t = Some d ∧ id d = i.
Proof.
  unfold ids_of. rewrite list_elem_of_omap. split.
  - intros (t & Ht & E). destruct (dicts u !! t) as [d|] eqn:Ed; simplify_eq/=. eauto.
  - intros (t & d & Ht & Ed & <-). exists t. by rewrite Ed.
Qed.

Lemma v1_ids_of_sublist u l1 l2 :
  l1 `sublist_of` l2 → ids_of u l1 `sublist_of` ids_of u l2.
Proof.
  unfold ids_of. induction 1 as [|x l1 l2 _ IH|x l1 l2 _ IH]; csimpl.
  - done.
  - destruct (id <$> dicts u !! x); [by apply sublist_skip|done].
  - destruct (id <$> dicts u !! x); [by apply sublist_cons|done].
Qed.

(** Two tasks of a list without a repeated id that have the same id are
    the same task. *)
Lemma v1_ids_inj u l t1 t2 d1 d2 :
  NoDup (ids_of u l) → t1 ∈ l → t2 ∈ l →
  dicts u !! t1 = Some d1 → dicts u !! t2 = Some d2 → id d1 = id d2 → t1 = t2.
Proof.
  unfold ids_of. induction l as [|a l IH]; intros Hnd H1 H2 E1 E2 Hid.
  - by apply elem_of_nil in H1.
  - csimpl in Hnd. destruct (dicts u !! a) as [da|] eqn:Ea; csimpl in Hnd.
    + apply NoDup_cons in Hnd as [Hna Hnd].
      apply elem_of_cons in H1 as [->|H1]; apply elem_of_cons in H2 as [->|H2];
        [done| | |by apply IH].
      * destruct Hna. apply v1_elem_of_ids_of. exists t2, d2. simplify_eq. eauto.
      * destruct Hna. apply v1_elem_of_ids_of. exists t1, d1. simplify_eq. eauto.
    + apply elem_of_cons in H1 as [->|H1]; [congruence|].
      apply elem_of_cons in H2 as [->|H2]; [congruence|]. by apply IH.
Qed.

(** In such a list, equal contents means the same task, so that [remove]
    takes out the task it is given. *)
Lemma v1_list_remove_identity u l t :
  NoDup (ids_of u l) → Forall (λ t, (t < length (dicts u))%nat) l → t ∈ l →
  list_remove (dict_eqb u) t l = list_remove Nat.eqb t l.
Proof.
  intros Hnd Hv Ht. apply list_remove_ext. intros y Hy.
  unfold dict_eqb. destruct (Nat.eqb_spec y t) as [->|Hne].
  - by apply bool_decide_eq_true.
  - apply bool_decide_eq_false. intros E.
    pose proof Hv as Hv'. eapply Forall_forall in Hv; [|exact Hy].
    eapply Forall_forall in Hv'; [|exact Ht].
    apply lookup_lt_is_Some in Hv as [dy Hdy].
    apply lookup_lt_is_Some in Hv' as [dt Hdt].
    apply Hne. eapply (v1_ids_inj u l); try done. congruence.
Qed.

Lemma v1_list_remove_sub u t l l' :
  list_remove (dict_eqb u) t l = Ret l' → l' `sublist_of` l.
Proof.
  intros (l1 & y & l2 & -> & _ & _ & ->)%list_remove_Ret.
  apply sublist_app; [done|]. by apply sublist_cons.
Qed.

(** ** add_todo_from_text *)

Lemma v1_section_and_text_range line : 0 ≤ (section_and_text line).1 < 3.
Proof.
  unfold section_and_text.
  destruct (startswith _ line); [simpl; lia|].
  destruct (startswith _ line); simpl; lia.
Qed.

(** A line adds one task, unless nothing is left of it after its prefix. *)
Lemma v1_add_line_cases u line :
  ((section_and_text line).2 = [] ∧ add_line u line = u)
  ∨ ((section_and_text line).2 ≠ []
     ∧ add_line u line
       = mkUserData
           (dicts u ++ [mkTodo (next_id u) (section_and_text line).2
                          (section_and_text line).1 false])
           (todos u ++ [length (dicts u)]) (next_id u + 1) (backup_todos u)).
Proof.
  unfold add_line. destruct (section_and_text line) as [i rest]. simpl.
  destruct rest; [by left|by right].
Qed.

(** ** remove_todo_by_number and merge_todos *)

Lemma v1_remove_Ret u n u' (b : bool) :
  remove_todo_by_number u n = Ret (u', b) →
  (b = false ∧ u' = u ∧ get_todo_by_display_number u n = None)
  ∨ (∃ t l', b = true ∧ get_todo_by_display_number u n = Some t
       ∧ list_remove (dict_eqb u) t (todos u) = Ret l' ∧ u' = set_todos u l').
Proof.
  unfold remove_todo_by_number.
  destruct (get_todo_by_display_number u n) as [t|] eqn:G.
  - destruct (list_remove (dict_eqb u) t (todos u)) as [l'|] eqn:R; simpl; [|done].
    intros [= <- <-]. right. by exists t, l'.
  - intros [= <- <-]. by left.
Qed.

Lemma v1_dict_eqb_refl u t : dict_eqb u t t = true.
Proof. unfold dict_eqb. by apply bool_decide_eq_true. Qed.

Lemma v1_remove_total u n : ∃ u' b, remove_todo_by_number u n = Ret (u', b).
Proof.
  unfold remove_todo_by_number.
  destruct (get_todo_by_display_number u n) as [t|] eqn:G; [|eauto].
  pose proof G as [Ht _]%v1_get_live.
  destruct (list_remove_total (dict_eqb u) t (todos u)) as [l' ->]; [|simpl; eauto].
  exists t. split; [done|]. apply v1_dict_eqb_refl.
Qed.

Lemma v1_merge_Ret u n1 n2 u' (b : bool) :
  merge_todos u n1 n2 = Ret (u', b) →
  (b = false ∧ u' = u
     ∧ (get_todo_by_display_number u n1 = None
        ∨ get_todo_by_display_number u n2 = None
        ∨ ∃ t1 t2, get_todo_by_display_number u n1 = Some t1
            ∧ get_todo_by_display_number u n2 = Some t2
            ∧ dicts u !! t1 = dicts u !! t2))
  ∨ (∃ t1 t2 l', b = true ∧ dicts u !! t1 ≠ dicts u !! t2
       ∧ get_todo_by_display_number u n1 = Some t1
       ∧ get_todo_by_display_number u n2 = Some t2
       ∧ list_remove
           (dict_eqb (set_dicts u (alter (merged_with (text_at u t2)) t1 (dicts u))))
           t2 (todos u) = Ret l'
       ∧ u' = set_todos
                (set_dicts u (alter (merged_with (text_at u t2)) t1 (dicts u))) l').
Proof.
  unfold merge_todos.
  destruct (get_todo_by_display_number u n1) as [t1|] eqn:G1;
    [|intros [= <- <-]; left; auto].
  destruct (get_todo_by_display_number u n2) as [t2|] eqn:G2;
    [|intros [= <- <-]; left; auto].
  unfold dict_eqb at 1. case_bool_decide as Hd; simpl.
  - intros [= <- <-]. left. repeat split; try done. right. right. eauto.
  - match goal with |- context [list_remove ?e ?x ?l] =>
      destruct (list_remove e x l) as [l'|] eqn:R end; simpl; [|done].
    intros [= <- <-]. right. by exists t1, t2, l'.
Qed.

Lemma v1_merge_total u n1 n2 : ∃ u' b, merge_todos u n1 n2 = Ret (u', b).
Proof.
  unfold merge_todos.
  destruct (get_todo_by_display_number u n1) as [t1|] eqn:G1; [|eauto].
  destruct (get_todo_by_display_number u n2) as [t2|] eqn:G2; [|eauto].
  destruct (negb _); [|eauto].
  pose proof G2 as [Ht _]%v1_get_live.
  match goal with |- context [list_remove ?e ?x ?l] =>
    destruct (list_remove_total e x l) as [l' ->] end; [|simpl; eauto].
  exists t2. split; [done|]. apply v1_dict_eqb_refl.
Qed.

End v1_ops.

(* ================================================================== *)
(** * TodoBot (v1): invariants of the reachable dictionaries           *)
(* ================================================================== *)

Section v1_invariants.
Import Prod.
Implicit Types (u : user_data) (n k : Z) (t : loc) (l : list loc) (d : todo).

Lemma v1_well_formed_new : well_formed new_user_data.
Proof. split; unfold backup_tasks; simpl; constructor. Qed.

Lemma v1_alter_id u f t t' :
  (∀ d, id (f d) = id d) →
  id <$> alter f t (dicts u) !! t' = id <$> dicts u !! t'.
Proof.
  intros Hf. destruct (decide (t = t')) as [->|Hne].
  - rewrite list_lookup_alter_eq. destruct (dicts u !! t'); simpl; [|done].
    by rewrite Hf.
  - by rewrite list_lookup_alter_ne.
Qed.

(** Changing a dictionary in place, its id kept. *)
Lemma v1_alter_well_formed u f t :
  (∀ d, id (f d) = id d) →
  (∀ d, 0 ≤ section d < 4 → 0 ≤ section (f d) < 4) →
  well_formed u → well_formed (set_dicts u (alter f t (dicts u))).
Proof.
  intros Hid Hs [H1 H2 H3 H4 H5 H6 H7 H8].
  assert (E : ∀ l, ids_of (set_dicts u (alter f t (dicts u))) l = ids_of u l).
  { intros l. apply v1_ids_of_ext. intros t' _. by apply v1_alter_id. }
  split; unfold backup_tasks in *; simpl; rewrite ?length_alter, ?E; try done.
  apply Forall_forall. intros d Hd.
  apply list_elem_of_lookup in Hd as [i Hi].
  destruct (decide (i = t)) as [->|Hne].
  - rewrite list_lookup_alter_eq in Hi.
    destruct (dicts u !! t) as [d'|] eqn:Ed; simplify_eq/=. apply Hs.
    eapply Forall_forall in H8; [done|]. by eapply list_elem_of_lookup_2.
  - rewrite list_lookup_alter_ne in Hi by done.
    eapply Forall_forall in H8; [done|]. by eapply list_elem_of_lookup_2.
Qed.

(** Rearranging the two lists over the same store. *)
Lemma v1_relist_well_formed u u' :
  dicts u' = dicts u →
  (todos u' `sublist_of` todos u ∨ todos u' `sublist_of` backup_tasks u) →
  (backup_tasks u' `sublist_of` todos u
   ∨ backup_tasks u' `sublist_of` backup_tasks u) →
  Forall (λ i, i < next_id u') (ids_of u (todos u')) →
  well_formed u → well_formed u'.
Proof.
  intros Hd Hl Hb Hn [H1 H2 H3 H4 H5 H6 H7 H8].
  assert (E : ∀ l, ids_of u' l = ids_of u l).
  { intros l. apply v1_ids_of_ext. intros t' _. by rewrite Hd. }
  split; rewrite ?Hd, ?E; try done.
  - destruct Hl as [H|H]; eapply Forall_of_sublist; done.
  - destruct Hb as [H|H]; eapply Forall_of_sublist; done.
  - destruct Hl as [H|H]; (eapply sublist_NoDup; [|exact H]); done.
  - destruct Hb as [H|H]; (eapply sublist_NoDup; [|exact H]); done.
  - destruct Hl as [H|H]; (eapply sublist_NoDup; [|apply v1_ids_of_sublist, H]); done.
  - destruct Hb as [H|H]; (eapply sublist_NoDup; [|apply v1_ids_of_sublist, H]); done.
Qed.

Lemma v1_add_line_well_formed u line :
  well_formed u → well_formed (add_line u line).
Proof.
  intros Hwf. destruct (v1_add_line_cases u line) as [[_ ->]|[_ ->]]; [done|].
  destruct Hwf as [H1 H2 H3 H4 H5 H6 H7 H8].
  set (new := mkTodo _ _ _ _).
  assert (E : ∀ l, Forall (λ t, (t < length (dicts u))%nat) l →
            ids_of (mkUserData (dicts u ++ [new]) (todos u ++ [length (dicts u)])
                      (next_id u + 1) (backup_todos u)) l = ids_of u l).
  { intros l Hl. apply v1_ids_of_ext. intros t Ht. simpl.
    eapply Forall_forall in Hl; [|done]. by rewrite lookup_app_l. }
  assert (En : ids_of (mkUserData (dicts u ++ [new]) (todos u ++ [length (dicts u)])
                 (next_id u + 1) (backup_todos u)) [length (dicts u)] = [next_id u]).
  { unfold ids_of. simpl. by rewrite lookup_app_r, Nat.sub_diag. }
  split; unfold backup_tasks in *; simpl.
  - rewrite length_app. simpl. apply Forall_app. split.
    + eapply Forall_impl; [done|]. simpl. lia.
    + apply Forall_cons. split; [lia|constructor].
  - rewrite length_app. simpl. eapply Forall_impl; [done|]. simpl. lia.
  - apply NoDup_app. repeat split; [done| |apply NoDup_singleton].
    intros x Hx ->%list_elem_of_singleton.
    eapply Forall_forall in H1; [|done]. lia.
  - done.
  - rewrite v1_ids_of_app, E, En by done.
    apply NoDup_app. repeat split; [done| |apply NoDup_singleton].
    intros x Hx ->%list_elem_of_singleton.
    eapply Forall_forall in H7; [|done]. lia.
  - by rewrite E.
  - rewrite v1_ids_of_app, E, En by done. apply Forall_app. split.
    + eapply Forall_impl; [done|]. simpl. lia.
    + apply Forall_cons. split; [lia|constructor].
  - apply Forall_app. split; [done|]. apply Forall_cons. split; [|constructor].
    pose proof (v1_section_and_text_range line). simpl. lia.
Qed.

Lemma v1_add_todo_from_text_well_formed u text :
  well_formed u → well_formed (add_todo_from_text u text).
Proof.
  unfold add_todo_from_text. generalize (nonblank_lines text). intros lines.
  revert u. induction lines as [|line lines IH]; intros u Hwf; [done|].
  simpl. by apply IH, v1_add_line_well_formed.
Qed.

Lemma v1_max_of_ge (l : list Z) i : i ∈ l → i ≤ max_of l.
Proof.
  destruct l as [|x l]; [by intros ?%elem_of_nil|]. simpl.
  assert (G : ∀ (k : list Z) a, a ≤ fold_left Z.max k a
              ∧ ∀ j, j ∈ k → j ≤ fold_left Z.max k a).
  { induction k as [|b k IH]; intros a; simpl.
    - split; [lia|]. by intros j ?%elem_of_nil.
    - destruct (IH (Z.max a b)) as [H1 H2]. split; [lia|].
      intros j [->|Hj]%elem_of_cons; [lia|by apply H2]. }
  destruct (G l x) as [H1 H2].
  intros [->|Hi]%elem_of_cons; [done|by apply H2].
Qed.

Lemma v1_remove_well_formed u t l' :
  list_remove (dict_eqb u) t (todos u) = Ret l' →
  well_formed u → well_formed (set_todos u l').
Proof.
  intros Hr%v1_list_remove_sub Hwf.
  apply (v1_relist_well_formed u); [done|by left|by right| |done].
  simpl. eapply Forall_of_sublist; [apply v1_ids_of_sublist, Hr|apply (wf_next _ Hwf)].
Qed.

Lemma v1_toggled_section d : 0 ≤ section d < 4 → 0 ≤ section (toggled d) < 4.
Proof.
  unfold toggled. simpl. intros H.
  destruct (negb (crossed_out d)); simpl; destruct (section d =? 3); simpl; lia.
Qed.

Lemma v1_apply_well_formed u o u' :
  well_formed u → admissible o → apply u o = Ret u' → well_formed u'.
Proof.
  intros Hwf Ha. destruct o as [text|n|n|n idx|n1 n2| | |]; simpl.
  - intros [= <-]. by apply v1_add_todo_from_text_well_formed.
  - destruct (remove_todo_by_number u n) as [[u1 b]|] eqn:E; simpl; [|done].
    intros [= <-].
    apply v1_remove_Ret in E as [(_ & -> & _)|(t & l' & _ & G & R & ->)]; [done|].
    by eapply v1_remove_well_formed.
  - intros [= <-]. unfold toggle_todo_by_number.
    destruct (get_todo_by_display_number u n); simpl; [|done].
    apply v1_alter_well_formed; [done|apply v1_toggled_section|done].
  - intros [= <-]. unfold move_todo_to_section.
    destruct (get_todo_by_display_number u n); simpl; [|done].
    apply v1_alter_well_formed; [done| |done]. intros d _. exact Ha.
  - destruct (merge_todos u n1 n2) as [[u1 b]|] eqn:E; simpl; [|done].
    intros [= <-].
    apply v1_merge_Ret in E
      as [(_ & -> & _)|(t1 & t2 & l' & _ & _ & G1 & G2 & R & ->)]; [done|].
    eapply v1_remove_well_formed; [exact R|].
    by apply v1_alter_well_formed.
  - intros [= <-].
    apply (v1_relist_well_formed u);
      [done|left; apply sublist_nil_l|by left|constructor|done].
  - intros [= <-]. unfold restore_last_list.
    destruct (backup_todos u) as [backup|] eqn:E; [|done]. simpl.
    assert (Eb : backup_tasks u = backup) by (unfold backup_tasks; by rewrite E).
    destruct backup as [|t b].
    + apply (v1_relist_well_formed u);
        [done|left; apply sublist_nil_l| |constructor|done].
      right. unfold backup_tasks. simpl. by rewrite E.
    + apply (v1_relist_well_formed u); [done| | | |done].
      * right. simpl. by rewrite Eb.
      * right. unfold backup_tasks. simpl. by rewrite E.
      * change (Forall (λ i, i < max_of (ids_of u (t :: b)) + 1) (ids_of u (t :: b))).
        apply Forall_forall. intros i Hi. apply v1_max_of_ge in Hi. lia.
  - intros [= <-]. apply (v1_relist_well_formed u); [done| | | |done].
    + left. apply sublist_filter.
    + by right.
    + simpl. eapply Forall_of_sublist; [|apply (wf_next _ Hwf)].
      apply v1_ids_of_sublist, sublist_filter.
Qed.

(** Every dictionary reached by the operations is well formed. *)
Lemma v1_reachable_well_formed u : reachable u → well_formed u.
Proof.
  induction 1 as [|u o u' _ IH Ha E].
  - apply v1_well_formed_new.
  - by eapply v1_apply_well_formed.
Qed.

End v1_invariants.

(* ================================================================== *)
(** * TodoBot (v1): the completed flag and the section                 *)
(* ================================================================== *)

Section v1_flags.
Import Prod.
Implicit Types (u : user_data) (n k : Z) (t : loc) (l : list loc) (d : todo).

Lemma v1_toggled_flag d : flag_matches_section (toggled d).
Proof.
  unfold flag_matches_section, toggled. simpl.
  destruct (negb (crossed_out d)); simpl;
    destruct (Z.eqb_spec (section d) 3); simpl; split; (done || lia).
Qed.

Lemma v1_moved_to_flag idx d : flag_matches_section (moved_to idx d).
Proof.
  unfold flag_matches_section, moved_to. simpl.
  destruct (Z.eqb_spec idx 3); split; (done || lia).
Qed.

(** ** Properties of every task that the operations keep *)

Lemma v1_every_task_new P : every_task P new_user_data.
Proof.
  intros t d. unfold backup_tasks. simpl. rewrite elem_of_nil. tauto.
Qed.

Lemma v1_alter_every_task P u f t :
  (∀ d, P d → P (f d)) →
  every_task P u → every_task P (set_dicts u (alter f t (dicts u))).
Proof.
  intros Hf Hc t' d Hin Hd. simpl in Hd.
  destruct (decide (t = t')) as [->|Hne].
  - rewrite list_lookup_alter_eq in Hd.
    destruct (dicts u !! t') as [d'|] eqn:Ed; simplify_eq/=.
    apply Hf. by eapply Hc.
  - rewrite list_lookup_alter_ne in Hd by done. by eapply Hc.
Qed.

Lemma v1_relist_every_task P u u' :
  dicts u' = dicts u →
  (∀ t, t ∈ todos u' ∨ t ∈ backup_tasks u' → t ∈ todos u ∨ t ∈ backup_tasks u) →
  every_task P u → every_task P u'.
Proof.
  intros Hd Hl Hc t d Hin Hobj. rewrite Hd in Hobj.
  eapply Hc; [|done]. by apply Hl.
Qed.

Lemma v1_add_line_every_task P u line :
  kept_property P → every_task P u → every_task P (add_line u line).
Proof.
  intros HP Hc.
  destruct (v1_add_line_cases u line) as [[_ ->]|[Hne ->]]; [done|].
  intros t d. unfold backup_tasks. simpl. intros Hin Hd.
  apply lookup_app_Some in Hd as [Hd|[Hge Hd]].
  - eapply (Hc t); [|done]. rewrite elem_of_app, list_elem_of_singleton in Hin.
    destruct Hin as [[H| ->]|H]; [by left| |by right].
    apply lookup_lt_Some in Hd. lia.
  - destruct (t - length (dicts u))%nat; simplify_eq/=.
    by apply (kept_new _ HP).
Qed.

Lemma v1_add_todo_from_text_every_task P u text :
  kept_property P → every_task P u → every_task P (add_todo_from_text u text).
Proof.
  intros HP. unfold add_todo_from_text. generalize (nonblank_lines text).
  intros lines. revert u. induction lines as [|line lines IH]; intros u Hc; [done|].
  simpl. by apply IH, v1_add_line_every_task.
Qed.

Lemma v1_remove_every_task P u u0 t l' :
  list_remove (dict_eqb u0) t (todos u) = Ret l' →
  every_task P u → every_task P (set_todos u l').
Proof.
  intros Hr%v1_list_remove_sub. apply v1_relist_every_task; [done|].
  intros t'. unfold backup_tasks. simpl.
  intros [H|H]; [left|by right]. by eapply elem_of_sublist.
Qed.

Lemma v1_apply_every_task P u o u' :
  kept_property P → every_task P u → apply u o = Ret u' → every_task P u'.
Proof.
  intros HP Hc. destruct o as [text|n|n|n idx|n1 n2| | |]; simpl.
  - intros [= <-]. by apply v1_add_todo_from_text_every_task.
  - destruct (remove_todo_by_number u n) as [[u1 b]|] eqn:E; simpl; [|done].
    intros [= <-].
    apply v1_remove_Ret in E as [(_ & -> & _)|(t & l' & _ & G & R & ->)]; [done|].
    by eapply v1_remove_every_task.
  - intros [= <-]. unfold toggle_todo_by_number.
    destruct (get_todo_by_display_number u n); simpl; [|done].
    apply v1_alter_every_task; [apply (kept_toggled _ HP)|done].
  - intros [= <-]. unfold move_todo_to_section.
    destruct (get_todo_by_display_number u n); simpl; [|done].
    apply v1_alter_every_task; [apply (kept_moved _ HP)|done].
  - destruct (merge_todos u n1 n2) as [[u1 b]|] eqn:E; simpl; [|done].
    intros [= <-].
    apply v1_merge_Ret in E
      as [(_ & -> & _)|(t1 & t2 & l' & _ & _ & G1 & G2 & R & ->)]; [done|].
    eapply (v1_remove_every_task _ (set_dicts u _)); [exact R|].
    apply v1_alter_every_task; [apply (kept_merged _ HP)|done].
  - intros [= <-]. eapply v1_relist_every_task; [| |exact Hc]; [done|].
    intros t. unfold backup_tasks. simpl. rewrite elem_of_nil. tauto.
  - intros [= <-]. unfold restore_last_list.
    destruct (backup_todos u) as [backup|] eqn:E; [|done].
    assert (every_task P (set_todos u backup)) as Hc'.
    { eapply v1_relist_every_task; [| |exact Hc]; [done|].
      intros t. unfold backup_tasks. simpl. rewrite E. simpl. tauto. }
    simpl. destruct backup; [done|].
    eapply v1_relist_every_task; [| |exact Hc']; done.
  - intros [= <-]. eapply v1_relist_every_task; [| |exact Hc]; [done|].
    intros t. unfold backup_tasks. simpl. rewrite list_elem_of_filter. tauto.
Qed.

Lemma v1_reachable_every_task P u :
  kept_property P → reachable u → every_task P u.
Proof.
  intros HP. induction 1 as [|u o u' Hr IH Ha E].
  - apply v1_every_task_new.
  - by eapply v1_apply_every_task.
Qed.

(** Flag and section in step is such a property. *)
Lemma v1_flag_kept : kept_property flag_matches_section.
Proof.
  split.
  - intros d _. apply v1_toggled_flag.
  - intros idx d _. apply v1_moved_to_flag.
  - done.
  - intros next_id line _. unfold flag_matches_section. simpl.
    pose proof (v1_section_and_text_range line). split; [done|lia].
Qed.

(** A text that is not empty is another. *)
Lemma v1_text_kept : kept_property (λ d, text d ≠ []).
Proof.
  split; try done.
  intros text2 d Hd. simpl. by destruct (text d).
Qed.

Lemma v1_apply_consistent u o u' :
  consistent u → apply u o = Ret u' → consistent u'.
Proof. apply v1_apply_every_task, v1_flag_kept. Qed.

Lemma v1_reachable_consistent u : reachable u → consistent u.
Proof. apply v1_reachable_every_task, v1_flag_kept. Qed.

Lemma v1_reachable_texts_nonempty u : reachable u → texts_nonempty u.
Proof. apply v1_reachable_every_task, v1_text_kept. Qed.

(** Toggling a task flips its flag, and toggling the same task again, under
    the number it has by then, gives the flag it had. *)
Lemma v1_toggle_twice u n n' t d :
  get_todo_by_display_number u n = Some t →
  dicts u !! t = Some d →
  let u1 := (toggle_todo_by_number u n).1 in
  get_todo_by_display_number u1 n' = Some t →
  let u2 := (toggle_todo_by_number u1 n').1 in
  ∃ d1 d2,
    dicts u1 !! t = Some d1 ∧ crossed_out d1 = negb (crossed_out d)
    ∧ dicts u2 !! t = Some d2 ∧ crossed_out d2 = crossed_out d.
Proof.
  intros G Hd u1 G1 u2. subst u2. unfold toggle_todo_by_number at 1.
  rewrite G1. simpl. subst u1. unfold toggle_todo_by_number. rewrite G. simpl.
  exists (toggled d), (toggled (toggled d)).
  rewrite !list_lookup_alter_eq, Hd. simpl.
  by rewrite negb_involutive.
Qed.

End v1_flags.

(* ================================================================== *)
(** * TodoBot (v1): display numbers and merging                        *)
(* ================================================================== *)

Section v1_numbering.
Import Prod.
Implicit Types (u : user_data) (n k : Z) (t : loc) (l : list loc) (d : todo).

Lemma v1_display_order_NoDup u : NoDup (todos u) → NoDup (display_order u).
Proof.
  intros Hnd. rewrite v1_display_order.
  assert (D : ∀ i j, i ≠ j → ∀ x, x ∈ bucket u i → x ∈ bucket u j → False).
  { intros i j Hij x [_ Hi]%v1_elem_of_bucket [_ Hj]%v1_elem_of_bucket.
    apply v1_holds_dict in Hi as (d & Hd & Hi).
    unfold holds in Hj. rewrite Hd in Hj. unfold in_section in *. lia. }
  repeat (apply NoDup_app; split; [by apply NoDup_filter|split]);
    try (by apply NoDup_filter);
    intros x Hx; rewrite ?elem_of_app; intros Hy; destruct_or?;
    (eapply D; [|exact Hx|exact Hy]); done.
Qed.

Lemma v1_elem_of_display_order_iff u t :
  Forall (λ t, (t < length (dicts u))%nat) (todos u) →
  Forall (λ d, 0 ≤ section d < 4) (dicts u) →
  t ∈ display_order u ↔ t ∈ todos u.
Proof.
  intros Hv Hs. split; [by intros []%v1_elem_of_display_order|].
  intros Ht. eapply Forall_forall in Hv; [|done].
  apply lookup_lt_is_Some in Hv as [d Hd].
  assert (Hk : 0 ≤ section d < 4).
  { eapply Forall_forall in Hs; [done|]. by eapply list_elem_of_lookup_2. }
  assert (Hh : ∀ i, section d = i → holds u (in_section i) t = true).
  { intros i Hi. unfold holds, in_section. rewrite Hd. lia. }
  rewrite v1_display_order, !elem_of_app, !v1_elem_of_bucket.
  assert (section d = 0 ∨ section d = 1 ∨ section d = 2 ∨ section d = 3)
    as [H|[H|[H|H]]] by lia; apply Hh in H; tauto.
Qed.

(** In a well-formed dictionary the display order is a rearrangement of
    the list. *)
Lemma v1_display_order_Permutation u :
  well_formed u → display_order u ≡ₚ todos u.
Proof.
  intros Hwf. apply NoDup_Permutation.
  - apply v1_display_order_NoDup, (wf_nodup _ Hwf).
  - apply (wf_nodup _ Hwf).
  - intros t. apply v1_elem_of_display_order_iff;
      [apply (wf_live _ Hwf)|apply (wf_sections _ Hwf)].
Qed.

Lemma v1_display_order_length u :
  well_formed u → length (display_order u) = length (todos u).
Proof. intros Hwf. by rewrite v1_display_order_Permutation. Qed.

Lemma v1_get_is_Some u n :
  well_formed u →
  is_Some (get_todo_by_display_number u n) ↔ 1 ≤ n ≤ Z.of_nat (length (todos u)).
Proof.
  intros Hwf. rewrite <- (v1_display_order_length u Hwf).
  rewrite <- not_eq_None_Some, v1_get_None. lia.
Qed.

Lemma v1_get_inj u n1 n2 t :
  well_formed u →
  get_todo_by_display_number u n1 = Some t →
  get_todo_by_display_number u n2 = Some t → n1 = n2.
Proof.
  intros Hwf (H1 & L1)%v1_get_Some (H2 & L2)%v1_get_Some.
  assert (Z.to_nat (n1 - 1) = Z.to_nat (n2 - 1)); [|lia].
  eapply NoDup_lookup; [|exact L1|exact L2].
  apply v1_display_order_NoDup, (wf_nodup _ Hwf).
Qed.

Lemma v1_get_surj u t :
  well_formed u → t ∈ todos u → ∃ n, get_todo_by_display_number u n = Some t.
Proof.
  intros Hwf Ht.
  apply (v1_elem_of_display_order_iff u) in Ht;
    [|apply (wf_live _ Hwf)|apply (wf_sections _ Hwf)].
  apply list_elem_of_lookup in Ht as [i Hi].
  exists (Z.of_nat i + 1). apply v1_get_Some. split; [lia|].
  by replace (Z.to_nat (Z.of_nat i + 1 - 1)) with i by lia.
Qed.

(** ** The numbers the formatted list prints *)

Lemma v1_entries_app (l1 l2 : list line) : entries (l1 ++ l2) = entries l1 ++ entries l2.
Proof. unfold entries. apply omap_app. Qed.

Lemma v1_entries_number_from k in_done l :
  entries (number_from k in_done l) = imap (λ i t, (k + Z.of_nat i, t)) l.
Proof.
  revert k. induction l as [|t l IH]; intros k; [done|].
  simpl. unfold entries in *. simpl. f_equal; [f_equal; lia|].
  rewrite IH. apply imap_ext. intros i x _. simpl. f_equal. lia.
Qed.

Lemma v1_format_active_entries icon i l k :
  entries (format_active icon i l k).1 = imap (λ i t, (k + Z.of_nat i, t)) l
  ∧ (format_active icon i l k).2 = k + Z.of_nat (length l).
Proof.
  destruct l as [|t l]; [split; [done|simpl; lia]|].
  split; [|done]. unfold format_active. cbn [fst].
  change (?h :: ?a ++ [Blank]) with ([h] ++ a ++ [Blank]).
  rewrite !v1_entries_app, v1_entries_number_from.
  unfold entries. simpl. by rewrite app_nil_r.
Qed.

Lemma v1_format_done_entries l k :
  entries (format_done l k) = imap (λ i t, (k + Z.of_nat i, t)) l.
Proof.
  destruct l as [|t l]; [done|]. unfold format_done.
  change (?h :: ?a ++ [Blank]) with ([h] ++ a ++ [Blank]).
  rewrite !v1_entries_app, v1_entries_number_from.
  unfold entries. simpl. by rewrite app_nil_r.
Qed.

(** The lines number the tasks of the display order from 1 on. *)
Lemma v1_format_lines_entries u :
  entries (format_lines u) = imap (λ i t, (1 + Z.of_nat i, t)) (display_order u).
Proof.
  rewrite v1_display_order. unfold format_lines.
  destruct (format_active (utf8 "🛒") 0 (bucket u 0) 1) as [r0 k0] eqn:E0.
  destruct (format_active (utf8 "🔧") 1 (bucket u 1) k0) as [r1 k1] eqn:E1.
  destruct (format_active (utf8 "🎵") 2 (bucket u 2) k1) as [r2 k2] eqn:E2.
  pose proof (v1_format_active_entries (utf8 "🛒") 0 (bucket u 0) 1) as [A0 B0].
  pose proof (v1_format_active_entries (utf8 "🔧") 1 (bucket u 1) k0) as [A1 B1].
  pose proof (v1_format_active_entries (utf8 "🎵") 2 (bucket u 2) k1) as [A2 B2].
  rewrite E0 in A0, B0. rewrite E1 in A1, B1. rewrite E2 in A2, B2. simpl in *.
  rewrite !v1_entries_app, A0, A1, A2, v1_format_done_entries, !imap_app.
  subst k0 k1 k2. unfold entries at 1. simpl. rewrite app_nil_r.
  repeat apply (f_equal2 app); apply imap_ext; intros i x _; simpl; f_equal;
    rewrite ?length_app; lia.
Qed.

(** The number printed next to a task is the number that resolves to it. *)
Lemma v1_printed_number u n t :
  (n, t) ∈ entries (format_lines u) ↔ get_todo_by_display_number u n = Some t.
Proof.
  rewrite v1_format_lines_entries, v1_get_Some, elem_of_lookup_imap.
  split.
  - intros (i & t' & [= -> ->] & Hi). split; [lia|].
    by replace (Z.to_nat (1 + Z.of_nat i - 1)) with i by lia.
  - intros (Hn & Hl). exists (Z.to_nat (n - 1)), t. split; [|done].
    f_equal. lia.
Qed.

(** ** merge_todos *)

(** Two tasks of the list of a well-formed dictionary have different
    contents. *)
Lemma v1_distinct_contents u t1 t2 :
  well_formed u → t1 ∈ todos u → t2 ∈ todos u → t1 ≠ t2 →
  dicts u !! t1 ≠ dicts u !! t2.
Proof.
  intros Hwf H1 H2 Hne E. pose proof (wf_live _ Hwf) as Hv.
  pose proof Hv as Hv'. eapply Forall_forall in Hv; [|exact H1].
  eapply Forall_forall in Hv'; [|exact H2].
  apply lookup_lt_is_Some in Hv as [d1 Hd1].
  apply lookup_lt_is_Some in Hv' as [d2 Hd2].
  apply Hne. eapply (v1_ids_inj u (todos u)); try done; [apply (wf_ids _ Hwf)|].
  congruence.
Qed.

Lemma v1_merge_todos_distinct u n1 n2 t1 t2 :
  well_formed u →
  get_todo_by_display_number u n1 = Some t1 →
  get_todo_by_display_number u n2 = Some t2 →
  t1 ≠ t2 →
  ∃ u' d1,
    merge_todos u n1 n2 = Ret (u', true)
    ∧ dicts u !! t1 = Some d1
    ∧ dicts u' !! t1
        = Some (mkTodo (id d1) (text d1 ++ utf8 " " ++ text_at u t2)
                  (section d1) (crossed_out d1))
    ∧ (∀ t, t ≠ t1 → dicts u' !! t = dicts u !! t)
    ∧ todos u' = filter (λ t, t ≠ t2) (todos u)
    ∧ S (length (todos u')) = length (todos u)
    ∧ next_id u' = next_id u ∧ backup_todos u' = backup_todos u.
Proof.
  intros Hwf G1 G2 Hne.
  pose proof G1 as [Ht1 [d1 Hd1]]%v1_get_live.
  pose proof G2 as [Ht2 _]%v1_get_live.
  pose proof (v1_distinct_contents u t1 t2 Hwf Ht1 Ht2 Hne) as Hdiff.
  destruct (v1_merge_total u n1 n2) as (u' & b & E).
  pose proof E as [(_ & _ & [H|[H|H]])|(t1' & t2' & l' & -> & _ & G1' & G2' & R & ->)]%v1_merge_Ret;
    [congruence|congruence| |].
  { destruct H as (a & b' & Ha & Hb & Hab). congruence. }
  simplify_eq.
  set (u1 := set_dicts u (alter (merged_with (text_at u t2)) t1 (dicts u))) in *.
  assert (Hwf1 : well_formed u1) by (by apply v1_alter_well_formed).
  rewrite (v1_list_remove_identity u1 (todos u) t2) in R;
    [|apply (wf_ids _ Hwf1)|apply (wf_live _ Hwf1)|done].
  destruct (list_remove_loc t2 (todos u) Ht2 (wf_nodup _ Hwf))
    as (l & Hl & -> & _ & Hlen).
  rewrite Hl in R. injection R as <-.
  exists (set_todos u1 (filter (λ y, y ≠ t2) (todos u))), d1.
  repeat split; try done.
  - simpl. by rewrite list_lookup_alter_eq, Hd1.
  - intros t Ht. simpl. by rewrite list_lookup_alter_ne.
Qed.

Lemma v1_merge_todos_noop u n1 n2 :
  get_todo_by_display_number u n1 = None
  ∨ get_todo_by_display_number u n2 = None
  ∨ get_todo_by_display_number u n1 = get_todo_by_display_number u n2 →
  merge_todos u n1 n2 = Ret (u, false).
Proof.
  unfold merge_todos. intros [->|[H|H]]; [done| |].
  - rewrite H. by destruct (get_todo_by_display_number u n1).
  - rewrite H. destruct (get_todo_by_display_number u n2); [|done].
    by rewrite v1_dict_eqb_refl.
Qed.

End v1_numbering.

(* ================================================================== *)
(** * Sequences of operations, and that every operation returns        *)
(* ================================================================== *)

Section v3_runs.
Import ProdV3.
Implicit Types (m : TodoManager) (ops : list op) (log : list (Z * Z)).

Lemma v3_run_history log m ops m' :
  history log m → Forall admissible ops → run m ops = Ret m' →
  history (run_log m ops ++ log) m'.
Proof.
  intros H Ha. revert log m H. induction Ha as [|o ops Ho _ IH]; intros log m H; simpl.
  - by intros [= <-].
  - destruct (apply m o) as [m1|] eqn:E; simpl; [|done].
    intros Hr. rewrite <- app_assoc. apply IH; [|done].
    by eapply history_step.
Qed.

Lemma v3_after_history ops :
  Forall admissible ops → is_Some (match run empty_manager ops with
                                   | Ret m => Some m | Raise _ => None end) →
  history (run_log empty_manager ops) (after ops).
Proof.
  intros Ha Hs. unfold after. destruct (run empty_manager ops) as [m|] eqn:E.
  - rewrite <- (app_nil_r (run_log _ _)).
    eapply v3_run_history; [constructor|done|done].
  - by destruct Hs.
Qed.

Lemma v3_after_reachable ops : Forall admissible ops → reachable (after ops).
Proof.
  intros Ha. unfold after. destruct (run empty_manager ops) as [m|] eqn:E.
  - eexists. eapply v3_run_history; [constructor|done|done].
  - exists []. constructor.
Qed.

(** In a well-formed manager no operation raises. *)
Lemma v3_apply_total m o : well_formed m → ∃ m', apply m o = Ret m'.
Proof.
  intros Hwf. destruct o as [u text|u n|u n|u n target|u n1 n2|u|u|u]; simpl;
    try by eexists.
  - destruct (v3_add_todo_total m u text) as (m' & t & ->); [apply (wf_next_ids _ Hwf)|].
    by eexists.
  - destruct (v3_remove_todo_total m u n) as (m' & b & ->). by eexists.
  - destruct (v3_merge_todos_total m u n1 n2) as (m' & b & ->). by eexists.
Qed.

End v3_runs.

Section v1_runs.
Import Prod.
Implicit Types (u : user_data) (ops : list op).

Lemma v1_run_reachable u ops u' :
  reachable u → Forall admissible ops → run u ops = Ret u' → reachable u'.
Proof.
  intros H Ha. revert u H. induction Ha as [|o ops Ho _ IH]; intros u H; simpl.
  - by intros [= <-].
  - destruct (apply u o) as [u1|] eqn:E; simpl; [|done].
    apply IH. by eapply reachable_step.
Qed.

Lemma v1_after_reachable ops : Forall admissible ops → reachable (after ops).
Proof.
  intros Ha. unfold after. destruct (run new_user_data ops) as [u|] eqn:E.
  - eapply v1_run_reachable; [constructor|done|done].
  - constructor.
Qed.

(** No operation on a dictionary raises. *)
Lemma v1_apply_total u o : ∃ u', apply u o = Ret u'.
Proof.
  destruct o as [text|n|n|n idx|n1 n2| | |]; simpl; try by eexists.
  - destruct (v1_remove_total u n) as (u' & b & ->). by eexists.
  - destruct (v1_merge_total u n1 n2) as (u' & b & ->). by eexists.
Qed.

End v1_runs.

(* ================================================================== *)
(** * CleanTodoBot (v3): a message as a run of operations *)
(* ================================================================== *)

Section v3_messages.
Import ProdV3.
Implicit Types (m : TodoManager) (u v n : Z) (t : loc) (todos : list loc).
Implicit Types (s ds text : str) (c : N).

Lemma v3_single_by_user u o :
  admissible o → op_user o = u → Forall (by_user u) [o].
Proof. intros. apply Forall_cons. split; [done|constructor]. Qed.

Lemma v3_run_app m ops1 ops2 :
  run m (ops1 ++ ops2) = (m' ← run m ops1; run m' ops2).
Proof.
  revert m. induction ops1 as [|o ops1 IH]; intros m; simpl; [done|].
  destruct (apply m o) as [m1|e]; simpl; [apply IH|done].
Qed.

Lemma v3_add_lines_run m u lines m' :
  add_lines m u lines = Ret m' →
  ∃ ops, Forall (by_user u) ops ∧ run m ops = Ret m'.
Proof.
  revert m. induction lines as [|line lines IH]; intros m; simpl.
  - intros [= <-]. by exists [].
  - destruct line as [|c line].
    + apply IH.
    + destruct (add_todo m u (c :: line)) as [[m1 t]|e] eqn:E; simpl; [|done].
      intros (ops & Hf & Hr)%IH. exists (DoAdd u (c :: line) :: ops). split.
      * apply Forall_cons. by split.
      * simpl. rewrite E. simpl. done.
Qed.

Lemma v3_add_from_text_run m u text m' r :
  add_from_text m u text = Ret (m', r) →
  ∃ ops, Forall (by_user u) ops ∧ run m ops = Ret m'.
Proof.
  unfold add_from_text.
  destruct (1 <? Z.of_nat (length (nonblank_lines text))).
  - destruct (add_lines m u (nonblank_lines text)) as [m1|e] eqn:E; simpl; [|done].
    intros [= <- _]. by eapply v3_add_lines_run.
  - destruct (add_todo m u text) as [[m1 t]|e] eqn:E; simpl; [|done].
    intros [= <- _]. exists [DoAdd u text]. split; [by apply v3_single_by_user|].
    simpl. by rewrite E.
Qed.

Lemma v3_number_commands_run m u text m' r :
  _handle_number_commands m u text = Ret (m', r) →
  ∃ ops, Forall (by_user u) ops ∧ run m ops = Ret m'.
Proof.
  unfold _handle_number_commands.
  assert (Hmove : ∀ num target, target ∈ [GARAGE; VOLYNKA; PURCHASE] →
    (let '(m', moved) := move_todo_to_section m u num target in
     Ret (m', if moved : bool then list_reply m' u else None)) = Ret (m', r) →
    ∃ ops, Forall (by_user u) ops ∧ run m ops = Ret m').
  { intros num target Ht. destruct (move_todo_to_section m u num target) as [m1 b] eqn:E.
    intros [= <- _]. exists [DoMove u num target]. split.
    - apply v3_single_by_user; [|done]. simpl. unfold SECTION_KEYS.
      rewrite !elem_of_cons in Ht. rewrite !elem_of_cons. tauto.
    - simpl. by rewrite E. }
  destruct (startswith (utf8 "-") text && isdigit (drop 1 text)).
  { destruct (int (drop 1 text)) as [num|e]; simpl; [|done].
    destruct (remove_todo m u num) as [[m1 b]|e] eqn:E; simpl; [|done].
    intros [= <- _]. exists [DoRemove u num]. split; [by apply v3_single_by_user|].
    simpl. by rewrite E. }
  destruct (isdigit text).
  { destruct (int text) as [num|e]; simpl; [|done].
    destruct (toggle_todo m u num) as [m1 b] eqn:E.
    intros [= <- _]. exists [DoToggle u num]. split; [by apply v3_single_by_user|].
    simpl. by rewrite E. }
  destruct ((1 <? Z.of_nat (length text)) && isdigit (but_last text)).
  { destruct (int (but_last text)) as [num|e]; simpl; [|done].
    repeat case_bool_decide.
    - apply Hmove. rewrite !elem_of_cons. tauto.
    - apply Hmove. rewrite !elem_of_cons. tauto.
    - apply Hmove. rewrite !elem_of_cons. tauto.
    - intros [= <- _]. by exists []. }
  match goal with |- context [match ?x with Some _ => _ | None => _ end] =>
    destruct x as [[part0 part1]|] end.
  - destruct (int part0) as [n1|e]; simpl; [|done].
    destruct (int part1) as [n2|e]; simpl; [|done].
    destruct (merge_todos m u n1 n2) as [[m1 b]|e] eqn:E; simpl; [|done].
    intros [= <- _]. exists [DoMerge u n1 n2]. split; [by apply v3_single_by_user|].
    simpl. by rewrite E.
  - apply v3_add_from_text_run.
Qed.

Lemma v3_handle_message_run m u text m' r :
  handle_message m u text = Ret (m', r) →
  ∃ ops, Forall (by_user u) ops ∧ run m ops = Ret m'.
Proof.
  unfold handle_message. destruct text as [|c s].
  { intros [= <- _]. by exists []. }
  destruct (str_eqb _ MENU). { intros [= <- _]. by exists []. }
  destruct (str_eqb _ BACK). { intros [= <- _]. by exists []. }
  destruct (is_in _ LIST_LABELS). { intros [= <- _]. by exists []. }
  destruct (is_in _ NEW_LABELS).
  { destruct (clear_todos m u) as [m1 k] eqn:E. intros [= <- _].
    exists [DoClear u]. split; [by apply v3_single_by_user|]. simpl. by rewrite E. }
  destruct (is_in _ RESTORE_LABELS).
  { destruct (restore_backup m u) as [m1 k] eqn:E. intros [= <- _].
    exists [DoRestore u]. split; [by apply v3_single_by_user|]. simpl. by rewrite E. }
  destruct (is_in _ CONTINUE_LABELS).
  { destruct (continue_list m u) as [m1 k] eqn:E. intros [= <- _].
    exists [DoContinue u]. split; [by apply v3_single_by_user|]. simpl. by rewrite E. }
  apply v3_number_commands_run.
Qed.

Lemma v3_separated_empty : separated empty_manager.
Proof.
  intros u v t [H|H]; unfold live_tasks, backup_tasks in H; simpl in H;
    rewrite lookup_empty in H; simpl in H; by apply elem_of_nil in H.
Qed.

Lemma v3_owned_add m u text m' t v t' :
  add_todo m u text = Ret (m', t) →
  owned m' v t' ↔ owned m v t' ∨ (v = u ∧ t' = t).
Proof.
  intros (next_id & Hn & -> & Ho & Hu & Hi & Hb)%v3_add_todo_Ret.
  unfold owned, live_tasks, backup_tasks. rewrite Hu, Hb, lookup_insert.
  case_decide; simpl.
  - subst v. rewrite elem_of_app, list_elem_of_singleton.
    unfold live_tasks. tauto.
  - intuition congruence.
Qed.

Lemma v3_owned_bound m u t : well_formed m → owned m u t → (t < length (objects m))%nat.
Proof.
  intros Hwf [H|H].
  - pose proof (wf_live _ Hwf u) as Hf. by eapply Forall_forall in Hf.
  - pose proof (wf_backup _ Hwf u) as Hf. by eapply Forall_forall in Hf.
Qed.

Lemma v3_apply_separated m o m' :
  well_formed m → separated m → apply m o = Ret m' → separated m'.
Proof.
  intros Hwf Hs E.
  assert (Hc : (∃ u text, o = DoAdd u text) ∨ (∀ u text, o ≠ DoAdd u text)).
  { destruct o; eauto; by right. }
  destruct Hc as [(u & text & ->)|Hna].
  - simpl in E. destruct (add_todo m u text) as [[m1 t]|] eqn:Ea; simplify_eq/=.
    intros a b t' Ha Hb.
    apply (proj1 (v3_owned_add _ _ _ _ _ _ _ Ea)) in Ha.
    apply (proj1 (v3_owned_add _ _ _ _ _ _ _ Ea)) in Hb.
    assert (Hfresh : ∀ w, ¬ owned m w t).
    { intros w Hw%(v3_owned_bound _ _ _ Hwf).
      apply v3_add_todo_Ret in Ea as (? & _ & Ht & _). lia. }
    destruct Ha as [Ha|[? ?]], Hb as [Hb|[? ?]]; subst; try done.
    + by eapply Hs.
    + by apply Hfresh in Ha.
    + by apply Hfresh in Hb.
  - apply v3_apply_frame in E as (_ & _ & _ & Hsub).
    + intros a b t Ha Hb. eapply Hs; by apply Hsub.
    + done.
Qed.

Lemma v3_alter_same_for m f t u v :
  separated m → t ∈ live_tasks m u → v ≠ u →
  same_for v m (set_objects m (alter f t (objects m))).
Proof.
  intros Hs Ht Hv. repeat split; try done.
  intros t' Ho. simpl. apply list_lookup_alter_ne. intros ->.
  apply Hv. eapply Hs; [done|]. by left.
Qed.

Lemma v3_same_for_refl v m : same_for v m m.
Proof. by repeat split. Qed.

Lemma v3_same_for_trans v m1 m2 m3 :
  same_for v m1 m2 → same_for v m2 m3 → same_for v m1 m3.
Proof.
  intros (H1 & H2 & H3 & H4) (G1 & G2 & G3 & G4).
  repeat split; try congruence.
  intros t Ho. rewrite G4, H4; try done.
  destruct Ho as [Ho|Ho]; [left|right].
  - unfold live_tasks in *. by rewrite H1.
  - unfold backup_tasks in *. by rewrite H2.
Qed.

Lemma v3_apply_same_for m o m' v :
  well_formed m → separated m → apply m o = Ret m' → v ≠ op_user o →
  same_for v m m'.
Proof.
  intros Hwf Hs E Hv.
  destruct o as [u text|u n|u n|u n target|u n1 n2|u|u|u]; simpl in *.
  - destruct (add_todo m u text) as [[m1 t]|] eqn:Ea; simplify_eq/=.
    apply v3_add_todo_Ret in Ea as (next_id & Hn & -> & Ho & Hu & Hi & Hb).
    unfold same_for. rewrite Hu, Hi, Hb, !lookup_insert_ne by done.
    repeat split; try done.
    intros t Ht%(v3_owned_bound _ _ _ Hwf). rewrite Ho. by apply lookup_app_l.
  - destruct (remove_todo m u n) as [[m1 b]|] eqn:Er; simplify_eq/=.
    apply v3_remove_todo_Ret in Er as [(_ & -> & _)|(t & l' & _ & G & R & ->)].
    + apply v3_same_for_refl.
    + unfold same_for. simpl. rewrite lookup_insert_ne by done. done.
  - simplify_eq. unfold toggle_todo.
    destruct (get_todo_by_display_number m u n) as [t|] eqn:G; simpl.
    + apply v3_get_live in G as [G _]. by eapply v3_alter_same_for.
    + apply v3_same_for_refl.
  - simplify_eq. unfold move_todo_to_section.
    destruct (get_todo_by_display_number m u n) as [t|] eqn:G; simpl.
    + apply v3_get_live in G as [G _]. by eapply v3_alter_same_for.
    + apply v3_same_for_refl.
  - destruct (merge_todos m u n1 n2) as [[m1 b]|] eqn:Er; simplify_eq/=.
    apply v3_merge_todos_Ret in Er
      as [(_ & -> & _)|(t1 & t2 & l' & _ & _ & G1 & G2 & R & ->)].
    + apply v3_same_for_refl.
    + apply v3_get_live in G1 as [G1 _].
      pose proof (v3_alter_same_for m (merged_with (text_at m t2)) t1 u v Hs G1 Hv)
        as (H1 & H2 & H3 & H4).
      unfold same_for. simpl. rewrite lookup_insert_ne by done. done.
  - simplify_eq. unfold clear_todos.
    destruct (user_todos m !! u) as [todos|] eqn:Eu; simpl;
      [|apply v3_same_for_refl].
    unfold same_for. destruct (0 <? _); simpl; rewrite ?lookup_insert_ne by done; done.
  - simplify_eq. unfold restore_backup.
    destruct (backups m !! u) as [[|t b]|] eqn:Eu; simpl;
      try apply v3_same_for_refl.
    unfold same_for. simpl. rewrite ?lookup_insert_ne by done. done.
  - simplify_eq. unfold continue_list.
    destruct (user_todos m !! u) as [todos|] eqn:Eu; simpl;
      [|apply v3_same_for_refl].
    destruct (select m completed todos) as [|t c] eqn:Ec; simpl;
      [apply v3_same_for_refl|].
    unfold same_for. simpl. rewrite ?lookup_insert_ne by done. done.
Qed.

Lemma v3_run_invariants m ops m' :
  well_formed m → separated m → Forall admissible ops → run m ops = Ret m' →
  well_formed m' ∧ separated m'.
Proof.
  revert m. induction ops as [|o ops IH]; intros m Hwf Hs Ha; simpl.
  - by intros [= <-].
  - apply Forall_cons in Ha as [Ha Hops].
    destruct (apply m o) as [m1|] eqn:E; simpl; [|done].
    apply IH; [by eapply v3_apply_well_formed|by eapply v3_apply_separated|done].
Qed.

Lemma v3_run_same_for m ops m' u v :
  well_formed m → separated m → Forall (by_user u) ops → run m ops = Ret m' →
  v ≠ u → same_for v m m'.
Proof.
  revert m. induction ops as [|o ops IH]; intros m Hwf Hs Ha; simpl.
  - intros [= <-] _. apply v3_same_for_refl.
  - apply Forall_cons in Ha as [[Ha Hu] Hops].
    destruct (apply m o) as [m1|] eqn:E; simpl; [|done].
    intros Hr Hv. eapply v3_same_for_trans.
    + eapply v3_apply_same_for; [done|done|done|congruence].
    + apply IH; try done;
        [by eapply v3_apply_well_formed|by eapply v3_apply_separated].
Qed.

Lemma filter_ext_in {A} (P Q : A → Prop) `{∀ x, Decision (P x)} `{∀ x, Decision (Q x)}
    (l : list A) :
  (∀ x, x ∈ l → P x ↔ Q x) → filter P l = filter Q l.
Proof.
  induction l as [|x l IH]; intros Hx; [done|].
  rewrite !filter_cons.
  assert (IH' : filter P l = filter Q l).
  { apply IH. intros y Hy. apply Hx. by right. }
  assert (Hpq : P x ↔ Q x) by (apply Hx; by left).
  destruct (decide (P x)), (decide (Q x)); try tauto; by rewrite IH'.
Qed.

Lemma v3_select_same m m' p todos :
  (∀ t, t ∈ todos → objects m' !! t = objects m !! t) →
  select m' p todos = select m p todos.
Proof.
  intros H. unfold select. apply filter_ext_in. intros t Ht.
  unfold holds. by rewrite H.
Qed.

Lemma v3_ordered_same m m' todos :
  (∀ t, t ∈ todos → objects m' !! t = objects m !! t) →
  ordered m' todos = ordered m todos.
Proof. intros H. unfold ordered. by rewrite !(v3_select_same m m'). Qed.

Lemma v3_get_same m m' v n :
  user_todos m' !! v = user_todos m !! v →
  (∀ t, t ∈ live_tasks m v → objects m' !! t = objects m !! t) →
  get_todo_by_display_number m' v n = get_todo_by_display_number m v n.
Proof.
  intros Hu Ho. unfold get_todo_by_display_number. rewrite Hu.
  destruct (user_todos m !! v) as [todos|] eqn:E; [|done].
  rewrite (v3_ordered_same m m'); [done|].
  intros t Ht. apply Ho. unfold live_tasks. by rewrite E.
Qed.

Lemma v3_line_text_same m m' (l : line) :
  (∀ n t b, l = Entry n t b → objects m' !! t = objects m !! t) →
  line_text m' l = line_text m l.
Proof.
  destruct l as [title|n t b]; [done|]. intros H. simpl.
  unfold text_at. by rewrite (H n t b).
Qed.

Lemma v3_format_lines_tasks m todos n t b :
  Entry n t b ∈ format_lines m todos → t ∈ todos.
Proof.
  intros H.
  assert (He : (n, t) ∈ entries (format_lines m todos)).
  { unfold entries. apply list_elem_of_omap. by exists (Entry n t b). }
  rewrite v3_format_lines_entries in He.
  apply elem_of_lookup_imap in He as (i & t' & [= _ <-] & Hi).
  apply list_elem_of_lookup_2 in Hi. by apply v3_elem_of_ordered in Hi as [? _].
Qed.

Lemma v3_formatted_list_same m m' v :
  user_todos m' !! v = user_todos m !! v →
  (∀ t, t ∈ live_tasks m v → objects m' !! t = objects m !! t) →
  get_formatted_list m' v = get_formatted_list m v.
Proof.
  intros Hu Ho. unfold get_formatted_list. rewrite Hu.
  destruct (user_todos m !! v) as [[|t0 todos]|] eqn:E; [done| |done].
  assert (Ho' : ∀ t, t ∈ t0 :: todos → objects m' !! t = objects m !! t).
  { intros t Ht. apply Ho. unfold live_tasks. by rewrite E. }
  assert (Hl : format_lines m' (t0 :: todos) = format_lines m (t0 :: todos)).
  { unfold format_lines. by rewrite !(v3_select_same m m'). }
  rewrite Hl. f_equal. apply map_ext_in. intros l Hl'%list_elem_of_In.
  apply v3_line_text_same. intros n t b ->.
  apply Ho'. by eapply v3_format_lines_tasks.
Qed.

End v3_messages.

(* ================================================================== *)
(** * CleanTodoBot (v3): which messages raise *)
(* ================================================================== *)

Section v3_totality.
Import ProdV3.
Implicit Types (m : TodoManager) (u v n : Z) (t : loc) (todos : list loc).
Implicit Types (s ds text : str) (c : N).

Lemma decimal_value_Some c : cp_isdecimal c = true → is_Some (decimal_value c).
Proof.
  unfold cp_isdecimal, in_ranges, decimal_value. intros H.
  apply existsb_exists in H as (r & Hr & Hc).
  destruct (find _ decimal_ranges) as [r'|] eqn:E; [by eexists|].
  eapply find_none in E; [|done]. simpl in E. congruence.
Qed.

Lemma decimal_value_None c : cp_isdecimal c = false → decimal_value c = None.
Proof.
  unfold cp_isdecimal, in_ranges, decimal_value. intros H.
  destruct (find _ decimal_ranges) as [r'|] eqn:E; [|done].
  apply find_some in E as [Hin Hc].
  assert (existsb (λ r, (r.1 <=? c)%N && (c <=? r.2)%N) decimal_ranges = true).
  { apply existsb_exists. eauto. }
  congruence.
Qed.

Lemma int_go_total acc s :
  Forall (λ c, cp_isdecimal c = true) s → ∃ n, int_go acc s = Ret n.
Proof.
  revert acc. induction s as [|c s IH]; intros acc Hs; simpl; [eauto|].
  apply Forall_cons in Hs as [Hc Hs].
  destruct (decimal_value_Some c Hc) as [d ->]. by apply IH.
Qed.

(** [int] reads every string of decimal digits that is not longer than
    the interpreter allows. *)
Lemma int_total s :
  isdigit s = true → plain_digits s → Z.of_nat (length s) ≤ MAX_STR_DIGITS →
  ∃ n, int s = Ret n.
Proof.
  intros Hd Hp Hl. unfold int. destruct s as [|c s]; [done|].
  destruct (Z.ltb_spec MAX_STR_DIGITS (Z.of_nat (length (c :: s)))) as [Hlt|_]; [lia|].
  apply int_go_total. apply Forall_forall. intros x Hx. apply Hp; [done|].
  eapply isdigit_forall; [done|]. by apply list_elem_of_In.
Qed.

(** ... and raises on a longer one. *)
Lemma int_too_long s :
  MAX_STR_DIGITS < Z.of_nat (length s) → int s = Raise ValueError.
Proof.
  intros Hl. unfold int. destruct s as [|c s]; [done|].
  destruct (Z.ltb_spec MAX_STR_DIGITS (Z.of_nat (length (c :: s)))) as [_|Hge]; [done|lia].
Qed.

Lemma int_go_Raise acc s :
  Exists (λ c, cp_isdecimal c = false) s → int_go acc s = Raise ValueError.
Proof.
  revert acc. induction s as [|c s IH]; intros acc Hs; simpl.
  - by apply Exists_nil in Hs.
  - destruct (decimal_value c) as [d|] eqn:E; [|done].
    apply Exists_cons in Hs as [Hc|Hs]; [|by apply IH].
    apply decimal_value_None in Hc. congruence.
Qed.

Lemma int_Raise s :
  Exists (λ c, cp_isdecimal c = false) s → int s = Raise ValueError.
Proof.
  intros H. unfold int. destruct s; [done|].
  destruct (MAX_STR_DIGITS <? _); [done|]. by apply int_go_Raise.
Qed.

Lemma plain_digits_sub s s' : (∀ c, c ∈ s' → c ∈ s) → plain_digits s → plain_digits s'.
Proof. intros H Hp c Hc. apply Hp. by apply H. Qed.

Lemma elem_of_but_last s c : c ∈ but_last s → c ∈ s.
Proof.
  unfold but_last. induction s as [|a s IH]; simpl; [done|].
  destruct s as [|b s]; [by intros ?%elem_of_nil|].
  intros [->|H]%elem_of_cons; [by left|]. right. by apply IH.
Qed.

Lemma elem_of_split sep s p c : p ∈ split sep s → c ∈ p → c ∈ s.
Proof.
  revert p. induction s as [|a s IH]; intros p; simpl.
  - intros ->%list_elem_of_singleton. done.
  - destruct (a =? sep)%N.
    + rewrite elem_of_cons. intros [->|H] Hc; [by apply elem_of_nil in Hc|].
      right. by eapply IH.
    + destruct (split sep s) as [|q qs] eqn:E.
      * intros ->%list_elem_of_singleton. rewrite list_elem_of_singleton.
        intros ->. by left.
      * rewrite elem_of_cons. intros [->|H] Hc.
        -- apply elem_of_cons in Hc as [->|Hc]; [by left|].
           right. apply (IH q); [by left|done].
        -- right. apply (IH p); [by right|done].
Qed.

Lemma v3_add_lines_total m u lines :
  well_formed m → ∃ m', add_lines m u lines = Ret m'.
Proof.
  revert m. induction lines as [|line lines IH]; intros m Hwf; simpl; [eauto|].
  destruct line as [|c line]; [by apply IH|].
  destruct (v3_add_todo_total m u (c :: line)) as (m1 & t & E).
  { apply (wf_next_ids _ Hwf). }
  rewrite E. simpl. apply IH. by eapply v3_add_todo_well_formed.
Qed.

Lemma v3_add_from_text_total m u text :
  well_formed m → ∃ m' r, add_from_text m u text = Ret (m', r).
Proof.
  intros Hwf. unfold add_from_text. destruct (1 <? _).
  - destruct (v3_add_lines_total m u (nonblank_lines text) Hwf) as [m' ->].
    simpl. eauto.
  - destruct (v3_add_todo_total m u text) as (m1 & t & ->).
    { apply (wf_next_ids _ Hwf). }
    simpl. eauto.
Qed.

Lemma length_but_last s : (length (but_last s) ≤ length s)%nat.
Proof.
  unfold but_last. induction s as [|a s IH]; simpl; [done|].
  destruct s as [|b s]; simpl in *; lia.
Qed.

Lemma length_split_part sep s p : p ∈ split sep s → (length p ≤ length s)%nat.
Proof.
  revert p. induction s as [|a s IH]; intros p; simpl.
  - by intros ->%list_elem_of_singleton.
  - destruct (a =? sep)%N.
    + rewrite elem_of_cons. intros [->|H]; [simpl; lia|].
      apply IH in H. lia.
    + destruct (split sep s) as [|q qs] eqn:E.
      * intros ->%list_elem_of_singleton. simpl. lia.
      * rewrite elem_of_cons. intros [->|H].
        -- assert (length q ≤ length s)%nat by (apply IH; by left). simpl. lia.
        -- assert (length p ≤ length s)%nat by (apply IH; by right). lia.
Qed.

Lemma plain_digits_drop k s : plain_digits s → plain_digits (drop k s).
Proof.
  apply plain_digits_sub. intros c Hc. eapply elem_of_sublist; [done|].
  apply sublist_drop.
Qed.

Lemma v3_number_commands_total m u text :
  well_formed m → plain_digits text → Z.of_nat (length text) ≤ MAX_STR_DIGITS →
  ∃ m' r, _handle_number_commands m u text = Ret (m', r).
Proof.
  intros Hwf Hp Hl. unfold _handle_number_commands.
  destruct (startswith (utf8 "-") text && isdigit (drop 1 text)) eqn:E1.
  { apply andb_true_iff in E1 as [_ Hd].
    destruct (int_total (drop 1 text) Hd) as [num ->];
      [by apply plain_digits_drop|rewrite length_drop; lia|].
    simpl. destruct (v3_remove_todo_total m u num) as (m' & b & ->).
    simpl. eauto. }
  destruct (isdigit text) eqn:E2.
  { destruct (int_total text E2 Hp Hl) as [num ->]. simpl.
    destruct (toggle_todo m u num). eauto. }
  destruct ((1 <? Z.of_nat (length text)) && isdigit (but_last text)) eqn:E3.
  { apply andb_true_iff in E3 as [_ Hd].
    destruct (int_total (but_last text) Hd) as [num ->].
    { eapply plain_digits_sub; [|done]. apply elem_of_but_last. }
    { pose proof (length_but_last text). lia. }
    simpl. repeat case_bool_decide;
      try (destruct (move_todo_to_section m u num _)); eauto. }
  destruct (contains PLUS text); [|by apply v3_add_from_text_total].
  destruct (split PLUS text) as [|p0 [|p1 [|p2 ps]]] eqn:Es;
    try by apply v3_add_from_text_total.
  destruct (isdigit p0 && isdigit p1) eqn:E4; [|by apply v3_add_from_text_total].
  apply andb_true_iff in E4 as [H0 H1].
  destruct (int_total p0 H0) as [n1 ->].
  { eapply plain_digits_sub; [|done]. intros c. apply (elem_of_split PLUS).
    rewrite Es. by left. }
  { assert (length p0 ≤ length text)%nat; [|lia].
    apply (length_split_part PLUS). rewrite Es. by left. }
  destruct (int_total p1 H1) as [n2 ->].
  { eapply plain_digits_sub; [|done]. intros c. apply (elem_of_split PLUS).
    rewrite Es. right. by left. }
  { assert (length p1 ≤ length text)%nat; [|lia].
    apply (length_split_part PLUS). rewrite Es. right. by left. }
  simpl. destruct (v3_merge_todos_total m u n1 n2) as (m' & b & ->).
  simpl. eauto.
Qed.

Lemma v3_handle_message_total m u text :
  well_formed m → plain_digits (strip text) →
  Z.of_nat (length (strip text)) ≤ MAX_STR_DIGITS →
  ∃ m' r, handle_message m u text = Ret (m', r).
Proof.
  intros Hwf Hp Hl. unfold handle_message. destruct text as [|c s]; [eauto|].
  repeat (match goal with |- context [if ?b then _ else _] => destruct b end;
          [try destruct (clear_todos m u); try destruct (restore_backup m u);
           try destruct (continue_list m u); by eauto|]).
  by apply v3_number_commands_total.
Qed.

Lemma isdigit_strip ds : isdigit ds = true → strip ds = ds.
Proof.
  intros Hd. pose proof Hd as (c & s & -> & Hc & Hs)%isdigit_inv.
  apply (strip_id c s (List.last (c :: s) c)); [by apply digit_not_space| |done].
  apply digit_not_space. eapply isdigit_forall; [exact Hd|].
  destruct s as [|c' s']; [by left|].
  right. apply (last_in_tail [c] (c' :: s') c). done.
Qed.

Lemma last_cons_default {A} (x d d' : A) l :
  List.last (x :: l) d = List.last (x :: l) d'.
Proof.
  revert x. induction l as [|y l IH]; intros x; [done|].
  change (List.last (y :: l) d = List.last (y :: l) d'). apply IH.
Qed.

Lemma v3_raise_toggle m u ds :
  odd_number ds → handle_message m u ds = Raise ValueError.
Proof.
  intros [Hd He]. pose proof Hd as (c & s & -> & Hc & _)%isdigit_inv.
  rewrite v3_handle_message_numeric; [|by left|by apply isdigit_strip].
  unfold _handle_number_commands.
  rewrite v3_startswith_minus by done. rewrite andb_false_l. cbv iota.
  rewrite Hd, (int_Raise _ He). done.
Qed.

Lemma v3_raise_delete m u ds :
  odd_number ds → handle_message m u (45%N :: ds) = Raise ValueError.
Proof.
  intros [Hd He].
  rewrite v3_handle_message_numeric; [|by right|].
  - unfold _handle_number_commands.
    change (startswith (utf8 "-") (45%N :: ds)) with true.
    change (drop 1 (45%N :: ds)) with ds. rewrite Hd, (int_Raise _ He). done.
  - pose proof Hd as (c & s & -> & Hc & _)%isdigit_inv.
    apply (strip_id _ _ (List.last (c :: s) c)); [by vm_compute| |].
    + apply digit_not_space. eapply isdigit_forall; [exact Hd|].
      destruct s as [|c' s']; [by left|].
      right. apply (last_in_tail [c] (c' :: s') c). done.
    + change (List.last (45%N :: c :: s) 45%N) with (List.last (c :: s) 45%N).
      apply last_cons_default.
Qed.

Lemma strip_digits_first a s c :
  cp_isdigit a = true ∨ a = 45%N → cp_isspace c = false →
  strip (a :: s ++ [c]) = a :: s ++ [c].
Proof.
  intros Ha Hc. apply (strip_id _ _ c); [|done|].
  - destruct Ha as [Ha| ->]; [by apply digit_not_space|done].
  - change (a :: s ++ [c]) with ((a :: s) ++ [c]). apply last_last.
Qed.

Lemma isdigit_last_not_space ds d : isdigit ds = true → cp_isspace (List.last ds d) = false.
Proof.
  intros Hd. apply digit_not_space. eapply isdigit_forall; [exact Hd|].
  destruct ds as [|a s]; [done|]. apply (last_in_tail [] (a :: s)). done.
Qed.

Lemma strip_minus_digits ds : isdigit ds = true → strip (45%N :: ds) = 45%N :: ds.
Proof.
  intros Hd. apply (strip_id _ _ (List.last (45%N :: ds) 45%N)); [done| |done].
  destruct ds as [|a s]; [done|].
  change (List.last (45%N :: a :: s) 45%N) with (List.last (a :: s) 45%N).
  by apply isdigit_last_not_space.
Qed.

(** The four shapes of a numeric command, as the handler reads them. *)
Lemma v3_message_delete m u ds :
  isdigit ds = true →
  handle_message m u (45%N :: ds)
  = num ← int ds;
    '(m', removed) ← remove_todo m u num;
    Ret (m', if removed : bool then list_reply m' u else None).
Proof.
  intros Hd. rewrite v3_handle_message_numeric; [|by right|by apply strip_minus_digits].
  unfold _handle_number_commands.
  change (startswith (utf8 "-") (45%N :: ds)) with true.
  change (drop 1 (45%N :: ds)) with ds. by rewrite Hd.
Qed.

Lemma v3_message_toggle m u ds :
  isdigit ds = true →
  handle_message m u ds
  = num ← int ds;
    let '(m', toggled) := toggle_todo m u num in
    Ret (m', if toggled : bool then list_reply m' u else None).
Proof.
  intros Hd. pose proof Hd as (a & s & -> & Ha & _)%isdigit_inv.
  rewrite v3_handle_message_numeric; [|by left|by apply isdigit_strip].
  unfold _handle_number_commands.
  rewrite v3_startswith_minus by done. rewrite andb_false_l. cbv iota.
  by rewrite Hd.
Qed.

Lemma v3_message_suffix m u ds c :
  isdigit ds = true → cp_isdigit c = false → cp_isspace c = false →
  handle_message m u (ds ++ [c])
  = num ← int ds;
    match
      (if bool_decide (Some c = Some 1075%N) then Some GARAGE
       else if bool_decide (Some c = Some 1074%N) then Some VOLYNKA
       else if bool_decide (Some c = Some 1079%N) then Some PURCHASE
       else None)
    with
    | Some target =>
        let '(m', moved) := move_todo_to_section m u num target in
        Ret (m', if moved : bool then list_reply m' u else None)
    | None => Ret (m, None)
    end.
Proof.
  intros Hd Hc Hs. pose proof Hd as (a & s & -> & Ha & _)%isdigit_inv.
  change ((a :: s) ++ [c]) with (a :: (s ++ [c])).
  rewrite v3_handle_message_numeric; [|by left|by apply strip_digits_first; [left|]].
  change (a :: (s ++ [c])) with ((a :: s) ++ [c]).
  by apply v3_digits_and_suffix.
Qed.

Lemma v3_message_merge m u d1 d2 :
  isdigit d1 = true → isdigit d2 = true →
  handle_message m u (d1 ++ PLUS :: d2)
  = first_num ← int d1;
    second_num ← int d2;
    '(m', merged) ← merge_todos m u first_num second_num;
    Ret (m', if merged : bool then list_reply m' u else None).
Proof.
  intros H1 H2. pose proof H1 as (a & s & -> & Ha & _)%isdigit_inv.
  change ((a :: s) ++ PLUS :: d2) with (a :: (s ++ PLUS :: d2)).
  rewrite v3_handle_message_numeric; [|by left|].
  2:{ eapply (strip_id _ _ (List.last (a :: s ++ PLUS :: d2) a));
        [by apply digit_not_space| |done].
      apply digit_not_space. eapply isdigit_forall; [exact H2|].
      apply (last_in_tail_cons (a :: s) d2). by intros ->. }
  unfold _handle_number_commands.
  rewrite v3_startswith_minus by done. rewrite andb_false_l. cbv iota.
  change (a :: (s ++ PLUS :: d2)) with ((a :: s) ++ PLUS :: d2).
  rewrite isdigit_middle_false by done.
  assert (Hb : isdigit (but_last ((a :: s) ++ PLUS :: d2)) = false).
  { unfold but_last.
    destruct (exists_last (l := PLUS :: d2)) as (k & z & E); [done|].
    rewrite E, app_assoc, removelast_last.
    destruct k as [|b k].
    - injection E as _ ->. done.
    - injection E as <- _. by apply (isdigit_middle_false (a :: s) k PLUS). }
  rewrite Hb, andb_false_r, contains_middle.
  rewrite split_middle by (by apply v3_plus_not_in_digits).
  rewrite H1, H2, andb_true_l. done.
Qed.

Lemma v3_marker_target c :
  c ∈ MARKERS →
  (if bool_decide (Some c = Some 1075%N) then Some GARAGE
   else if bool_decide (Some c = Some 1074%N) then Some VOLYNKA
   else if bool_decide (Some c = Some 1079%N) then Some PURCHASE
   else None) = Some (marker_section c)
  ∧ cp_isdigit c = false ∧ cp_isspace c = false.
Proof.
  unfold MARKERS. rewrite !elem_of_cons, elem_of_nil.
  intros [->|[->|[->|[]]]]; by vm_compute.
Qed.

Lemma v3_resolved_command m u text cmd :
  spells text cmd → resolves (get_todo_by_display_number m u) cmd →
  ∃ m', apply m (command_op u cmd) = Ret m'
        ∧ handle_message m u text = Ret (m', list_reply m' u).
Proof.
  intros Hs Hr.
  destruct Hs as [ds n Hd Hi|ds n Hd Hi|d1 d2 n1 n2 H1 H2 I1 I2|ds n c Hd Hi Hc];
    simpl in Hr.
  - rewrite v3_message_delete, Hi by done. simpl.
    destruct (v3_remove_todo_total m u n) as (m' & b & E). rewrite E. simpl.
    exists m'. split; [done|].
    apply v3_remove_todo_Ret in E as [(_ & _ & G)|(t & l' & -> & _)]; [|done].
    rewrite G in Hr. by destruct Hr.
  - rewrite v3_message_toggle, Hi by done. simpl. unfold toggle_todo.
    destruct Hr as [t ->]. eauto.
  - rewrite v3_message_merge, I1, I2 by done. simpl.
    destruct (v3_merge_todos_total m u n1 n2) as (m' & b & E). rewrite E. simpl.
    exists m'. split; [done|].
    apply v3_merge_todos_Ret in E as [(_ & _ & G)|(t1 & t2 & l' & -> & _)]; [|done].
    destruct Hr as ([t1 G1] & [t2 G2] & Hne).
    destruct G as [G|[G|G]]; congruence.
  - destruct (v3_marker_target c Hc) as (Ht & Hcd & Hcs).
    rewrite v3_message_suffix, Hi, Ht by done. simpl. unfold move_todo_to_section.
    destruct Hr as [t ->]. eauto.
Qed.

End v3_totality.

(* ================================================================== *)
(** * CleanTodoBot (v3): texts that become tasks *)
(* ================================================================== *)

Section v3_texts.
Import ProdV3.
Implicit Types (m : TodoManager) (u v n : Z) (t : loc) (todos : list loc).
Implicit Types (s ds text : str) (c : N).

Lemma v3_not_menu_number m u text :
  text ≠ [] → is_menu_label (strip text) = false →
  handle_message m u text = _handle_number_commands m u (strip text).
Proof.
  intros Hne Hm. unfold handle_message. destruct text as [|c s]; [done|].
  unfold is_menu_label in Hm.
  repeat (apply orb_false_iff in Hm as [Hm ?]).
  by repeat match goal with H : _ = false |- _ => rewrite H; clear H end.
Qed.


Lemma split_first_cons sep c s :
  c ≠ sep → ∃ p ps, split sep (c :: s) = (c :: p) :: ps.
Proof.
  intros Hc. simpl. apply N.eqb_neq in Hc. rewrite Hc.
  destruct (split sep s) as [|p ps]; eauto.
Qed.

Lemma v3_other_text_added m u c s :
  cp_isdigit c = false → c ≠ 45%N →
  _handle_number_commands m u (c :: s) = add_from_text m u (c :: s).
Proof.
  intros Hc Hm. unfold _handle_number_commands.
  change (startswith (utf8 "-") (c :: s)) with (startswith [45%N] (c :: s)).
  rewrite startswith_cons_false by (by intros <-).
  rewrite andb_false_l. cbv iota.
  rewrite isdigit_cons, Hc, andb_false_l. cbv iota.
  assert (Hb : (1 <? Z.of_nat (length (c :: s))) && isdigit (but_last (c :: s)) = false).
  { destruct s as [|b s]; [done|].
    apply andb_false_iff. right. unfold but_last.
    change (removelast (c :: b :: s)) with (c :: removelast (b :: s)).
    by rewrite isdigit_cons, Hc. }
  rewrite Hb. destruct (contains PLUS (c :: s)); [|done].
  destruct (decide (c = PLUS)) as [->|Hp].
  - simpl. destruct (split PLUS s) as [|p1 [|p2 ps]]; done.
  - destruct (split_first_cons PLUS c s Hp) as (p & ps & ->).
    destruct ps as [|p1 [|p2 ps]]; try done.
    by rewrite isdigit_cons, Hc.
Qed.

Lemma v3_upcoming_id_add m u text m' t :
  add_todo m u text = Ret (m', t) →
  objects m' = objects m ++ [task_of_line (upcoming_id m u) text]
  ∧ t = length (objects m)
  ∧ user_todos m' = <[u := live_tasks m u ++ [t]]> (user_todos m)
  ∧ next_ids m' = <[u := upcoming_id m u + 1]> (next_ids m)
  ∧ backups m' = backups m
  ∧ upcoming_id m' u = upcoming_id m u + 1.
Proof.
  intros (next_id & Hn & -> & Ho & Hu & Hi & Hb)%v3_add_todo_Ret.
  assert (Hup : upcoming_id m u = next_id).
  { unfold upcoming_id. destruct (user_todos m !! u); [by rewrite Hn|done]. }
  rewrite Hup. repeat split; try done.
  unfold upcoming_id. by rewrite Hu, Hi, !lookup_insert_eq.
Qed.

Lemma v3_add_lines_spec m u line lines m' :
  Forall (λ l, l ≠ []) (line :: lines) →
  add_lines m u (line :: lines) = Ret m' →
  objects m'
    = objects m
      ++ imap (λ i l, task_of_line (upcoming_id m u + Z.of_nat i) l) (line :: lines)
  ∧ user_todos m'
    = <[u := live_tasks m u ++ seq (length (objects m)) (S (length lines))]> (user_todos m)
  ∧ next_ids m' = <[u := upcoming_id m u + Z.of_nat (S (length lines))]> (next_ids m)
  ∧ backups m' = backups m.
Proof.
  revert m line. induction lines as [|line2 lines IH]; intros m line Hne.
  - apply Forall_cons in Hne as [Hl _]. simpl. destruct line as [|c l]; [done|].
    destruct (add_todo m u (c :: l)) as [[m1 t]|] eqn:E; simpl; [|done].
    intros [= <-].
    apply v3_upcoming_id_add in E as (Ho & -> & Hu & Hi & Hb & _).
    by rewrite Z.add_0_r.
  - apply Forall_cons in Hne as [Hl Hne].
    change (add_lines m u (line :: line2 :: lines))
      with (match line with
            | [] => add_lines m u (line2 :: lines)
            | _ => '(m', _) ← add_todo m u line; add_lines m' u (line2 :: lines)
            end).
    destruct line as [|c l]; [done|].
    destruct (add_todo m u (c :: l)) as [[m1 t]|] eqn:E; [|done].
    change (add_lines m1 u (line2 :: lines) = Ret m' → ?G) with
      (add_lines m1 u (line2 :: lines) = Ret m' → G).
    intros (Ho' & Hu' & Hi' & Hb')%IH; [|done].
    apply v3_upcoming_id_add in E as (Ho & -> & Hu & Hi & Hb & Hup).
    assert (Hl1 : live_tasks m1 u = live_tasks m u ++ [length (objects m)]).
    { unfold live_tasks at 1. by rewrite Hu, lookup_insert_eq. }
    assert (Hlen : length (objects m1) = S (length (objects m))).
    { rewrite Ho, length_app. simpl. lia. }
    rewrite Ho', Hu', Hi', Hb', Hl1, Hlen, Ho, Hu, Hi, Hb, Hup.
    repeat split.
    + rewrite <- app_assoc. f_equal. cbn [app].
      rewrite (imap_cons _ (c :: l)).
      f_equal; [f_equal; simpl; lia|].
      apply imap_ext. intros i x _. simpl. f_equal. lia.
    + rewrite insert_insert_eq. f_equal. by rewrite <- app_assoc.
    + rewrite insert_insert_eq. f_equal. simpl length. lia.
Qed.

Lemma isdigit_In_false s c : In c s → cp_isdigit c = false → isdigit s = false.
Proof.
  intros (s1 & s2 & ->)%in_split Hc. by apply isdigit_middle_false.
Qed.

Lemma split_covers sep s c :
  In c s → c ≠ sep → ∃ p, p ∈ split sep s ∧ In c p.
Proof.
  intros Hin Hc. induction s as [|a s IH]; [done|]. simpl.
  destruct (a =? sep)%N eqn:E.
  - destruct Hin as [->|Hin]; [by apply N.eqb_eq in E|].
    destruct (IH Hin) as (p & Hp & Hcp). exists p. split; [by right|done].
  - destruct (split sep s) as [|q qs] eqn:Es.
    + destruct Hin as [->|Hin].
      * exists [c]. split; [by left|by left].
      * destruct (IH Hin) as (p & Hp & _). by apply elem_of_nil in Hp.
    + destruct Hin as [->|Hin].
      * exists (c :: q). split; [by left|by left].
      * destruct (IH Hin) as (p & Hp & Hcp).
        apply elem_of_cons in Hp as [->|Hp].
        -- exists (a :: q). split; [by left|by right].
        -- exists p. split; [by right|done].
Qed.

Lemma nonblank_lines_one text :
  ¬ In NL text → (length (nonblank_lines text) ≤ 1)%nat.
Proof.
  intros H. unfold nonblank_lines. rewrite split_no_sep by done. simpl.
  rewrite filter_cons, filter_nil. destruct (decide _); simpl; lia.
Qed.

Lemma nonblank_lines_trailing s :
  ¬ In NL s → (length (nonblank_lines (s ++ [NL])) ≤ 1)%nat.
Proof.
  intros H. unfold nonblank_lines.
  rewrite (split_middle NL s []); [|done|by intros []]. simpl.
  rewrite !filter_cons, filter_nil. change (strip []) with (@nil N).
  destruct (decide ([] ≠ [])) as [Hn|_]; [done|].
  destruct (decide _); simpl; lia.
Qed.

Lemma v3_multiline_not_command m u text :
  1 < Z.of_nat (length (nonblank_lines text)) →
  _handle_number_commands m u text = add_from_text m u text.
Proof.
  intros Hl.
  assert (Hnl : In NL text).
  { destruct (in_dec N.eq_dec NL text) as [|Hn]; [done|].
    apply nonblank_lines_one in Hn. lia. }
  assert (Hd : ∀ s, In NL s → isdigit s = false).
  { intros s Hs. by apply (isdigit_In_false s NL). }
  unfold _handle_number_commands.
  assert (H1 : startswith (utf8 "-") text && isdigit (drop 1 text) = false).
  { destruct text as [|a rest]; [done|].
    destruct (decide (a = 45%N)) as [->|Ha].
    - apply andb_false_iff. right. apply Hd. by destruct Hnl.
    - change (utf8 "-") with [45%N]. by rewrite startswith_cons_false. }
  rewrite H1, (Hd text Hnl).
  assert (H3 : (1 <? Z.of_nat (length text)) && isdigit (but_last text) = false).
  { apply andb_false_iff. right.
    destruct (exists_last (l := text)) as (s & z & ->); [by intros ->|].
    rewrite but_last_snoc.
    destruct (in_dec N.eq_dec NL s) as [Hs|Hs]; [by apply Hd|].
    apply in_app_or in Hnl as [?|[->|[]]]; [done|].
    apply nonblank_lines_trailing in Hs. lia. }
  rewrite H3.
  destruct (contains PLUS text); [|done].
  destruct (split PLUS text) as [|p0 [|p1 [|p2 ps]]] eqn:Es; try done.
  destruct (split_covers PLUS text NL Hnl) as (p & Hp & Hc); [done|].
  rewrite Es in Hp. rewrite !elem_of_cons, elem_of_nil in Hp.
  destruct Hp as [->|[->|[]]]; rewrite (Hd _ Hc), ?andb_false_r; done.
Qed.

Lemma v3_multiline_not_menu text :
  1 < Z.of_nat (length (nonblank_lines text)) → is_menu_label text = false.
Proof.
  intros Hl. unfold is_menu_label, is_in, LIST_LABELS, NEW_LABELS, RESTORE_LABELS,
    CONTINUE_LABELS. simpl.
  repeat match goal with
  | |- context [str_eqb text ?l] =>
      let E := fresh in
      destruct (str_eqb text l) eqn:E;
      [apply bool_decide_eq_true in E; subst text; by vm_compute in Hl|]
  end.
  done.
Qed.

(** A message of several lines is no command: every line of it that is
    not blank becomes a task. *)
Lemma v3_multiline_message m u msg :
  1 < Z.of_nat (length (nonblank_lines (strip msg))) →
  handle_message m u msg
  = m' ← add_lines m u (nonblank_lines (strip msg)); Ret (m', list_reply m' u).
Proof.
  intros Hl.
  assert (Hne : msg ≠ []) by (intros ->; by vm_compute in Hl).
  rewrite v3_not_menu_number, v3_multiline_not_command by
    (done || by apply v3_multiline_not_menu).
  unfold add_from_text.
  by replace (1 <? Z.of_nat (length (nonblank_lines (strip msg)))) with true
    by (symmetry; by apply Z.ltb_lt).
Qed.

Lemma nonblank_lines_nonempty text : Forall (λ l, l ≠ []) (nonblank_lines text).
Proof.
  unfold nonblank_lines. apply Forall_forall. intros l Hl.
  by apply list_elem_of_filter in Hl as [? _].
Qed.

Lemma pos_lt_pow2_size p : (N.pos p < 2 ^ N.of_nat (Pos.size_nat p))%N.
Proof.
  induction p as [p IH|p IH|]; simpl Pos.size_nat;
    rewrite ?Nat2N.inj_succ, ?N.pow_succ_r'; [| |done].
  - lia.
  - lia.
Qed.

Lemma N_lt_pow2_size (k : N) : (k < 2 ^ N.of_nat (S (N.size_nat k)))%N.
Proof.
  rewrite Nat2N.inj_succ, N.pow_succ_r'. destruct k as [|p]; simpl N.size_nat.
  - simpl. lia.
  - pose proof (pos_lt_pow2_size p). lia.
Qed.

Lemma decimal_value_ascii (k : N) :
  (k < 10)%N → decimal_value (48 + k) = Some (Z.of_N k) ∧ cp_isdigit (48 + k) = true.
Proof.
  intros Hk.
  assert (Hc : k ∈ [0;1;2;3;4;5;6;7;8;9]%N).
  { rewrite !elem_of_cons. lia. }
  rewrite !elem_of_cons, elem_of_nil in Hc.
  destruct Hc as [->|[->|[->|[->|[->|[->|[->|[->|[->|[->|[]]]]]]]]]]]; by vm_compute.
Qed.

Lemma int_go_app a s1 s2 :
  int_go a (s1 ++ s2) = (x ← int_go a s1; int_go x s2).
Proof.
  revert a. induction s1 as [|c s1 IH]; intros a; simpl; [done|].
  destruct (decimal_value c); [apply IH|done].
Qed.

Lemma digits_go_spec fuel (k : N) acc :
  (k < 2 ^ N.of_nat (S fuel))%N →
  ∃ ds, digits_go (S fuel) k acc = ds ++ acc ∧ ds ≠ []
        ∧ forallb cp_isdigit ds = true
        ∧ ∀ a, int_go a ds = Ret (a * 10 ^ Z.of_nat (length ds) + Z.of_N k).
Proof.
  revert k acc. induction fuel as [|fuel IH]; intros k acc Hk;
    assert (Hmod : (k mod 10 < 10)%N) by (apply N.mod_lt; lia);
    destruct (decimal_value_ascii _ Hmod) as [Hv Hd];
    pose proof (N.div_mod k 10) as Hdm;
    change (digits_go (S ?f) k acc)
      with (if (k / 10 =? 0)%N then (48 + k mod 10)%N :: acc
            else digits_go f (k / 10)%N ((48 + k mod 10)%N :: acc));
    destruct (k / 10 =? 0)%N eqn:E.
  - apply N.eqb_eq in E. exists [(48 + k mod 10)%N]. repeat split; try done.
    + simpl. by rewrite Hd.
    + intros a. simpl. rewrite Hv. f_equal. lia.
  - apply N.eqb_neq in E. change (2 ^ N.of_nat 1)%N with 2%N in Hk.
    assert (k / 10 = 0)%N by (apply N.div_small; lia). done.
  - apply N.eqb_eq in E. exists [(48 + k mod 10)%N]. repeat split; try done.
    + simpl. by rewrite Hd.
    + intros a. simpl. rewrite Hv. f_equal. lia.
  - apply N.eqb_neq in E.
    destruct (IH (k / 10)%N ((48 + k mod 10)%N :: acc)) as (ds & Hg & Hne & Hf & Hi).
    { rewrite (Nat2N.inj_succ (S fuel)), N.pow_succ_r' in Hk.
      apply N.Div0.div_lt_upper_bound. lia. }
    exists (ds ++ [(48 + k mod 10)%N]). repeat split.
    + rewrite Hg. by rewrite <- app_assoc.
    + by destruct ds.
    + rewrite forallb_app, Hf. simpl. by rewrite Hd.
    + intros a. rewrite int_go_app, Hi. simpl. rewrite Hv. f_equal.
      rewrite length_app, Nat2Z.inj_add, Z.pow_add_r by lia. simpl length.
      lia.
Qed.

(** A number below [10 ^ d] is written with [d] digits at most. *)
Lemma digits_go_length fuel (k : N) acc (d : nat) :
  (0 < d)%nat → (k < 10 ^ N.of_nat d)%N →
  (length (digits_go fuel k acc) ≤ d + length acc)%nat.
Proof.
  revert k acc d. induction fuel as [|fuel IH]; intros k acc d Hd Hk; [simpl; lia|].
  change (digits_go (S fuel) k acc)
    with (if (k / 10 =? 0)%N then (48 + k mod 10)%N :: acc
          else digits_go fuel (k / 10)%N ((48 + k mod 10)%N :: acc)).
  destruct (k / 10 =? 0)%N eqn:E; [simpl; lia|].
  apply N.eqb_neq in E.
  destruct d as [|[|d]]; [lia| |].
  - change (10 ^ N.of_nat 1)%N with 10%N in Hk. rewrite N.div_small in E by lia. done.
  - etrans; [apply (IH (k / 10)%N ((48 + k mod 10)%N :: acc) (S d))|]; [lia| |simpl; lia].
    rewrite (Nat2N.inj_succ (S d)), N.pow_succ_r' in Hk.
    apply N.Div0.div_lt_upper_bound. lia.
Qed.

Lemma str_of_int_length n :
  0 ≤ n < 10 ^ MAX_STR_DIGITS → Z.of_nat (length (str_of_int n)) ≤ MAX_STR_DIGITS.
Proof.
  intros [Hn Hb]. unfold str_of_int.
  replace (n <? 0) with false by (symmetry; apply Z.ltb_ge; lia).
  pose proof (digits_go_length (S (N.size_nat (Z.abs_N n))) (Z.abs_N n) []
                (Z.to_nat MAX_STR_DIGITS)) as H.
  simpl length in H. rewrite Nat.add_0_r in H.
  assert (Hd : (0 < Z.to_nat MAX_STR_DIGITS)%nat) by (unfold MAX_STR_DIGITS; lia).
  assert (Hk : (Z.abs_N n < 10 ^ N.of_nat (Z.to_nat MAX_STR_DIGITS))%N).
  { apply N2Z.inj_lt. rewrite N2Z.inj_pow, N2Z.inj_abs_N, Z.abs_eq by lia.
    rewrite nat_N_Z, Z2Nat.id by (unfold MAX_STR_DIGITS; lia). exact Hb. }
  specialize (H Hd Hk). apply Nat2Z.inj_le in H.
  rewrite Z2Nat.id in H by (unfold MAX_STR_DIGITS; lia). exact H.
Qed.

(** [str] and [int] undo each other on the numbers that are not negative
    and have no more digits than the interpreter converts. *)
Lemma str_of_int_digits n :
  0 ≤ n < 10 ^ MAX_STR_DIGITS →
  isdigit (str_of_int n) = true ∧ int (str_of_int n) = Ret n.
Proof.
  intros Hn. pose proof (str_of_int_length n Hn) as Hl. revert Hl.
  unfold str_of_int.
  replace (n <? 0) with false by (symmetry; apply Z.ltb_ge; lia).
  destruct (digits_go_spec (N.size_nat (Z.abs_N n)) (Z.abs_N n) [])
    as (ds & -> & Hne & Hf & Hi); [apply N_lt_pow2_size|].
  rewrite app_nil_r. destruct ds as [|c ds]; [done|]. intros Hl. split; [done|].
  unfold int.
  destruct (Z.ltb_spec MAX_STR_DIGITS (Z.of_nat (length (c :: ds)))) as [Hlt|_]; [lia|].
  rewrite Hi. f_equal. lia.
Qed.

(** A number that is not negative is written with a decimal digit first. *)
Lemma digits_go_head fuel (k : N) acc :
  (fuel = 0%nat → ∃ c s, acc = c :: s ∧ (48 <=? c)%N && (c <=? 57)%N = true) →
  ∃ c s, digits_go fuel k acc = c :: s ∧ (48 <=? c)%N && (c <=? 57)%N = true.
Proof.
  revert k acc. induction fuel as [|fuel IH]; intros k acc Ha; [by apply Ha|].
  assert (Hmod : (k mod 10 < 10)%N) by (apply N.mod_lt; lia).
  assert (Hc : (48 <=? 48 + k mod 10)%N && (48 + k mod 10 <=? 57)%N = true).
  { revert Hmod. generalize (k mod 10)%N. intros x Hx.
    apply andb_true_iff. split; apply N.leb_le; lia. }
  change (digits_go (S fuel) k acc)
    with (if (k / 10 =? 0)%N then (48 + k mod 10)%N :: acc
          else digits_go fuel (k / 10)%N ((48 + k mod 10)%N :: acc)).
  destruct (k / 10 =? 0)%N; [by eexists _, _|].
  apply IH. intros _. by eexists _, _.
Qed.

Lemma str_of_int_head n :
  0 ≤ n → ∃ c s, str_of_int n = c :: s ∧ (48 <=? c)%N && (c <=? 57)%N = true.
Proof.
  intros Hn. unfold str_of_int.
  replace (n <? 0) with false by (symmetry; apply Z.ltb_ge; lia).
  apply digits_go_head. done.
Qed.

Lemma v3_printed_number_toggles m u n t :
  n < 10 ^ MAX_STR_DIGITS →
  get_todo_by_display_number m u n = Some t →
  let m' := set_objects m (alter toggled t (objects m)) in
  handle_message m u (str_of_int n) = Ret (m', list_reply m' u).
Proof.
  intros Hb He.
  assert (Hn : 1 ≤ n) by (by apply v3_get_Some in He as [? _]).
  destruct (str_of_int_digits n) as [Hd Hi]; [lia|].
  rewrite v3_message_toggle, Hi by done. simpl. unfold toggle_todo. by rewrite He.
Qed.

End v3_texts.

(* ================================================================== *)
(** * TodoManager (v3): removing, restoring, the sound states *)
(* ================================================================== *)

Section v3_store_more.
Import ProdV3.
Implicit Types (m : TodoManager) (u v n : Z) (t : loc) (todos : list loc).
Implicit Types (s ds text : str) (c : N).

Lemma filter_comm {A} (P Q : A → Prop) `{!∀ x, Decision (P x), !∀ x, Decision (Q x)}
    (l : list A) :
  filter P (filter Q l) = filter Q (filter P l).
Proof. rewrite !list_filter_filter. apply list_filter_iff. tauto. Qed.

Lemma filter_ne_delete {A} `{EqDecision A} (l : list A) i x :
  NoDup l → l !! i = Some x → filter (λ y, y ≠ x) l = delete i l.
Proof.
  revert i. induction l as [|a l IH]; intros i Hnd Hi; [done|].
  apply NoDup_cons in Hnd as [Ha Hnd]. rewrite filter_cons.
  destruct i as [|i]; simpl in Hi.
  - injection Hi as ->. rewrite decide_False by tauto. simpl.
    clear IH. induction l as [|b l IH]; [done|].
    apply not_elem_of_cons in Ha as [Hb Ha]. apply NoDup_cons in Hnd as [_ Hnd].
    rewrite filter_cons, decide_True by done. f_equal. by apply IH.
  - rewrite decide_True.
    + simpl. f_equal. by apply IH.
    + intros ->. apply Ha. by eapply list_elem_of_lookup_2.
Qed.

Lemma v3_ordered_filter m (P : loc → Prop) `{!∀ x, Decision (P x)} todos :
  ordered m (filter P todos) = filter P (ordered m todos).
Proof.
  unfold ordered, select. rewrite !filter_app. by rewrite !(filter_comm _ P).
Qed.

Lemma v3_remove_todo_spec m u n t :
  well_formed m → get_todo_by_display_number m u n = Some t →
  ∃ m', remove_todo m u n = Ret (m', true)
    ∧ objects m' = objects m
    ∧ next_ids m' = next_ids m ∧ backups m' = backups m
    ∧ (∀ v, v ≠ u → user_todos m' !! v = user_todos m !! v)
    ∧ live_tasks m' u = filter (λ y, y ≠ t) (live_tasks m u)
    ∧ S (length (live_tasks m' u)) = length (live_tasks m u)
    ∧ (∀ k, get_todo_by_display_number m' u k
            = get_todo_by_display_number m u (if k <? n then k else k + 1)).
Proof.
  intros Hwf G.
  pose proof (v3_get_live _ _ _ _ G) as [Hin _].
  destruct (list_remove_loc t (live_tasks m u) Hin (wf_nodup _ Hwf u))
    as (l' & Hr & -> & Hnin & Hlen).
  pose proof G as (Hn & Hi & [todos Hu])%v3_get_Some.
  assert (Hl : live_tasks m u = todos) by (by apply v3_live_Some).
  exists (set_user_todos m u (filter (λ y, y ≠ t) (live_tasks m u))).
  assert (Hl' : live_tasks (set_user_todos m u (filter (λ y, y ≠ t) (live_tasks m u))) u
                = filter (λ y, y ≠ t) (live_tasks m u)).
  { rewrite v3_live_set_user_todos. by rewrite decide_True. }
  repeat split; try done.
  - unfold remove_todo. rewrite G, Hu. rewrite <- Hl, Hr. done.
  - intros v Hv. simpl. by rewrite lookup_insert_ne.
  - by rewrite Hl'.
  - intros k. unfold get_todo_by_display_number at 1. simpl.
    rewrite lookup_insert_eq.
    change (ordered (set_user_todos m u ?l) ?x) with (ordered m x).
    rewrite v3_ordered_filter.
    rewrite (filter_ne_delete _ (Z.to_nat (n - 1)) t);
      [|by apply v3_ordered_NoDup, (wf_nodup _ Hwf)|done].
    assert (Hlen' : S (length (delete (Z.to_nat (n - 1)) (ordered m (live_tasks m u))))
                  = length (ordered m (live_tasks m u))).
    { rewrite length_delete by eauto. apply lookup_lt_Some in Hi. lia. }
    unfold get_todo_by_display_number. rewrite Hu, <- Hl.
    apply lookup_lt_Some in Hi as Hlt.
    destruct (k <? n) eqn:Ek.
    + apply Z.ltb_lt in Ek.
      destruct (1 <=? k) eqn:E1; simpl; [|done].
      apply Z.leb_le in E1.
      replace (k <=? Z.of_nat (length (delete (Z.to_nat (n - 1)) (ordered m (live_tasks m u)))))
        with true by (symmetry; apply Z.leb_le; lia).
      replace (k <=? Z.of_nat (length (ordered m (live_tasks m u))))
        with true by (symmetry; apply Z.leb_le; lia).
      apply list_lookup_delete_lt. lia.
    + apply Z.ltb_ge in Ek.
      replace (1 <=? k) with true by (symmetry; apply Z.leb_le; lia).
      replace (1 <=? k + 1) with true by (symmetry; apply Z.leb_le; lia).
      simpl.
      destruct (k <=? Z.of_nat (length (delete (Z.to_nat (n - 1)) (ordered m (live_tasks m u)))))
        eqn:E2.
      * apply Z.leb_le in E2.
        replace (k + 1 <=? Z.of_nat (length (ordered m (live_tasks m u))))
          with true by (symmetry; apply Z.leb_le; lia).
        rewrite list_lookup_delete_ge by lia. f_equal. lia.
      * apply Z.leb_gt in E2.
        replace (k + 1 <=? Z.of_nat (length (ordered m (live_tasks m u))))
          with false by (symmetry; apply Z.leb_gt; lia).
        done.
Qed.

(** ** New list and restore, done and restore *)

Lemma v3_clear_restore m u :
  live_tasks m u ≠ [] →
  let m1 := (clear_todos m u).1 in
  let m2 := (restore_backup m1 u).1 in
  user_todos m2 = user_todos m ∧ objects m2 = objects m ∧ next_ids m2 = next_ids m
  ∧ backups m2 = <[u := []]> (backups m)
  ∧ (restore_backup m1 u).2 = (clear_todos m u).2
  ∧ (clear_todos m u).2 = Z.of_nat (length (live_tasks m u)).
Proof.
  intros Hne. unfold clear_todos, live_tasks in *.
  destruct (user_todos m !! u) as [[|t todos]|] eqn:E; try done. simpl.
  unfold restore_backup. simpl. rewrite lookup_insert_eq. simpl.
  rewrite !insert_insert_eq. repeat split; try done.
  by rewrite insert_id.
Qed.

Lemma filter_none {A} (P : A → Prop) `{!∀ x, Decision (P x)} (l : list A) :
  (∀ x, x ∈ l → ¬ P x) → filter P l = [].
Proof.
  induction l as [|a l IH]; intros Hl; [done|].
  rewrite filter_cons, decide_False by (apply Hl; by left).
  apply IH. intros x Hx. apply Hl. by right.
Qed.

Lemma v3_continue_twice m u :
  let m1 := (continue_list m u).1 in
  select m1 completed (live_tasks m1 u) = []
  ∧ continue_list m1 u = (m1, 0).
Proof.
  simpl.
  assert (H : select (continue_list m u).1 completed (live_tasks (continue_list m u).1 u) = []).
  { pose proof (v3_continue_list_spec m u) as (_ & H2 & H3). simpl in *.
    destruct (select m completed (live_tasks m u)) as [|t c] eqn:Ec.
    - rewrite H3 by done. done.
    - destruct H2 as (Hl & _ & Ho & _); [done|]. rewrite Hl.
      apply filter_none. intros x [_ Hx]%v3_elem_of_select.
      unfold holds in *. rewrite Ho.
      destruct (objects m !! x) as [o|]; [|done].
      rewrite v3_pending_not_completed in Hx.
      destruct (completed o); [done|]. by intros []. }
  split; [done|].
  unfold continue_list at 1. unfold live_tasks in H.
  destruct (user_todos (continue_list m u).1 !! u) as [todos|]; [|done].
  simpl in H. by rewrite H.
Qed.

(** After the done tasks were taken out, restoring makes them the list. *)
Lemma v3_continue_restore m u :
  select m completed (live_tasks m u) ≠ [] →
  let m1 := (continue_list m u).1 in
  let m2 := (restore_backup m1 u).1 in
  live_tasks m2 u = select m completed (live_tasks m u)
  ∧ objects m2 = objects m
  ∧ backup_tasks m2 u = [].
Proof.
  intros Hne. simpl.
  pose proof (v3_continue_list_spec m u) as (_ & H2 & _). simpl in H2.
  destruct (H2 Hne) as (Hl & Hb & Ho & Hi & _).
  pose proof (v3_restore_backup_spec (continue_list m u).1 u) as [H _]. simpl in H.
  destruct H as (R1 & R2 & _ & _ & R5 & _).
  { unfold backup_tasks. by rewrite Hb. }
  unfold live_tasks at 1, backup_tasks at 1. rewrite R1, R2, R5, Ho.
  unfold backup_tasks. by rewrite Hb.
Qed.

Lemma v3_not_owned_empty u t : ¬ owned empty_manager u t.
Proof.
  intros [H|H]; unfold live_tasks, backup_tasks in H; simpl in H;
    rewrite lookup_empty in H; by apply elem_of_nil in H.
Qed.

Lemma v3_ids_in_order_empty : ids_in_order empty_manager.
Proof.
  split.
  - intros u k H. simpl in H. by rewrite lookup_empty in H.
  - intros u [k H]. simpl in H. by rewrite lookup_empty in H.
  - intros u t o H. by apply v3_not_owned_empty in H.
  - intros u t1 t2 o1 o2 H. by apply v3_not_owned_empty in H.
Qed.

Lemma v3_apply_backup_user m o m' :
  (∀ u, is_Some (backups m !! u) → is_Some (user_todos m !! u)) →
  apply m o = Ret m' →
  ∀ u, is_Some (backups m' !! u) → is_Some (user_todos m' !! u).
Proof.
  intros H E.
  destruct o as [u text|u n|u n|u n target|u n1 n2|u|u|u]; simpl in *.
  - destruct (add_todo m u text) as [[m1 t]|] eqn:Ea; simplify_eq/=.
    apply v3_add_todo_Ret in Ea as (next_id & Hn & -> & Ho & Hu & Hi & Hb).
    intros v. rewrite Hu, Hb, lookup_insert. case_decide; [done|apply H].
  - destruct (remove_todo m u n) as [[m1 b]|] eqn:Er; simplify_eq/=.
    apply v3_remove_todo_Ret in Er as [(_ & -> & _)|(t & l' & _ & G & R & ->)];
      [done|].
    intros v. simpl. rewrite lookup_insert. case_decide; [done|apply H].
  - simplify_eq. unfold toggle_todo.
    by destruct (get_todo_by_display_number m u n).
  - simplify_eq. unfold move_todo_to_section.
    by destruct (get_todo_by_display_number m u n).
  - destruct (merge_todos m u n1 n2) as [[m1 b]|] eqn:Er; simplify_eq/=.
    apply v3_merge_todos_Ret in Er
      as [(_ & -> & _)|(t1 & t2 & l' & _ & _ & G1 & G2 & R & ->)]; [done|].
    intros v. simpl. rewrite lookup_insert. case_decide; [done|apply H].
  - simplify_eq. unfold clear_todos.
    destruct (user_todos m !! u) as [todos|] eqn:Eu; simpl; [|done].
    intros v. destruct (0 <? _); simpl; rewrite ?lookup_insert;
      repeat case_decide; try done; apply H.
  - simplify_eq. unfold restore_backup.
    destruct (backups m !! u) as [[|t b]|] eqn:Eu; simpl; try done.
    intros v. rewrite !lookup_insert. repeat case_decide; try done; apply H.
  - simplify_eq. unfold continue_list.
    destruct (user_todos m !! u) as [todos|] eqn:Eu; simpl; [|done].
    destruct (select m completed todos) as [|t c] eqn:Ec; simpl; [done|].
    intros v. rewrite !lookup_insert. repeat case_decide; try done; apply H.
Qed.

Lemma v3_apply_ids_in_order m o m' :
  well_formed m → ids_in_order m → apply m o = Ret m' → ids_in_order m'.
Proof.
  intros Hwf [Hp Hbu Hb Hq] E.
  pose proof (v3_apply_backup_user _ _ _ Hbu E) as Hbu'.
  assert (Hc : (∃ u text, o = DoAdd u text) ∨ (∀ u text, o ≠ DoAdd u text)).
  { destruct o; eauto; by right. }
  destruct Hc as [(u & text & ->)|Hna].
  - simpl in E. destruct (add_todo m u text) as [[m1 t]|] eqn:Ea; simplify_eq/=.
    pose proof (λ v t', v3_owned_add m u text m' t v t' Ea) as Hown.
    pose proof Ea as (Ho & -> & Hu & Hi & Hbk & Hup)%v3_upcoming_id_add.
    assert (Hold : ∀ w t, owned m w t → objects m' !! t = objects m !! t).
    { intros w t Ht%(v3_owned_bound _ _ _ Hwf). rewrite Ho. by apply lookup_app_l. }
    assert (Hnew : objects m' !! length (objects m)
                   = Some (task_of_line (upcoming_id m u) text)).
    { rewrite Ho. by rewrite lookup_app_r, Nat.sub_diag by lia. }
    assert (Hfresh : ∀ w, ¬ owned m w (length (objects m))).
    { intros w Hw%(v3_owned_bound _ _ _ Hwf). lia. }
    assert (Hpos : 0 < upcoming_id m u
                   ∧ ∀ t o, owned m u t → objects m !! t = Some o →
                       item_id o < upcoming_id m u).
    { unfold upcoming_id. destruct (user_todos m !! u) as [l|] eqn:El.
      - destruct (wf_next_ids _ Hwf u) as [k Hk]; [by rewrite El|]. rewrite Hk. simpl.
        split; [by eapply Hp|].
        intros t o Ht Hot. destruct (Hb u t o Ht Hot) as (k' & Hk' & ?).
        simplify_eq. lia.
      - split; [lia|]. intros t o [Ht|Ht] Hot.
        + unfold live_tasks in Ht. rewrite El in Ht. by apply elem_of_nil in Ht.
        + destruct (Hbu u) as [l Hl]; [|congruence].
          unfold backup_tasks in Ht. destruct (backups m !! u); [done|].
          by apply elem_of_nil in Ht. }
    destruct Hpos as [Hpos Hlt].
    split; try done.
    + intros v k. rewrite Hi, lookup_insert. case_decide; [|apply Hp].
      intros [= <-]. lia.
    + intros v t o [Ht|[-> ->]]%Hown Hot.
      * rewrite (Hold _ _ Ht) in Hot. destruct (Hb v t o Ht Hot) as (k & Hk & ?).
        rewrite Hi, lookup_insert. case_decide; [subst v|eauto].
        eexists. split; [done|]. specialize (Hlt t o Ht Hot). lia.
      * rewrite Hnew in Hot. injection Hot as <-. simpl.
        rewrite Hi, lookup_insert_eq. eexists. split; [done|]. lia.
    + intros v t1 t2 o1 o2 [H1|[-> ->]]%Hown [H2|[? ->]]%Hown Ho1 Ho2 Hid; try done.
      * rewrite (Hold _ _ H1) in Ho1. rewrite (Hold _ _ H2) in Ho2. by eapply Hq.
      * subst v. rewrite (Hold _ _ H1) in Ho1. rewrite Hnew in Ho2.
        injection Ho2 as <-. simpl in Hid. specialize (Hlt t1 o1 H1 Ho1). lia.
      * rewrite (Hold _ _ H2) in Ho2. rewrite Hnew in Ho1.
        injection Ho1 as <-. simpl in Hid. specialize (Hlt t2 o2 H2 Ho2). lia.
  - apply v3_apply_frame in E as (Hn & _ & Hid & Hsub); [|done].
    assert (Hitem : ∀ t o', objects m' !! t = Some o' →
              ∃ ob, objects m !! t = Some ob ∧ item_id ob = item_id o').
    { intros t o' Ho'. specialize (Hid t). rewrite Ho' in Hid. simpl in Hid.
      destruct (objects m !! t) as [ob|]; [|done]. injection Hid as Hid. eauto. }
    split; try done.
    + intros u k. rewrite Hn. apply Hp.
    + intros u t o' Ht%Hsub (ob & Hob & <-)%Hitem. rewrite Hn. by eapply Hb.
    + intros u t1 t2 o1' o2' H1%Hsub H2%Hsub (o1 & Ho1 & <-)%Hitem
        (o2 & Ho2 & <-)%Hitem. by eapply Hq.
Qed.

Lemma v3_sound_empty : sound empty_manager.
Proof.
  split; [apply v3_well_formed_empty|apply v3_consistent_empty
         |apply v3_separated_empty|apply v3_ids_in_order_empty].
Qed.

Lemma v3_apply_sound m o m' :
  sound m → admissible o → apply m o = Ret m' → sound m'.
Proof.
  intros [H1 H2 H3 H4] Ha E. split.
  - by eapply v3_apply_well_formed.
  - by eapply v3_apply_consistent.
  - by eapply v3_apply_separated.
  - by eapply v3_apply_ids_in_order.
Qed.

Lemma v3_run_sound m ops m' :
  sound m → Forall admissible ops → run m ops = Ret m' → sound m'.
Proof.
  revert m. induction ops as [|o ops IH]; intros m Hs Ha; simpl.
  - by intros [= <-].
  - apply Forall_cons in Ha as [Ha Hops].
    destruct (apply m o) as [m1|] eqn:E; simpl; [|done].
    apply IH; [by eapply v3_apply_sound|done].
Qed.

Lemma v3_by_user_admissible u ops : Forall (by_user u) ops → Forall admissible ops.
Proof. intros H. eapply Forall_impl; [exact H|]. by intros o [? _]. Qed.

Lemma v3_handle_message_sound m u text m' r :
  sound m → handle_message m u text = Ret (m', r) → sound m'.
Proof.
  intros Hs (ops & Hops & Hr)%v3_handle_message_run.
  eapply v3_run_sound; [done| |done]. by eapply v3_by_user_admissible.
Qed.

Lemma v3_format_section_head title struck todos k :
  (format_section title struck todos k).1 = []
  ∨ ∃ rest, (format_section title struck todos k).1 = Header title :: rest.
Proof. destruct todos; simpl; eauto. Qed.

Lemma v3_format_lines_head m todos :
  format_lines m todos = [] ∨ ∃ title rest, format_lines m todos = Header title :: rest.
Proof.
  unfold format_lines.
  repeat match goal with
  | |- context [format_section ?a ?b ?c ?d] =>
      let H := fresh in let r := fresh "r" in let k := fresh "k" in
      pose proof (v3_format_section_head a b c d) as H;
      destruct (format_section a b c d) as [r k]; simpl in H
  end.
  destruct H as [->|(? & ->)]; [|simpl; eauto].
  destruct H0 as [->|(? & ->)]; [|simpl; eauto].
  destruct H1 as [->|(? & ->)]; [|simpl; eauto].
  destruct H2 as [->|(? & ->)]; [|simpl; eauto].
  by left.
Qed.

Lemma join_head sep (p : str) ps c rest :
  p = c :: rest → ∃ rest', join sep (p :: ps) = c :: rest'.
Proof. intros ->. destruct ps; simpl; eauto. Qed.

Lemma v3_formatted_list_empty m u :
  get_formatted_list m u = EMPTY_LIST ↔ live_tasks m u = [].
Proof.
  unfold get_formatted_list, live_tasks.
  destruct (user_todos m !! u) as [[|t todos]|]; simpl; [done| |done].
  split; [|done]. intros H. exfalso.
  destruct (v3_format_lines_head m (t :: todos)) as [E|(title & rest & E)];
    rewrite E in H; [done|].
  simpl map in H.
  destruct (join_head [NL] (NL :: title) (map (line_text m) rest) NL title eq_refl)
    as [r Hr].
  rewrite Hr in H. done.
Qed.

(** ** Texts that are no command *)

Lemma v3_other_message m u msg c s :
  strip msg = c :: s → cp_isdigit c = false → c ≠ 45%N →
  is_menu_label (c :: s) = false →
  handle_message m u msg = add_from_text m u (c :: s).
Proof.
  intros Hs Hc Hm Hl.
  assert (Hne : msg ≠ []) by (by intros ->).
  rewrite v3_not_menu_number by (done || by rewrite Hs).
  rewrite Hs. by apply v3_other_text_added.
Qed.

Lemma v3_single_line m u text :
  ¬ In NL text →
  add_from_text m u text = '(m', _) ← add_todo m u text; Ret (m', list_reply m' u).
Proof.
  intros H%nonblank_lines_one. unfold add_from_text.
  replace (1 <? Z.of_nat (length (nonblank_lines text))) with false
    by (symmetry; apply Z.ltb_ge; lia).
  by destruct (add_todo m u text) as [[m1 t]|].
Qed.

(** The two buttons of the commands keyboard that [handle_message] has no
    branch for. *)
Lemma not_In_contains sep s : contains sep s = false → ¬ In sep s.
Proof.
  unfold contains. intros H Hin.
  assert (existsb (N.eqb sep) s = true); [|congruence].
  apply existsb_exists. exists sep. split; [done|]. apply N.eqb_refl.
Qed.

Lemma v3_button_added m u label :
  label = SETTINGS_BUTTON ∨ label = HELP_BUTTON →
  is_menu_label label = false
  ∧ handle_message m u label
    = '(m', _) ← add_todo m u label; Ret (m', list_reply m' u).
Proof.
  intros [-> | ->]; (split; [by vm_compute|]).
  - unfold SETTINGS_BUTTON.
    match goal with |- handle_message m u (?c :: ?s) = _ =>
      rewrite (v3_other_message m u (c :: s) c s); [|by vm_compute..] end.
    apply v3_single_line, not_In_contains. by vm_compute.
  - unfold HELP_BUTTON.
    match goal with |- handle_message m u (?c :: ?s) = _ =>
      rewrite (v3_other_message m u (c :: s) c s); [|by vm_compute..] end.
    apply v3_single_line, not_In_contains. by vm_compute.
Qed.

Lemma v3_buttons_handled label :
  label ∈ concat get_commands_keyboard →
  is_menu_label label = true ∨ label = SETTINGS_BUTTON ∨ label = HELP_BUTTON.
Proof.
  unfold get_commands_keyboard. simpl concat. rewrite !elem_of_cons, elem_of_nil.
  intros [->|[->|[->|[->|[->|[->|[->|[]]]]]]]]; try (left; by vm_compute); tauto.
Qed.

(** ** Toggling twice *)

Lemma v3_toggle_twice_section m u n n' t o :
  get_todo_by_display_number m u n = Some t →
  objects m !! t = Some o → crossed_out o = false →
  let m1 := (toggle_todo m u n).1 in
  get_todo_by_display_number m1 u n' = Some t →
  let m2 := (toggle_todo m1 u n').1 in
  objects m1 !! t = Some (mkTodoItem (text o) (item_id o) true DONE)
  ∧ objects m2 !! t = Some (mkTodoItem (text o) (item_id o) false PURCHASE).
Proof.
  intros G Ho Hc. simpl.
  assert (E1 : (toggle_todo m u n).1 = set_objects m (alter toggled t (objects m))).
  { unfold toggle_todo. by rewrite G. }
  rewrite E1. intros G'.
  assert (E2 : (toggle_todo (set_objects m (alter toggled t (objects m))) u n').1
               = set_objects m (alter toggled t (alter toggled t (objects m)))).
  { unfold toggle_todo. by rewrite G'. }
  rewrite E2. simpl. rewrite !list_lookup_alter_eq, Ho. simpl.
  unfold toggled. simpl. by rewrite Hc.
Qed.

End v3_store_more.

(* ================================================================== *)
(** * TodoManager (v3): the embedded data *)
(* ================================================================== *)

Section v3_embedded.
Import ProdV3.
Implicit Types (m : TodoManager) (u v n : Z) (t : loc) (todos : list loc).

Lemma v3_embedded_maps :
  user_todos embedded_manager
    = <[SECOND_CHAT := [18%nat]]> (<[FIRST_CHAT := seq 0 18]> ∅)
  ∧ next_ids embedded_manager = <[SECOND_CHAT := 40]> (<[FIRST_CHAT := 72]> ∅)
  ∧ backups embedded_manager = ∅
  ∧ length (objects embedded_manager) = 19%nat.
Proof. by vm_compute. Qed.

Lemma v3_chats_differ : FIRST_CHAT ≠ SECOND_CHAT.
Proof. by vm_compute. Qed.

Lemma v3_embedded_user u :
  user_todos embedded_manager !! u
  = if decide (u = SECOND_CHAT) then Some [18%nat]
    else if decide (u = FIRST_CHAT) then Some (seq 0 18) else None.
Proof.
  rewrite (proj1 v3_embedded_maps).
  destruct (decide (u = SECOND_CHAT)) as [->|H2].
  - by rewrite lookup_insert_eq.
  - rewrite lookup_insert_ne by done.
    destruct (decide (u = FIRST_CHAT)) as [->|H1].
    + by rewrite lookup_insert_eq.
    + by rewrite lookup_insert_ne, lookup_empty.
Qed.

Lemma v3_embedded_next u :
  next_ids embedded_manager !! u
  = if decide (u = SECOND_CHAT) then Some 40
    else if decide (u = FIRST_CHAT) then Some 72 else None.
Proof.
  rewrite (proj1 (proj2 v3_embedded_maps)).
  destruct (decide (u = SECOND_CHAT)) as [->|H2].
  - by rewrite lookup_insert_eq.
  - rewrite lookup_insert_ne by done.
    destruct (decide (u = FIRST_CHAT)) as [->|H1].
    + by rewrite lookup_insert_eq.
    + by rewrite lookup_insert_ne, lookup_empty.
Qed.

Lemma v3_embedded_no_backup u : backups embedded_manager !! u = None.
Proof. rewrite (proj1 (proj2 (proj2 v3_embedded_maps))). apply lookup_empty. Qed.

Lemma v3_embedded_length : length (objects embedded_manager) = 19%nat.
Proof. apply v3_embedded_maps. Qed.

Lemma v3_embedded_live u :
  live_tasks embedded_manager u
  = if decide (u = SECOND_CHAT) then [18%nat]
    else if decide (u = FIRST_CHAT) then seq 0 18 else [].
Proof.
  unfold live_tasks. rewrite v3_embedded_user.
  by repeat destruct (decide _).
Qed.

Lemma v3_embedded_backup u : backup_tasks embedded_manager u = [].
Proof. unfold backup_tasks. by rewrite v3_embedded_no_backup. Qed.

Lemma v3_embedded_owned u t :
  owned embedded_manager u t ↔
  (u = SECOND_CHAT ∧ t = 18%nat) ∨ (u = FIRST_CHAT ∧ (t < 18)%nat).
Proof.
  pose proof v3_chats_differ as Hd.
  unfold owned. rewrite v3_embedded_live, v3_embedded_backup, elem_of_nil.
  destruct (decide (u = SECOND_CHAT)) as [->|H2];
    [|destruct (decide (u = FIRST_CHAT)) as [->|H1]];
    rewrite ?list_elem_of_singleton, ?elem_of_seq, ?elem_of_nil;
    intuition (try lia; try congruence).
Qed.

Lemma v3_embedded_objects :
  Forall (λ o, section o ∈ SECTION_KEYS ∧ flag_matches_section o ∧ 0 < item_id o)
    (objects embedded_manager).
Proof.
  apply Forall_forall. intros o Ho.
  assert (Hcheck : forallb (λ o, bool_decide (section o ∈ SECTION_KEYS)
                    && bool_decide (crossed_out o = bool_decide (section o = DONE))
                    && (0 <? item_id o)) (objects embedded_manager) = true)
    by (by vm_compute).
  rewrite forallb_forall in Hcheck. apply list_elem_of_In, Hcheck in Ho.
  apply andb_true_iff in Ho as [[H1 H2]%andb_true_iff H3].
  apply bool_decide_eq_true in H1, H2. apply Z.ltb_lt in H3.
  repeat split; try done.
  - rewrite H2. by intros ?%bool_decide_eq_true.
  - rewrite H2. intros ?. by apply bool_decide_eq_true.
Qed.

Lemma v3_embedded_ids :
  (∀ t o, (t < 18)%nat → objects embedded_manager !! t = Some o → item_id o < 72)
  ∧ (∀ o, objects embedded_manager !! 18%nat = Some o → item_id o < 40)
  ∧ NoDup (item_id <$> take 18 (objects embedded_manager)).
Proof.
  split; [|split].
  - intros t o Ht Ho.
    assert (Hcheck : forallb (λ o, item_id o <? 72) (take 18 (objects embedded_manager)) = true)
      by (by vm_compute).
    rewrite forallb_forall in Hcheck. apply Z.ltb_lt, Hcheck, list_elem_of_In.
    apply list_elem_of_lookup. exists t. by rewrite lookup_take_lt.
  - intros o Ho. vm_compute in Ho. by injection Ho as <-.
  - apply (bool_decide_unpack _). by vm_compute.
Qed.

Lemma v3_sound_embedded : sound embedded_manager.
Proof.
  pose proof v3_embedded_objects as Hobj.
  destruct v3_embedded_ids as (Hid1 & Hid2 & Hnd).
  split; [split| | |split].
  - intros u. rewrite v3_embedded_live, v3_embedded_length.
    repeat destruct (decide _); apply Forall_forall; intros t;
      rewrite ?list_elem_of_singleton, ?elem_of_seq, ?elem_of_nil; lia.
  - intros u. rewrite v3_embedded_backup. constructor.
  - intros u. rewrite v3_embedded_live.
    repeat destruct (decide _); [apply NoDup_singleton|apply NoDup_seq|apply NoDup_nil_2].
  - intros u. rewrite v3_embedded_backup. apply NoDup_nil_2.
  - eapply Forall_impl; [exact Hobj|]. by intros o (? & _).
  - intros u. rewrite v3_embedded_user, v3_embedded_next.
    repeat destruct (decide _); intros Hs;
      first [by destruct Hs as [? [=]]|by eexists].
  - intros u. rewrite v3_embedded_no_backup. by intros [? ?].
  - intros u todo t _ Ho. eapply Forall_forall in Hobj as (_ & H & _); [done|].
    by eapply list_elem_of_lookup_2.
  - pose proof v3_chats_differ as Hd.
    intros u v t [[-> ->]|[-> Hu1]]%v3_embedded_owned [[-> Hv]|[-> Hv]]%v3_embedded_owned;
      try reflexivity; lia.
  - intros u k. rewrite v3_embedded_next.
    repeat destruct (decide _); intros [= <-]; lia.
  - intros u. rewrite v3_embedded_no_backup. by intros [? ?].
  - intros u t o [[-> ->]|[-> Ht]]%v3_embedded_owned Ho; rewrite v3_embedded_next.
    + rewrite decide_True by reflexivity.
      exists 40. split; [reflexivity|]. split; [|by apply Hid2].
      eapply Forall_forall in Hobj as (_ & _ & H); [exact H|].
      by eapply list_elem_of_lookup_2.
    + rewrite decide_False by apply v3_chats_differ.
      rewrite decide_True by reflexivity.
      exists 72. split; [reflexivity|]. split; [|by eapply Hid1].
      eapply Forall_forall in Hobj as (_ & _ & H); [exact H|].
      by eapply list_elem_of_lookup_2.
  - intros u t1 t2 o1 o2 [[-> ->]|[-> H1]]%v3_embedded_owned
      [[Hv ->]|[Hv H2]]%v3_embedded_owned Ho1 Ho2 Hid; try reflexivity;
      try (exfalso; apply v3_chats_differ; congruence).
    eapply (NoDup_lookup (item_id <$> take 18 (objects embedded_manager)) t1 t2);
      [exact Hnd| |].
    + by rewrite list_lookup_fmap, lookup_take_lt, Ho1.
    + by rewrite list_lookup_fmap, lookup_take_lt, Ho2, Hid.
Qed.

End v3_embedded.

(* ================================================================== *)
(** * CleanTodoBot (v3): further cases of the handler *)
(* ================================================================== *)

Section v3_more.
Import ProdV3.
Implicit Types (m : TodoManager) (u v n : Z) (t : loc) (todos : list loc).
Implicit Types (s ds text : str) (c : N).

Lemma v3_raise_suffix m u ds c :
  odd_number ds → cp_isdigit c = false → cp_isspace c = false →
  handle_message m u (ds ++ [c]) = Raise ValueError.
Proof.
  intros [Hd He] Hc Hs. rewrite v3_message_suffix by done.
  by rewrite (int_Raise _ He).
Qed.

Lemma int_only_ValueError s e : int s = Raise e → e = ValueError.
Proof.
  unfold int. destruct s as [|a s]; [by intros [= <-]|].
  destruct (MAX_STR_DIGITS <? _); [by intros [= <-]|].
  generalize 0. generalize (a :: s). clear. intros s.
  induction s as [|c s IH]; intros acc; simpl; [done|].
  destruct (decimal_value c); [apply IH|by intros [= <-]].
Qed.

Lemma v3_raise_merge m u d1 d2 :
  isdigit d1 = true → isdigit d2 = true →
  Exists (λ c, cp_isdecimal c = false) (d1 ++ d2) →
  handle_message m u (d1 ++ PLUS :: d2) = Raise ValueError.
Proof.
  intros H1 H2 He. rewrite v3_message_merge by done.
  apply Exists_app in He as [He|He].
  - by rewrite (int_Raise _ He).
  - rewrite (int_Raise d2 He). destruct (int d1) as [n1|e] eqn:E; [done|].
    by apply int_only_ValueError in E as ->.
Qed.

Lemma plain_digits_check s :
  forallb (λ c, implb (cp_isdigit c) (cp_isdecimal c)) s = true → plain_digits s.
Proof.
  intros H c Hc Hd. rewrite forallb_forall in H.
  apply list_elem_of_In, H in Hc. by rewrite Hd in Hc.
Qed.

Lemma v3_after_sound ops : Forall admissible ops → sound (after ops).
Proof.
  intros Ha. unfold after.
  destruct (run empty_manager ops) as [m|] eqn:E; [|apply v3_sound_empty].
  eapply v3_run_sound; [apply v3_sound_empty|done|done].
Qed.

Lemma v3_served_sound m0 m : sound m0 → served m0 m → sound m.
Proof.
  intros H0 Hs. induction Hs as [|m chat_id text m' r _ IH E]; [done|].
  by eapply v3_handle_message_sound.
Qed.

Lemma v3_handle_message_same_for m u text m' r v :
  well_formed m → separated m →
  handle_message m u text = Ret (m', r) → v ≠ u → same_for v m m'.
Proof.
  intros Hwf Hs (ops & Hops & Hr)%v3_handle_message_run Hv.
  by eapply v3_run_same_for.
Qed.

(** A text of one line that is no command becomes one task. *)
Lemma v3_one_line_added m u msg c s :
  well_formed m →
  strip msg = c :: s → cp_isdigit c = false → c ≠ 45%N →
  is_menu_label (c :: s) = false → ¬ In NL (c :: s) →
  ∃ m', handle_message m u msg = Ret (m', list_reply m' u)
    ∧ objects m' = objects m ++ [task_of_line (upcoming_id m u) (c :: s)]
    ∧ user_todos m' = <[u := live_tasks m u ++ [length (objects m)]]> (user_todos m)
    ∧ next_ids m' = <[u := upcoming_id m u + 1]> (next_ids m)
    ∧ backups m' = backups m.
Proof.
  intros Hwf Hs Hc Hm Hl Hnl.
  rewrite (v3_other_message m u msg c s) by done.
  rewrite v3_single_line by done.
  destruct (v3_add_todo_total m u (c :: s)) as (m' & t & E);
    [apply (wf_next_ids _ Hwf)|].
  rewrite E. exists m'. split; [done|].
  by apply v3_upcoming_id_add in E as (Ho & -> & Hu & Hi & Hb & _).
Qed.

(** Every line of a message of several lines becomes a task. *)
Lemma v3_lines_added m u msg :
  well_formed m →
  1 < Z.of_nat (length (nonblank_lines (strip msg))) →
  ∃ m', handle_message m u msg = Ret (m', list_reply m' u)
    ∧ objects m'
      = objects m
        ++ imap (λ i line, task_of_line (upcoming_id m u + Z.of_nat i) line)
             (nonblank_lines (strip msg))
    ∧ user_todos m'
      = <[u := live_tasks m u
                ++ seq (length (objects m)) (length (nonblank_lines (strip msg)))]>
          (user_todos m)
    ∧ next_ids m'
      = <[u := upcoming_id m u + Z.of_nat (length (nonblank_lines (strip msg)))]>
          (next_ids m)
    ∧ backups m' = backups m.
Proof.
  intros Hwf Hl. rewrite v3_multiline_message by done.
  destruct (v3_add_lines_total m u (nonblank_lines (strip msg)) Hwf) as [m' E].
  rewrite E. exists m'. split; [done|].
  pose proof (nonblank_lines_nonempty (strip msg)) as Hne.
  destruct (nonblank_lines (strip msg)) as [|line lines]; [simpl in Hl; lia|].
  by apply v3_add_lines_spec in E.
Qed.

End v3_more.

(* ================================================================== *)
(** * TodoBot (v1): the handler and the store, further cases *)
(* ================================================================== *)

Section v1_more.
Import Prod.
Implicit Types (u : user_data) (n : Z) (s ds text : str) (c : N) (t : loc).

Lemma v1_add_plain_text u c s :
  c ≠ 33%N → ¬ In NL (c :: s) → strip (c :: s) = c :: s →
  add_todo_from_text u (c :: s) = plain_task_added u (c :: s).
Proof.
  intros Hc Hnl Hs. unfold add_todo_from_text, nonblank_lines.
  rewrite split_no_sep by done.
  change (map strip [c :: s]) with [strip (c :: s)].
  rewrite Hs, filter_cons_True by done. rewrite filter_nil.
  change (fold_left add_line [c :: s] u) with (add_line u (c :: s)).
  unfold add_line, section_and_text.
  change (utf8 "!!") with [33%N; 33%N]. change (utf8 "!") with [33%N].
  assert (Hbang : ∀ p, startswith (33%N :: p) (c :: s) = false).
  { intros p.
    change (startswith (33%N :: p) (c :: s)) with ((33 =? c)%N && startswith p s).
    destruct (N.eqb_spec 33 c) as [E|]; [congruence|done]. }
  rewrite !Hbang. done.
Qed.

Lemma v1_text_numeric u c s :
  cp_isdigit c = true ∨ c = 45%N →
  handle_text u (c :: s)
  = '(u', handled) ← handle_todo_command u (c :: s);
    if handled : bool then Ret (u', list_reply u')
    else Ret (add_todo_from_text u' (c :: s), list_reply (add_todo_from_text u' (c :: s))).
Proof.
  intros Hc. unfold handle_text.
  destruct (v1_numeric_not_menu c s Hc) as (M1 & M2 & M3 & M4 & M5 & M6 & M7 & M8).
  by rewrite M1, M2, M3, M4, M5, M6, M7, M8.
Qed.

Lemma v1_command_delete u ds :
  isdigit ds = true →
  handle_todo_command u (45%N :: ds) = todo_num ← int ds; remove_todo_by_number u todo_num.
Proof.
  intros Hd. unfold handle_todo_command.
  change (startswith (utf8 "-") (45%N :: ds)) with true.
  change (drop 1 (45%N :: ds)) with ds. by rewrite Hd.
Qed.

Lemma v1_command_toggle u ds :
  isdigit ds = true →
  handle_todo_command u ds = todo_num ← int ds; Ret (toggle_todo_by_number u todo_num).
Proof.
  intros Hd. unfold handle_todo_command.
  pose proof Hd as (a & s & -> & Ha & _)%isdigit_inv.
  rewrite v3_startswith_minus by done. rewrite andb_false_l. cbv iota.
  by rewrite Hd.
Qed.

Lemma v1_command_merge u d1 d2 :
  isdigit d1 = true → isdigit d2 = true →
  handle_todo_command u (d1 ++ PLUS :: d2)
  = num1 ← int d1; num2 ← int d2; merge_todos u num1 num2.
Proof.
  intros H1 H2. unfold handle_todo_command.
  pose proof H1 as (a & s & -> & Ha & _)%isdigit_inv.
  change ((a :: s) ++ PLUS :: d2) with (a :: (s ++ PLUS :: d2)).
  rewrite v3_startswith_minus by done. rewrite andb_false_l. cbv iota.
  change (a :: (s ++ PLUS :: d2)) with ((a :: s) ++ PLUS :: d2).
  rewrite isdigit_middle_false by done.
  rewrite contains_middle.
  rewrite split_middle by (by apply v3_plus_not_in_digits).
  by rewrite H1, H2, andb_true_l.
Qed.

Lemma v1_marker_index c :
  c ∈ MARKERS →
  (if (1079 =? c)%N then Some 0
   else if (1075 =? c)%N then Some 1
   else if (1074 =? c)%N then Some 2 else None) = Some (marker_index c)
  ∧ cp_isdigit c = false ∧ cp_isspace c = false ∧ c ≠ PLUS ∧ c ≠ 33%N ∧ c ≠ NL.
Proof.
  unfold MARKERS. rewrite !elem_of_cons, elem_of_nil.
  intros [->|[->|[->|[]]]]; by vm_compute.
Qed.

Lemma v1_command_move u ds c :
  isdigit ds = true → c ∈ MARKERS →
  handle_todo_command u (ds ++ [c])
  = todo_num ← int ds; Ret (move_todo_to_section u todo_num (marker_index c)).
Proof.
  intros Hd Hm. destruct (v1_marker_index c Hm) as (Hi & Hc & _ & Hp & _).
  unfold handle_todo_command.
  pose proof Hd as (a & s & -> & Ha & _)%isdigit_inv.
  change ((a :: s) ++ [c]) with (a :: (s ++ [c])).
  rewrite v3_startswith_minus by done. rewrite andb_false_l. cbv iota.
  change (a :: (s ++ [c])) with ((a :: s) ++ [c]).
  rewrite isdigit_snoc_false by done.
  rewrite contains_false.
  2:{ intros [Hin| [->|[]]]%in_app_or; [|done].
      by pose proof (isdigit_forall _ _ Hd Hin). }
  change (utf8 "з") with [1079%N] in *. change (utf8 "г") with [1075%N] in *.
  change (utf8 "в") with [1074%N] in *.
  rewrite !endswith_single. rewrite but_last_snoc, Hd.
  destruct (1079 =? c)%N; [by injection Hi as <-|].
  destruct (1075 =? c)%N; [by injection Hi as <-|].
  destruct (1074 =? c)%N; [by injection Hi as <-|]. done.
Qed.

Lemma v1_single_admissible (o : op) : admissible o → Forall admissible [o].
Proof. intros. apply Forall_cons. split; [done|constructor]. Qed.

Lemma v1_command_run u text u1 (handled : bool) :
  handle_todo_command u text = Ret (u1, handled) →
  (handled = false → u1 = u)
  ∧ ∃ ops, Forall admissible ops ∧ run u ops = Ret u1.
Proof.
  unfold handle_todo_command.
  destruct (startswith (utf8 "-") text && isdigit (drop 1 text)).
  { destruct (int (drop 1 text)) as [num|e]; simpl; [|done]. intros E. split.
    - intros ->. by apply v1_remove_Ret in E as [(_ & -> & _)|(? & ? & ? & _)].
    - exists [DoRemove num]. split; [by apply v1_single_admissible|].
      simpl. by rewrite E. }
  destruct (isdigit text).
  { destruct (int text) as [num|e]; simpl; [|done]. intros [= E]. split.
    - intros ->. unfold toggle_todo_by_number in E.
      by destruct (get_todo_by_display_number u num); simplify_eq.
    - exists [DoToggle num]. split; [by apply v1_single_admissible|].
      simpl. by rewrite E. }
  match goal with |- context [match ?x with Some _ => _ | None => _ end] =>
    destruct x as [[part0 part1]|] end.
  { destruct (int part0) as [n1|e]; simpl; [|done].
    destruct (int part1) as [n2|e]; simpl; [|done]. intros E. split.
    - intros ->. by apply v1_merge_Ret in E as [(_ & -> & _)|(? & ? & ? & ? & _)].
    - exists [DoMerge n1 n2]. split; [by apply v1_single_admissible|].
      simpl. by rewrite E. }
  assert (Hmove : ∀ idx, 0 ≤ idx < 3 →
    (if isdigit (but_last text)
     then todo_num ← int (but_last text); Ret (move_todo_to_section u todo_num idx)
     else Ret (u, false)) = Ret (u1, handled) →
    (handled = false → u1 = u) ∧ ∃ ops, Forall admissible ops ∧ run u ops = Ret u1).
  { intros idx Hidx. destruct (isdigit (but_last text)).
    - destruct (int (but_last text)) as [num|e]; simpl; [|done]. intros [= E]. split.
      + intros ->. unfold move_todo_to_section in E.
        by destruct (get_todo_by_display_number u num); simplify_eq.
      + exists [DoMove num idx]. split; [apply v1_single_admissible; simpl; lia|].
        simpl. by rewrite E.
    - intros [= <- <-]. split; [done|]. by exists []. }
  destruct (endswith (utf8 "з") text); [apply Hmove; lia|].
  destruct (endswith (utf8 "г") text); [apply Hmove; lia|].
  destruct (endswith (utf8 "в") text); [apply Hmove; lia|].
  intros [= <- <-]. split; [done|]. by exists [].
Qed.

Lemma v1_handle_text_run u text u' r :
  handle_text u text = Ret (u', r) →
  ∃ ops, Forall admissible ops ∧ run u ops = Ret u'.
Proof.
  unfold handle_text.
  destruct (str_eqb text MENU). { intros [= <- _]. by exists []. }
  destruct (str_eqb text BACK). { intros [= <- _]. by exists []. }
  destruct (str_eqb text LIST). { intros [= <- _]. by exists []. }
  destruct (str_eqb text NEW).
  { intros [= <- _]. exists [DoClear]. split; [by apply v1_single_admissible|done]. }
  destruct (str_eqb text RESTORE).
  { intros [= <- _]. exists [DoRestore]. split; [by apply v1_single_admissible|done]. }
  destruct (str_eqb text CONTINUE).
  { intros [= <- _]. exists [DoContinue]. split; [by apply v1_single_admissible|done]. }
  destruct (str_eqb text HELP). { intros [= <- _]. by exists []. }
  destruct (str_eqb text SETTINGS). { intros [= <- _]. by exists []. }
  destruct (handle_todo_command u text) as [[u1 handled]|e] eqn:E; simpl; [|done].
  apply v1_command_run in E as [Hu (ops & Ha & Hr)].
  destruct handled.
  - intros [= <- _]. eauto.
  - intros [= <- _]. rewrite Hu by done.
    exists [DoAdd text]. split; [by apply v1_single_admissible|done].
Qed.

Lemma v1_sound_new : sound new_user_data.
Proof.
  split; [apply v1_well_formed_new|apply v1_every_task_new..].
Qed.

Lemma v1_apply_sound u o u' : sound u → admissible o → apply u o = Ret u' → sound u'.
Proof.
  intros [H1 H2 H3] Ha E. split.
  - by eapply v1_apply_well_formed.
  - by eapply v1_apply_consistent.
  - eapply v1_apply_every_task; [apply v1_text_kept|done|done].
Qed.

Lemma v1_run_sound u ops u' :
  sound u → Forall admissible ops → run u ops = Ret u' → sound u'.
Proof.
  revert u. induction ops as [|o ops IH]; intros u Hs Ha; simpl.
  - by intros [= <-].
  - apply Forall_cons in Ha as [Ha Hops].
    destruct (apply u o) as [u1|] eqn:E; simpl; [|done].
    apply IH; [by eapply v1_apply_sound|done].
Qed.

Lemma v1_handle_text_sound u text u' r :
  sound u → handle_text u text = Ret (u', r) → sound u'.
Proof.
  intros Hs (ops & Ha & Hr)%v1_handle_text_run. by eapply v1_run_sound.
Qed.

Lemma v1_command_total u text :
  plain_digits text → Z.of_nat (length text) ≤ MAX_STR_DIGITS →
  ∃ u' b, handle_todo_command u text = Ret (u', b).
Proof.
  intros Hp Hl. unfold handle_todo_command.
  destruct (startswith (utf8 "-") text && isdigit (drop 1 text)) eqn:E1.
  { apply andb_true_iff in E1 as [_ Hd].
    destruct (int_total (drop 1 text) Hd) as [num ->];
      [by apply plain_digits_drop|rewrite length_drop; lia|].
    simpl. apply v1_remove_total. }
  destruct (isdigit text) eqn:E2.
  { destruct (int_total text E2 Hp Hl) as [num ->]. simpl.
    destruct (toggle_todo_by_number u num). eauto. }
  assert (Hmove : ∀ idx : Z,
    ∃ u' b, (if isdigit (but_last text)
             then todo_num ← int (but_last text);
                  Ret (move_todo_to_section u todo_num idx)
             else Ret (u, false)) = Ret (u', b)).
  { intros idx. destruct (isdigit (but_last text)) eqn:Hd; [|eauto].
    destruct (int_total (but_last text) Hd) as [num ->].
    { eapply plain_digits_sub; [|done]. apply elem_of_but_last. }
    { pose proof (length_but_last text). lia. }
    simpl. destruct (move_todo_to_section u num idx). eauto. }
  assert (Hrest : ∃ u' b,
    match (if endswith (utf8 "з") text then Some 0
           else if endswith (utf8 "г") text then Some 1
           else if endswith (utf8 "в") text then Some 2 else None) with
    | Some section_idx =>
        if isdigit (but_last text)
        then todo_num ← int (but_last text);
             Ret (move_todo_to_section u todo_num section_idx)
        else Ret (u, false)
    | None => Ret (u, false)
    end = Ret (u', b)).
  { repeat (destruct (endswith _ text); [apply Hmove|]). eauto. }
  destruct (contains PLUS text); [|exact Hrest].
  destruct (split PLUS text) as [|p0 [|p1 [|p2 ps]]] eqn:Es; try exact Hrest.
  destruct (isdigit p0 && isdigit p1) eqn:E4; [|exact Hrest].
  apply andb_true_iff in E4 as [H0 H1].
  destruct (int_total p0 H0) as [n1 ->].
  { eapply plain_digits_sub; [|done]. intros c. apply (elem_of_split PLUS).
    rewrite Es. by left. }
  { assert (length p0 ≤ length text)%nat; [|lia].
    apply (length_split_part PLUS). rewrite Es. by left. }
  destruct (int_total p1 H1) as [n2 ->].
  { eapply plain_digits_sub; [|done]. intros c. apply (elem_of_split PLUS).
    rewrite Es. right. by left. }
  { assert (length p1 ≤ length text)%nat; [|lia].
    apply (length_split_part PLUS). rewrite Es. right. by left. }
  simpl. apply v1_merge_total.
Qed.

Lemma v1_handle_text_total u text :
  plain_digits text → Z.of_nat (length text) ≤ MAX_STR_DIGITS →
  ∃ u' r, handle_text u text = Ret (u', r).
Proof.
  intros Hp Hl. unfold handle_text.
  repeat (match goal with |- context [if str_eqb ?a ?b then _ else _] =>
            destruct (str_eqb a b) end; [by eauto|]).
  destruct (v1_command_total u text Hp Hl) as (u' & b & ->). simpl.
  destruct b; eauto.
Qed.

(** ** Numbers with digits that are not decimal *)

Lemma v1_raise_toggle u ds : odd_number ds → handle_text u ds = Raise ValueError.
Proof.
  intros [Hd He]. pose proof Hd as (a & s & -> & Ha & _)%isdigit_inv.
  rewrite v1_text_numeric by (by left).
  by rewrite v1_command_toggle, (int_Raise _ He).
Qed.

Lemma v1_raise_delete u ds : odd_number ds → handle_text u (45%N :: ds) = Raise ValueError.
Proof.
  intros [Hd He]. rewrite v1_text_numeric by (by right).
  by rewrite v1_command_delete, (int_Raise _ He).
Qed.

Lemma v1_raise_move u ds c :
  odd_number ds → c ∈ MARKERS → handle_text u (ds ++ [c]) = Raise ValueError.
Proof.
  intros [Hd He] Hc. pose proof Hd as (a & s & -> & Ha & _)%isdigit_inv.
  change ((a :: s) ++ [c]) with (a :: (s ++ [c])).
  rewrite v1_text_numeric by (by left).
  change (a :: (s ++ [c])) with ((a :: s) ++ [c]).
  by rewrite v1_command_move, (int_Raise _ He).
Qed.

Lemma v1_raise_merge u d1 d2 :
  isdigit d1 = true → isdigit d2 = true →
  Exists (λ c, cp_isdecimal c = false) (d1 ++ d2) →
  handle_text u (d1 ++ PLUS :: d2) = Raise ValueError.
Proof.
  intros H1 H2 He. pose proof H1 as (a & s & -> & Ha & _)%isdigit_inv.
  change ((a :: s) ++ PLUS :: d2) with (a :: (s ++ PLUS :: d2)).
  rewrite v1_text_numeric by (by left).
  change (a :: (s ++ PLUS :: d2)) with ((a :: s) ++ PLUS :: d2).
  rewrite v1_command_merge by done.
  apply Exists_app in He as [He|He].
  - by rewrite (int_Raise _ He).
  - rewrite (int_Raise d2 He). destruct (int (a :: s)) as [n1|e] eqn:E; [done|].
    by apply int_only_ValueError in E as ->.
Qed.

(** ** Commands that resolve, and commands that do not *)

Lemma v1_spells_shape text cmd :
  spells text cmd →
  ∃ c s, text = c :: s ∧ (cp_isdigit c = true ∨ c = 45%N) ∧ c ≠ 33%N
         ∧ ¬ In NL text ∧ strip text = text.
Proof.
  assert (Hdig : ∀ ds x, isdigit ds = true → In x ds → x ≠ NL ∧ x ≠ 33%N).
  { intros ds x Hd Hx. pose proof (isdigit_forall _ _ Hd Hx) as H.
    split; intros ->; by vm_compute in H. }
  intros [ds n Hd Hi|ds n Hd Hi|d1 d2 n1 n2 H1 H2 I1 I2|ds n c Hd Hi Hc].
  - exists 45%N, ds. repeat split; try done; [by right| |by apply strip_minus_digits].
    intros [?|Hin]; [done|]. by destruct (Hdig ds NL Hd Hin).
  - pose proof Hd as (a & s & -> & Ha & _)%isdigit_inv.
    exists a, s. repeat split; try done; [by left| | |by apply isdigit_strip].
    + intros ->. by vm_compute in Ha.
    + intros Hin. by destruct (Hdig _ NL Hd Hin).
  - pose proof H1 as (a & s & -> & Ha & _)%isdigit_inv.
    exists a, (s ++ PLUS :: d2). repeat split; try done; [by left| | |].
    + intros ->. by vm_compute in Ha.
    + change ((a :: s) ++ PLUS :: d2) with ((a :: s) ++ [PLUS] ++ d2).
      intros [Hin|[Hin|Hin]%in_app_or]%in_app_or.
      * by destruct (Hdig _ NL H1 Hin).
      * by destruct Hin.
      * by destruct (Hdig _ NL H2 Hin).
    + eapply (strip_id _ _ (List.last (a :: s ++ PLUS :: d2) a));
        [by apply digit_not_space| |done].
      apply digit_not_space. eapply isdigit_forall; [exact H2|].
      apply (last_in_tail_cons (a :: s) d2). by intros ->.
  - pose proof Hd as (a & s & -> & Ha & _)%isdigit_inv.
    destruct (v1_marker_index c Hc) as (_ & _ & Hsp & _ & _ & Hnl).
    exists a, (s ++ [c]). repeat split; try done; [by left| | |].
    + intros ->. by vm_compute in Ha.
    + intros [Hin|[Hin|[]]]%in_app_or; [|done].
      by destruct (Hdig _ NL Hd Hin).
    + change ((a :: s) ++ [c]) with (a :: s ++ [c]).
      by apply strip_digits_first; [left|].
Qed.

(** The flag [handle_todo_command] returns for a command, and the
    dictionary it leaves. *)
Lemma v1_command_spelled u text cmd :
  spells text cmd →
  handle_todo_command u text
  = match cmd with
    | Delete n => remove_todo_by_number u n
    | ToggleAt n => Ret (toggle_todo_by_number u n)
    | MergeOf n1 n2 => merge_todos u n1 n2
    | MoveTo n marker => Ret (move_todo_to_section u n (marker_index marker))
    end.
Proof.
  intros [ds n Hd Hi|ds n Hd Hi|d1 d2 n1 n2 H1 H2 I1 I2|ds n c Hd Hi Hc].
  - by rewrite v1_command_delete, Hi.
  - by rewrite v1_command_toggle, Hi.
  - by rewrite v1_command_merge, I1, I2.
  - by rewrite v1_command_move, Hi.
Qed.

Lemma v1_unresolved_command u text cmd :
  spells text cmd → unresolved (get_todo_by_display_number u) cmd →
  handle_text u text
  = Ret (plain_task_added u text, list_reply (plain_task_added u text)).
Proof.
  intros Hs Hu.
  destruct (v1_spells_shape _ _ Hs) as (c & s & -> & Hc & Hb & Hnl & Hst).
  rewrite v1_text_numeric by done.
  rewrite (v1_command_spelled u _ cmd Hs).
  assert (E : match cmd with
              | Delete n => remove_todo_by_number u n
              | ToggleAt n => Ret (toggle_todo_by_number u n)
              | MergeOf n1 n2 => merge_todos u n1 n2
              | MoveTo n marker => Ret (move_todo_to_section u n (marker_index marker))
              end = Ret (u, false)).
  { destruct cmd as [n|n|n1 n2|n marker]; simpl in Hu.
    - unfold remove_todo_by_number. by rewrite Hu.
    - unfold toggle_todo_by_number. by rewrite Hu.
    - apply v1_merge_todos_noop. tauto.
    - unfold move_todo_to_section. by rewrite Hu. }
  rewrite E. simpl. by rewrite v1_add_plain_text.
Qed.

Lemma v1_resolved_command u text cmd :
  well_formed u →
  spells text cmd → resolves (get_todo_by_display_number u) cmd →
  ∃ u', apply u (command_op_v1 cmd) = Ret u'
        ∧ handle_text u text = Ret (u', list_reply u').
Proof.
  intros Hwf Hs Hr.
  destruct (v1_spells_shape _ _ Hs) as (c & s & -> & Hc & Hb & Hnl & Hst).
  rewrite v1_text_numeric by done.
  rewrite (v1_command_spelled u _ cmd Hs).
  destruct cmd as [n|n|n1 n2|n marker]; simpl in Hr; simpl.
  - destruct (v1_remove_total u n) as (u' & b & E). rewrite E. simpl.
    exists u'. split; [done|].
    apply v1_remove_Ret in E as [(_ & _ & G)|(t & l' & -> & _)]; [|done].
    rewrite G in Hr. by destruct Hr.
  - unfold toggle_todo_by_number. destruct Hr as [t ->]. simpl. eauto.
  - destruct Hr as ([t1 G1] & [t2 G2] & Hne).
    destruct (v1_merge_todos_distinct u n1 n2 t1 t2 Hwf G1 G2) as (u' & d1 & E & _);
      [congruence|].
    rewrite E. simpl. eauto.
  - unfold move_todo_to_section. destruct Hr as [t ->]. simpl. eauto.
Qed.

(** ** Removing *)

Lemma v1_display_order_set_todos u l :
  display_order (set_todos u l)
  = filter (λ t, holds u (in_section 0) t) l ++ filter (λ t, holds u (in_section 1) t) l
    ++ filter (λ t, holds u (in_section 2) t) l ++ filter (λ t, holds u (in_section 3) t) l.
Proof. by rewrite v1_display_order. Qed.

Lemma v1_display_order_filter u (P : loc → Prop) `{!∀ x, Decision (P x)} :
  display_order (set_todos u (filter P (todos u))) = filter P (display_order u).
Proof.
  rewrite v1_display_order_set_todos, v1_display_order. unfold bucket.
  rewrite !filter_app. by rewrite !(filter_comm _ P).
Qed.

Lemma v1_remove_spec u n t :
  well_formed u → get_todo_by_display_number u n = Some t →
  ∃ u', remove_todo_by_number u n = Ret (u', true)
    ∧ dicts u' = dicts u ∧ next_id u' = next_id u ∧ backup_todos u' = backup_todos u
    ∧ todos u' = filter (λ y, y ≠ t) (todos u)
    ∧ S (length (todos u')) = length (todos u)
    ∧ (∀ k, get_todo_by_display_number u' k
            = get_todo_by_display_number u (if k <? n then k else k + 1)).
Proof.
  intros Hwf G.
  pose proof (v1_get_live _ _ _ G) as [Hin _].
  assert (Hr : list_remove (dict_eqb u) t (todos u) = list_remove Nat.eqb t (todos u)).
  { apply v1_list_remove_identity;
      [apply (wf_ids _ Hwf)|apply (wf_live _ Hwf)|done]. }
  destruct (list_remove_loc t (todos u) Hin (wf_nodup _ Hwf))
    as (l' & Hr' & -> & Hnin & Hlen).
  exists (set_todos u (filter (λ y, y ≠ t) (todos u))).
  repeat split; try done.
  - unfold remove_todo_by_number. by rewrite G, Hr, Hr'.
  - intros k. pose proof G as [Hn Hi]%v1_get_Some.
    assert (Hnd : NoDup (display_order u))
      by apply v1_display_order_NoDup, (wf_nodup _ Hwf).
    apply option_eq. intros x.
    rewrite !v1_get_Some, v1_display_order_filter.
    rewrite (filter_ne_delete _ (Z.to_nat (n - 1)) t) by done.
    destruct (k <? n) eqn:Ek.
    + apply Z.ltb_lt in Ek.
      destruct (decide (1 ≤ k)) as [H1|H1]; [|lia].
      rewrite list_lookup_delete_lt by lia. done.
    + apply Z.ltb_ge in Ek.
      rewrite list_lookup_delete_ge by lia.
      replace (S (Z.to_nat (k - 1))) with (Z.to_nat (k + 1 - 1)) by lia.
      split; intros [? ?]; split; try done; lia.
Qed.

(** ** New list and restore *)

Lemma v1_format_same u u' :
  dicts u' = dicts u → todos u' = todos u → format_todo_list u' = format_todo_list u.
Proof.
  destruct u as [d l k b], u' as [d' l' k' b']. simpl. intros -> ->. reflexivity.
Qed.

Lemma v1_new_then_restore u :
  let u2 := restore_last_list (create_new_list u) in
  todos u2 = todos u ∧ dicts u2 = dicts u ∧ backup_todos u2 = Some (todos u)
  ∧ next_id u2 = match todos u with
                 | [] => 1
                 | _ => max_of (ids_of u (todos u)) + 1
                 end
  ∧ format_todo_list u2 = format_todo_list u.
Proof.
  simpl.
  assert (H : todos (restore_last_list (create_new_list u)) = todos u
              ∧ dicts (restore_last_list (create_new_list u)) = dicts u).
  { unfold restore_last_list, create_new_list. simpl. by destruct (todos u). }
  destruct H as [H1 H2]. repeat split; try done.
  - unfold restore_last_list, create_new_list. simpl. by destruct (todos u).
  - unfold restore_last_list, create_new_list. simpl. by destruct (todos u).
  - by apply v1_format_same.
Qed.

Lemma v1_restore_next_id_bound u :
  well_formed u → todos u ≠ [] →
  max_of (ids_of u (todos u)) + 1 ≤ next_id u.
Proof.
  intros Hwf Hne. pose proof (wf_next _ Hwf) as Hn. pose proof (wf_live _ Hwf) as Hl.
  destruct (todos u) as [|t l] eqn:E; [done|].
  assert (Hids : ids_of u (t :: l) ≠ []).
  { apply Forall_cons in Hl as [Ht _]. apply lookup_lt_is_Some in Ht as [d Hd].
    unfold ids_of. simpl. by rewrite Hd. }
  destruct (ids_of u (t :: l)) as [|i ids]; [done|].
  assert (Hmax : ∀ (rest : list Z) (a : Z), a < next_id u → Forall (λ i, i < next_id u) rest →
            fold_left Z.max rest a < next_id u).
  { induction rest as [|x rest IH]; intros a Ha Hf; [done|]. simpl.
    apply Forall_cons in Hf as [Hx Hf]. apply IH; [lia|done]. }
  apply Forall_cons in Hn as [Hi Hn]. simpl.
  pose proof (Hmax ids i Hi Hn). lia.
Qed.

(** ** The printed number *)

Lemma v1_printed_number_toggles u n t :
  n < 10 ^ MAX_STR_DIGITS →
  get_todo_by_display_number u n = Some t →
  let u' := set_dicts u (alter toggled t (dicts u)) in
  handle_text u (str_of_int n) = Ret (u', list_reply u').
Proof.
  intros Hb He.
  assert (Hn : 1 ≤ n) by (by apply v1_get_Some in He as [? _]).
  destruct (str_of_int_digits n) as [Hd Hi]; [lia|].
  pose proof Hd as (a & s & E & Ha & _)%isdigit_inv. simpl.
  rewrite E, v1_text_numeric by (by left). rewrite <- E.
  rewrite v1_command_toggle, Hi by done. simpl.
  unfold toggle_todo_by_number. by rewrite He.
Qed.

(** ** Toggling twice *)

Lemma v1_toggle_twice_section u n n' t d :
  get_todo_by_display_number u n = Some t →
  dicts u !! t = Some d → crossed_out d = false → section d ≠ 3 →
  let u1 := (toggle_todo_by_number u n).1 in
  get_todo_by_display_number u1 n' = Some t →
  let u2 := (toggle_todo_by_number u1 n').1 in
  dicts u1 !! t = Some (mkTodo (id d) (text d) 3 true)
  ∧ dicts u2 !! t = Some (mkTodo (id d) (text d) 0 false).
Proof.
  intros G Hd Hc Hs. simpl.
  assert (E1 : (toggle_todo_by_number u n).1 = set_dicts u (alter toggled t (dicts u))).
  { unfold toggle_todo_by_number. by rewrite G. }
  rewrite E1. intros G'.
  assert (E2 : (toggle_todo_by_number (set_dicts u (alter toggled t (dicts u))) n').1
               = set_dicts u (alter toggled t (alter toggled t (dicts u)))).
  { unfold toggle_todo_by_number. by rewrite G'. }
  rewrite E2. simpl. rewrite !list_lookup_alter_eq, Hd. simpl.
  unfold toggled. simpl. rewrite Hc. simpl.
  destruct (section d =? 3) eqn:E; [apply Z.eqb_eq in E; done|]. done.
Qed.

(** ** The buttons *)

Lemma v1_menu_label_handled u text :
  is_menu_label text = true →
  ∃ u' r, handle_text u text = Ret (u', r) ∧ dicts u' = dicts u
    ∧ (u' = u ∨ u' = create_new_list u ∨ u' = restore_last_list u
       ∨ u' = continue_list u).
Proof.
  unfold is_menu_label, handle_text. intros H.
  destruct (str_eqb text MENU); [eexists _, _; split; [done|]; split; [done|tauto]|].
  destruct (str_eqb text BACK); [eexists _, _; split; [done|]; split; [done|tauto]|].
  destruct (str_eqb text LIST); [eexists _, _; split; [done|]; split; [done|tauto]|].
  destruct (str_eqb text NEW); [eexists _, _; split; [done|]; split; [done|tauto]|].
  destruct (str_eqb text RESTORE).
  { eexists _, _. split; [done|]. split; [|tauto]. apply v1_restore_last_list_spec. }
  destruct (str_eqb text CONTINUE).
  { eexists _, _. split; [done|]. split; [|tauto]. done. }
  destruct (str_eqb text HELP); [eexists _, _; split; [done|]; split; [done|tauto]|].
  destruct (str_eqb text SETTINGS); [eexists _, _; split; [done|]; split; [done|tauto]|].
  done.
Qed.

Lemma v1_buttons_are_menu_labels label :
  label ∈ concat (get_main_keyboard ++ get_commands_keyboard) →
  is_menu_label label = true.
Proof.
  unfold get_main_keyboard, get_commands_keyboard. simpl concat.
  rewrite !elem_of_cons, elem_of_nil.
  intros [->|[->|[->|[->|[->|[->|[->|[->|[]]]]]]]]]; by vm_compute.
Qed.

Lemma v1_add_lines_spec u (lines : list str) :
  fold_left add_line lines u
  = mkUserData
      (dicts u ++ imap (λ i line, task_of_line (next_id u + Z.of_nat i) line)
                    (filter (λ line, (section_and_text line).2 ≠ []) lines))
      (todos u ++ seq (length (dicts u))
                    (length (filter (λ line, (section_and_text line).2 ≠ []) lines)))
      (next_id u
       + Z.of_nat (length (filter (λ line, (section_and_text line).2 ≠ []) lines)))
      (backup_todos u).
Proof.
  revert u. induction lines as [|line lines IH]; intros u.
  - rewrite filter_nil. simpl. rewrite !app_nil_r, Z.add_0_r. by destruct u.
  - change (fold_left add_line (line :: lines) u)
      with (fold_left add_line lines (add_line u line)).
    rewrite IH, filter_cons.
    destruct (v1_add_line_cases u line) as [[He ->]|[Hne ->]].
    + by rewrite decide_False by (by intros ?).
    + rewrite decide_True by done. simpl. f_equal.
      * rewrite <- app_assoc. f_equal. simpl. rewrite Z.add_0_r. f_equal.
        apply imap_ext. intros i x _. simpl. unfold task_of_line. f_equal. lia.
      * rewrite <- app_assoc. f_equal. simpl. f_equal. rewrite length_app. simpl.
        f_equal. lia.
      * lia.
Qed.

Lemma v1_add_todo_from_text_spec u text :
  add_todo_from_text u text
  = mkUserData
      (dicts u ++ imap (λ i line, task_of_line (next_id u + Z.of_nat i) line)
                    (task_lines text))
      (todos u ++ seq (length (dicts u)) (length (task_lines text)))
      (next_id u + Z.of_nat (length (task_lines text)))
      (backup_todos u).
Proof. apply v1_add_lines_spec. Qed.

Lemma v1_other_text_no_command u c s :
  cp_isdigit c = false → c ≠ 45%N →
  handle_todo_command u (c :: s) = Ret (u, false).
Proof.
  intros Hc Hm. unfold handle_todo_command.
  change (startswith (utf8 "-") (c :: s)) with (startswith [45%N] (c :: s)).
  rewrite startswith_cons_false by (by intros <-).
  rewrite andb_false_l. cbv iota.
  rewrite isdigit_cons, Hc, andb_false_l. cbv iota.
  assert (Hb : isdigit (but_last (c :: s)) = false).
  { destruct s as [|b s]; [done|]. unfold but_last.
    change (removelast (c :: b :: s)) with (c :: removelast (b :: s)).
    by rewrite isdigit_cons, Hc. }
  rewrite Hb.
  assert (Hrest :
    match (if endswith (utf8 "з") (c :: s) then Some 0
           else if endswith (utf8 "г") (c :: s) then Some 1
           else if endswith (utf8 "в") (c :: s) then Some 2 else None) with
    | Some _ => Ret (u, false)
    | None => Ret (u, false)
    end = Ret (u, false)).
  { by repeat destruct (endswith _ _). }
  destruct (contains PLUS (c :: s)); [|exact Hrest].
  destruct (decide (c = PLUS)) as [->|Hp].
  - simpl split. destruct (split PLUS s) as [|p1 [|p2 ps]]; exact Hrest.
  - destruct (split_first_cons PLUS c s Hp) as (p & ps & ->).
    destruct ps as [|p1 [|p2 ps]]; try exact Hrest.
    rewrite isdigit_cons, Hc. exact Hrest.
Qed.

Lemma v1_multiline_no_command u text :
  1 < Z.of_nat (length (nonblank_lines text)) →
  handle_todo_command u text = Ret (u, false).
Proof.
  intros Hl.
  assert (Hnl : In NL text).
  { destruct (in_dec N.eq_dec NL text) as [|Hn]; [done|].
    apply nonblank_lines_one in Hn. unfold nonblank_lines in Hl.
    unfold ProdV3.nonblank_lines in Hn. lia. }
  assert (Hd : ∀ s, In NL s → isdigit s = false).
  { intros s Hs. by apply (isdigit_In_false s NL). }
  unfold handle_todo_command.
  assert (H1 : startswith (utf8 "-") text && isdigit (drop 1 text) = false).
  { destruct text as [|a rest]; [done|].
    destruct (decide (a = 45%N)) as [->|Ha].
    - apply andb_false_iff. right. apply Hd. by destruct Hnl.
    - change (utf8 "-") with [45%N]. by rewrite startswith_cons_false. }
  rewrite H1, (Hd text Hnl).
  assert (Hrest :
    match (if endswith (utf8 "з") text then Some 0
           else if endswith (utf8 "г") text then Some 1
           else if endswith (utf8 "в") text then Some 2 else None) with
    | Some section_idx =>
        if isdigit (but_last text)
        then todo_num ← int (but_last text);
             Ret (move_todo_to_section u todo_num section_idx)
        else Ret (u, false)
    | None => Ret (u, false)
    end = Ret (u, false)).
  { assert (H3 : isdigit (but_last text) = false).
    { destruct (exists_last (l := text)) as (s & z & ->); [by intros ->|].
      rewrite but_last_snoc.
      destruct (in_dec N.eq_dec NL s) as [Hs|Hs]; [by apply Hd|].
      apply in_app_or in Hnl as [?|[->|[]]]; [done|].
      apply nonblank_lines_trailing in Hs. unfold nonblank_lines in Hl.
      unfold ProdV3.nonblank_lines in Hs. lia. }
    rewrite H3. by repeat destruct (endswith _ _). }
  destruct (contains PLUS text); [|exact Hrest].
  destruct (split PLUS text) as [|p0 [|p1 [|p2 ps]]] eqn:Es; try exact Hrest.
  destruct (split_covers PLUS text NL Hnl) as (p & Hp & Hc); [done|].
  rewrite Es in Hp. rewrite !elem_of_cons, elem_of_nil in Hp.
  destruct Hp as [->|[->|[]]]; rewrite (Hd _ Hc), ?andb_false_r; exact Hrest.
Qed.

Lemma v1_multiline_not_menu text :
  1 < Z.of_nat (length (nonblank_lines text)) → is_menu_label text = false.
Proof.
  intros Hl. unfold is_menu_label.
  repeat match goal with
  | |- context [str_eqb text ?l] =>
      let E := fresh in
      destruct (str_eqb text l) eqn:E;
      [apply bool_decide_eq_true in E; subst text; by vm_compute in Hl|]
  end.
  done.
Qed.

Lemma v1_not_menu_text u text :
  is_menu_label text = false →
  handle_text u text
  = '(u', handled) ← handle_todo_command u text;
    if handled : bool then Ret (u', list_reply u')
    else Ret (add_todo_from_text u' text, list_reply (add_todo_from_text u' text)).
Proof.
  unfold is_menu_label, handle_text. intros Hm.
  repeat (apply orb_false_iff in Hm as [Hm ?]).
  by repeat match goal with H : _ = false |- _ => rewrite H; clear H end.
Qed.

(** A text that is no command and no menu label is handed to
    [add_todo_from_text]. *)
Lemma v1_text_added u text :
  is_menu_label text = false →
  (1 < Z.of_nat (length (nonblank_lines text))
   ∨ ∃ c s, text = c :: s ∧ cp_isdigit c = false ∧ c ≠ 45%N) →
  handle_text u text
  = Ret (add_todo_from_text u text, list_reply (add_todo_from_text u text)).
Proof.
  intros Hm Hc. rewrite v1_not_menu_text by done.
  assert (E : handle_todo_command u text = Ret (u, false)).
  { destruct Hc as [Hl|(c & s & -> & Hc & Hn)];
      [by apply v1_multiline_no_command|by apply v1_other_text_no_command]. }
  by rewrite E.
Qed.

(** ** The bot and its users *)

Lemma v1_handle_message_user b user_id msg b' r :
  handle_message b user_id msg = Ret (b', r) → msg ≠ [] →
  ∃ u' r', r = Some r'
    ∧ handle_text (default new_user_data (b !! user_id)) (strip msg) = Ret (u', r')
    ∧ b' = <[user_id := u']> b.
Proof.
  unfold handle_message, get_user_data. intros E Hne.
  destruct msg as [|c s]; [done|].
  destruct (b !! user_id) as [u|] eqn:Eb; simpl in *.
  - destruct (handle_text u (strip (c :: s))) as [[u' r']|] eqn:Et; simplify_eq/=.
    eauto.
  - destruct (handle_text new_user_data (strip (c :: s))) as [[u' r']|] eqn:Et;
      simplify_eq/=.
    exists u', r'. repeat split; try done. apply (insert_insert_eq (M := gmap Z)).
Qed.

Lemma v1_handle_message_sound b user_id msg b' r :
  bot_sound b → handle_message b user_id msg = Ret (b', r) → bot_sound b'.
Proof.
  intros Hs E. destruct (decide (msg = [])) as [->|Hne].
  { simpl in E. by injection E as <- _. }
  apply v1_handle_message_user in E as (u' & r' & _ & Et & ->); [|done].
  intros v u Hv. destruct (decide (v = user_id)) as [->|Hd].
  - assert (Hl : <[user_id:=u']> b !! user_id = Some u')
      by apply (lookup_insert_eq (M := gmap Z)).
    rewrite Hl in Hv. injection Hv as <-.
    eapply v1_handle_text_sound; [|done].
    destruct (b !! user_id) as [u0|] eqn:Eb; simpl; [by eapply Hs|apply v1_sound_new].
  - assert (Hl : <[user_id:=u']> b !! v = b !! v)
      by (by apply (lookup_insert_ne (M := gmap Z))).
    rewrite Hl in Hv. by eapply Hs.
Qed.

End v1_more.

Section v1_more_samples.
Import Prod.

Lemma v1_after_sound ops : Forall admissible ops → sound (after ops).
Proof.
  intros Ha. unfold after.
  destruct (run new_user_data ops) as [u|] eqn:E; [|apply v1_sound_new].
  eapply v1_run_sound; [apply v1_sound_new|done|done].
Qed.

Lemma v1_handle_message_total b user_id msg :
  plain_digits (strip msg) → Z.of_nat (length (strip msg)) ≤ MAX_STR_DIGITS →
  ∃ b' r, handle_message b user_id msg = Ret (b', r).
Proof.
  intros Hp Hl. unfold handle_message. destruct msg as [|c s]; [eauto|].
  destruct (get_user_data b user_id) as [b1 u].
  destruct (v1_handle_text_total u (strip (c :: s)) Hp Hl) as (u' & r & ->).
  simpl. eauto.
Qed.

End v1_more_samples.

(* ================================================================== *)
(** * TodoManager (v3): the lines of the formatted list                *)
(* ================================================================== *)

Section v3_text_lines.
Import ProdV3.
Implicit Types (m : TodoManager) (u v n k : Z) (t : loc) (todos : list loc).

Lemma v3_numbered_lines_app (l1 l2 : list str) :
  numbered_lines (l1 ++ l2) = numbered_lines l1 ++ numbered_lines l2.
Proof. unfold numbered_lines. apply filter_app. Qed.

Lemma v3_entry_is_task_line m k t struck :
  0 ≤ k → is_task_line (line_text m (Entry k t struck)) = true.
Proof.
  intros Hk. simpl. by destruct (str_of_int_head k Hk) as (c & s & -> & Hc).
Qed.

Lemma v3_numbered_number_from m k struck todos :
  0 ≤ k →
  numbered_lines (map (line_text m) (number_from k struck todos))
  = imap (λ i t, line_text m (Entry (k + Z.of_nat i) t struck)) todos.
Proof.
  revert k. induction todos as [|t todos IH]; intros k Hk; [done|].
  simpl number_from. rewrite map_cons. unfold numbered_lines.
  rewrite filter_cons_True by (apply Is_true_true; by apply v3_entry_is_task_line).
  fold (numbered_lines (map (line_text m) (number_from (k + 1) struck todos))).
  rewrite IH by lia. simpl imap. f_equal; [by rewrite Z.add_0_r|].
  apply imap_ext. intros i x _. simpl. do 2 f_equal. lia.
Qed.

Lemma v3_numbered_format_section m title struck todos k :
  0 ≤ k →
  numbered_lines (map (line_text m) (format_section title struck todos k).1)
    = imap (λ i t, line_text m (Entry (k + Z.of_nat i) t struck)) todos
  ∧ (format_section title struck todos k).2 = k + Z.of_nat (length todos).
Proof.
  intros Hk. destruct todos as [|t todos]; [split; [done|simpl; lia]|].
  split; [|done]. unfold format_section. cbn [fst]. rewrite map_cons.
  unfold numbered_lines. rewrite filter_cons_False by (intros H; by vm_compute in H).
  by apply v3_numbered_number_from.
Qed.

Lemma v3_active_not_completed m key t :
  key ∈ [PURCHASE; GARAGE; VOLYNKA] →
  holds m (active_in key) t = true → holds m completed t = false.
Proof.
  intros Hk (o & Ho & Ha)%v3_holds_object. unfold holds. rewrite Ho.
  destruct (v3_parts_disjoint o) as (P1 & P2 & P3).
  rewrite !elem_of_cons, elem_of_nil in Hk.
  destruct Hk as [->|[->|[->|[]]]]; [by apply P1|by apply P2|by apply P3].
Qed.

(** What the list shows of a task: its text, struck through when the task
    is among the completed. *)
Lemma v3_numbered_format_lines m todos :
  numbered_lines (map (line_text m) (format_lines m todos))
  = imap (λ i t, str_of_int (1 + Z.of_nat i) ++ utf8 ". "
                 ++ (if holds m completed t then crossed_text (text_at m t)
                     else text_at m t))
      (ordered m todos).
Proof.
  unfold format_lines, ordered.
  set (s1 := select m (active_in PURCHASE) todos).
  set (s2 := select m (active_in GARAGE) todos).
  set (s3 := select m (active_in VOLYNKA) todos).
  set (s4 := select m completed todos).
  assert (H1 : ∀ t, t ∈ s1 → holds m completed t = false).
  { intros t [_ H]%v3_elem_of_select. eapply v3_active_not_completed; [|done].
    rewrite !elem_of_cons. tauto. }
  assert (H2 : ∀ t, t ∈ s2 → holds m completed t = false).
  { intros t [_ H]%v3_elem_of_select. eapply v3_active_not_completed; [|done].
    rewrite !elem_of_cons. tauto. }
  assert (H3 : ∀ t, t ∈ s3 → holds m completed t = false).
  { intros t [_ H]%v3_elem_of_select. eapply v3_active_not_completed; [|done].
    rewrite !elem_of_cons. tauto. }
  assert (H4 : ∀ t, t ∈ s4 → holds m completed t = true).
  { by intros t [_ H]%v3_elem_of_select. }
  clearbody s1 s2 s3 s4.
  destruct (format_section TITLE_PURCHASE false s1 1) as [r1 k1] eqn:E1.
  destruct (format_section TITLE_GARAGE false s2 k1) as [r2 k2] eqn:E2.
  destruct (format_section TITLE_VOLYNKA false s3 k2) as [r3 k3] eqn:E3.
  destruct (format_section TITLE_DONE true s4 k3) as [r4 k4] eqn:E4.
  pose proof (v3_numbered_format_section m TITLE_PURCHASE false s1 1) as [A1 B1]; [lia|].
  rewrite E1 in A1, B1. simpl in A1, B1.
  pose proof (v3_numbered_format_section m TITLE_GARAGE false s2 k1) as [A2 B2]; [lia|].
  rewrite E2 in A2, B2. simpl in A2, B2.
  pose proof (v3_numbered_format_section m TITLE_VOLYNKA false s3 k2) as [A3 B3]; [lia|].
  rewrite E3 in A3, B3. simpl in A3, B3.
  pose proof (v3_numbered_format_section m TITLE_DONE true s4 k3) as [A4 _]; [lia|].
  rewrite E4 in A4. simpl in A4.
  rewrite !map_app, !v3_numbered_lines_app, A1, A2, A3, A4, !imap_app.
  subst k1 k2 k3.
  repeat apply (f_equal2 app); apply imap_ext; intros i x Hx%list_elem_of_lookup_2;
    simpl; rewrite ?(H1 _ Hx), ?(H2 _ Hx), ?(H3 _ Hx), ?(H4 _ Hx);
    do 2 f_equal; rewrite ?length_app; lia.
Qed.

(** The text of a list that is not empty, as the lines it is joined from:
    the lines of tasks are, in the display order, the number of the task,
    a full stop, a space and the text. *)
Lemma v3_text_lines m u todos :
  user_todos m !! u = Some todos → todos ≠ [] →
  ∃ lines,
    get_formatted_list m u = join [NL] lines
    ∧ numbered_lines lines
      = imap (λ i t, str_of_int (1 + Z.of_nat i) ++ utf8 ". "
                     ++ (if holds m completed t then crossed_text (text_at m t)
                         else text_at m t))
          (ordered m todos).
Proof.
  intros Hu Hne. exists (map (line_text m) (format_lines m todos)). split.
  - unfold get_formatted_list. rewrite Hu. by destruct todos.
  - apply v3_numbered_format_lines.
Qed.

Lemma v3_get_nonempty m u n t :
  get_todo_by_display_number m u n = Some t → live_tasks m u ≠ [].
Proof.
  intros (_ & Hl & _)%v3_get_Some E. rewrite E in Hl.
  unfold ordered, select in Hl. simpl in Hl. done.
Qed.

(** The lines of tasks of a list that is not empty: as many as the display
    order has tasks, and the one of the number [n] is [n], a full stop, a
    space and the text of the task [n] resolves to. *)
Lemma v3_printed_lines m u :
  live_tasks m u ≠ [] →
  ∃ lines,
    get_formatted_list m u = join [NL] lines
    ∧ length (numbered_lines lines) = length (ordered m (live_tasks m u))
    ∧ ∀ n t o, get_todo_by_display_number m u n = Some t →
        objects m !! t = Some o →
        numbered_lines lines !! Z.to_nat (n - 1)
        = Some (str_of_int n ++ utf8 ". "
                ++ (if completed o then crossed_text (text o) else text o)).
Proof.
  intros Hne. unfold live_tasks in *.
  destruct (user_todos m !! u) as [todos|] eqn:Hu; [|done]. simpl in *.
  destruct (v3_text_lines m u todos Hu Hne) as (lines & Ht & Hnl).
  exists lines. split; [done|]. rewrite Hnl, length_imap. split; [done|].
  intros n t o (Hn & Hl & _)%v3_get_Some Ho.
  unfold live_tasks in Hl. rewrite Hu in Hl. simpl in Hl.
  rewrite list_lookup_imap, Hl. simpl. unfold holds, text_at. rewrite Ho.
  do 3 f_equal. lia.
Qed.

End v3_text_lines.

(* ================================================================== *)
(** * TodoBot (v1): the lines of the formatted list                    *)
(* ================================================================== *)

Section v1_text_lines.
Import Prod.
Implicit Types (u : user_data) (n k : Z) (t : loc) (l : list loc) (d : todo).

Lemma v1_numbered_lines_app (l1 l2 : list str) :
  numbered_lines (l1 ++ l2) = numbered_lines l1 ++ numbered_lines l2.
Proof. unfold numbered_lines. apply filter_app. Qed.

Lemma v1_entry_is_task_line u k t in_done :
  0 ≤ k → is_task_line (line_text u (Entry k t in_done)) = true.
Proof.
  intros Hk. destruct in_done; [done|]. simpl.
  destruct (str_of_int_head k Hk) as (c & s & -> & Hc).
  unfold is_task_line. simpl. rewrite Hc. apply orb_true_r.
Qed.

Lemma v1_numbered_number_from u k in_done l :
  0 ≤ k →
  numbered_lines (map (line_text u) (number_from k in_done l))
  = imap (λ i t, line_text u (Entry (k + Z.of_nat i) t in_done)) l.
Proof.
  revert k. induction l as [|t l IH]; intros k Hk; [done|].
  simpl number_from. rewrite map_cons. unfold numbered_lines.
  rewrite filter_cons_True by (apply Is_true_true; by apply v1_entry_is_task_line).
  fold (numbered_lines (map (line_text u) (number_from (k + 1) in_done l))).
  rewrite IH by lia. simpl imap. f_equal; [by rewrite Z.add_0_r|].
  apply imap_ext. intros i x _.
  by replace (k + 1 + Z.of_nat i) with (k + Z.of_nat (S i)) by lia.
Qed.

Lemma v1_numbered_single_false u (ln : line) :
  is_task_line (line_text u ln) = false →
  numbered_lines (map (line_text u) [ln]) = [].
Proof.
  intros H. unfold numbered_lines. cbn [map].
  rewrite filter_cons_False by (intros Hf; cbv beta in Hf; by rewrite H in Hf).
  apply filter_nil.
Qed.

Lemma v1_numbered_format_active u icon i l k :
  0 ≤ k → is_task_line (icon ++ utf8 " " ++ section_name i ++ utf8 ":") = false →
  numbered_lines (map (line_text u) (format_active icon i l k).1)
    = imap (λ j t, line_text u (Entry (k + Z.of_nat j) t false)) l
  ∧ (format_active icon i l k).2 = k + Z.of_nat (length l).
Proof.
  intros Hk Hh. destruct l as [|t l]; [split; [done|simpl; lia]|].
  split; [|done]. unfold format_active. cbn [fst].
  change (?h :: ?a ++ [Blank]) with ([h] ++ a ++ [Blank]).
  rewrite !map_app, !v1_numbered_lines_app, v1_numbered_number_from by done.
  rewrite (v1_numbered_single_false u (Header _)) by exact Hh.
  rewrite (v1_numbered_single_false u Blank) by done.
  by rewrite app_nil_r.
Qed.

Lemma v1_numbered_format_done u l k :
  0 ≤ k →
  numbered_lines (map (line_text u) (format_done l k))
  = imap (λ j t, line_text u (Entry (k + Z.of_nat j) t true)) l.
Proof.
  intros Hk. destruct l as [|t l]; [done|]. unfold format_done.
  change (?h :: ?a ++ [Blank]) with ([h] ++ a ++ [Blank]).
  rewrite !map_app, !v1_numbered_lines_app, v1_numbered_number_from by done.
  rewrite (v1_numbered_single_false u (Header _)) by (by vm_compute).
  rewrite (v1_numbered_single_false u Blank) by done.
  by rewrite app_nil_r.
Qed.

(** What the list shows of a task: behind the mark when the task is in
    the section of the done, struck through when it is crossed out in
    another section. *)
Lemma v1_numbered_format_lines u :
  numbered_lines (map (line_text u) (format_lines u))
  = imap (λ i t,
      if holds u (in_section 3) t
      then utf8 "❌ " ++ str_of_int (1 + Z.of_nat i) ++ utf8 ". " ++ text_at u t
      else str_of_int (1 + Z.of_nat i) ++ utf8 ". "
           ++ (if holds u crossed_out t then crossed_text (text_at u t)
               else text_at u t))
      (display_order u).
Proof.
  rewrite v1_display_order. unfold format_lines.
  assert (Hb : ∀ i t, t ∈ bucket u i → holds u (in_section 3) t = (i =? 3)).
  { intros i t [_ (d & Hd & Hi)%v1_holds_dict]%v1_elem_of_bucket.
    unfold holds, in_section in *. rewrite Hd.
    destruct (Z.eqb_spec (section d) i) as [->|]; [done|done]. }
  destruct (format_active (utf8 "🛒") 0 (bucket u 0) 1) as [r0 k0] eqn:E0.
  destruct (format_active (utf8 "🔧") 1 (bucket u 1) k0) as [r1 k1] eqn:E1.
  destruct (format_active (utf8 "🎵") 2 (bucket u 2) k1) as [r2 k2] eqn:E2.
  pose proof (v1_numbered_format_active u (utf8 "🛒") 0 (bucket u 0) 1) as [A0 B0];
    [lia|by vm_compute|].
  rewrite E0 in A0, B0. simpl in A0, B0.
  pose proof (v1_numbered_format_active u (utf8 "🔧") 1 (bucket u 1) k0) as [A1 B1];
    [lia|by vm_compute|].
  rewrite E1 in A1, B1. simpl in A1, B1.
  pose proof (v1_numbered_format_active u (utf8 "🎵") 2 (bucket u 2) k1) as [A2 B2];
    [lia|by vm_compute|].
  rewrite E2 in A2, B2. simpl in A2, B2.
  pose proof (v1_numbered_format_done u (bucket u 3) k2) as A3.
  rewrite !map_app, !v1_numbered_lines_app, A0, A1, A2, A3, !imap_app by lia.
  subst k0 k1 k2.
  rewrite (v1_numbered_single_false u (Stats _ _ _)) by (by vm_compute).
  rewrite app_nil_r.
  repeat apply (f_equal2 app); apply imap_ext; intros i x Hx%list_elem_of_lookup_2;
    rewrite (Hb _ _ Hx); simpl (_ =? 3); cbv iota; cbn [line_text];
    by rewrite ?Nat2Z.inj_add, ?Z.add_assoc.
Qed.

Lemma v1_get_nonempty u n t :
  get_todo_by_display_number u n = Some t → todos u ≠ [].
Proof.
  intros [Ht _]%v1_get_live E. rewrite E in Ht. by apply elem_of_nil in Ht.
Qed.

(** The lines of tasks of a list that is not empty: as many as the display
    order has tasks, and the one of the number [n] carries [n] and the
    text of the task [n] resolves to. *)
Lemma v1_printed_lines u :
  todos u ≠ [] →
  ∃ lines,
    format_todo_list u = join [NL] lines
    ∧ length (numbered_lines lines) = length (display_order u)
    ∧ ∀ n t d, get_todo_by_display_number u n = Some t →
        dicts u !! t = Some d →
        numbered_lines lines !! Z.to_nat (n - 1)
        = Some (if section d =? 3
                then utf8 "❌ " ++ str_of_int n ++ utf8 ". " ++ text d
                else str_of_int n ++ utf8 ". "
                     ++ (if crossed_out d then crossed_text (text d) else text d)).
Proof.
  intros Hne. exists (map (line_text u) (format_lines u)). split.
  { unfold format_todo_list. by destruct (todos u). }
  rewrite v1_numbered_format_lines, length_imap. split; [done|].
  intros n t d (Hn & Hl)%v1_get_Some Hd.
  rewrite list_lookup_imap, Hl. simpl. unfold holds, text_at, in_section.
  rewrite Hd. replace (1 + Z.of_nat (Z.to_nat (n - 1))) with n by lia. done.
Qed.

(** A lookup reads the list and the dictionaries of its tasks only. *)
Lemma v1_get_same u u' n :
  todos u' = todos u → (∀ t, t ∈ todos u → dicts u' !! t = dicts u !! t) →
  get_todo_by_display_number u' n = get_todo_by_display_number u n.
Proof.
  intros Ht Hd. unfold get_todo_by_display_number, todos_by_section.
  do 2 f_equal. apply map_ext. intros i. unfold bucket. rewrite Ht.
  apply filter_ext_in. intros t Hin. unfold holds. by rewrite (Hd t Hin).
Qed.

End v1_text_lines.

(* ================================================================== *)
(** * Both bots: the menu texts, and numbers the interpreter refuses   *)
(* ================================================================== *)

Section v3_menu_and_limits.
Import ProdV3.
Implicit Types (m : TodoManager) (u v n k : Z) (t : loc) (todos : list loc).
Implicit Types (s ds text : str) (c : N).

Lemma v3_clear_objects m u : objects (clear_todos m u).1 = objects m.
Proof.
  unfold clear_todos. destruct (user_todos m !! u); [|done]. simpl.
  by destruct (0 <? _).
Qed.

Lemma v3_restore_objects m u : objects (restore_backup m u).1 = objects m.
Proof. unfold restore_backup. by destruct (backups m !! u) as [[|]|]. Qed.

Lemma v3_continue_objects m u : objects (continue_list m u).1 = objects m.
Proof.
  unfold continue_list. destruct (user_todos m !! u); [|done].
  by destruct (select m completed _).
Qed.

(** A menu text never becomes a task: the handler answers, the task
    objects are those from before, and the manager is the one from before
    or the one [clear_todos], [restore_backup] or [continue_list] makes of
    it. *)
Lemma v3_menu_label_handled m u text :
  text ≠ [] → is_menu_label (strip text) = true →
  ∃ m' r, handle_message m u text = Ret (m', Some r) ∧ objects m' = objects m
    ∧ (m' = m ∨ m' = (clear_todos m u).1 ∨ m' = (restore_backup m u).1
       ∨ m' = (continue_list m u).1).
Proof.
  unfold is_menu_label, handle_message. intros Hne H.
  destruct text as [|c0 s0]; [done|]. generalize dependent (strip (c0 :: s0)).
  intros text H.
  destruct (str_eqb text MENU); [eexists _, _; split; [done|]; split; [done|tauto]|].
  destruct (str_eqb text BACK); [eexists _, _; split; [done|]; split; [done|tauto]|].
  destruct (is_in text LIST_LABELS);
    [eexists _, _; split; [done|]; split; [done|tauto]|].
  destruct (is_in text NEW_LABELS).
  { pose proof (v3_clear_objects m u) as Ho.
    destruct (clear_todos m u) as [m' count]. eexists _, _. split; [done|].
    split; [done|tauto]. }
  destruct (is_in text RESTORE_LABELS).
  { pose proof (v3_restore_objects m u) as Ho.
    destruct (restore_backup m u) as [m' count]. eexists _, _. split; [done|].
    split; [done|tauto]. }
  destruct (is_in text CONTINUE_LABELS).
  { pose proof (v3_continue_objects m u) as Ho.
    destruct (continue_list m u) as [m' count]. eexists _, _. split; [done|].
    split; [done|tauto]. }
  done.
Qed.

Lemma v3_buttons_menu_or_task label :
  label ∈ concat (get_main_keyboard ++ get_commands_keyboard) →
  (label ≠ [] ∧ is_menu_label (strip label) = true)
  ∨ label = SETTINGS_BUTTON ∨ label = HELP_BUTTON.
Proof.
  unfold get_main_keyboard, get_commands_keyboard. simpl concat.
  rewrite !elem_of_cons, elem_of_nil.
  intros [->|[->|[->|[->|[->|[->|[->|[->|[]]]]]]]]];
    try (left; split; [done|by vm_compute]); tauto.
Qed.

(** A number [int] refuses, in each of the four places of a command. *)
Lemma v3_raise_refused m u ds :
  isdigit ds = true → int ds = Raise ValueError →
  handle_message m u ds = Raise ValueError
  ∧ handle_message m u (45%N :: ds) = Raise ValueError
  ∧ (∀ c, cp_isdigit c = false → cp_isspace c = false →
       handle_message m u (ds ++ [c]) = Raise ValueError)
  ∧ (∀ d, isdigit d = true →
       handle_message m u (ds ++ PLUS :: d) = Raise ValueError
       ∧ handle_message m u (d ++ PLUS :: ds) = Raise ValueError).
Proof.
  intros Hd Hi. split; [by rewrite v3_message_toggle, Hi|].
  split; [by rewrite v3_message_delete, Hi|].
  split; [intros c Hc Hs; by rewrite v3_message_suffix, Hi|].
  intros d Hdd. split; [by rewrite v3_message_merge, Hi|].
  rewrite v3_message_merge, Hi by done.
  destruct (int d) as [n1|e] eqn:E; [done|].
  by apply int_only_ValueError in E as ->.
Qed.

End v3_menu_and_limits.

Section v1_limits.
Import Prod.
Implicit Types (u : user_data) (n : Z) (s ds text : str) (c : N) (t : loc).

Lemma v1_raise_refused u ds :
  isdigit ds = true → int ds = Raise ValueError →
  handle_text u ds = Raise ValueError
  ∧ handle_text u (45%N :: ds) = Raise ValueError
  ∧ (∀ c, c ∈ MARKERS → handle_text u (ds ++ [c]) = Raise ValueError)
  ∧ (∀ d, isdigit d = true →
       handle_text u (ds ++ PLUS :: d) = Raise ValueError
       ∧ handle_text u (d ++ PLUS :: ds) = Raise ValueError).
Proof.
  intros Hd Hi. pose proof Hd as (a & s & E & Ha & _)%isdigit_inv.
  split. { rewrite E, v1_text_numeric by (by left). rewrite <- E.
           by rewrite v1_command_toggle, Hi. }
  split. { rewrite v1_text_numeric by (by right). by rewrite v1_command_delete, Hi. }
  split.
  { intros c Hc. rewrite E. change ((a :: s) ++ [c]) with (a :: (s ++ [c])).
    rewrite v1_text_numeric by (by left).
    change (a :: (s ++ [c])) with ((a :: s) ++ [c]). rewrite <- E.
    by rewrite v1_command_move, Hi. }
  intros d Hdd. split.
  - rewrite E. change ((a :: s) ++ PLUS :: d) with (a :: (s ++ PLUS :: d)).
    rewrite v1_text_numeric by (by left).
    change (a :: (s ++ PLUS :: d)) with ((a :: s) ++ PLUS :: d). rewrite <- E.
    by rewrite v1_command_merge, Hi.
  - pose proof Hdd as (b & s' & E' & Hb & _)%isdigit_inv.
    rewrite E'. change ((b :: s') ++ PLUS :: ds) with (b :: (s' ++ PLUS :: ds)).
    rewrite v1_text_numeric by (by left).
    change (b :: (s' ++ PLUS :: ds)) with ((b :: s') ++ PLUS :: ds). rewrite <- E'.
    rewrite v1_command_merge, Hi by done.
    destruct (int d) as [n1|e] eqn:Ed; [done|].
    by apply int_only_ValueError in Ed as ->.
Qed.

End v1_limits.

(* ================================================================== *)
(** * The claims                                                       *)
(* ================================================================== *)

Section claims_backup.
Import ProdV3.

(** C2, as the code has it.  In the v3 bot, [clear_todos] returns the number
    of tasks of the user's list and empties the list; when there was a task
    the list becomes the user's backup, and when there was none the backups
    stay as they are; objects, next ids and the other users' lists and
    backups are not touched.  In the v1 bot, [create_new_list] always makes
    the list the backup, empty or not, empties the list, sets the next id
    to 1 and returns nothing. *)
Theorem C2_clear_moves_list_to_backup (m : TodoManager) (u : Z) (d : Prod.user_data) :
  (let m' := (clear_todos m u).1 in
   let count := (clear_todos m u).2 in
   count = Z.of_nat (length (live_tasks m u))
   ∧ live_tasks m' u = []
   ∧ objects m' = objects m
   ∧ next_ids m' = next_ids m
   ∧ (∀ v, v ≠ u → user_todos m' !! v = user_todos m !! v)
   ∧ (∀ v, v ≠ u → backups m' !! v = backups m !! v)
   ∧ (live_tasks m u ≠ [] → backups m' !! u = Some (live_tasks m u))
   ∧ (live_tasks m u = [] → count = 0 ∧ backups m' = backups m))
  ∧ (let d' := Prod.create_new_list d in
     Prod.todos d' = [] ∧ Prod.backup_todos d' = Some (Prod.todos d)
     ∧ Prod.next_id d' = 1 ∧ Prod.dicts d' = Prod.dicts d).
Proof.
  split; [apply v3_clear_todos_spec|apply v1_create_new_list_spec].
Qed.

(** C2 fails in the v1 bot: after "a" the next id is 2 and the new list
    resets it to 1; and a new list on an empty list replaces the backup
    that was there by an empty one. *)
Lemma C2_counterexample :
  Prod.next_id (Prod.after [Prod.DoAdd (utf8 "a")]) = 2
  ∧ Prod.next_id (Prod.create_new_list (Prod.after [Prod.DoAdd (utf8 "a")])) = 1
  ∧ Prod.todos (Prod.after v1_cleared) = []
  ∧ Prod.backup_todos (Prod.after v1_cleared) = Some [0%nat]
  ∧ Prod.backup_todos (Prod.create_new_list (Prod.after v1_cleared)) = Some [].
Proof. repeat split; reflexivity. Qed.

(** C4, as the code has it.  In the v3 bot, [restore_backup] with a backup
    that is not empty makes it the user's list, empties the backup and
    returns its length; next ids and objects stay as they are; with no
    backup or an empty one it returns 0 and changes nothing.  In the v1
    bot, [restore_last_list] with a backup makes it the list and, when it
    is not empty, sets the next id to the greatest id of the backup plus
    one; the backup stays; with no backup it changes nothing. *)
Theorem C4_restore_takes_backup (m : TodoManager) (u : Z) (d : Prod.user_data) :
  (let m' := (restore_backup m u).1 in
   let count := (restore_backup m u).2 in
   (backup_tasks m u ≠ [] →
      user_todos m' !! u = Some (backup_tasks m u)
      ∧ backups m' !! u = Some []
      ∧ count = Z.of_nat (length (backup_tasks m u))
      ∧ next_ids m' = next_ids m
      ∧ objects m' = objects m
      ∧ (∀ v, v ≠ u → user_todos m' !! v = user_todos m !! v)
      ∧ (∀ v, v ≠ u → backups m' !! v = backups m !! v))
   ∧ (backup_tasks m u = [] → m' = m ∧ count = 0))
  ∧ (let d' := Prod.restore_last_list d in
     Prod.dicts d' = Prod.dicts d ∧ Prod.backup_todos d' = Prod.backup_todos d
     ∧ match Prod.backup_todos d with
       | Some backup =>
           Prod.todos d' = backup
           ∧ Prod.next_id d' = match backup with
                               | [] => Prod.next_id d
                               | _ => Prod.max_of (Prod.ids_of d backup) + 1
                               end
       | None => d' = d
       end).
Proof.
  split; [apply v3_restore_backup_spec|apply v1_restore_last_list_spec].
Qed.

(** C4 fails in both bots.  v3: after "a", "b", "-2" and a new list, the
    only id left is 1 and the next id is 3; restoring leaves it 3, not 2.
    v1: after "a" and a new list, restoring leaves the backup in place. *)
Lemma C4_counterexample :
  (let m := after v3_cleared in
   backup_tasks m 7 = [0%nat] ∧ live_tasks m 7 = []
   ∧ item_id <$> objects m !! 0%nat = Some 1
   ∧ (restore_backup m 7).2 = 1
   ∧ next_ids (restore_backup m 7).1 !! 7 = Some 3)
  ∧ Prod.backup_todos (Prod.restore_last_list (Prod.after v1_cleared)) = Some [0%nat].
Proof. repeat split; reflexivity. Qed.

(** C5, as the code has it.  In the v3 bot, [continue_list] returns the
    number of completed tasks of the user's list; when there is one, the
    completed tasks become the backup and the list keeps its other tasks,
    in their order, objects and next ids untouched; when there is none,
    nothing changes, the backup included.  In the v1 bot, [continue_list]
    keeps the tasks that are not in the section of the done, in their
    order, touches neither the dictionaries nor the backup and returns
    nothing. *)
Theorem C5_continue_drops_completed (m : TodoManager) (u : Z) (d : Prod.user_data) :
  (let m' := (continue_list m u).1 in
   let count := (continue_list m u).2 in
   let done := filter (λ t, holds m completed t) (live_tasks m u) in
   count = Z.of_nat (length done)
   ∧ (done ≠ [] →
        live_tasks m' u = filter (λ t, holds m pending t) (live_tasks m u)
        ∧ backups m' !! u = Some done
        ∧ objects m' = objects m
        ∧ next_ids m' = next_ids m
        ∧ (∀ v, v ≠ u → user_todos m' !! v = user_todos m !! v)
        ∧ (∀ v, v ≠ u → backups m' !! v = backups m !! v))
   ∧ (done = [] → m' = m)
   ∧ (∀ o, pending o = negb (completed o)))
  ∧ (let d' := Prod.continue_list d in
     Prod.todos d'
       = filter (λ t, Prod.holds d (λ x, negb (Prod.section x =? 3)) t) (Prod.todos d)
     ∧ Prod.dicts d' = Prod.dicts d ∧ Prod.next_id d' = Prod.next_id d
     ∧ Prod.backup_todos d' = Prod.backup_todos d).
Proof.
  split; [|apply v1_continue_list_spec].
  pose proof (v3_continue_list_spec m u) as (H1 & H2 & H3).
  repeat split; try done; try apply H2; try done. apply v3_pending_not_completed.
Qed.

(** C5 fails in the v1 bot: with one completed task, [continue_list] removes
    it and makes no backup of it. *)
Lemma C5_counterexample :
  let d := Prod.after v1_one_done in
  Prod.todos d = [0%nat]
  ∧ Prod.holds d (Prod.in_section 3) 0%nat = true
  ∧ Prod.todos (Prod.continue_list d) = []
  ∧ Prod.backup_todos (Prod.continue_list d) = None.
Proof. repeat split; reflexivity. Qed.

End claims_backup.

Section claims_commands.
Import ProdV3.

(** C1, as the code has it.  In the v3 bot, a numeric command ("-n", "n",
    "n1+n2", "n" with a marker) one of whose numbers resolves to no task
    leaves the manager exactly as it was, so its text is not added as a
    task, and no message is sent in answer. *)
Theorem C1_unresolved_command_changes_nothing
    (m : TodoManager) (u : Z) (text : str) (cmd : command) :
  spells text cmd →
  unresolved (get_todo_by_display_number m u) cmd →
  handle_message m u text = Ret (m, None).
Proof. apply v3_unresolved_command. Qed.

Lemma C1_witness :
  spells (utf8 "1+3") (MergeOf 1 3)
  ∧ unresolved (get_todo_by_display_number (after v3_two_tasks) 7) (MergeOf 1 3)
  ∧ handle_message (after v3_two_tasks) 7 (utf8 "1+3") = Ret (after v3_two_tasks, None).
Proof.
  split; [by apply (spells_merge (utf8 "1") (utf8 "3") 1 3)|].
  split; [by right|].
  apply (C1_unresolved_command_changes_nothing _ _ _ (MergeOf 1 3)).
  - by apply (spells_merge (utf8 "1") (utf8 "3") 1 3).
  - by right.
Defined.

(** C1 fails in both bots.  v3: "-1" on the empty manager is a delete whose
    number resolves to nothing; the handler sends no message, where the
    claim has it send the formatted list.  v1: the same text is added as a
    task. *)
Lemma C1_counterexample :
  spells (utf8 "-1") (Delete 1)
  ∧ unresolved (get_todo_by_display_number empty_manager 7) (Delete 1)
  ∧ handle_message empty_manager 7 (utf8 "-1")
    ≠ Ret (empty_manager, Some (get_formatted_list empty_manager 7, main_keyboard))
  ∧ unresolved (Prod.get_todo_by_display_number Prod.new_user_data) (Delete 1)
  ∧ (∃ d r, Prod.handle_text Prod.new_user_data (utf8 "-1") = Ret (d, r)
       ∧ Prod.todos d = [0%nat]
       ∧ Prod.text <$> Prod.dicts d !! 0%nat = Some (utf8 "-1")).
Proof.
  split; [by apply (spells_delete (utf8 "1") 1)|].
  split; [done|]. split; [intros H; by vm_compute in H|]. split; [done|].
  eexists _, _. split; [by vm_compute|]. by split.
Qed.

(** C6 at the input where the code departs from it: "5a", digits and a
    character that is no marker.  The v3 bot takes it for a move with an
    unknown suffix and returns: nothing is added, nothing is sent.  The v1
    bot adds it as a task. *)
Theorem C6_v3_drops_digits_with_other_suffix :
  handle_message empty_manager 7 (utf8 "5a") = Ret (empty_manager, None)
  ∧ (∀ m u ds n c,
       isdigit ds = true → int ds = Ret n →
       cp_isdigit c = false → cp_isspace c = false → c ∉ MARKERS →
       handle_message m u (ds ++ [c]) = Ret (m, None))
  ∧ (∃ d r, Prod.handle_text Prod.new_user_data (utf8 "5a") = Ret (d, r)
       ∧ Prod.todos d = [0%nat]
       ∧ Prod.text <$> Prod.dicts d !! 0%nat = Some (utf8 "5a")).
Proof.
  split; [done|]. split; [apply v3_digits_other_suffix_message|].
  eexists _, _. split; [by vm_compute|]. by split.
Qed.

(** C10 at the input where the code departs from it: "!".  The v3 bot
    strips the prefix and stores a task whose text is empty.  The v1 bot
    stores nothing, and in every state it reaches every task of the list
    and of the backup has a text that is not empty. *)
Theorem C10_v3_stores_empty_text :
  (∃ m r t o, handle_message empty_manager 7 (utf8 "!") = Ret (m, r)
     ∧ live_tasks m 7 = [t] ∧ objects m !! t = Some o ∧ text o = [])
  ∧ (∃ d r, Prod.handle_text Prod.new_user_data (utf8 "!") = Ret (d, r)
       ∧ Prod.todos d = [])
  ∧ (∀ d, Prod.reachable d →
       ∀ t x, t ∈ Prod.todos d ∨ t ∈ Prod.backup_tasks d →
         Prod.dicts d !! t = Some x → Prod.text x ≠ []).
Proof.
  split; [|split].
  - eexists _, _, _, _. split; [by vm_compute|]. by repeat split.
  - eexists _, _. split; [by vm_compute|]. done.
  - apply v1_reachable_texts_nonempty.
Qed.

End claims_commands.

Section claims_invariants.
Import ProdV3.

(** C3, as the code has it.  In the v3 bot, after any sequence of public
    operations from the empty manager, no id was assigned twice, a user's
    next id exceeds every id ever assigned to that user, and every task of
    a list or of a backup carries an id that was assigned to its user, so
    that the next id exceeds the ids in the backup too.  In the v1 bot,
    the next id exceeds the id of every task of the list, and no two tasks
    of the list share an id; the ids of the backup are not covered. *)
Theorem C3_next_id_exceeds_assigned_ids
    (log : list (Z * Z)) (m : TodoManager) (d : Prod.user_data) :
  history log m → Prod.reachable d →
  (NoDup log
   ∧ (∀ u i, (u, i) ∈ log →
        ∃ next_id, next_ids m !! u = Some next_id ∧ i < next_id)
   ∧ (∀ u t o, t ∈ live_tasks m u ∨ t ∈ backup_tasks m u →
        objects m !! t = Some o →
        (u, item_id o) ∈ log
        ∧ ∃ next_id, next_ids m !! u = Some next_id ∧ item_id o < next_id))
  ∧ ((∀ t, t ∈ Prod.todos d →
        ∃ x, Prod.dicts d !! t = Some x ∧ Prod.id x < Prod.next_id d)
     ∧ (∀ t1 t2 x1 x2, t1 ∈ Prod.todos d → t2 ∈ Prod.todos d →
          Prod.dicts d !! t1 = Some x1 → Prod.dicts d !! t2 = Some x2 →
          Prod.id x1 = Prod.id x2 → t1 = t2)).
Proof.
  intros Hh Hr. split.
  - destruct (v3_history_ids_recorded _ _ Hh) as [R1 R2 R3].
    split; [done|split].
    + intros u i Hi. by apply R2.
    + intros u t o Hin Ho. pose proof (R3 u t o Hin Ho) as Hl.
      split; [done|]. by apply R2.
  - pose proof (v1_reachable_well_formed _ Hr) as Hwf. split.
    + intros t Ht. pose proof (Prod.wf_live _ Hwf) as Hv.
      eapply Forall_forall in Hv; [|done].
      apply lookup_lt_is_Some in Hv as [x Hx]. exists x. split; [done|].
      pose proof (Prod.wf_next _ Hwf) as Hn.
      eapply Forall_forall in Hn; [done|]. apply v1_elem_of_ids_of. eauto.
    + intros t1 t2 x1 x2 H1 H2 E1 E2 Hid.
      eapply (v1_ids_inj d (Prod.todos d)); try done. apply (Prod.wf_ids _ Hwf).
Qed.

Lemma C3_witness :
  history [(7, 2); (7, 1)] (after v3_cleared)
  ∧ Prod.reachable (Prod.after v1_two_tasks)
  ∧ (∃ next_id, next_ids (after v3_cleared) !! 7 = Some next_id ∧ 2 < next_id).
Proof.
  assert (H1 : history [(7, 2); (7, 1)] (after v3_cleared)).
  { apply (v3_after_history v3_cleared); [repeat constructor|]. vm_compute. by eexists. }
  assert (H2 : Prod.reachable (Prod.after v1_two_tasks)).
  { apply v1_after_reachable. repeat constructor. }
  split; [done|]. split; [done|].
  destruct (C3_next_id_exceeds_assigned_ids _ _ _ H1 H2) as ((_ & Hb & _) & _).
  apply (Hb 7 2). by left.
Defined.

(** C3 fails in the v1 bot: [create_new_list] sets the next id to 1 while
    the backup holds the task with id 1, and the next task gets id 1 again. *)
Lemma C3_counterexample :
  Prod.reachable (Prod.after v1_cleared)
  ∧ Prod.backup_tasks (Prod.after v1_cleared) = [0%nat]
  ∧ Prod.id <$> Prod.dicts (Prod.after v1_cleared) !! 0%nat = Some 1
  ∧ Prod.next_id (Prod.after v1_cleared) = 1
  ∧ (let d := Prod.after (v1_cleared ++ [Prod.DoAdd (utf8 "b")]) in
     Prod.id <$> Prod.dicts d !! 0%nat = Some 1
     ∧ Prod.id <$> Prod.dicts d !! 1%nat = Some 1).
Proof.
  split; [apply v1_after_reachable; repeat constructor|].
  repeat split; reflexivity.
Qed.

(** C7.  In every state reached by public operations, in both bots, every
    task of a list or of a backup has [crossed_out] true exactly when its
    section is the one of the done; every operation returns and keeps this
    so; and a toggle of a task followed by a toggle of the same task, under
    the number it has by then, gives the task the flag it had. *)
Theorem C7_completed_iff_done (m : TodoManager) (d : Prod.user_data) :
  reachable m → Prod.reachable d →
  ((∀ u todo t, todo ∈ live_tasks m u ∨ todo ∈ backup_tasks m u →
      objects m !! todo = Some t → (crossed_out t = true ↔ section t = DONE))
   ∧ (∀ o, ∃ m', apply m o = Ret m' ∧ consistent m')
   ∧ (∀ u n n' t o,
        get_todo_by_display_number m u n = Some t → objects m !! t = Some o →
        get_todo_by_display_number (toggle_todo m u n).1 u n' = Some t →
        ∃ o1 o2,
          objects (toggle_todo m u n).1 !! t = Some o1
          ∧ crossed_out o1 = negb (crossed_out o)
          ∧ objects (toggle_todo (toggle_todo m u n).1 u n').1 !! t = Some o2
          ∧ crossed_out o2 = crossed_out o))
  ∧ ((∀ t x, t ∈ Prod.todos d ∨ t ∈ Prod.backup_tasks d →
        Prod.dicts d !! t = Some x →
        (Prod.crossed_out x = true ↔ Prod.section x = 3))
     ∧ (∀ o, ∃ d', Prod.apply d o = Ret d' ∧ Prod.consistent d')
     ∧ (∀ n n' t x,
          Prod.get_todo_by_display_number d n = Some t → Prod.dicts d !! t = Some x →
          Prod.get_todo_by_display_number (Prod.toggle_todo_by_number d n).1 n' = Some t →
          ∃ x1 x2,
            Prod.dicts (Prod.toggle_todo_by_number d n).1 !! t = Some x1
            ∧ Prod.crossed_out x1 = negb (Prod.crossed_out x)
            ∧ Prod.dicts
                (Prod.toggle_todo_by_number (Prod.toggle_todo_by_number d n).1 n').1
                !! t = Some x2
            ∧ Prod.crossed_out x2 = Prod.crossed_out x)).
Proof.
  intros Hm Hd. split; [split; [|split]|split; [|split]].
  - apply (v3_reachable_consistent _ Hm).
  - intros o.
    destruct (v3_apply_total m o (v3_reachable_well_formed _ Hm)) as [m' E].
    exists m'. split; [done|].
    eapply v3_apply_consistent; [|done]. by apply v3_reachable_consistent.
  - intros u n n' t o G Ho G'. by apply (v3_toggle_twice m u n n' t o).
  - apply (v1_reachable_consistent _ Hd).
  - intros o. destruct (v1_apply_total d o) as [d' E]. exists d'. split; [done|].
    eapply v1_apply_consistent; [|done]. by apply v1_reachable_consistent.
  - intros n n' t x G Hx G'. by apply (v1_toggle_twice d n n' t x).
Qed.

Lemma C7_witness :
  reachable (after v3_two_tasks)
  ∧ Prod.reachable (Prod.after v1_one_done)
  ∧ (∃ m', apply (after v3_two_tasks) (DoToggle 7 2) = Ret m' ∧ consistent m').
Proof.
  assert (H1 : reachable (after v3_two_tasks)).
  { apply v3_after_reachable. repeat constructor. }
  assert (H2 : Prod.reachable (Prod.after v1_one_done)).
  { apply v1_after_reachable. repeat constructor. }
  split; [done|]. split; [done|].
  destruct (C7_completed_iff_done _ _ H1 H2) as ((_ & Ha & _) & _).
  apply Ha.
Defined.

End claims_invariants.

Section claims_numbering.
Import ProdV3.

(** C8.  In every well-formed state, which every state the bots get to is
    (lemmas [v3_reachable_well_formed], [v3_served_sound] and
    [v1_reachable_well_formed]), and in both bots: a display number
    resolves to a task exactly when it lies between 1 and the number of
    tasks of the list; the task it resolves to is one of the list; a
    lookup reads nothing but the user's list and the objects of its tasks,
    so that every number resolves to the same task again as long as these
    are as they were, whatever else has changed; two numbers that resolve
    to the same task are the same number; every task of the list has a
    number; and the text of the formatted list of a list that is not
    empty is joined from lines of which those of tasks are as many as the
    list has tasks, the one of the number [n] being [n], a full stop, a
    space and the text of the task that [n] resolves to (struck through
    when the task is completed; in the v1 bot behind the mark of the done
    when the task is in their section). *)
Theorem C8_display_numbers_are_a_bijection
    (m : TodoManager) (u : Z) (d : Prod.user_data) :
  well_formed m → Prod.well_formed d →
  ((∀ n, is_Some (get_todo_by_display_number m u n)
         ↔ 1 ≤ n ≤ Z.of_nat (length (live_tasks m u)))
   ∧ (∀ n t, get_todo_by_display_number m u n = Some t → t ∈ live_tasks m u)
   ∧ (∀ m', user_todos m' !! u = user_todos m !! u →
        (∀ t, t ∈ live_tasks m u → objects m' !! t = objects m !! t) →
        ∀ n, get_todo_by_display_number m' u n = get_todo_by_display_number m u n)
   ∧ (∀ n1 n2 t, get_todo_by_display_number m u n1 = Some t →
        get_todo_by_display_number m u n2 = Some t → n1 = n2)
   ∧ (∀ t, t ∈ live_tasks m u → ∃ n, get_todo_by_display_number m u n = Some t)
   ∧ (live_tasks m u ≠ [] →
        ∃ lines,
          get_formatted_list m u = join [NL] lines
          ∧ length (numbered_lines lines) = length (live_tasks m u)
          ∧ ∀ n t o, get_todo_by_display_number m u n = Some t →
              objects m !! t = Some o →
              numbered_lines lines !! Z.to_nat (n - 1)
              = Some (str_of_int n ++ utf8 ". "
                      ++ (if completed o then crossed_text (text o) else text o))))
  ∧ ((∀ n, is_Some (Prod.get_todo_by_display_number d n)
           ↔ 1 ≤ n ≤ Z.of_nat (length (Prod.todos d)))
     ∧ (∀ n t, Prod.get_todo_by_display_number d n = Some t → t ∈ Prod.todos d)
     ∧ (∀ d', Prod.todos d' = Prod.todos d →
          (∀ t, t ∈ Prod.todos d → Prod.dicts d' !! t = Prod.dicts d !! t) →
          ∀ n, Prod.get_todo_by_display_number d' n = Prod.get_todo_by_display_number d n)
     ∧ (∀ n1 n2 t, Prod.get_todo_by_display_number d n1 = Some t →
          Prod.get_todo_by_display_number d n2 = Some t → n1 = n2)
     ∧ (∀ t, t ∈ Prod.todos d → ∃ n, Prod.get_todo_by_display_number d n = Some t)
     ∧ (Prod.todos d ≠ [] →
          ∃ lines,
            Prod.format_todo_list d = join [NL] lines
            ∧ length (Prod.numbered_lines lines) = length (Prod.todos d)
            ∧ ∀ n t x, Prod.get_todo_by_display_number d n = Some t →
                Prod.dicts d !! t = Some x →
                Prod.numbered_lines lines !! Z.to_nat (n - 1)
                = Some (if Prod.section x =? 3
                        then utf8 "❌ " ++ str_of_int n ++ utf8 ". " ++ Prod.text x
                        else str_of_int n ++ utf8 ". "
                             ++ (if Prod.crossed_out x then crossed_text (Prod.text x)
                                 else Prod.text x)))).
Proof.
  intros Hm Hd. split; repeat apply conj.
  - intros n. by apply v3_get_is_Some.
  - intros n t G. by apply v3_get_live in G as [? _].
  - intros m' Hu Ho n. by apply v3_get_same.
  - intros n1 n2 t. by apply v3_get_inj.
  - intros t. by apply v3_get_surj.
  - intros Hne. destruct (v3_printed_lines m u Hne) as (lines & Ht & Hl & Hn).
    exists lines. split; [done|]. split; [|done].
    by rewrite Hl, v3_ordered_length.
  - intros n. by apply v1_get_is_Some.
  - intros n t G. by apply v1_get_live in G as [? _].
  - intros d' Ht Hx n. by apply v1_get_same.
  - intros n1 n2 t. by apply v1_get_inj.
  - intros t. by apply v1_get_surj.
  - intros Hne. destruct (v1_printed_lines d Hne) as (lines & Ht & Hl & Hn).
    exists lines. split; [done|]. split; [|done].
    by rewrite Hl, v1_display_order_length.
Qed.

Lemma C8_witness :
  well_formed embedded_manager
  ∧ Prod.well_formed (Prod.after v1_two_tasks)
  ∧ (∀ n, is_Some (get_todo_by_display_number embedded_manager FIRST_CHAT n)
          ↔ 1 ≤ n ≤ 18)
  ∧ (∃ lines, get_formatted_list embedded_manager FIRST_CHAT = join [NL] lines
       ∧ numbered_lines lines !! 2%nat = Some (utf8 "3. Жмых конопля"))
  ∧ (∃ lines, Prod.format_todo_list (Prod.after v1_two_tasks) = join [NL] lines
       ∧ Prod.numbered_lines lines !! 1%nat = Some (utf8 "2. b")).
Proof.
  assert (H1 : well_formed embedded_manager) by apply v3_sound_embedded.
  assert (H2 : Prod.well_formed (Prod.after v1_two_tasks)).
  { apply v1_after_sound. repeat constructor. }
  split; [exact H1|]. split; [exact H2|].
  destruct (C8_display_numbers_are_a_bijection _ FIRST_CHAT _ H1 H2)
    as ((Ha & _ & _ & _ & _ & Hb) & (_ & _ & _ & _ & _ & Hc)).
  split.
  { intros n. rewrite (Ha n). unfold live_tasks. rewrite v3_embedded_user. reflexivity. }
  split.
  - destruct Hb as (lines & Ht & _ & Hn).
    { unfold live_tasks. rewrite v3_embedded_user. discriminate. }
    exists lines. split; [exact Ht|].
    assert (G : get_todo_by_display_number embedded_manager FIRST_CHAT 3 = Some 2%nat)
      by (by vm_compute).
    assert (O : objects embedded_manager !! 2%nat
                = Some (mkTodoItem (utf8 "Жмых конопля") 8 false PURCHASE))
      by (by vm_compute).
    pose proof (Hn 3 2%nat _ G O) as L.
    change (Z.to_nat (3 - 1)) with 2%nat in L. etrans; [exact L|]. by vm_compute.
  - destruct Hc as (lines & Ht & _ & Hn); [discriminate|].
    exists lines. split; [exact Ht|].
    assert (G : Prod.get_todo_by_display_number (Prod.after v1_two_tasks) 2 = Some 1%nat)
      by (by vm_compute).
    assert (O : Prod.dicts (Prod.after v1_two_tasks) !! 1%nat
                = Some (Prod.mkTodo 2 (utf8 "b") 0 false))
      by (by vm_compute).
    pose proof (Hn 2 1%nat _ G O) as L.
    change (Z.to_nat (2 - 1)) with 1%nat in L. etrans; [exact L|]. by vm_compute.
Defined.

(** C9.  In every well-formed state, in both bots: when the two numbers
    resolve to two different tasks, [merge_todos] returns true, the first
    task's text becomes its text, one space and the text of the second
    task, its id, section and flag stay, no other object changes, and the
    list loses the second task and nothing else, so it is one shorter;
    when a number does not resolve, or both resolve to the same task, it
    returns false and changes nothing. *)
Theorem C9_merge_joins_texts_and_drops_second
    (m : TodoManager) (u n1 n2 : Z) (d : Prod.user_data) :
  well_formed m → Prod.well_formed d →
  ((∀ t1 t2,
      get_todo_by_display_number m u n1 = Some t1 →
      get_todo_by_display_number m u n2 = Some t2 → t1 ≠ t2 →
      ∃ m' o1 o2,
        merge_todos m u n1 n2 = Ret (m', true)
        ∧ objects m !! t1 = Some o1 ∧ objects m !! t2 = Some o2
        ∧ objects m' !! t1
            = Some (mkTodoItem (text o1 ++ utf8 " " ++ text o2) (item_id o1)
                      (crossed_out o1) (section o1))
        ∧ (∀ t, t ≠ t1 → objects m' !! t = objects m !! t)
        ∧ live_tasks m' u = filter (λ t, t ≠ t2) (live_tasks m u)
        ∧ S (length (live_tasks m' u)) = length (live_tasks m u)
        ∧ (∀ v, v ≠ u → user_todos m' !! v = user_todos m !! v)
        ∧ next_ids m' = next_ids m ∧ backups m' = backups m)
   ∧ (get_todo_by_display_number m u n1 = None
      ∨ get_todo_by_display_number m u n2 = None
      ∨ get_todo_by_display_number m u n1 = get_todo_by_display_number m u n2 →
      merge_todos m u n1 n2 = Ret (m, false)))
  ∧ ((∀ t1 t2,
        Prod.get_todo_by_display_number d n1 = Some t1 →
        Prod.get_todo_by_display_number d n2 = Some t2 → t1 ≠ t2 →
        ∃ d' x1 x2,
          Prod.merge_todos d n1 n2 = Ret (d', true)
          ∧ Prod.dicts d !! t1 = Some x1 ∧ Prod.dicts d !! t2 = Some x2
          ∧ Prod.dicts d' !! t1
              = Some (Prod.mkTodo (Prod.id x1)
                        (Prod.text x1 ++ utf8 " " ++ Prod.text x2)
                        (Prod.section x1) (Prod.crossed_out x1))
          ∧ (∀ t, t ≠ t1 → Prod.dicts d' !! t = Prod.dicts d !! t)
          ∧ Prod.todos d' = filter (λ t, t ≠ t2) (Prod.todos d)
          ∧ S (length (Prod.todos d')) = length (Prod.todos d)
          ∧ Prod.next_id d' = Prod.next_id d
          ∧ Prod.backup_todos d' = Prod.backup_todos d)
     ∧ (Prod.get_todo_by_display_number d n1 = None
        ∨ Prod.get_todo_by_display_number d n2 = None
        ∨ Prod.get_todo_by_display_number d n1 = Prod.get_todo_by_display_number d n2 →
        Prod.merge_todos d n1 n2 = Ret (d, false))).
Proof.
  intros Hm Hd. split; split.
  - intros t1 t2 G1 G2 Hne.
    destruct (v3_merge_todos_distinct m u n1 n2 t1 t2 Hm G1 G2 Hne)
      as (m' & o1 & E & Ho1 & Ho1' & Hrest).
    pose proof G2 as [_ [o2 Ho2]]%v3_get_live.
    exists m', o1, o2. split; [done|]. split; [done|]. split; [done|].
    split; [|done]. rewrite Ho1'. unfold text_at. by rewrite Ho2.
  - apply v3_merge_todos_noop.
  - intros t1 t2 G1 G2 Hne.
    destruct (v1_merge_todos_distinct d n1 n2 t1 t2 Hd G1 G2 Hne)
      as (d' & x1 & E & Hx1 & Hx1' & Hrest).
    pose proof G2 as [_ [x2 Hx2]]%v1_get_live.
    exists d', x1, x2. split; [done|]. split; [done|]. split; [done|].
    split; [|done]. rewrite Hx1'. unfold Prod.text_at. by rewrite Hx2.
  - apply v1_merge_todos_noop.
Qed.

Lemma C9_witness :
  well_formed (after v3_two_tasks)
  ∧ Prod.well_formed (Prod.after v1_two_tasks)
  ∧ (∃ m' o1,
       merge_todos (after v3_two_tasks) 7 1 2 = Ret (m', true)
       ∧ objects m' !! 0%nat = Some o1 ∧ text o1 = utf8 "a b"
       ∧ live_tasks m' 7 = [0%nat])
  ∧ (∃ d' x1,
       Prod.merge_todos (Prod.after v1_two_tasks) 1 2 = Ret (d', true)
       ∧ Prod.dicts d' !! 0%nat = Some x1 ∧ Prod.text x1 = utf8 "a b"
       ∧ Prod.todos d' = [0%nat]).
Proof.
  assert (H1 : well_formed (after v3_two_tasks)).
  { apply v3_after_sound. repeat constructor. }
  assert (H2 : Prod.well_formed (Prod.after v1_two_tasks)).
  { apply v1_after_sound. repeat constructor. }
  split; [exact H1|]. split; [exact H2|].
  destruct (C9_merge_joins_texts_and_drops_second _ 7 1 2 _ H1 H2)
    as ((Ha & _) & (Hb & _)).
  split.
  - destruct (Ha 0%nat 1%nat) as (m' & o1 & o2 & E & Ho1 & Ho2 & Ho' & _ & Hl & _);
      [reflexivity|reflexivity|discriminate|].
    exists m', (mkTodoItem (text o1 ++ utf8 " " ++ text o2)
                 (item_id o1) (crossed_out o1) (section o1)).
    split; [exact E|]. split; [exact Ho'|]. split.
    + vm_compute in Ho1, Ho2. injection Ho1 as <-. injection Ho2 as <-. reflexivity.
    + rewrite Hl. reflexivity.
  - destruct (Hb 0%nat 1%nat) as (d' & x1 & x2 & E & Hx1 & Hx2 & Hx' & _ & Hl & _);
      [reflexivity|reflexivity|discriminate|].
    exists d', (Prod.mkTodo (Prod.id x1) (Prod.text x1 ++ utf8 " " ++ Prod.text x2)
                 (Prod.section x1) (Prod.crossed_out x1)).
    split; [exact E|]. split; [exact Hx'|]. split.
    + vm_compute in Hx1, Hx2. injection Hx1 as <-. injection Hx2 as <-. reflexivity.
    + rewrite Hl. reflexivity.
Defined.

End claims_numbering.

(* ================================================================== *)
(** * Further properties of the v3 bot                                 *)
(* ================================================================== *)

Section more_v3.
Import ProdV3.

(** X1.  Whatever message [handle_message] of the v3 bot returns from, what
    it leaves of a sound manager is sound again, and it is what a
    sequence of public operations of [TodoManager], all of them made for
    the chat of the message, leaves of it. *)
Theorem X1_v3_message_is_a_run_of_operations
    (m : TodoManager) (chat_id : Z) (message_text : str)
    (m' : TodoManager) (r : option reply) :
  sound m → handle_message m chat_id message_text = Ret (m', r) →
  sound m' ∧ ∃ ops, Forall (by_user chat_id) ops ∧ run m ops = Ret m'.
Proof.
  intros Hs E. split; [by eapply v3_handle_message_sound|].
  by eapply v3_handle_message_run.
Qed.

Lemma X1_witness :
  sound (after v3_two_tasks)
  ∧ (∃ m' r, handle_message (after v3_two_tasks) 7 (utf8 "1+2") = Ret (m', r)
       ∧ sound m').
Proof.
  assert (H1 : sound (after v3_two_tasks)).
  { apply v3_after_sound. repeat constructor. }
  split; [exact H1|].
  eexists _, _. split; [by vm_compute|].
  eapply (X1_v3_message_is_a_run_of_operations _ 7 (utf8 "1+2") _ _ H1).
  by vm_compute.
Defined.

(** X2.  On a well-formed manager, [handle_message] of the v3 bot returns
    for every message in which every digit character is a decimal digit
    and whose stripped text has no more characters than [int] converts
    digits (4300): no exception leaves it. *)
Theorem X2_v3_message_returns
    (m : TodoManager) (chat_id : Z) (message_text : str) :
  well_formed m → plain_digits (strip message_text) →
  Z.of_nat (length (strip message_text)) ≤ MAX_STR_DIGITS →
  ∃ m' r, handle_message m chat_id message_text = Ret (m', r).
Proof. apply v3_handle_message_total. Qed.

Lemma X2_witness :
  well_formed embedded_manager
  ∧ plain_digits (strip (utf8 " 12+x "))
  ∧ Z.of_nat (length (strip (utf8 " 12+x "))) ≤ MAX_STR_DIGITS
  ∧ ∃ m' r, handle_message embedded_manager FIRST_CHAT (utf8 " 12+x ") = Ret (m', r).
Proof.
  assert (H1 : well_formed embedded_manager) by apply v3_sound_embedded.
  assert (H2 : plain_digits (strip (utf8 " 12+x "))).
  { apply plain_digits_check. by vm_compute. }
  assert (H3 : Z.of_nat (length (strip (utf8 " 12+x "))) ≤ MAX_STR_DIGITS)
    by (by vm_compute).
  split; [exact H1|]. split; [exact H2|]. split; [exact H3|].
  apply (X2_v3_message_returns _ _ _ H1 H2 H3).
Defined.

(** X3.  A number written with a digit that is not decimal, such as "²",
    makes [handle_message] of the v3 bot raise [ValueError], in whatever
    state: as a toggle, after "-", before any character that is neither a
    digit nor a space, and on either side of "+" with digits on the other. *)
Theorem X3_v3_odd_digits_raise (m : TodoManager) (chat_id : Z) (ds : str) :
  odd_number ds →
  handle_message m chat_id ds = Raise ValueError
  ∧ handle_message m chat_id (45%N :: ds) = Raise ValueError
  ∧ (∀ c, cp_isdigit c = false → cp_isspace c = false →
       handle_message m chat_id (ds ++ [c]) = Raise ValueError)
  ∧ (∀ d, isdigit d = true →
       handle_message m chat_id (ds ++ PLUS :: d) = Raise ValueError
       ∧ handle_message m chat_id (d ++ PLUS :: ds) = Raise ValueError).
Proof.
  intros Ho. split; [by apply v3_raise_toggle|]. split; [by apply v3_raise_delete|].
  split; [intros c; by apply v3_raise_suffix|].
  destruct Ho as [Hd He]. intros d Hdd. split.
  - apply v3_raise_merge; [done|done|]. apply Exists_app. by left.
  - apply v3_raise_merge; [done|done|]. apply Exists_app. by right.
Qed.

Lemma X3_witness :
  odd_number (utf8 "²")
  ∧ handle_message embedded_manager FIRST_CHAT (utf8 "²") = Raise ValueError.
Proof.
  assert (H : odd_number (utf8 "²")).
  { split; [by vm_compute|]. apply Exists_cons. left. by vm_compute. }
  split; [exact H|].
  exact (proj1 (X3_v3_odd_digits_raise embedded_manager FIRST_CHAT _ H)).
Defined.

(** X4.  A message of one chat changes nothing for another chat: in a
    well-formed manager in which no task belongs to two users, after
    [handle_message] for the chat [chat_id] every other chat has the list,
    the backup, the next id and the task objects it had, its formatted
    list reads the same and its display numbers resolve to the same
    tasks. *)
Theorem X4_v3_other_chats_untouched
    (m : TodoManager) (chat_id : Z) (message_text : str)
    (m' : TodoManager) (r : option reply) (other : Z) :
  well_formed m → separated m →
  handle_message m chat_id message_text = Ret (m', r) → other ≠ chat_id →
  same_for other m m'
  ∧ get_formatted_list m' other = get_formatted_list m other
  ∧ ∀ n, get_todo_by_display_number m' other n = get_todo_by_display_number m other n.
Proof.
  intros Hwf Hs E Hv.
  pose proof (v3_handle_message_same_for _ _ _ _ _ _ Hwf Hs E Hv) as Hsame.
  split; [done|]. destruct Hsame as (Hu & _ & _ & Ho).
  assert (Ho' : ∀ t, t ∈ live_tasks m other → objects m' !! t = objects m !! t).
  { intros t Ht. apply Ho. by left. }
  split; [by apply v3_formatted_list_same|].
  intros n. by apply v3_get_same.
Qed.

Lemma X4_witness :
  well_formed embedded_manager ∧ separated embedded_manager
  ∧ SECOND_CHAT ≠ FIRST_CHAT
  ∧ ∃ m' r, handle_message embedded_manager FIRST_CHAT (utf8 "-1") = Ret (m', r)
      ∧ get_formatted_list m' SECOND_CHAT = get_formatted_list embedded_manager SECOND_CHAT.
Proof.
  assert (H1 : well_formed embedded_manager) by apply v3_sound_embedded.
  assert (H2 : separated embedded_manager) by apply v3_sound_embedded.
  assert (H3 : SECOND_CHAT ≠ FIRST_CHAT) by (by vm_compute).
  split; [exact H1|]. split; [exact H2|]. split; [exact H3|].
  destruct (handle_message embedded_manager FIRST_CHAT (utf8 "-1")) as [[m' r]|e] eqn:E;
    [|by vm_compute in E].
  exists m', r. split; [reflexivity|].
  apply (X4_v3_other_chats_untouched _ _ _ _ _ _ H1 H2 E H3).
Defined.

(** X5.  A numeric command of the v3 bot whose numbers resolve (for a merge:
    to two different tasks) does the operation of [TodoManager] it stands
    for, and is answered with the formatted list of the manager it
    leaves, under the main keyboard. *)
Theorem X5_v3_resolved_command
    (m : TodoManager) (chat_id : Z) (message_text : str) (cmd : command) :
  spells message_text cmd →
  resolves (get_todo_by_display_number m chat_id) cmd →
  ∃ m', apply m (command_op chat_id cmd) = Ret m'
    ∧ handle_message m chat_id message_text
      = Ret (m', Some (get_formatted_list m' chat_id, main_keyboard)).
Proof. apply v3_resolved_command. Qed.

Lemma X5_witness :
  spells (utf8 "2г") (MoveTo 2 1075%N)
  ∧ resolves (get_todo_by_display_number (after v3_two_tasks) 7) (MoveTo 2 1075%N)
  ∧ ∃ m', apply (after v3_two_tasks) (DoMove 7 2 GARAGE) = Ret m'
      ∧ handle_message (after v3_two_tasks) 7 (utf8 "2г")
        = Ret (m', Some (get_formatted_list m' 7, main_keyboard)).
Proof.
  assert (H1 : spells (utf8 "2г") (MoveTo 2 1075%N)).
  { apply (spells_move (utf8 "2") 2 1075%N); [reflexivity|reflexivity|].
    unfold MARKERS. by left. }
  assert (H2 : resolves (get_todo_by_display_number (after v3_two_tasks) 7)
                 (MoveTo 2 1075%N)).
  { simpl. by eexists. }
  split; [exact H1|]. split; [exact H2|].
  apply (X5_v3_resolved_command _ _ _ _ H1 H2).
Defined.

(** X6.  A message of one line that, stripped, starts with a character
    that is neither a digit nor "-", and is none of the menu texts, becomes
    one task of the v3 bot: the handler returns, the store gets one more
    object, made of the stripped text by [add_todo] with the chat's
    upcoming id, the chat's list gets it at its end, the next id goes up
    by one, and the answer is the formatted list. *)
Theorem X6_v3_other_text_becomes_a_task
    (m : TodoManager) (chat_id : Z) (message_text : str) (c : N) (s : str) :
  well_formed m →
  strip message_text = c :: s → cp_isdigit c = false → c ≠ 45%N →
  is_menu_label (c :: s) = false → ¬ In NL (c :: s) →
  ∃ m', handle_message m chat_id message_text = Ret (m', list_reply m' chat_id)
    ∧ objects m' = objects m ++ [task_of_line (upcoming_id m chat_id) (c :: s)]
    ∧ user_todos m'
      = <[chat_id := live_tasks m chat_id ++ [length (objects m)]]> (user_todos m)
    ∧ next_ids m' = <[chat_id := upcoming_id m chat_id + 1]> (next_ids m)
    ∧ backups m' = backups m.
Proof. apply v3_one_line_added. Qed.

Lemma X6_witness :
  well_formed embedded_manager
  ∧ ∃ m', handle_message embedded_manager SECOND_CHAT (utf8 " !oil ")
          = Ret (m', list_reply m' SECOND_CHAT)
      ∧ objects m' = objects embedded_manager ++ [new_TodoItem (utf8 "oil") 40 GARAGE].
Proof.
  assert (H1 : well_formed embedded_manager) by apply v3_sound_embedded.
  assert (H2 : strip (utf8 " !oil ") = 33%N :: utf8 "oil") by (by vm_compute).
  assert (H3 : cp_isdigit 33%N = false) by (by vm_compute).
  assert (H4 : 33%N ≠ 45%N) by (by vm_compute).
  assert (H5 : is_menu_label (33%N :: utf8 "oil") = false) by (by vm_compute).
  assert (H6 : ¬ In NL (33%N :: utf8 "oil")).
  { apply not_In_contains. by vm_compute. }
  split; [exact H1|].
  destruct (X6_v3_other_text_becomes_a_task embedded_manager SECOND_CHAT
              (utf8 " !oil ") 33%N (utf8 "oil") H1 H2 H3 H4 H5 H6)
    as (m' & E & Ho & _).
  assert (Ht : task_of_line (upcoming_id embedded_manager SECOND_CHAT)
                 (33%N :: utf8 "oil") = new_TodoItem (utf8 "oil") 40 GARAGE)
    by (by vm_compute).
  exists m'. split; [exact E|]. rewrite Ho, Ht. reflexivity.
Defined.

(** X7.  A message of two or more lines that are not blank is no command
    of the v3 bot, whatever its lines look like: every such line, stripped,
    becomes a task, in the order of the lines and with consecutive ids
    from the chat's upcoming id on, and the answer is the formatted list. *)
Theorem X7_v3_every_line_becomes_a_task
    (m : TodoManager) (chat_id : Z) (message_text : str) :
  well_formed m →
  1 < Z.of_nat (length (nonblank_lines (strip message_text))) →
  ∃ m', handle_message m chat_id message_text = Ret (m', list_reply m' chat_id)
    ∧ objects m'
      = objects m
        ++ imap (λ i line, task_of_line (upcoming_id m chat_id + Z.of_nat i) line)
             (nonblank_lines (strip message_text))
    ∧ user_todos m'
      = <[chat_id := live_tasks m chat_id
                ++ seq (length (objects m))
                     (length (nonblank_lines (strip message_text)))]>
          (user_todos m)
    ∧ next_ids m'
      = <[chat_id := upcoming_id m chat_id
                     + Z.of_nat (length (nonblank_lines (strip message_text)))]>
          (next_ids m)
    ∧ backups m' = backups m.
Proof. apply v3_lines_added. Qed.

Lemma X7_witness :
  well_formed empty_manager
  ∧ ∃ m', handle_message empty_manager 7 (utf8 "1" ++ [NL] ++ utf8 "-2")
          = Ret (m', list_reply m' 7)
      ∧ objects m' = [new_TodoItem (utf8 "1") 1 PURCHASE; new_TodoItem (utf8 "-2") 2 PURCHASE].
Proof.
  assert (H1 : well_formed empty_manager) by apply v3_well_formed_empty.
  split; [exact H1|].
  destruct (X7_v3_every_line_becomes_a_task empty_manager 7
              (utf8 "1" ++ [NL] ++ utf8 "-2") H1)
    as (m' & E & Ho & _); [by vm_compute|].
  exists m'. split; [exact E|]. rewrite Ho. reflexivity.
Defined.

(** X8.  The number the formatted list of the v3 bot prints before a task,
    sent back as a message, toggles that very task.  For a number [n] of
    at most 4300 digits that resolves to a task: the text of the list is
    joined from lines of which the [n]-th line of a task is [n], a full
    stop, a space and the text of that task (struck through when it is
    completed); [str] of [n] is a string of digits that [int] reads back
    as [n]; and [handle_message] on these digits toggles the task and
    answers with the list of the manager it leaves. *)
Theorem X8_v3_printed_number_toggles
    (m : TodoManager) (chat_id n : Z) (t : loc) (o : TodoItem) :
  n < 10 ^ MAX_STR_DIGITS →
  get_todo_by_display_number m chat_id n = Some t → objects m !! t = Some o →
  (∃ lines,
     get_formatted_list m chat_id = join [NL] lines
     ∧ numbered_lines lines !! Z.to_nat (n - 1)
       = Some (str_of_int n ++ utf8 ". "
               ++ (if completed o then crossed_text (text o) else text o)))
  ∧ isdigit (str_of_int n) = true ∧ int (str_of_int n) = Ret n
  ∧ handle_message m chat_id (str_of_int n)
    = Ret (set_objects m (alter toggled t (objects m)),
           list_reply (set_objects m (alter toggled t (objects m))) chat_id).
Proof.
  intros Hb G Ho.
  assert (Hn : 1 ≤ n) by (by apply v3_get_Some in G as [? _]).
  destruct (str_of_int_digits n) as [Hd Hi]; [lia|].
  split.
  { destruct (v3_printed_lines m chat_id) as (lines & Ht & _ & Hl);
      [by eapply v3_get_nonempty|].
    exists lines. split; [done|]. by apply (Hl n t o). }
  split; [done|]. split; [done|]. by apply v3_printed_number_toggles.
Qed.

Lemma X8_witness :
  3 < 10 ^ MAX_STR_DIGITS
  ∧ get_todo_by_display_number embedded_manager FIRST_CHAT 3 = Some 2%nat
  ∧ (∃ lines,
       get_formatted_list embedded_manager FIRST_CHAT = join [NL] lines
       ∧ numbered_lines lines !! 2%nat = Some (utf8 "3. Жмых конопля"))
  ∧ handle_message embedded_manager FIRST_CHAT (utf8 "3")
    = Ret (set_objects embedded_manager (alter toggled 2%nat (objects embedded_manager)),
           list_reply (set_objects embedded_manager
                         (alter toggled 2%nat (objects embedded_manager))) FIRST_CHAT).
Proof.
  assert (H1 : 3 < 10 ^ MAX_STR_DIGITS) by (by vm_compute).
  assert (H2 : get_todo_by_display_number embedded_manager FIRST_CHAT 3 = Some 2%nat)
    by (by vm_compute).
  assert (H3 : objects embedded_manager !! 2%nat
               = Some (mkTodoItem (utf8 "Жмых конопля") 8 false PURCHASE))
    by (by vm_compute).
  split; [exact H1|]. split; [exact H2|].
  destruct (X8_v3_printed_number_toggles _ _ _ _ _ H1 H2 H3)
    as ((lines & Ht & Hl) & _ & _ & E).
  split; [|exact E].
  exists lines. split; [exact Ht|].
  change (Z.to_nat (3 - 1)) with 2%nat in Hl. etrans; [exact Hl|]. by vm_compute.
Defined.

(** X9.  [remove_todo] of the v3 manager, on a well-formed manager and a
    number that resolves to a task: it returns true; the user's list is
    the old one without that task, one shorter; objects, next ids, backups
    and the other users' lists stay; and the display numbers close up:
    the numbers below the removed one resolve as before, and every number
    from it on resolves to what the number one higher resolved to. *)
Theorem X9_v3_remove_renumbers (m : TodoManager) (user_id display_num : Z) (t : loc) :
  well_formed m → get_todo_by_display_number m user_id display_num = Some t →
  ∃ m', remove_todo m user_id display_num = Ret (m', true)
    ∧ objects m' = objects m
    ∧ next_ids m' = next_ids m ∧ backups m' = backups m
    ∧ (∀ v, v ≠ user_id → user_todos m' !! v = user_todos m !! v)
    ∧ live_tasks m' user_id = filter (λ y, y ≠ t) (live_tasks m user_id)
    ∧ S (length (live_tasks m' user_id)) = length (live_tasks m user_id)
    ∧ (∀ k, get_todo_by_display_number m' user_id k
            = get_todo_by_display_number m user_id
                (if k <? display_num then k else k + 1)).
Proof. apply v3_remove_todo_spec. Qed.

Lemma X9_witness :
  well_formed embedded_manager
  ∧ get_todo_by_display_number embedded_manager FIRST_CHAT 3 = Some 2%nat
  ∧ ∃ m', remove_todo embedded_manager FIRST_CHAT 3 = Ret (m', true)
      ∧ get_todo_by_display_number m' FIRST_CHAT 3 = Some 3%nat.
Proof.
  assert (H1 : well_formed embedded_manager) by apply v3_sound_embedded.
  assert (H2 : get_todo_by_display_number embedded_manager FIRST_CHAT 3 = Some 2%nat)
    by (by vm_compute).
  split; [exact H1|]. split; [exact H2|].
  destruct (X9_v3_remove_renumbers _ _ _ _ H1 H2) as (m' & E & _ & _ & _ & _ & _ & _ & Hk).
  exists m'. split; [exact E|]. rewrite (Hk 3). by vm_compute.
Defined.

(** X10.  In the v3 manager, a list that is not empty comes back as it was
    when [clear_todos] is followed by [restore_backup]: the lists, the
    objects and the next ids are those from before, both calls return the
    number of tasks of the list, and the user's backup is left empty, so
    that an older backup is gone. *)
Theorem X10_v3_clear_then_restore (m : TodoManager) (user_id : Z) :
  live_tasks m user_id ≠ [] →
  let m1 := (clear_todos m user_id).1 in
  let m2 := (restore_backup m1 user_id).1 in
  user_todos m2 = user_todos m ∧ objects m2 = objects m ∧ next_ids m2 = next_ids m
  ∧ backups m2 = <[user_id := []]> (backups m)
  ∧ (restore_backup m1 user_id).2 = (clear_todos m user_id).2
  ∧ (clear_todos m user_id).2 = Z.of_nat (length (live_tasks m user_id)).
Proof. apply v3_clear_restore. Qed.

Lemma X10_witness :
  live_tasks (after v3_two_tasks) 7 ≠ []
  ∧ user_todos (restore_backup (clear_todos (after v3_two_tasks) 7).1 7).1
    = user_todos (after v3_two_tasks).
Proof.
  assert (H1 : live_tasks (after v3_two_tasks) 7 ≠ []) by (by vm_compute).
  split; [exact H1|].
  apply (X10_v3_clear_then_restore _ _ H1).
Defined.

(** X11.  After [continue_list] of the v3 manager no task of the user's
    list is completed, and a second [continue_list] right after it
    returns 0 and changes nothing, so that the backup the first call made
    stays. *)
Theorem X11_v3_continue_twice (m : TodoManager) (user_id : Z) :
  select (continue_list m user_id).1 completed
    (live_tasks (continue_list m user_id).1 user_id) = []
  ∧ continue_list (continue_list m user_id).1 user_id = ((continue_list m user_id).1, 0).
Proof. apply v3_continue_twice. Qed.

(** X12.  In the v3 manager, when the user's list has a completed task,
    [continue_list] followed by [restore_backup] leaves exactly the
    completed tasks as the list, in their order: the tasks that were not
    completed are in no list and in no backup of the user any more; the
    objects stay and the backup is empty. *)
Theorem X12_v3_continue_then_restore (m : TodoManager) (user_id : Z) :
  select m completed (live_tasks m user_id) ≠ [] →
  let m1 := (continue_list m user_id).1 in
  let m2 := (restore_backup m1 user_id).1 in
  live_tasks m2 user_id = select m completed (live_tasks m user_id)
  ∧ objects m2 = objects m
  ∧ backup_tasks m2 user_id = [].
Proof. apply v3_continue_restore. Qed.

Lemma X12_witness :
  select (after v3_one_done) completed (live_tasks (after v3_one_done) 7) ≠ []
  ∧ live_tasks (after v3_one_done) 7 = [0%nat; 1%nat]
  ∧ live_tasks (restore_backup (continue_list (after v3_one_done) 7).1 7).1 7 = [0%nat].
Proof.
  assert (H1 : select (after v3_one_done) completed (live_tasks (after v3_one_done) 7) ≠ [])
    by (by vm_compute).
  split; [exact H1|]. split; [reflexivity|].
  destruct (X12_v3_continue_then_restore _ _ H1) as (Hl & _). rewrite Hl. reflexivity.
Defined.

(** X13.  [get_formatted_list] of the v3 manager gives the text for the
    empty list exactly when the user has no list or an empty one: a list
    with a task in it never reads as empty. *)
Theorem X13_v3_empty_list_text (m : TodoManager) (user_id : Z) :
  get_formatted_list m user_id = EMPTY_LIST ↔ live_tasks m user_id = [].
Proof. apply v3_formatted_list_empty. Qed.

(** X14.  Toggling a task of the v3 manager that is not crossed out, and
    then toggling it again under the number it has by then, does not bring
    its section back: after the first toggle it is crossed out in the
    section of the done, after the second it is not crossed out and in the
    section of the purchases, whatever section it came from; text and id
    stay. *)
Theorem X14_v3_toggle_twice_lands_in_purchase
    (m : TodoManager) (user_id n n' : Z) (t : loc) (o : TodoItem) :
  get_todo_by_display_number m user_id n = Some t →
  objects m !! t = Some o → crossed_out o = false →
  get_todo_by_display_number (toggle_todo m user_id n).1 user_id n' = Some t →
  objects (toggle_todo m user_id n).1 !! t
    = Some (mkTodoItem (text o) (item_id o) true DONE)
  ∧ objects (toggle_todo (toggle_todo m user_id n).1 user_id n').1 !! t
    = Some (mkTodoItem (text o) (item_id o) false PURCHASE).
Proof. intros G Ho Hc G'. by apply (v3_toggle_twice_section m user_id n n' t o). Qed.

Lemma X14_witness :
  section <$> objects embedded_manager !! 4%nat = Some VOLYNKA
  ∧ get_todo_by_display_number embedded_manager FIRST_CHAT 16 = Some 4%nat
  ∧ get_todo_by_display_number (toggle_todo embedded_manager FIRST_CHAT 16).1 FIRST_CHAT 18
    = Some 4%nat
  ∧ section <$> objects (toggle_todo (toggle_todo embedded_manager FIRST_CHAT 16).1
                           FIRST_CHAT 18).1 !! 4%nat = Some PURCHASE.
Proof.
  assert (H1 : get_todo_by_display_number embedded_manager FIRST_CHAT 16 = Some 4%nat)
    by (by vm_compute).
  assert (H2 : get_todo_by_display_number (toggle_todo embedded_manager FIRST_CHAT 16).1
                 FIRST_CHAT 18 = Some 4%nat) by (by vm_compute).
  destruct (objects embedded_manager !! 4%nat) as [o|] eqn:Eo; [|by vm_compute in Eo].
  assert (H3 : crossed_out o = false).
  { vm_compute in Eo. by injection Eo as <-. }
  split; [vm_compute in Eo; by injection Eo as <-|].
  split; [exact H1|]. split; [exact H2|].
  destruct (X14_v3_toggle_twice_lands_in_purchase _ _ _ _ _ _ H1 Eo H3 H2) as [_ ->].
  reflexivity.
Defined.

(** X15.  Of the eight buttons of the two keyboards of the v3 bot,
    [handle_message] has a branch for six: pressing one of them never
    makes a task; the handler answers, the task objects are those from
    before, and the manager is the one from before or the one
    [clear_todos], [restore_backup] or [continue_list] makes of it.  The
    labels of the two others, "Settings" and "Help", are taken for the
    text of a new task: on a well-formed manager the handler returns,
    having stored a task of the section of the purchases whose text is
    the label of the button, and answers with the list. *)
Theorem X15_v3_settings_and_help_become_tasks
    (m : TodoManager) (chat_id : Z) (label : str) :
  well_formed m → label ∈ concat (get_main_keyboard ++ get_commands_keyboard) →
  (label ≠ SETTINGS_BUTTON → label ≠ HELP_BUTTON →
   ∃ m' r, handle_message m chat_id label = Ret (m', Some r)
     ∧ objects m' = objects m
     ∧ (m' = m ∨ m' = (clear_todos m chat_id).1
        ∨ m' = (restore_backup m chat_id).1 ∨ m' = (continue_list m chat_id).1))
  ∧ (label = SETTINGS_BUTTON ∨ label = HELP_BUTTON →
     ∃ m', handle_message m chat_id label = Ret (m', list_reply m' chat_id)
       ∧ objects m'
         = objects m ++ [new_TodoItem label (upcoming_id m chat_id) PURCHASE]
       ∧ live_tasks m' chat_id = live_tasks m chat_id ++ [length (objects m)]).
Proof.
  intros Hwf Hin. split.
  - intros H1 H2.
    destruct (v3_buttons_menu_or_task label Hin) as [[Hne Hm]|[Hl|Hl]]; [|done..].
    by apply v3_menu_label_handled.
  - intros Hl. destruct (v3_button_added m chat_id label Hl) as [_ ->].
    destruct (v3_add_todo_total m chat_id label) as (m' & t & E);
      [apply (wf_next_ids _ Hwf)|].
    rewrite E. exists m'. split; [done|].
    apply v3_upcoming_id_add in E as (-> & -> & Hu & _). split.
    + do 2 f_equal. destruct Hl as [-> | ->]; reflexivity.
    + unfold live_tasks at 1. rewrite Hu.
      by rewrite (lookup_insert_eq (M := gmap Z)).
Qed.

Lemma X15_witness :
  well_formed embedded_manager
  ∧ HELP_BUTTON ∈ concat (get_main_keyboard ++ get_commands_keyboard)
  ∧ ∃ m', handle_message embedded_manager FIRST_CHAT HELP_BUTTON
          = Ret (m', list_reply m' FIRST_CHAT)
      ∧ objects m' = objects embedded_manager ++ [new_TodoItem HELP_BUTTON 72 PURCHASE].
Proof.
  assert (H1 : well_formed embedded_manager) by apply v3_sound_embedded.
  assert (H2 : HELP_BUTTON ∈ concat (get_main_keyboard ++ get_commands_keyboard)).
  { apply list_elem_of_In. vm_compute. tauto. }
  split; [exact H1|]. split; [exact H2|].
  destruct (X15_v3_settings_and_help_become_tasks embedded_manager FIRST_CHAT _ H1 H2)
    as [_ Ht].
  destruct Ht as (m' & E & Ho & _); [by right|].
  exists m'. split; [exact E|]. rewrite Ho. reflexivity.
Defined.

(** X16.  The data [_load_embedded_data] puts into a new v3 manager make a
    sound manager, and so is every manager the bot gets to from there by
    handling messages: the lists hold tasks of the store, none twice and
    none of another chat, every task is in one of the four sections and
    crossed out exactly when it is in the section of the done, and the ids
    of a chat's tasks are positive, differ from each other and are below
    the chat's next id. *)
Theorem X16_v3_served_from_embedded_data_is_sound (m : TodoManager) :
  served embedded_manager m → sound m.
Proof. apply v3_served_sound, v3_sound_embedded. Qed.

Lemma X16_witness :
  ∃ m r, handle_message embedded_manager FIRST_CHAT (utf8 "7+8") = Ret (m, r)
    ∧ served embedded_manager m ∧ sound m.
Proof.
  destruct (handle_message embedded_manager FIRST_CHAT (utf8 "7+8")) as [[m r]|e] eqn:E;
    [|by vm_compute in E].
  assert (Hs : served embedded_manager m).
  { eapply served_message; [apply served_start|exact E]. }
  exists m, r. split; [reflexivity|]. split; [exact Hs|].
  apply (X16_v3_served_from_embedded_data_is_sound _ Hs).
Defined.

(** X29.  A number of more than 4300 digits makes [handle_message] of the
    v3 bot raise [ValueError], in whatever state, decimal though the
    digits may be: [int] refuses to convert it.  So it is as a toggle,
    after "-", before any character that is neither a digit nor a space,
    and on either side of "+" with digits on the other. *)
Theorem X29_v3_long_numbers_raise (m : TodoManager) (chat_id : Z) (ds : str) :
  isdigit ds = true → MAX_STR_DIGITS < Z.of_nat (length ds) →
  handle_message m chat_id ds = Raise ValueError
  ∧ handle_message m chat_id (45%N :: ds) = Raise ValueError
  ∧ (∀ c, cp_isdigit c = false → cp_isspace c = false →
       handle_message m chat_id (ds ++ [c]) = Raise ValueError)
  ∧ (∀ d, isdigit d = true →
       handle_message m chat_id (ds ++ PLUS :: d) = Raise ValueError
       ∧ handle_message m chat_id (d ++ PLUS :: ds) = Raise ValueError).
Proof. intros Hd Hl. apply v3_raise_refused; [done|]. by apply int_too_long. Qed.

Lemma X29_witness :
  isdigit (repeat 49%N 4301) = true
  ∧ MAX_STR_DIGITS < Z.of_nat (length (repeat 49%N 4301))
  ∧ handle_message embedded_manager FIRST_CHAT (repeat 49%N 4301) = Raise ValueError.
Proof.
  assert (H1 : isdigit (repeat 49%N 4301) = true) by (by vm_compute).
  assert (H2 : MAX_STR_DIGITS < Z.of_nat (length (repeat 49%N 4301)))
    by (by vm_compute).
  split; [exact H1|]. split; [exact H2|].
  exact (proj1 (X29_v3_long_numbers_raise embedded_manager FIRST_CHAT _ H1 H2)).
Defined.

End more_v3.

(* ================================================================== *)
(** * Further properties of the v1 bot                                 *)
(* ================================================================== *)

Section more_v1.
Import Prod.

(** X17.  Whatever text [handle_message] of the v1 bot returns from, what
    it leaves of a sound dictionary of a user is sound again (well formed,
    every task crossed out exactly when it is in the section of the done,
    no task with an empty text), and it is what a sequence of the
    operations on the dictionary leaves of it. *)
Theorem X17_v1_text_is_a_run_of_operations
    (u : user_data) (text : str) (u' : user_data) (r : reply) :
  sound u → handle_text u text = Ret (u', r) →
  sound u' ∧ ∃ ops, Forall admissible ops ∧ run u ops = Ret u'.
Proof.
  intros Hs E. split; [by eapply v1_handle_text_sound|].
  by eapply v1_handle_text_run.
Qed.

Lemma X17_witness :
  sound (after v1_two_tasks)
  ∧ ∃ u' r, handle_text (after v1_two_tasks) (utf8 "2+1") = Ret (u', r) ∧ sound u'.
Proof.
  assert (H1 : sound (after v1_two_tasks)).
  { apply v1_after_sound. repeat constructor. }
  split; [exact H1|].
  destruct (handle_text (after v1_two_tasks) (utf8 "2+1")) as [[u' r]|e] eqn:E;
    [|by vm_compute in E].
  exists u', r. split; [reflexivity|].
  apply (X17_v1_text_is_a_run_of_operations _ _ _ _ H1 E).
Defined.

(** X18.  [handle_message] of the v1 bot, for a message that is not empty,
    works on the dictionary of the user of the message alone, which
    [get_user_data] makes when the user has none: afterwards this user has
    the dictionary [handle_text] has left, every other user has what the
    user had, and when all dictionaries were sound they still are. *)
Theorem X18_v1_other_users_untouched
    (b : TodoBot) (user_id : Z) (message_text : str) (b' : TodoBot)
    (r : option reply) :
  bot_sound b → message_text ≠ [] →
  handle_message b user_id message_text = Ret (b', r) →
  bot_sound b'
  ∧ (∀ other, other ≠ user_id → b' !! other = b !! other)
  ∧ ∃ u' r', r = Some r' ∧ b' !! user_id = Some u'
      ∧ handle_text (default new_user_data (b !! user_id)) (strip message_text)
        = Ret (u', r').
Proof.
  intros Hs Hne E. split; [by eapply v1_handle_message_sound|].
  apply v1_handle_message_user in E as (u' & r' & -> & Et & ->); [|done]. split.
  - intros other Ho. by apply (lookup_insert_ne (M := gmap Z)).
  - exists u', r'. split; [done|]. split; [|done].
    apply (lookup_insert_eq (M := gmap Z)).
Qed.

Lemma X18_witness :
  bot_sound (∅ : TodoBot) ∧ utf8 "milk" ≠ []
  ∧ ∃ b' r, handle_message (∅ : TodoBot) 7 (utf8 "milk") = Ret (b', r)
      ∧ bot_sound b' ∧ b' !! 8 = None.
Proof.
  assert (H1 : bot_sound (∅ : TodoBot)).
  { intros v u Hv. by apply (lookup_empty_Some (M := gmap Z)) in Hv. }
  assert (H2 : utf8 "milk" ≠ []) by (by vm_compute).
  split; [exact H1|]. split; [exact H2|].
  destruct (handle_message (∅ : TodoBot) 7 (utf8 "milk")) as [[b' r]|e] eqn:E;
    [|by vm_compute in E].
  exists b', r. split; [reflexivity|].
  destruct (X18_v1_other_users_untouched _ _ _ _ _ H1 H2 E) as (Hs & Ho & _).
  split; [exact Hs|]. rewrite (Ho 8) by (by vm_compute).
  apply (lookup_empty (M := gmap Z)).
Defined.

(** X19.  [handle_message] of the v1 bot returns, in whatever state, for
    every message in which every digit character is a decimal digit and
    whose stripped text has no more characters than [int] converts digits
    (4300): no exception leaves it. *)
Theorem X19_v1_message_returns (b : TodoBot) (user_id : Z) (message_text : str) :
  plain_digits (strip message_text) →
  Z.of_nat (length (strip message_text)) ≤ MAX_STR_DIGITS →
  ∃ b' r, handle_message b user_id message_text = Ret (b', r).
Proof. apply v1_handle_message_total. Qed.

Lemma X19_witness :
  plain_digits (strip (utf8 "-3 x"))
  ∧ Z.of_nat (length (strip (utf8 "-3 x"))) ≤ MAX_STR_DIGITS
  ∧ ∃ b' r, handle_message (∅ : TodoBot) 7 (utf8 "-3 x") = Ret (b', r).
Proof.
  assert (H : plain_digits (strip (utf8 "-3 x"))).
  { apply plain_digits_check. by vm_compute. }
  assert (H' : Z.of_nat (length (strip (utf8 "-3 x"))) ≤ MAX_STR_DIGITS)
    by (by vm_compute).
  split; [exact H|]. split; [exact H'|]. apply (X19_v1_message_returns _ _ _ H H').
Defined.

(** X20.  A number written with a digit that is not decimal, such as "²",
    makes the handler of the v1 bot raise [ValueError], in whatever state:
    as a toggle, after "-", before one of the three markers, and on either
    side of "+" with digits on the other. *)
Theorem X20_v1_odd_digits_raise (u : user_data) (ds : str) :
  odd_number ds →
  handle_text u ds = Raise ValueError
  ∧ handle_text u (45%N :: ds) = Raise ValueError
  ∧ (∀ c, c ∈ MARKERS → handle_text u (ds ++ [c]) = Raise ValueError)
  ∧ (∀ d, isdigit d = true →
       handle_text u (ds ++ PLUS :: d) = Raise ValueError
       ∧ handle_text u (d ++ PLUS :: ds) = Raise ValueError).
Proof.
  intros Ho. split; [by apply v1_raise_toggle|]. split; [by apply v1_raise_delete|].
  split; [intros c; by apply v1_raise_move|].
  destruct Ho as [Hd He]. intros d Hdd. split.
  - apply v1_raise_merge; [done|done|]. apply Exists_app. by left.
  - apply v1_raise_merge; [done|done|]. apply Exists_app. by right.
Qed.

Lemma X20_witness :
  odd_number (utf8 "1²")
  ∧ handle_text new_user_data (45%N :: utf8 "1²") = Raise ValueError.
Proof.
  assert (H : odd_number (utf8 "1²")).
  { split; [by vm_compute|]. apply Exists_cons. right. apply Exists_cons. left.
    by vm_compute. }
  split; [exact H|].
  exact (proj1 (proj2 (X20_v1_odd_digits_raise new_user_data _ H))).
Defined.

(** X21.  In the v1 bot a numeric command one of whose numbers resolves to
    no task is not dropped: its text becomes a task.  The dictionary gets
    one more task, of the first section and not crossed out, whose text is
    the text of the command and whose id is the next id, and the answer is
    the formatted list with it. *)
Theorem X21_v1_unresolved_command_becomes_a_task
    (u : user_data) (text : str) (cmd : command) :
  spells text cmd → unresolved (get_todo_by_display_number u) cmd →
  handle_text u text
  = Ret (plain_task_added u text, list_reply (plain_task_added u text)).
Proof. apply v1_unresolved_command. Qed.

Lemma X21_witness :
  spells (utf8 "5в") (MoveTo 5 1074%N)
  ∧ unresolved (get_todo_by_display_number (after v1_two_tasks)) (MoveTo 5 1074%N)
  ∧ text <$> dicts (plain_task_added (after v1_two_tasks) (utf8 "5в")) !! 2%nat
    = Some (utf8 "5в")
  ∧ handle_text (after v1_two_tasks) (utf8 "5в")
    = Ret (plain_task_added (after v1_two_tasks) (utf8 "5в"),
           list_reply (plain_task_added (after v1_two_tasks) (utf8 "5в"))).
Proof.
  assert (H1 : spells (utf8 "5в") (MoveTo 5 1074%N)).
  { apply (spells_move (utf8 "5") 5 1074%N); [reflexivity|reflexivity|].
    unfold MARKERS. right. by left. }
  assert (H2 : unresolved (get_todo_by_display_number (after v1_two_tasks))
                 (MoveTo 5 1074%N)) by reflexivity.
  split; [exact H1|]. split; [exact H2|]. split; [reflexivity|].
  apply (X21_v1_unresolved_command_becomes_a_task _ _ _ H1 H2).
Defined.

(** X22.  A numeric command of the v1 bot whose numbers resolve (for a
    merge: to two different tasks) does, on a well-formed dictionary, the
    operation it stands for, and is answered with the formatted list of
    the dictionary it leaves, under the main keyboard. *)
Theorem X22_v1_resolved_command (u : user_data) (text : str) (cmd : command) :
  well_formed u →
  spells text cmd → resolves (get_todo_by_display_number u) cmd →
  ∃ u', apply u (command_op_v1 cmd) = Ret u'
    ∧ handle_text u text = Ret (u', (format_todo_list u', main_keyboard)).
Proof. apply v1_resolved_command. Qed.

Lemma X22_witness :
  well_formed (after v1_two_tasks)
  ∧ spells (utf8 "-2") (Delete 2)
  ∧ resolves (get_todo_by_display_number (after v1_two_tasks)) (Delete 2)
  ∧ ∃ u', apply (after v1_two_tasks) (DoRemove 2) = Ret u'
      ∧ handle_text (after v1_two_tasks) (utf8 "-2")
        = Ret (u', (format_todo_list u', main_keyboard)).
Proof.
  assert (H1 : well_formed (after v1_two_tasks)).
  { apply v1_after_sound. repeat constructor. }
  assert (H2 : spells (utf8 "-2") (Delete 2)).
  { by apply (spells_delete (utf8 "2") 2). }
  assert (H3 : resolves (get_todo_by_display_number (after v1_two_tasks)) (Delete 2)).
  { simpl. by eexists. }
  split; [exact H1|]. split; [exact H2|]. split; [exact H3|].
  apply (X22_v1_resolved_command _ _ _ H1 H2 H3).
Defined.

(** X23.  In the v1 bot, [create_new_list] followed by [restore_last_list]
    brings the list back: the same tasks in the same order, the same
    dictionaries, so the same formatted list; the backup holds the list;
    and the next id is the greatest id of the list plus one (1 for an empty
    list), which in a well-formed dictionary is at most the next id from
    before, so that ids of tasks deleted earlier can be handed out again. *)
Theorem X23_v1_new_list_then_restore (u : user_data) :
  (let u2 := restore_last_list (create_new_list u) in
   todos u2 = todos u ∧ dicts u2 = dicts u ∧ backup_todos u2 = Some (todos u)
   ∧ next_id u2 = match todos u with
                  | [] => 1
                  | _ => max_of (ids_of u (todos u)) + 1
                  end
   ∧ format_todo_list u2 = format_todo_list u)
  ∧ (well_formed u → todos u ≠ [] →
       next_id (restore_last_list (create_new_list u)) ≤ next_id u).
Proof.
  pose proof (v1_new_then_restore u) as H. simpl in H. split; [exact H|].
  intros Hwf Hne. destruct H as (_ & _ & _ & -> & _).
  pose proof (v1_restore_next_id_bound u Hwf Hne).
  by destruct (todos u).
Qed.

(** X24.  [remove_todo_by_number] of the v1 bot, on a well-formed
    dictionary and a number that resolves to a task: it returns true; the
    list is the old one without that task, one shorter; dictionaries, next
    id and backup stay; and the display numbers close up: the numbers
    below the removed one resolve as before, and every number from it on
    resolves to what the number one higher resolved to. *)
Theorem X24_v1_remove_renumbers (u : user_data) (display_number : Z) (t : loc) :
  well_formed u → get_todo_by_display_number u display_number = Some t →
  ∃ u', remove_todo_by_number u display_number = Ret (u', true)
    ∧ dicts u' = dicts u ∧ next_id u' = next_id u ∧ backup_todos u' = backup_todos u
    ∧ todos u' = filter (λ y, y ≠ t) (todos u)
    ∧ S (length (todos u')) = length (todos u)
    ∧ (∀ k, get_todo_by_display_number u' k
            = get_todo_by_display_number u (if k <? display_number then k else k + 1)).
Proof. apply v1_remove_spec. Qed.

Lemma X24_witness :
  well_formed (after v1_two_tasks)
  ∧ get_todo_by_display_number (after v1_two_tasks) 1 = Some 0%nat
  ∧ ∃ u', remove_todo_by_number (after v1_two_tasks) 1 = Ret (u', true)
      ∧ get_todo_by_display_number u' 1 = Some 1%nat.
Proof.
  assert (H1 : well_formed (after v1_two_tasks)).
  { apply v1_after_sound. repeat constructor. }
  assert (H2 : get_todo_by_display_number (after v1_two_tasks) 1 = Some 0%nat)
    by reflexivity.
  split; [exact H1|]. split; [exact H2|].
  destruct (X24_v1_remove_renumbers _ _ _ H1 H2) as (u' & E & _ & _ & _ & _ & _ & Hk).
  exists u'. split; [exact E|]. rewrite (Hk 1). reflexivity.
Defined.

(** X25.  The number the formatted list of the v1 bot prints before a
    task, sent back as a message, toggles that very task.  For a number
    [n] of at most 4300 digits that resolves to a task: the text of the
    list is joined from lines of which the [n]-th line of a task is [n],
    a full stop, a space and the text of that task (behind the mark of
    the done when the task is in their section, struck through when it is
    crossed out in another); and the handler, given the digits of [n],
    toggles the task and answers with the formatted list of the
    dictionary it leaves. *)
Theorem X25_v1_printed_number_toggles (u : user_data) (n : Z) (t : loc) (d : todo) :
  n < 10 ^ MAX_STR_DIGITS →
  get_todo_by_display_number u n = Some t → dicts u !! t = Some d →
  (∃ lines,
     format_todo_list u = join [NL] lines
     ∧ numbered_lines lines !! Z.to_nat (n - 1)
       = Some (if section d =? 3
               then utf8 "❌ " ++ str_of_int n ++ utf8 ". " ++ text d
               else str_of_int n ++ utf8 ". "
                    ++ (if crossed_out d then crossed_text (text d) else text d)))
  ∧ isdigit (str_of_int n) = true ∧ int (str_of_int n) = Ret n
  ∧ handle_text u (str_of_int n)
    = Ret (set_dicts u (alter toggled t (dicts u)),
           list_reply (set_dicts u (alter toggled t (dicts u)))).
Proof.
  intros Hb G Hd.
  assert (Hn : 1 ≤ n) by (by apply v1_get_Some in G as [? _]).
  destruct (str_of_int_digits n) as [Hdg Hi]; [lia|].
  split.
  { destruct (v1_printed_lines u) as (lines & Ht & _ & Hl);
      [by eapply v1_get_nonempty|].
    exists lines. split; [done|]. by apply (Hl n t d). }
  split; [done|]. split; [done|]. by apply v1_printed_number_toggles.
Qed.

Lemma X25_witness :
  2 < 10 ^ MAX_STR_DIGITS
  ∧ get_todo_by_display_number (after v1_two_tasks) 2 = Some 1%nat
  ∧ (∃ lines,
       format_todo_list (after v1_two_tasks) = join [NL] lines
       ∧ numbered_lines lines !! 1%nat = Some (utf8 "2. b"))
  ∧ handle_text (after v1_two_tasks) (utf8 "2")
    = Ret (set_dicts (after v1_two_tasks)
             (alter toggled 1%nat (dicts (after v1_two_tasks))),
           list_reply (set_dicts (after v1_two_tasks)
                         (alter toggled 1%nat (dicts (after v1_two_tasks))))).
Proof.
  assert (H1 : 2 < 10 ^ MAX_STR_DIGITS) by (by vm_compute).
  assert (H2 : get_todo_by_display_number (after v1_two_tasks) 2 = Some 1%nat)
    by (by vm_compute).
  assert (H3 : dicts (after v1_two_tasks) !! 1%nat = Some (mkTodo 2 (utf8 "b") 0 false))
    by (by vm_compute).
  split; [exact H1|]. split; [exact H2|].
  destruct (X25_v1_printed_number_toggles _ _ _ _ H1 H2 H3)
    as ((lines & Ht & Hl) & _ & _ & E).
  split; [|exact E].
  exists lines. split; [exact Ht|].
  change (Z.to_nat (2 - 1)) with 1%nat in Hl. etrans; [exact Hl|]. by vm_compute.
Defined.

(** X26.  Every button of the two keyboards of the v1 bot is a menu text
    of its handler, and a menu text never becomes a task: the handler
    returns, the task dictionaries are those from before, and the user's
    dictionary is the one from before or the one [create_new_list],
    [restore_last_list] or [continue_list] makes of it. *)
Theorem X26_v1_buttons_are_handled (u : user_data) (label : str) :
  label ∈ concat (get_main_keyboard ++ get_commands_keyboard) →
  ∃ u' r, handle_text u label = Ret (u', r) ∧ dicts u' = dicts u
    ∧ (u' = u ∨ u' = create_new_list u ∨ u' = restore_last_list u
       ∨ u' = continue_list u).
Proof. intros Hl. by apply v1_menu_label_handled, v1_buttons_are_menu_labels. Qed.

Lemma X26_witness :
  HELP ∈ concat (get_main_keyboard ++ get_commands_keyboard)
  ∧ ∃ u' r, handle_text (after v1_two_tasks) HELP = Ret (u', r)
      ∧ dicts u' = dicts (after v1_two_tasks).
Proof.
  assert (H : HELP ∈ concat (get_main_keyboard ++ get_commands_keyboard)).
  { apply list_elem_of_In. vm_compute. tauto. }
  split; [exact H|].
  destruct (X26_v1_buttons_are_handled (after v1_two_tasks) _ H) as (u' & r & E & Hd & _).
  by exists u', r.
Defined.

(** X27.  Toggling a task of the v1 bot that is not crossed out and not in
    the section of the done, and then toggling it again under the number
    it has by then, does not bring its section back: after the first
    toggle it is crossed out in section 3, after the second it is not
    crossed out and in section 0, whatever section it came from; id and
    text stay. *)
Theorem X27_v1_toggle_twice_lands_in_first_section
    (u : user_data) (n n' : Z) (t : loc) (d : todo) :
  get_todo_by_display_number u n = Some t →
  dicts u !! t = Some d → crossed_out d = false → section d ≠ 3 →
  get_todo_by_display_number (toggle_todo_by_number u n).1 n' = Some t →
  dicts (toggle_todo_by_number u n).1 !! t = Some (mkTodo (id d) (text d) 3 true)
  ∧ dicts (toggle_todo_by_number (toggle_todo_by_number u n).1 n').1 !! t
    = Some (mkTodo (id d) (text d) 0 false).
Proof. intros G Hd Hc Hs G'. by apply (v1_toggle_twice_section u n n' t d). Qed.

Lemma X27_witness :
  let u := after [DoAdd (utf8 "a"); DoAdd (utf8 "!b")] in
  section <$> dicts u !! 1%nat = Some 1
  ∧ get_todo_by_display_number u 2 = Some 1%nat
  ∧ section <$> dicts (toggle_todo_by_number (toggle_todo_by_number u 2).1 2).1 !! 1%nat
    = Some 0.
Proof.
  intros u.
  assert (H1 : get_todo_by_display_number u 2 = Some 1%nat) by reflexivity.
  assert (H2 : dicts u !! 1%nat = Some (mkTodo 2 (utf8 "b") 1 false)) by reflexivity.
  assert (H3 : get_todo_by_display_number (toggle_todo_by_number u 2).1 2 = Some 1%nat)
    by reflexivity.
  split; [reflexivity|]. split; [exact H1|].
  destruct (X27_v1_toggle_twice_lands_in_first_section u 2 2 1%nat _ H1 H2) as [_ ->];
    [reflexivity|by vm_compute|exact H3|].
  reflexivity.
Defined.

(** X28.  A text that is none of the menu texts of the v1 bot, and either
    has two or more lines that are not blank or starts with a character
    that is neither a digit nor "-", is no command: it is handed to
    [add_todo_from_text], which makes a task of every line that is not
    blank and has text left after its prefix, in the order of the lines
    and with consecutive ids from the next id on, and the answer is the
    formatted list. *)
Theorem X28_v1_lines_become_tasks (u : user_data) (text : str) :
  is_menu_label text = false →
  (1 < Z.of_nat (length (nonblank_lines text))
   ∨ ∃ c s, text = c :: s ∧ cp_isdigit c = false ∧ c ≠ 45%N) →
  ∃ u', handle_text u text = Ret (u', list_reply u')
    ∧ dicts u'
      = dicts u ++ imap (λ i line, task_of_line (next_id u + Z.of_nat i) line)
                     (task_lines text)
    ∧ todos u' = todos u ++ seq (length (dicts u)) (length (task_lines text))
    ∧ next_id u' = next_id u + Z.of_nat (length (task_lines text))
    ∧ backup_todos u' = backup_todos u.
Proof.
  intros Hm Hc. exists (add_todo_from_text u text).
  split; [by apply v1_text_added|].
  by rewrite v1_add_todo_from_text_spec.
Qed.

Lemma X28_witness :
  is_menu_label (utf8 "1" ++ [NL] ++ utf8 "!" ++ [NL] ++ utf8 "!!x") = false
  ∧ ∃ u', handle_text new_user_data (utf8 "1" ++ [NL] ++ utf8 "!" ++ [NL] ++ utf8 "!!x")
          = Ret (u', list_reply u')
      ∧ dicts u' = [mkTodo 1 (utf8 "1") 0 false; mkTodo 2 (utf8 "x") 2 false].
Proof.
  assert (H1 : is_menu_label (utf8 "1" ++ [NL] ++ utf8 "!" ++ [NL] ++ utf8 "!!x") = false)
    by reflexivity.
  split; [exact H1|].
  destruct (X28_v1_lines_become_tasks new_user_data _ H1) as (u' & E & Hd & _).
  { left. by vm_compute. }
  exists u'. split; [exact E|]. rewrite Hd. reflexivity.
Defined.

(** X30.  A number of more than 4300 digits makes the handler of the v1
    bot raise [ValueError], in whatever state, decimal though the digits
    may be: as a toggle, after "-", before one of the three markers, and
    on either side of "+" with digits on the other. *)
Theorem X30_v1_long_numbers_raise (u : user_data) (ds : str) :
  isdigit ds = true → MAX_STR_DIGITS < Z.of_nat (length ds) →
  handle_text u ds = Raise ValueError
  ∧ handle_text u (45%N :: ds) = Raise ValueError
  ∧ (∀ c, c ∈ MARKERS → handle_text u (ds ++ [c]) = Raise ValueError)
  ∧ (∀ d, isdigit d = true →
       handle_text u (ds ++ PLUS :: d) = Raise ValueError
       ∧ handle_text u (d ++ PLUS :: ds) = Raise ValueError).
Proof. intros Hd Hl. apply v1_raise_refused; [done|]. by apply int_too_long. Qed.

Lemma X30_witness :
  isdigit (repeat 49%N 4301) = true
  ∧ MAX_STR_DIGITS < Z.of_nat (length (repeat 49%N 4301))
  ∧ handle_text (after v1_two_tasks) (45%N :: repeat 49%N 4301) = Raise ValueError.
Proof.
  assert (H1 : isdigit (repeat 49%N 4301) = true) by (by vm_compute).
  assert (H2 : MAX_STR_DIGITS < Z.of_nat (length (repeat 49%N 4301)))
    by (by vm_compute).
  split; [exact H1|]. split; [exact H2|].
  exact (proj1 (proj2 (X30_v1_long_numbers_raise (after v1_two_tasks) _ H1 H2))).
Defined.

End more_v1.
